(** * Aadhaar ecosystem health scoring engine: model and properties

    A shallow embedding of [src/aadhaar_analysis.py] (the engine: preprocessing,
    aggregation, Gini coefficient, pillar metrics, health score, archetype
    cascade, risk mapping) and of the two fragments of the standalone script
    [aadhaar_analysis.py] that the properties below refer to (per-file date
    coercion, youth-to-adult update ratio).

    Modelling conventions.
    - A numpy/pandas float64 is an exact rational ([Q]); equalities between
      floats are stated with [==].  Rounding is not modelled, except in the
      second reading of [calculate_gini] and of the IDI column,
      [calculate_gini_binary64] and [idi_sum_binary64], which follow
      IEEE 754 binary64 operation by operation.
    - Counts read from the CSV files are 64-bit integers, held in [Z]; sums
      and differences of int64 columns wrap around at 64 bits ([wrap64]).
      A count column in which a merge has left a NaN is float64 from then
      on; it still holds integers, it is kept in [Z], and it agrees with
      the int64 reading as long as every sum stays below 2^53 ([exact_counts]),
      which the properties that depend on exact sums assume.
    - A text cell of a CSV file ([date], [state], [district]) may be empty:
      [pd.read_csv] reads it as NaN, here [None].  A count cell always holds
      an integer.  A dataset without records has the columns of its header.
    - A pandas DataFrame holding records is a list of named columns, mutated
      in place by [df[name] = ...]; DataFrames live in a store addressed by
      references, so that in-place assignment and [copy()] differ as in Python.
    - Library functions whose code is not part of the repository are
      parameters of the development: [np.sqrt], the two date parsers behind
      [pd.to_datetime], [str.strip], [str.title], [str.lower].  Of these only
      [0 <= np.sqrt x] is ever assumed.  Printing and plotting are left out. *)

From Stdlib Require Import String Ascii.
From Stdlib Require Import List ZArith QArith Qminmax Qabs Lqa Lia Permutation Bool.
From Stdlib Require Import Sorted.
From Stdlib Require Import SpecFloat.
From Stdlib Require OrderedTypeEx.
Import ListNotations.
Open Scope Q_scope.

(** ** Dates *)

Record Timestamp := mkTimestamp { ts_year : Z; ts_month : Z; ts_day : Z }.

(** A monthly period, [Period('2025-03', 'M')], as (year, month). *)
Definition Period := (Z * Z)%type.

Definition to_period_M (t : Timestamp) : Period := (ts_year t, ts_month t).

(** ** Reference instances of the library functions

    Plain ASCII versions, used only to run the model on concrete inputs. *)

Definition is_upper (c : ascii) : bool :=
  let n := nat_of_ascii c in ((65 <=? n) && (n <=? 90))%nat.
Definition is_lower (c : ascii) : bool :=
  let n := nat_of_ascii c in ((97 <=? n) && (n <=? 122))%nat.
Definition to_lower (c : ascii) : ascii :=
  if is_upper c then ascii_of_nat (nat_of_ascii c + 32) else c.
Definition to_upper (c : ascii) : ascii :=
  if is_lower c then ascii_of_nat (nat_of_ascii c - 32) else c.
Definition is_space (c : ascii) : bool :=
  let n := nat_of_ascii c in ((n =? 32) || ((9 <=? n) && (n <=? 13)))%nat.

Fixpoint ascii_lower (s : string) : string :=
  match s with
  | EmptyString => EmptyString
  | String c t => String (to_lower c) (ascii_lower t)
  end.

(** [inword] tells whether the previous character was a letter. *)
Fixpoint title_from (inword : bool) (s : string) : string :=
  match s with
  | EmptyString => EmptyString
  | String c t =>
      let cased := is_upper c || is_lower c in
      String (if inword then to_lower c else to_upper c) (title_from cased t)
  end.
Definition ascii_title (s : string) : string := title_from false s.

Fixpoint lstrip (s : string) : string :=
  match s with
  | String c t => if is_space c then lstrip t else s
  | EmptyString => EmptyString
  end.
Fixpoint string_rev_onto (acc s : string) : string :=
  match s with
  | EmptyString => acc
  | String c t => string_rev_onto (String c acc) t
  end.
Definition string_rev (s : string) : string := string_rev_onto EmptyString s.
Definition ascii_strip (s : string) : string :=
  string_rev (lstrip (string_rev (lstrip s))).

Definition digit_of (c : ascii) : option Z :=
  let n := Z.of_nat (nat_of_ascii c) in
  if ((48 <=? n) && (n <=? 57))%Z then Some (n - 48)%Z else None.

Fixpoint number_from (acc : Z) (s : string) : option Z :=
  match s with
  | EmptyString => Some acc
  | String c t =>
      match digit_of c with
      | Some d => number_from (10 * acc + d)%Z t
      | None => None
      end
  end.

Fixpoint split_on (sep : ascii) (cur : string) (s : string) : list string :=
  match s with
  | EmptyString => [string_rev cur]
  | String c t =>
      if Ascii.eqb c sep then string_rev cur :: split_on sep EmptyString t
      else split_on sep (String c cur) t
  end.

Definition is_leap (y : Z) : bool :=
  ((y mod 4 =? 0) && (negb (y mod 100 =? 0) || (y mod 400 =? 0)))%Z.

Definition days_in_month (y m : Z) : Z :=
  (if m =? 2 then (if is_leap y then 29 else 28)
   else if (m =? 4) || (m =? 6) || (m =? 9) || (m =? 11) then 30 else 31)%Z.

Definition field_ok (s : string) (lo hi : nat) : bool :=
  ((lo <=? String.length s) && (String.length s <=? hi))%nat.

(** Day-month-year with dashes, [%d-%m-%Y]. *)
Definition parse_dmY (s : string) : option Timestamp :=
  match split_on "-"%char EmptyString s with
  | [ds; ms; ys] =>
      if field_ok ds 1 2 && field_ok ms 1 2 && field_ok ys 4 4 then
        match number_from 0 ds, number_from 0 ms, number_from 0 ys with
        | Some d, Some m, Some y =>
            if ((1 <=? m) && (m <=? 12) && (1 <=? d)
                && (d <=? days_in_month y m) && (1 <=? y))%Z
            then Some (mkTimestamp y m d) else None
        | _, _, _ => None
        end
      else None
  | _ => None
  end.

(** A lower approximation of the square root, exact on squares of
    rationals with small denominators. *)
Definition Qsqrt_lower (x : Q) : Q :=
  Qmake (Z.sqrt (Qnum x * Zpos (Qden x) * 2 ^ 40)) (Qden x * 2 ^ 20).

(** ** numpy helpers on arrays of floats *)

Definition Qltb (x y : Q) : bool := negb (Qle_bool y x).

Fixpoint np_sum (l : list Q) : Q :=
  match l with [] => 0 | x :: t => x + np_sum t end.

Fixpoint insert_sorted (x : Q) (l : list Q) : list Q :=
  match l with
  | [] => [x]
  | y :: t => if Qle_bool x y then x :: l else y :: insert_sorted x t
  end.

(** [np.sort]: ascending. *)
Definition np_sort (l : list Q) : list Q := fold_right insert_sorted [] l.

Fixpoint cumsum_from (acc : Q) (l : list Q) : list Q :=
  match l with [] => [] | x :: t => (acc + x) :: cumsum_from (acc + x) t end.
Definition np_cumsum (l : list Q) : list Q := cumsum_from 0 l.

(** [np.arange(a, b)] as floats. *)
Definition np_arange (a b : Z) : list Q :=
  map (fun i => inject_Z (a + Z.of_nat i)) (seq 0 (Z.to_nat (b - a))).

(** Elementwise product of two arrays. *)
Definition np_mul (a b : list Q) : list Q :=
  map (fun p => fst p * snd p) (combine a b).

Definition np_mean (l : list Q) : Q :=
  np_sum l / inject_Z (Z.of_nat (length l)).

(** [Series.clip(lo, hi)]. *)
Definition clip (lo hi x : Q) : Q := Qmin hi (Qmax lo x).

(** [Series.min()] and [Series.max()]; NaN on an empty series, which no
    row is there to read. *)
Definition series_min (l : list Q) : Q :=
  match l with [] => 0 | x :: t => fold_left Qmin t x end.
Definition series_max (l : list Q) : Q :=
  match l with [] => 0 | x :: t => fold_left Qmax t x end.

Definition sumZ (l : list Z) : Z := fold_right Z.add 0%Z l.

(** ** 64-bit integers

    [wrap64 z] is the value an int64 holds when the exact result of an
    operation is [z]: numpy and pandas add and subtract int64 values
    without an overflow check, so the result is [z] reduced modulo 2^64
    into the range from -2^63 to 2^63 - 1. *)

Definition wrap64 (z : Z) : Z := ((z + 2 ^ 63) mod 2 ^ 64 - 2 ^ 63)%Z.

Definition int64_add (x y : Z) : Z := wrap64 (x + y).
Definition int64_sub (x y : Z) : Z := wrap64 (x - y).

(** [Series.sum()] of an int64 column: whatever the order of the wrapping
    additions, the exact sum reduced modulo 2^64. *)
Definition int64_sum (l : list Z) : Z := wrap64 (sumZ l).

(** ** Gini coefficient: [calculate_gini] *)

Definition positive (v : Q) : bool := Qltb 0 v.

Definition calculate_gini (values : list Q) : Q :=
  let values := filter positive values in
  if (length values <? 2)%nat then 0
  else
    let values := np_sort values in
    let n := Z.of_nat (length values) in
    let cumsum := np_cumsum values in
    let gini :=
      (2 * np_sum (np_mul (np_arange 1 (n + 1)) values))
        / (inject_Z n * last cumsum 0)
      - (inject_Z n + 1) / inject_Z n in
    Qmax 0 (Qmin 1 gini).

(** ** Gini coefficient in float64 arithmetic

    [calculate_gini] once more, every operation rounded as IEEE 754
    binary64 rounds it (to nearest, ties to even), with its infinities and
    NaN.  [np.sum] on a float array, numpy's pairwise summation, is a
    parameter; [b64_sum_in_order] is what it does on fewer than eight
    entries. *)

Definition binary64 := spec_float.

Definition b64_of_Z (z : Z) : binary64 := binary_normalize 53 1024 z 0 false.
Definition b64_add (x y : binary64) : binary64 := SFadd 53 1024 x y.
Definition b64_sub (x y : binary64) : binary64 := SFsub 53 1024 x y.
Definition b64_mul (x y : binary64) : binary64 := SFmul 53 1024 x y.
Definition b64_div (x y : binary64) : binary64 := SFdiv 53 1024 x y.

(** [v > 0]: False for NaN. *)
Definition b64_positive (v : binary64) : bool := SFltb (b64_of_Z 0) v.

Fixpoint b64_insert_sorted (x : binary64) (l : list binary64) : list binary64 :=
  match l with
  | [] => [x]
  | y :: t => if SFleb x y then x :: l else y :: b64_insert_sorted x t
  end.

Definition b64_sort (l : list binary64) : list binary64 :=
  fold_right b64_insert_sorted [] l.

Fixpoint b64_cumsum_from (acc : binary64) (l : list binary64) : list binary64 :=
  match l with
  | [] => []
  | x :: t => b64_add acc x :: b64_cumsum_from (b64_add acc x) t
  end.
Definition b64_cumsum (l : list binary64) : list binary64 :=
  b64_cumsum_from (b64_of_Z 0) l.

(** [np.arange(1, n+1) * values]. *)
Definition b64_ranked (values : list binary64) : list binary64 :=
  map (fun p => b64_mul (b64_of_Z (Z.of_nat (fst p))) (snd p))
      (combine (seq 1 (length values)) values).

Definition b64_sum_in_order (l : list binary64) : binary64 :=
  fold_left b64_add l (b64_of_Z 0).

Section Binary64.

Variable np_sum64 : list binary64 -> binary64.

Definition calculate_gini_binary64 (values : list binary64) : binary64 :=
  let values := filter b64_positive values in
  if (length values <? 2)%nat then b64_of_Z 0
  else
    let values := b64_sort values in
    let n := Z.of_nat (length values) in
    let cumsum := b64_cumsum values in
    let gini :=
      b64_sub
        (b64_div (b64_mul (b64_of_Z 2) (np_sum64 (b64_ranked values)))
                 (b64_mul (b64_of_Z n) (last cumsum (b64_of_Z 0))))
        (b64_div (b64_of_Z (n + 1)) (b64_of_Z n)) in
    (* max(0, min(1, gini)): Python keeps the first argument unless the
       second compares below (above) it, which NaN never does *)
    let m := if SFltb gini (b64_of_Z 1) then gini else b64_of_Z 1 in
    if SFltb (b64_of_Z 0) m then m else b64_of_Z 0.

End Binary64.

(** ** Record-level DataFrames

    The three frames read from the CSV files, one column per name.  A
    text cell is [None] for NaN (an empty field), a date cell for NaT. *)

Inductive Column :=
| ColStr (l : list (option string))
| ColInt (l : list Z)
| ColDate (l : list (option Timestamp))
| ColPeriod (l : list (option Period)).

Definition DataFrame := list (string * Column).

Fixpoint get_col (df : DataFrame) (name : string) : option Column :=
  match df with
  | [] => None
  | (n, c) :: t => if String.eqb n name then Some c else get_col t name
  end.

(** [df[name] = c]: replaces the column, or appends a new one. *)
Fixpoint set_col (df : DataFrame) (name : string) (c : Column) : DataFrame :=
  match df with
  | [] => [(name, c)]
  | (n, c0) :: t =>
      if String.eqb n name then (n, c) :: t else (n, c0) :: set_col t name c
  end.

(** The rows of the three CSV datasets. *)
Module Enrolment.
Record record := mk
  { date : option string; state : option string;
    district : option string;
    age_0_5 : Z; age_5_17 : Z; age_18_greater : Z }.
End Enrolment.

Module Biometric.
Record record := mk
  { date : option string; state : option string;
    district : option string;
    bio_age_5_17 : Z; bio_age_17_ : Z }.
End Biometric.

Module Demographic.
Record record := mk
  { date : option string; state : option string;
    district : option string;
    demo_age_5_17 : Z; demo_age_17_ : Z }.
End Demographic.

(** [pd.read_csv] on each dataset (all files concatenated). *)
Definition read_enrolment (rows : list Enrolment.record) : DataFrame :=
  [ ("date"%string, ColStr (map Enrolment.date rows));
    ("state"%string, ColStr (map Enrolment.state rows));
    ("district"%string, ColStr (map Enrolment.district rows));
    ("age_0_5"%string, ColInt (map Enrolment.age_0_5 rows));
    ("age_5_17"%string, ColInt (map Enrolment.age_5_17 rows));
    ("age_18_greater"%string, ColInt (map Enrolment.age_18_greater rows)) ].

Definition read_biometric (rows : list Biometric.record) : DataFrame :=
  [ ("date"%string, ColStr (map Biometric.date rows));
    ("state"%string, ColStr (map Biometric.state rows));
    ("district"%string, ColStr (map Biometric.district rows));
    ("bio_age_5_17"%string, ColInt (map Biometric.bio_age_5_17 rows));
    ("bio_age_17_"%string, ColInt (map Biometric.bio_age_17_ rows)) ].

Definition read_demographic (rows : list Demographic.record) : DataFrame :=
  [ ("date"%string, ColStr (map Demographic.date rows));
    ("state"%string, ColStr (map Demographic.state rows));
    ("district"%string, ColStr (map Demographic.district rows));
    ("demo_age_5_17"%string, ColInt (map Demographic.demo_age_5_17 rows));
    ("demo_age_17_"%string, ColInt (map Demographic.demo_age_17_ rows)) ].

(** ** Group keys, [groupby(...).sum()] and merges *)

Class Key (K : Type) := key_compare : K -> K -> comparison.

#[export] Instance Key_string : Key string := String.compare.
#[export] Instance Key_Z : Key Z := Z.compare.
#[export] Instance Key_pair {A B : Type} `{Key A} `{Key B} : Key (A * B) :=
  fun p q =>
    match key_compare (fst p) (fst q) with
    | Eq => key_compare (snd p) (snd q)
    | c => c
    end.

Definition key_eqb {K : Type} `{Key K} (a b : K) : bool :=
  match key_compare a b with Eq => true | _ => false end.

Fixpoint insert_key {K : Type} `{Key K} (k : K) (ks : list K) : list K :=
  match ks with
  | [] => [k]
  | k' :: t =>
      match key_compare k k' with
      | Lt => k :: ks
      | Eq => ks
      | Gt => k' :: insert_key k t
      end
  end.

(** The group keys of a [groupby], each once, in ascending order. *)
Definition unique_sorted {K : Type} `{Key K} (ks : list K) : list K :=
  fold_right insert_key [] ks.

(** Rows whose key is missing are left out of the groups ([dropna]). *)
Definition dropna_keys {K : Type} (keys : list (option K)) (vals : list Z)
  : list (K * Z) :=
  flat_map (fun p => match fst p with Some k => [(k, snd p)] | None => [] end)
           (combine keys vals).

(** The keys that are not missing. *)
Definition present {K : Type} (keys : list (option K)) : list K :=
  flat_map (fun o => match o with Some k => [k] | None => [] end) keys.

(** The key of a row of a [groupby] on two columns, missing as soon as
    one of the two cells is. *)
Definition pair_key {A B : Type} (a : option A) (b : option B)
  : option (A * B) :=
  match a, b with
  | Some x, Some y => Some (x, y)
  | _, _ => None
  end.

Definition pair_keys {A B : Type} (a : list (option A)) (b : list (option B))
  : list (option (A * B)) :=
  map (fun p => pair_key (fst p) (snd p)) (combine a b).

(** The sum of one int64 column over the group of key [k]. *)
Definition group_sum {K : Type} `{Key K} (kv : list (K * Z)) (k : K) : Z :=
  int64_sum (map snd (filter (fun p => key_eqb (fst p) k) kv)).

Fixpoint lookup {K V : Type} `{Key K} (k : K) (l : list (K * V)) : option V :=
  match l with
  | [] => None
  | (k', v) :: t => if key_eqb k' k then Some v else lookup k t
  end.

(** [l.merge(r, on=key, how='outer')] for frames with one row per key:
    the union of the keys in ascending order, a side without the key
    giving NaN ([None]) in its columns. *)
Definition merge_outer {K A B : Type} `{Key K}
  (l : list (K * A)) (r : list (K * B)) : list (K * (option A * option B)) :=
  map (fun k => (k, (lookup k l, lookup k r)))
      (unique_sorted (map fst l ++ map fst r)).

(** [fillna(0)] on one numeric cell. *)
Definition fillna0 {A : Type} (f : A -> Z) (o : option A) : Z :=
  match o with Some a => f a | None => 0%Z end.

(** ** Aggregate and result tables *)

Module StateData.
Record row := mk
  { state : string;
    age_0_5 : Z; age_5_17 : Z; age_18_greater : Z; total_enrolment : Z;
    bio_age_5_17 : Z; bio_age_17_ : Z; total_bio : Z;
    demo_age_5_17 : Z; demo_age_17_ : Z; total_demo : Z;
    total_updates : Z }.
End StateData.

Module DistrictData.
Record row := mk
  { state : string; district : string;
    total_bio : Z; total_demo : Z; total_updates : Z }.
End DistrictData.

Module MonthlyData.
Record row := mk
  { state : string; month : Period;
    total_bio : Z; total_demo : Z; total_updates : Z }.
End MonthlyData.

Module Metrics.
Record row := mk
  { state : string;
    total_enrolment : Z; total_updates : Z; total_bio : Z; total_demo : Z;
    enrol_share : Q; update_share : Q;
    IDI : Q; UBI : Q; YIR : Q; GCI : Q; TCS : Q }.
End Metrics.

(** The metrics frame after [calculate_health_score]: the columns of
    [Metrics.row] and the six score columns. *)
Module Scored.
Record row := mk
  { metrics : Metrics.row;
    IDI_score : Q; UBI_score : Q; YIR_score : Q; GCI_score : Q;
    TCS_score : Q; Health_Score : Q }.
Definition IDI (r : row) : Q := Metrics.IDI (metrics r).
Definition UBI (r : row) : Q := Metrics.UBI (metrics r).
Definition YIR (r : row) : Q := Metrics.YIR (metrics r).
Definition GCI (r : row) : Q := Metrics.GCI (metrics r).
Definition TCS (r : row) : Q := Metrics.TCS (metrics r).
End Scored.

(** ... after [assign_archetypes]; a symbol is [None] (NaN) for a label
    outside the symbol table. *)
Module Classified.
Record row := mk
  { scored : Scored.row;
    Archetype : string;
    Archetype_Symbol : option string;
    Archetype_Display : option string }.
End Classified.

(** The columns of the state table that [calculate_problem_risks] merges in. *)
Module Ages.
Record cols := mk
  { age_0_5 : Z; age_5_17 : Z; age_18_greater : Z;
    bio_age_5_17 : Z; bio_age_17_ : Z;
    demo_age_5_17 : Z; demo_age_17_ : Z }.
End Ages.

(** ... after [calculate_problem_risks]; [ages] is [None] when the left
    merge found no state row (NaN in the seven merged columns). *)
Module Risk.
Record row := mk
  { classified : Classified.row;
    ages : option Ages.cols;
    PDS_Risk : Q; DBT_Risk : Q; Scholarship_Risk : Q; OTP_Risk : Q;
    Banking_Risk : Q; Composite_Problem_Risk : Q }.
End Risk.

(** ** The store of DataFrame objects and the monad of the stages *)

Inductive Frame :=
| Records (df : DataFrame)
| StateTable (t : list StateData.row)
| DistrictTable (t : list DistrictData.row)
| MonthlyTable (t : list MonthlyData.row)
| MetricsTable (t : list Metrics.row)
| ScoredTable (t : list Scored.row)
| ClassifiedTable (t : list Classified.row)
| MergedTable (t : list (Classified.row * option Ages.cols))
| RiskTable (t : list Risk.row).

Definition Ref := nat.
Definition Store := list Frame.

Inductive Exc :=
| ValueError
| KeyError (key : string)
| TypeError
| AttributeError.

(** A computation returns a value or raises, and leaves a store behind
    in both cases. *)
Definition M (A : Type) : Type := Store -> (Exc + A) * Store.

Definition ret {A : Type} (a : A) : M A := fun s => (inr a, s).
Definition raise {A : Type} (e : Exc) : M A := fun s => (inl e, s).
Definition bind {A B : Type} (m : M A) (k : A -> M B) : M B :=
  fun s =>
    match m s with
    | (inr a, s') => k a s'
    | (inl e, s') => (inl e, s')
    end.
Definition lift {A : Type} (r : Exc + A) : M A :=
  fun s => (r, s).

Notation "x <- m ;; k" := (bind m (fun x => k))
  (at level 61, m at next level, right associativity).
Notation "m ;;; k" := (bind m (fun _ => k))
  (at level 61, right associativity).

(** A new object. *)
Definition alloc (f : Frame) : M Ref :=
  fun s => (inr (length s), s ++ [f]).

Definition deref (r : Ref) : M Frame :=
  fun s =>
    match nth_error s r with
    | Some f => (inr f, s)
    | None => (inl TypeError, s)
    end.

Fixpoint update {A : Type} (l : list A) (i : nat) (a : A) : list A :=
  match l, i with
  | [], _ => []
  | _ :: t, O => a :: t
  | x :: t, S j => x :: update t j a
  end.

(** [df[name]] on a record frame. *)
Definition getitem (r : Ref) (name : string) : M Column :=
  f <- deref r ;;
  match f with
  | Records df =>
      match get_col df name with
      | Some c => ret c
      | None => raise (KeyError name)
      end
  | _ => raise TypeError
  end.

(** Assignment to columns of the object [r]: the object itself changes. *)
Definition assign (r : Ref) (g : Frame -> Exc + Frame) : M unit :=
  f <- deref r ;;
  f' <- lift (g f) ;;
  fun s => (inr tt, update s r f').

(** [df[name] = c] on a record frame. *)
Definition setitem (r : Ref) (name : string) (c : Column) : M unit :=
  assign r (fun f =>
              match f with
              | Records df => inr (Records (set_col df name c))
              | _ => inl TypeError
              end).

(** [df.copy()]: a new object with the same contents. *)
Definition copy (r : Ref) : M Ref :=
  f <- deref r ;;
  alloc f.

Definition get_strs (r : Ref) (name : string) : M (list (option string)) :=
  c <- getitem r name ;;
  match c with ColStr l => ret l | _ => raise TypeError end.

Definition get_ints (r : Ref) (name : string) : M (list Z) :=
  c <- getitem r name ;;
  match c with ColInt l => ret l | _ => raise TypeError end.

Definition get_periods (r : Ref) (name : string) : M (list (option Period)) :=
  c <- getitem r name ;;
  match c with ColPeriod l => ret l | _ => raise TypeError end.

(** Elementwise [+] of two int64 columns. *)
Definition col_add (a b : Column) : Exc + Column :=
  match a, b with
  | ColInt x, ColInt y =>
      inr (ColInt (map (fun p => int64_add (fst p) (snd p)) (combine x y)))
  | _, _ => inl TypeError
  end.

(** [.dt.to_period('M')]. *)
Definition dt_to_period (c : Column) : Exc + Column :=
  match c with
  | ColDate l => inr (ColPeriod (map (option_map to_period_M) l))
  | _ => inl AttributeError
  end.

(** The three per-state frames built by [groupby('state').agg(...)]. *)
Module StateEnrol.
Record agg := mk
  { age_0_5 : Z; age_5_17 : Z; age_18_greater : Z; total_enrolment : Z }.
End StateEnrol.

Module StateBio.
Record agg := mk { bio_age_5_17 : Z; bio_age_17_ : Z; total_bio : Z }.
End StateBio.

Module StateDemo.
Record agg := mk { demo_age_5_17 : Z; demo_age_17_ : Z; total_demo : Z }.
End StateDemo.

(** The columns of [master_df] that the standalone script reads when it
    computes the youth inclusion ratio. *)
Module MasterDf.
Record row := mk
  { bio_age_5_17 : Z; bio_age_17_ : Z;
    demo_age_5_17 : Z; demo_age_17_ : Z }.
End MasterDf.

(** ** The IDI in binary64

    [calculate_metrics] divides the int64 totals as floats; the IDI of a
    state and the sum of the IDI column that it prints ("IDI Sum (should
    be ~0)"), the cells added in order. *)

Definition IDI_binary64 (national_enrolment national_updates : Z)
  (row : StateData.row) : binary64 :=
  let enrol_share :=
    if (national_enrolment >? 0)%Z
    then b64_div (b64_of_Z (StateData.total_enrolment row))
                 (b64_of_Z national_enrolment)
    else b64_of_Z 0 in
  let update_share :=
    if (national_updates >? 0)%Z
    then b64_div (b64_of_Z (StateData.total_updates row))
                 (b64_of_Z national_updates)
    else b64_of_Z 0 in
  b64_sub enrol_share update_share.

Definition idi_sum_binary64 (state_data : list StateData.row) : binary64 :=
  let national_enrolment :=
    int64_sum (map StateData.total_enrolment state_data) in
  let national_updates :=
    int64_sum (map StateData.total_updates state_data) in
  b64_sum_in_order
    (map (IDI_binary64 national_enrolment national_updates) state_data).

(** ** Sample inputs *)

Module Sample.
#[local] Open Scope string_scope.
#[local] Open Scope Z_scope.

(** Three small datasets: two states with enrolments, updates in two
    districts and two months of one of them. *)
Definition enrolment : list Enrolment.record :=
  [ Enrolment.mk (Some "01-03-2025") (Some " karnataka") (Some "Bengaluru")
                 100 200 700;
    Enrolment.mk (Some "02-04-2025") (Some "Kerala") (Some "Kochi")
                 10 20 30 ].
Definition biometric : list Biometric.record :=
  [ Biometric.mk (Some "01-03-2025") (Some "Karnataka ") (Some "Bengaluru")
                 150 100;
    Biometric.mk (Some "01-04-2025") (Some "KARNATAKA") (Some "Mysuru")
                 50 40;
    Biometric.mk (Some "05-05-2025") (Some "Goa") (Some "Panaji") 5 0 ].
Definition demographic : list Demographic.record :=
  [ Demographic.mk (Some "01-03-2025") (Some "Karnataka") (Some "bengaluru")
                   150 100;
    Demographic.mk (Some "11-04-2025") (Some "Kerala") (Some "Kochi") 1 2 ].

(** The enrolment dataset with one more record, whose date is no date. *)
Definition enrolment_bad_date : list Enrolment.record :=
  enrolment
  ++ [ Enrolment.mk (Some "unknown") (Some "Kerala") (Some "Kochi") 1 1 1 ].

(** The update datasets with one more record each: a biometric record
    whose date cell is empty, a demographic record whose district cell is
    empty, and one whose state cell is empty. *)
Definition biometric_blank_date : list Biometric.record :=
  biometric ++ [ Biometric.mk None (Some "Kerala") (Some "Kochi") 4 3 ].
Definition demographic_blank_cells : list Demographic.record :=
  demographic
  ++ [ Demographic.mk (Some "12-04-2025") (Some "Kerala") None 6 5;
       Demographic.mk (Some "12-04-2025") None (Some "Kochi") 8 9 ].

(** Update datasets in which every count is 0. *)
Definition biometric_zero : list Biometric.record :=
  [ Biometric.mk (Some "01-03-2025") (Some "Karnataka") (Some "Bengaluru")
                 0 0 ].
Definition demographic_zero : list Demographic.record :=
  [ Demographic.mk (Some "01-03-2025") (Some "Karnataka") (Some "Bengaluru")
                   0 0 ].

(** A state with 5 youth updates and no adult update. *)
Definition state_without_adults : StateData.row :=
  StateData.mk "Goa" 0 0 0 0 3 0 3 2 0 2 5.
Definition master_without_adults : MasterDf.row := MasterDf.mk 3 0 2 0.

(** A state table with enrolments and updates in both states. *)
Definition state_data : list StateData.row :=
  [ StateData.mk "Karnataka" 100 200 700 1000 200 140 340 150 100 250 590;
    StateData.mk "Kerala" 10 20 0 30 0 0 0 1 2 3 3 ].


(** A row with a low YIR and otherwise the metrics of a leader. *)
Definition low_yir_row : Scored.row :=
  Scored.mk (Metrics.mk "Kerala" 30 3 0 3 0.1%Q 0.1%Q 0%Q 0.5%Q 0.5%Q
                        0.1%Q 0.9%Q)
            100%Q 80%Q 33%Q 90%Q 90%Q 90%Q.

(** Classified rows of a state with adult enrolments, of a state without,
    and of a state that the state table does not have. *)
Definition karnataka_row : Scored.row :=
  Scored.mk (Metrics.mk "Karnataka" 1000 340 250 590 0.9%Q 0.9%Q 0%Q
                        0.6%Q 1%Q 0.1%Q 0.9%Q)
            100%Q 80%Q 66%Q 90%Q 90%Q 85%Q.
Definition goa_row : Scored.row :=
  Scored.mk (Metrics.mk "Goa" 0 5 0 5 0%Q 0.1%Q (-0.1)%Q 1%Q 0%Q 0%Q 0.5%Q)
            100%Q 0%Q 0%Q 100%Q 50%Q 45%Q.
Definition classified_karnataka : Classified.row :=
  Classified.mk karnataka_row "Moderate" (Some "[=]")
                (Some "[=] Moderate").
Definition classified_kerala : Classified.row :=
  Classified.mk low_yir_row "Excluded (Youth)" (Some "[!]")
                (Some "[!] Excluded (Youth)").
Definition classified_goa : Classified.row :=
  Classified.mk goa_row "Excluded (Youth)" (Some "[!]")
                (Some "[!] Excluded (Youth)").
Definition classified_three : list Classified.row :=
  [ classified_karnataka; classified_kerala; classified_goa ].

(** A file of the standalone script with one date that is no date. *)
Definition legacy_file : DataFrame :=
  [ ("Date", ColStr [Some "01-03-2025"; Some "unknown"; None]);
    ("State", ColStr [Some "Goa"; Some "Goa"; Some "Goa"]);
    ("age_0_5", ColInt [1; 2; 3]) ].
End Sample.

(** ** Laws of the group keys

    What grouping and merging rely on: comparing two keys gives [Eq]
    exactly for equal keys, swapping the arguments reverses the result,
    and [Lt] is transitive. *)

Class KeyLaws (K : Type) `{Key K} : Prop :=
  { key_eq : forall a b : K, key_compare a b = Eq <-> a = b;
    key_antisym : forall a b : K, key_compare b a = CompOpp (key_compare a b);
    key_lt_trans : forall a b c : K,
        key_compare a b = Lt -> key_compare b c = Lt -> key_compare a c = Lt }.

(** The keys of a list are in strictly ascending order. *)
Definition ascending_keys {K : Type} `{Key K} (l : list K) : Prop :=
  StronglySorted (fun a b => key_compare a b = Lt) l.

(** A cell holds the key [k]; a missing cell holds none. *)
Definition key_is {K : Type} `{Key K} (k : K) (o : option K) : bool :=
  match o with Some q => key_eqb q k | None => false end.

(** The records that have a key. *)
Definition with_key {R K : Type} (key : R -> option K) (l : list R) : list R :=
  filter (fun r => match key r with Some _ => true | None => false end) l.

(** The exact sum of the column [f] over the records of key [k]. *)
Definition records_sum {R K : Type} `{Key K} (key : R -> option K)
  (f : R -> Z) (l : list R) (k : K) : Z :=
  sumZ (map f (filter (fun r => key_is k (key r)) l)).


(** ** Recommendations: [generate_recommendations_by_archetype]

    One dict per archetype that has states, in the fixed order of the
    seven blocks of the function. *)

Module Recommendation.
Record row := mk
  { Archetype : string;
    State_Count : nat;
    Primary_Issue : string;
    Secondary_Issue : string;
    Recommended_Intervention : string;
    Expected_Impact : string;
    Implementation_Cost : string }.
End Recommendation.

(** [metrics_df[metrics_df['Archetype'] == archetype]]. *)
Definition with_archetype (archetype : string) (metrics_df : list Risk.row)
  : list Risk.row :=
  filter (fun r => String.eqb (Classified.Archetype (Risk.classified r))
                              archetype)
         metrics_df.

(** [list.sort(key=lambda x: x[1], reverse=True)]: descending by the
    value, entries with equal values staying in their order. *)
Fixpoint insert_desc (x : string * Q) (l : list (string * Q))
  : list (string * Q) :=
  match l with
  | [] => [x]
  | y :: t =>
      if Qltb (snd x) (snd y) then y :: insert_desc x t else x :: l
  end.

Definition sort_desc (l : list (string * Q)) : list (string * Q) :=
  fold_right insert_desc [] l.

(** [s.replace(old, new)] for a nonempty [old]; [skip] counts the
    characters of a match that are still to be passed over. *)
Fixpoint replace_from (old new : string) (skip : nat) (s : string) : string :=
  match s with
  | EmptyString => EmptyString
  | String c t =>
      match skip with
      | S k => replace_from old new k t
      | O =>
          if String.prefix old s
          then (new ++ replace_from old new (String.length old - 1) t)%string
          else String c (replace_from old new 0 t)
      end
  end.

Definition str_replace (s old new : string) : string :=
  replace_from old new 0 s.

(** The risk type named first for the Sprinter states. *)
Definition sprinter_primary (sprinters : list Risk.row) : string :=
  let primary_issues :=
    map (fun p : string * (Risk.row -> Q) =>
           (fst p, np_mean (map (snd p) sprinters)))
        [ ("PDS_Risk"%string, Risk.PDS_Risk);
          ("DBT_Risk"%string, Risk.DBT_Risk);
          ("OTP_Risk"%string, Risk.OTP_Risk) ] in
  match sort_desc primary_issues with
  | [] => EmptyString
  | p :: _ => str_replace (fst p) "_Risk" ""
  end.

Definition generate_recommendations_by_archetype (metrics_df : list Risk.row)
  : list Recommendation.row :=
  let digital_leaders := with_archetype "Digital Leader" metrics_df in
  let sprinters := with_archetype "Sprinter" metrics_df in
  let moderates := with_archetype "Moderate" metrics_df in
  let sleepwalkers := with_archetype "Sleepwalker" metrics_df in
  let excluded_youth := with_archetype "Excluded (Youth)" metrics_df in
  let excluded_imbalance :=
    with_archetype "Excluded (Update Imbalance)" metrics_df in
  let excluded_geo := with_archetype "Excluded (Geographic)" metrics_df in
  (if (0 <? length digital_leaders)%nat
   then [ Recommendation.mk "Digital Leader" (length digital_leaders)
            "Maintain momentum" "Pilot new features"
            "Share best practices; pilot e-Aadhaar expansion; mentor other states"
            "High visibility; national knowledge transfer" "Low" ]
   else [])
  ++ (if (0 <? length sprinters)%nat
      then
        let primary := sprinter_primary sprinters in
        [ Recommendation.mk "Sprinter" (length sprinters)
            ("Infrastructure lag (" ++ primary ++ ")")
            "High enrolment backlog"
            ("Rapid deployment of mobile update vans; " ++ primary
             ++ "-focused camps; scaling infrastructure")
            "High - reduces failure rates by 30-50% within 6 months"
            "High" ]
      else [])
  ++ (if (0 <? length moderates)%nat
      then [ Recommendation.mk "Moderate" (length moderates)
               "Inconsistent operations" "Geographic concentration"
               "Standardize update camp schedules; expand district coverage; improve data quality"
               "Medium - improves consistency and equity" "Medium" ]
      else [])
  ++ (if (0 <? length sleepwalkers)%nat
      then [ Recommendation.mk "Sleepwalker" (length sleepwalkers)
               "Low awareness and sporadic access"
               "Limited infrastructure investment"
               "Intensive awareness campaigns; establish permanent enrollment centers; train field staff"
               "Medium-High - builds foundation for future growth" "Medium" ]
      else [])
  ++ (if (0 <? length excluded_youth)%nat
      then [ Recommendation.mk "Excluded (Youth)" (length excluded_youth)
               "Youth severely underrepresented in updates"
               "Future service failures for young adults"
               "School-based update camps at Class 10; Aadhaar integration with board exams; youth incentive programs"
               "Very High - prevents 18-year failure wave" "Medium" ]
      else [])
  ++ (if (0 <? length excluded_imbalance)%nat
      then [ Recommendation.mk "Excluded (Update Imbalance)"
               (length excluded_imbalance)
               "Extreme imbalance between bio/demo updates"
               "Type-specific infrastructure gaps"
               "Diagnostic camps to identify issue; targeted infrastructure for lagging type"
               "Medium - rebalances update ecosystem" "Low-Medium" ]
      else [])
  ++ (if (0 <? length excluded_geo)%nat
      then [ Recommendation.mk "Excluded (Geographic)" (length excluded_geo)
               "High geographic concentration (urban-only access)"
               "Rural population systematically underserved"
               "Mobile units for rural/remote areas; partnership with local admin; incentivize rural camp attendance"
               "High - dramatically improves rural access" "High" ]
      else []).

(** ** Critical counts: [generate_insights_report] and [main] *)

Definition critical_pds (metrics_df : list Risk.row) : nat :=
  length (filter (fun r => Qltb 75 (Risk.PDS_Risk r)) metrics_df).
Definition critical_dbt (metrics_df : list Risk.row) : nat :=
  length (filter (fun r => Qltb 75 (Risk.DBT_Risk r)) metrics_df).
Definition critical_scholarship (metrics_df : list Risk.row) : nat :=
  length (filter (fun r => Qltb 50 (Risk.Scholarship_Risk r)) metrics_df).
Definition critical_otp (metrics_df : list Risk.row) : nat :=
  length (filter (fun r => Qltb 75 (Risk.OTP_Risk r)) metrics_df).
Definition critical_banking (metrics_df : list Risk.row) : nat :=
  length (filter (fun r => Qltb 50 (Risk.Banking_Risk r)) metrics_df).

(** The archetypes in the order of the blocks of
    [generate_recommendations_by_archetype]. *)
Definition archetype_order : list string :=
  [ "Digital Leader"; "Sprinter"; "Moderate"; "Sleepwalker";
    "Excluded (Youth)"; "Excluded (Update Imbalance)";
    "Excluded (Geographic)" ]%string.

(** The first of the three risk types whose mean is the largest. *)
Definition largest_mean_risk (pds dbt otp : Q) : string :=
  if Qle_bool dbt pds && Qle_bool otp pds then "PDS"%string
  else if Qle_bool otp dbt then "DBT"%string
  else "OTP"%string.

(** ** More sample inputs *)

Module Cases.
#[local] Open Scope string_scope.
#[local] Open Scope Z_scope.

(** The biometric dataset with one more record, whose date is no date. *)
Definition biometric_bad_date : list Biometric.record :=
  Sample.biometric
  ++ [ Biometric.mk (Some "31-02-20x5") (Some "Goa") (Some "Panaji") 1 1 ].

(** A frame that has no 'date' column. *)
Definition no_date_store : Store :=
  [ Records [ ("state", ColStr [Some "Goa"]); ("age_0_5", ColInt [1]) ] ].

(** Two months of one state with the same total. *)
Definition steady_months : list MonthlyData.row :=
  [ MonthlyData.mk "Goa" (2025, 3) 2 3 5;
    MonthlyData.mk "Goa" (2025, 4) 1 4 5;
    MonthlyData.mk "Kerala" (2025, 4) 7 0 7 ].

(** A risk table with two Sprinter states and one Moderate state. *)
Definition sprinter_row (state : string) (pds dbt otp : Q) : Risk.row :=
  Risk.mk
    (Classified.mk
       (Scored.mk (Metrics.mk state 30 3 0 3 0.1%Q 0.1%Q 0.05%Q 0.5%Q 1%Q
                              0.1%Q 0.5%Q)
                  50%Q 80%Q 66%Q 90%Q 50%Q 65%Q)
       "Sprinter" (Some "[~]") (Some "[~] Sprinter"))
    None pds dbt 0%Q otp 35%Q ((pds + dbt + 0 + otp + 35) / 5)%Q.

Definition risk_table : list Risk.row :=
  [ sprinter_row "Goa" 40%Q 80%Q 10%Q;
    Risk.mk
      (Classified.mk
         (Scored.mk (Metrics.mk "Kerala" 30 3 0 3 0.1%Q 0.1%Q 0%Q 0.5%Q 1%Q
                                0.1%Q 0.5%Q)
                    50%Q 80%Q 66%Q 90%Q 50%Q 65%Q)
         "Moderate" (Some "[=]") (Some "[=] Moderate"))
      None 0%Q 0%Q 0%Q 0%Q 35%Q 7%Q;
    sprinter_row "Assam" 60%Q 20%Q 30%Q ].
(** Three states with more than 100 enrolments each, and their updates. *)
Definition legacy_enrolment : list Enrolment.record :=
  [ Enrolment.mk (Some "01-03-2025") (Some "Karnataka") (Some "Bengaluru")
                 100 200 700;
    Enrolment.mk (Some "02-04-2025") (Some "Kerala") (Some "Kochi")
                 100 200 300;
    Enrolment.mk (Some "02-04-2025") (Some "Goa") (Some "Panaji")
                 50 100 150;
    Enrolment.mk (Some "03-04-2025") (Some "Sikkim") (Some "Gangtok")
                 10 20 30 ].
Definition legacy_biometric : list Biometric.record :=
  [ Biometric.mk (Some "01-03-2025") (Some "Karnataka") (Some "Bengaluru")
                 150 100;
    Biometric.mk (Some "01-04-2025") (Some "Kerala") (Some "Kochi") 50 40;
    Biometric.mk (Some "05-05-2025") (Some "Goa") (Some "Panaji") 5 20 ].
Definition legacy_demographic : list Demographic.record :=
  [ Demographic.mk (Some "01-03-2025") (Some "Karnataka") (Some "Bengaluru")
                   150 100;
    Demographic.mk (Some "11-04-2025") (Some "Kerala") (Some "Kochi") 10 20;
    Demographic.mk (Some "11-04-2025") (Some "Goa") (Some "Panaji") 30 5 ].
(** One state whose updates are concentrated in one of five districts. *)
Definition concentrated_state : list StateData.row :=
  [ StateData.mk "Goa" 10 20 70 100 20 30 50 20 30 50 100 ].
Definition concentrated_districts : list DistrictData.row :=
  [ DistrictData.mk "Goa" "A" 1 0 1; DistrictData.mk "Goa" "B" 0 1 1;
    DistrictData.mk "Goa" "C" 1 0 1; DistrictData.mk "Goa" "D" 0 1 1;
    DistrictData.mk "Goa" "E" 47 49 96 ].
End Cases.

(** ** The standalone script [aadhaar_analysis.py]: [main]

    Its divisions are not guarded, so a cell can be inf or NaN.  A float
    is an exact rational or one of these special values; every zero is
    +0, which is what sums and quotients of nonnegative counts give.
    The sums of columns and of rows are sums of int64 values. *)

Inductive float64 :=
| Finite (q : Q)
| PosInf
| NegInf
| NaN.

Definition finf (positive : bool) : float64 :=
  if positive then PosInf else NegInf.

Definition fneg (a : float64) : float64 :=
  match a with
  | Finite q => Finite (- q)
  | PosInf => NegInf
  | NegInf => PosInf
  | NaN => NaN
  end.

Definition fadd (a b : float64) : float64 :=
  match a, b with
  | NaN, _ | _, NaN => NaN
  | Finite x, Finite y => Finite (x + y)
  | PosInf, NegInf | NegInf, PosInf => NaN
  | PosInf, _ | _, PosInf => PosInf
  | NegInf, _ | _, NegInf => NegInf
  end.

Definition fsub (a b : float64) : float64 := fadd a (fneg b).

Definition fmul (a b : float64) : float64 :=
  match a, b with
  | NaN, _ | _, NaN => NaN
  | Finite x, Finite y => Finite (x * y)
  | Finite x, PosInf | PosInf, Finite x =>
      if Qeq_bool x 0 then NaN else finf (Qltb 0 x)
  | Finite x, NegInf | NegInf, Finite x =>
      if Qeq_bool x 0 then NaN else finf (Qltb x 0)
  | PosInf, PosInf | NegInf, NegInf => PosInf
  | PosInf, NegInf | NegInf, PosInf => NegInf
  end.

Definition fdiv (a b : float64) : float64 :=
  match a, b with
  | NaN, _ | _, NaN => NaN
  | Finite x, Finite y =>
      if Qeq_bool y 0
      then (if Qeq_bool x 0 then NaN else finf (Qltb 0 x))
      else Finite (x / y)
  | Finite _, (PosInf | NegInf) => Finite 0
  | PosInf, Finite y => finf (negb (Qltb y 0))
  | NegInf, Finite y => finf (Qltb y 0)
  | (PosInf | NegInf), (PosInf | NegInf) => NaN
  end.

Definition fabs (a : float64) : float64 :=
  match a with
  | Finite q => Finite (Qabs q)
  | PosInf | NegInf => PosInf
  | NaN => NaN
  end.

(** [a > b] and [a < b]: False as soon as one side is NaN. *)
Definition fgt (a b : float64) : bool :=
  match a, b with
  | NaN, _ | _, NaN => false
  | Finite x, Finite y => Qltb y x
  | _, PosInf => false
  | PosInf, _ => true
  | NegInf, _ => false
  | Finite _, NegInf => true
  end.

Definition flt (a b : float64) : bool := fgt b a.

Definition isnan (a : float64) : bool :=
  match a with NaN => true | _ => false end.

(** [Series.min()] and [Series.max()]: NaN cells are skipped, and the
    result is NaN when no cell is left. *)
Definition fseries_min (l : list float64) : float64 :=
  match filter (fun x => negb (isnan x)) l with
  | [] => NaN
  | x :: t => fold_left (fun a b => if flt b a then b else a) t x
  end.

Definition fseries_max (l : list float64) : float64 :=
  match filter (fun x => negb (isnan x)) l with
  | [] => NaN
  | x :: t => fold_left (fun a b => if fgt b a then b else a) t x
  end.

Definition fZ (z : Z) : float64 := Finite (inject_Z z).

(** The inner function [normalize] of [main]. *)
Definition normalize (series : list float64) : list float64 :=
  map (fun x => fdiv (fsub x (fseries_min series))
                     (fsub (fseries_max series) (fseries_min series)))
      series.

(** The three frames of sums per state; the total is the sum of the
    summed columns ([sum(axis=1, numeric_only=True)]).  The states are
    taken as they are in the files, a record without a state being left
    out of the groups. *)
Definition legacy_enrol_state (state : list (option string))
  (age_0_5 age_5_17 age_18_greater : list Z)
  : list (string * StateEnrol.agg) :=
  map (fun k =>
         let a0 := group_sum (dropna_keys state age_0_5) k in
         let a1 := group_sum (dropna_keys state age_5_17) k in
         let a2 := group_sum (dropna_keys state age_18_greater) k in
         (k, StateEnrol.mk a0 a1 a2 (int64_sum [a0; a1; a2])))
      (unique_sorted (present state)).

Definition legacy_bio_state (state : list (option string))
  (bio_age_5_17 bio_age_17_ : list Z) : list (string * StateBio.agg) :=
  map (fun k =>
         let b0 := group_sum (dropna_keys state bio_age_5_17) k in
         let b1 := group_sum (dropna_keys state bio_age_17_) k in
         (k, StateBio.mk b0 b1 (int64_sum [b0; b1])))
      (unique_sorted (present state)).

Definition legacy_demo_state (state : list (option string))
  (demo_age_5_17 demo_age_17_ : list Z) : list (string * StateDemo.agg) :=
  map (fun k =>
         let d0 := group_sum (dropna_keys state demo_age_5_17) k in
         let d1 := group_sum (dropna_keys state demo_age_17_) k in
         (k, StateDemo.mk d0 d1 (int64_sum [d0; d1])))
      (unique_sorted (present state)).

(** The columns that [main] adds to [master_df]. *)
Module Master.
Record row := mk
  { base : StateData.row;
    enrol_share : float64; update_share : float64; IDI : float64;
    UBI : float64; youth_updates : Z; adult_updates : Z;
    YIR : float64; EMI : float64; Health_Score : float64 }.
End Master.

Definition get_archetype (row : Master.row) : string :=
  let idi := Master.IDI row in
  let health := Master.Health_Score row in
  let enrol_share := Master.enrol_share row in
  if fgt health (Finite 60) then "Digital Leader"%string
  else if fgt idi (Finite 1.0) && fgt enrol_share (Finite 5.0)
  then "Sprinter (High Growth, Lagging Infra)"%string
  else if fgt idi (Finite 0.5) then "Struggling (Infra Deficit)"%string
  else if flt (Master.YIR row) (Finite 0.6)
  then "Exclusion Zone (Youth Left Behind)"%string
  else if flt (Master.UBI row) (Finite 0.2) then "Biometric Laggard"%string
  else "Sleepwalker (Low Activity)"%string.

(** The indices of one state, before the two normalised series. *)
Definition legacy_enrol_share (national_enrol : Z) (r : StateData.row)
  : float64 :=
  fmul (fdiv (fZ (StateData.total_enrolment r)) (fZ national_enrol))
       (Finite 100).

Definition legacy_update_share (national_bio national_demo : Z)
  (r : StateData.row) : float64 :=
  fmul (fdiv (fZ (int64_add (StateData.total_bio r) (StateData.total_demo r)))
             (fZ (int64_add national_bio national_demo)))
       (Finite 100).

Definition legacy_UBI (r : StateData.row) : float64 :=
  fdiv (fZ (StateData.total_bio r))
       (fZ (int64_add (StateData.total_bio r) (StateData.total_demo r))).

Definition legacy_row_youth_updates (r : StateData.row) : Z :=
  int64_add (StateData.bio_age_5_17 r) (StateData.demo_age_5_17 r).
Definition legacy_row_adult_updates (r : StateData.row) : Z :=
  int64_add (StateData.bio_age_17_ r) (StateData.demo_age_17_ r).

Definition legacy_YIR (national_youth_update_ratio : float64)
  (r : StateData.row) : float64 :=
  fdiv (fdiv (fZ (legacy_row_youth_updates r))
             (fZ (if (legacy_row_adult_updates r =? 0)%Z then 1%Z
                  else legacy_row_adult_updates r)))
       national_youth_update_ratio.

Definition legacy_EMI (r : StateData.row) : float64 :=
  fdiv (fZ (StateData.age_18_greater r)) (fZ (StateData.total_enrolment r)).

Section Engine.

(** [np.sqrt], of which the proofs use that it is never negative. *)
Variable np_sqrt : Q -> Q.
Hypothesis np_sqrt_nonneg : forall x : Q, 0 <= np_sqrt x.
(** One cell of [pd.to_datetime(col, format='%d-%m-%Y')]; [None] when the
    text does not parse. *)
Variable strptime_dmY : string -> option Timestamp.
Variables str_strip str_title : string -> string.

(** [np.std]: the population standard deviation. *)
Definition np_std (l : list Q) : Q :=
  let m := np_mean l in
  np_sqrt (np_mean (map (fun x => Qabs (x - m) * Qabs (x - m)) l)).

(** *** Preprocessing: [preprocess_data] *)

Fixpoint parse_all (l : list (option string))
  : Exc + list (option Timestamp) :=
  match l with
  | [] => inr []
  | None :: t =>
      (* a missing cell is NaT, and no error *)
      match parse_all t with
      | inr r => inr (None :: r)
      | inl e => inl e
      end
  | Some s :: t =>
      match strptime_dmY s with
      | None => inl ValueError
      | Some ts =>
          match parse_all t with
          | inr r => inr (Some ts :: r)
          | inl e => inl e
          end
      end
  end.

(** [pd.to_datetime(col, format='%d-%m-%Y')]: raises as soon as the text
    of a cell does not parse. *)
Definition to_datetime (c : Column) : Exc + Column :=
  match c with
  | ColStr l =>
      match parse_all l with
      | inr r => inr (ColDate r)
      | inl e => inl e
      end
  | ColDate l => inr (ColDate l)
  | _ => inl TypeError
  end.

(** A column that [pd.read_csv] has read as float64: it has rows, and
    every cell of it is empty. *)
Definition read_as_float (l : list (option string)) : bool :=
  match l with
  | [] => false
  | _ => forallb (fun c => match c with None => true | Some _ => false end) l
  end.

(** [col.str.strip().str.title()]: a missing cell stays missing; a
    float64 column has no [.str]. *)
Definition strip_title (c : Column) : Exc + Column :=
  match c with
  | ColStr l =>
      if read_as_float l then inl AttributeError
      else inr (ColStr (map (option_map (fun s => str_title (str_strip s)))
                            l))
  | _ => inl AttributeError
  end.

Definition parse_date_column (df : Ref) : M unit :=
  c <- getitem df "date" ;;
  c' <- lift (to_datetime c) ;;
  setitem df "date" c'.

Definition month_column (df : Ref) : M unit :=
  c <- getitem df "date" ;;
  c' <- lift (dt_to_period c) ;;
  setitem df "month" c'.

Definition standardize_names (df : Ref) : M unit :=
  c <- getitem df "state" ;;
  c' <- lift (strip_title c) ;;
  setitem df "state" c' ;;;
  c <- getitem df "district" ;;
  c' <- lift (strip_title c) ;;
  setitem df "district" c'.

Definition add_total_enrolment (enrolment : Ref) : M unit :=
  a0 <- getitem enrolment "age_0_5" ;;
  a1 <- getitem enrolment "age_5_17" ;;
  a2 <- getitem enrolment "age_18_greater" ;;
  a01 <- lift (col_add a0 a1) ;;
  tot <- lift (col_add a01 a2) ;;
  setitem enrolment "total_enrolment" tot.

Definition add_total_bio (biometric : Ref) : M unit :=
  b0 <- getitem biometric "bio_age_5_17" ;;
  b1 <- getitem biometric "bio_age_17_" ;;
  tot <- lift (col_add b0 b1) ;;
  setitem biometric "total_bio" tot.

Definition add_total_demo (demographic : Ref) : M unit :=
  d0 <- getitem demographic "demo_age_5_17" ;;
  d1 <- getitem demographic "demo_age_17_" ;;
  tot <- lift (col_add d0 d1) ;;
  setitem demographic "total_demo" tot.

Definition preprocess_data (enrolment biometric demographic : Ref)
  : M (Ref * Ref * Ref) :=
  (* Parse dates *)
  parse_date_column enrolment ;;;
  parse_date_column biometric ;;;
  parse_date_column demographic ;;;
  (* Extract month for temporal analysis *)
  month_column enrolment ;;;
  month_column biometric ;;;
  month_column demographic ;;;
  (* Standardize state names *)
  standardize_names enrolment ;;;
  standardize_names biometric ;;;
  standardize_names demographic ;;;
  (* Calculate total columns *)
  add_total_enrolment enrolment ;;;
  add_total_bio biometric ;;;
  add_total_demo demographic ;;;
  ret (enrolment, biometric, demographic).

(** *** Aggregation: [aggregate_by_state], [aggregate_by_district],
    [aggregate_by_month]

    Each reads columns of the record frames; [groupby], [merge] and
    [fillna] build new frames, and the [total_updates] column is assigned
    on the last of them, which is the one new object the stage returns. *)

Definition groupby_enrol (state : list (option string))
  (age_0_5 age_5_17 age_18_greater total_enrolment : list Z)
  : list (string * StateEnrol.agg) :=
  map (fun k =>
         (k, StateEnrol.mk (group_sum (dropna_keys state age_0_5) k)
                           (group_sum (dropna_keys state age_5_17) k)
                           (group_sum (dropna_keys state age_18_greater) k)
                           (group_sum (dropna_keys state total_enrolment) k)))
      (unique_sorted (present state)).

Definition groupby_bio (state : list (option string))
  (bio_age_5_17 bio_age_17_ total_bio : list Z)
  : list (string * StateBio.agg) :=
  map (fun k =>
         (k, StateBio.mk (group_sum (dropna_keys state bio_age_5_17) k)
                         (group_sum (dropna_keys state bio_age_17_) k)
                         (group_sum (dropna_keys state total_bio) k)))
      (unique_sorted (present state)).

Definition groupby_demo (state : list (option string))
  (demo_age_5_17 demo_age_17_ total_demo : list Z)
  : list (string * StateDemo.agg) :=
  map (fun k =>
         (k, StateDemo.mk (group_sum (dropna_keys state demo_age_5_17) k)
                          (group_sum (dropna_keys state demo_age_17_) k)
                          (group_sum (dropna_keys state total_demo) k)))
      (unique_sorted (present state)).

(** The two outer merges on ['state'], [fillna(0)] and the
    [total_updates] column, the sum of two columns. *)
Definition merge_state_data
  (state_enrol : list (string * StateEnrol.agg))
  (state_bio : list (string * StateBio.agg))
  (state_demo : list (string * StateDemo.agg)) : list StateData.row :=
  map (fun r =>
         let '(k, (eb, d)) := r in
         let e := match eb with Some (e, _) => e | None => None end in
         let b := match eb with Some (_, b) => b | None => None end in
         let total_bio := fillna0 StateBio.total_bio b in
         let total_demo := fillna0 StateDemo.total_demo d in
         StateData.mk k
           (fillna0 StateEnrol.age_0_5 e)
           (fillna0 StateEnrol.age_5_17 e)
           (fillna0 StateEnrol.age_18_greater e)
           (fillna0 StateEnrol.total_enrolment e)
           (fillna0 StateBio.bio_age_5_17 b)
           (fillna0 StateBio.bio_age_17_ b)
           total_bio
           (fillna0 StateDemo.demo_age_5_17 d)
           (fillna0 StateDemo.demo_age_17_ d)
           total_demo
           (int64_add total_bio total_demo))
      (merge_outer (merge_outer state_enrol state_bio) state_demo).

Definition aggregate_by_state (enrolment biometric demographic : Ref)
  : M Ref :=
  e_state <- get_strs enrolment "state" ;;
  e0 <- get_ints enrolment "age_0_5" ;;
  e1 <- get_ints enrolment "age_5_17" ;;
  e2 <- get_ints enrolment "age_18_greater" ;;
  et <- get_ints enrolment "total_enrolment" ;;
  b_state <- get_strs biometric "state" ;;
  b0 <- get_ints biometric "bio_age_5_17" ;;
  b1 <- get_ints biometric "bio_age_17_" ;;
  bt <- get_ints biometric "total_bio" ;;
  d_state <- get_strs demographic "state" ;;
  d0 <- get_ints demographic "demo_age_5_17" ;;
  d1 <- get_ints demographic "demo_age_17_" ;;
  dt <- get_ints demographic "total_demo" ;;
  alloc (StateTable
           (merge_state_data (groupby_enrol e_state e0 e1 e2 et)
                             (groupby_bio b_state b0 b1 bt)
                             (groupby_demo d_state d0 d1 dt))).

(** [groupby(keys).agg({col: 'sum'})] for one summed column. *)
Definition groupby_total {K : Type} `{Key K} (kv : list (K * Z))
  : list (K * Z) :=
  map (fun k => (k, group_sum kv k)) (unique_sorted (map fst kv)).

Definition merge_district_data
  (district_bio district_demo : list (string * string * Z))
  : list DistrictData.row :=
  map (fun r =>
         let '(k, (b, d)) := r in
         let total_bio := fillna0 (fun z : Z => z) b in
         let total_demo := fillna0 (fun z : Z => z) d in
         DistrictData.mk (fst k) (snd k) total_bio total_demo
                         (int64_add total_bio total_demo))
      (merge_outer district_bio district_demo).

Definition aggregate_by_district (biometric demographic : Ref) : M Ref :=
  b_state <- get_strs biometric "state" ;;
  b_district <- get_strs biometric "district" ;;
  bt <- get_ints biometric "total_bio" ;;
  d_state <- get_strs demographic "state" ;;
  d_district <- get_strs demographic "district" ;;
  dt <- get_ints demographic "total_demo" ;;
  alloc (DistrictTable
           (merge_district_data
              (groupby_total (dropna_keys (pair_keys b_state b_district) bt))
              (groupby_total
                 (dropna_keys (pair_keys d_state d_district) dt)))).

Definition merge_monthly_data
  (monthly_bio monthly_demo : list (string * Period * Z))
  : list MonthlyData.row :=
  map (fun r =>
         let '(k, (b, d)) := r in
         let total_bio := fillna0 (fun z : Z => z) b in
         let total_demo := fillna0 (fun z : Z => z) d in
         MonthlyData.mk (fst k) (snd k) total_bio total_demo
                        (int64_add total_bio total_demo))
      (merge_outer monthly_bio monthly_demo).

Definition aggregate_by_month (biometric demographic : Ref) : M Ref :=
  b_state <- get_strs biometric "state" ;;
  b_month <- get_periods biometric "month" ;;
  bt <- get_ints biometric "total_bio" ;;
  d_state <- get_strs demographic "state" ;;
  d_month <- get_periods demographic "month" ;;
  dt <- get_ints demographic "total_demo" ;;
  alloc (MonthlyTable
           (merge_monthly_data
              (groupby_total (dropna_keys (pair_keys b_state b_month) bt))
              (groupby_total (dropna_keys (pair_keys d_state d_month) dt)))).

(** *** Pillar metrics: [calculate_metrics] *)

Definition national_youth_ratio (state_data : list StateData.row) : Q :=
  let national_bio_youth :=
    int64_sum (map StateData.bio_age_5_17 state_data) in
  let national_bio_adult :=
    int64_sum (map StateData.bio_age_17_ state_data) in
  let national_demo_youth :=
    int64_sum (map StateData.demo_age_5_17 state_data) in
  let national_demo_adult :=
    int64_sum (map StateData.demo_age_17_ state_data) in
  let national_youth_updates :=
    int64_add national_bio_youth national_demo_youth in
  let national_adult_updates :=
    int64_add national_bio_adult national_demo_adult in
  if (national_adult_updates >? 0)%Z
  then inject_Z national_youth_updates / inject_Z national_adult_updates
  else 0.

(** The youth-to-adult update ratio of one state.  The cells of a row
    that [iterrows] yields are Python numbers, added without wrap. *)
Definition state_youth_ratio (row : StateData.row) : Q :=
  let state_youth :=
    (StateData.bio_age_5_17 row + StateData.demo_age_5_17 row)%Z in
  let state_adult :=
    (StateData.bio_age_17_ row + StateData.demo_age_17_ row)%Z in
  if (state_adult >? 0)%Z
  then inject_Z state_youth / inject_Z state_adult
  else 0.

(** The body of the loop over the rows of [state_data]. *)
Definition metrics_of_row
  (national_enrolment national_updates : Z) (national_youth_ratio : Q)
  (district_data : list DistrictData.row)
  (monthly_data : list MonthlyData.row)
  (row : StateData.row) : Metrics.row :=
  let state := StateData.state row in
  (* 1. IDI *)
  let enrol_share :=
    if (national_enrolment >? 0)%Z
    then inject_Z (StateData.total_enrolment row) / inject_Z national_enrolment
    else 0 in
  let update_share :=
    if (national_updates >? 0)%Z
    then inject_Z (StateData.total_updates row) / inject_Z national_updates
    else 0 in
  let idi := enrol_share - update_share in
  (* 2. UBI *)
  let total_updates :=
    (StateData.total_bio row + StateData.total_demo row)%Z in
  let ubi :=
    if (total_updates >? 0)%Z
    then inject_Z (StateData.total_bio row) / inject_Z total_updates
    else 0.5 in
  (* 3. YIR *)
  let yir :=
    if Qltb 0 national_youth_ratio
    then state_youth_ratio row / national_youth_ratio
    else 1 in
  (* 4. GCI *)
  let state_districts :=
    map (fun d => inject_Z (DistrictData.total_updates d))
        (filter (fun d => String.eqb (DistrictData.state d) state)
                district_data) in
  let gci :=
    if (1 <? length state_districts)%nat
    then calculate_gini state_districts
    else 0 in
  (* 5. TCS *)
  let state_monthly :=
    map (fun m => inject_Z (MonthlyData.total_updates m))
        (filter (fun m => String.eqb (MonthlyData.state m) state)
                monthly_data) in
  let tcs :=
    if (1 <? length state_monthly)%nat && Qltb 0 (np_mean state_monthly)
    then
      let cov := np_std state_monthly / np_mean state_monthly in
      Qmax 0 (1 - cov)
    else 0.5 in
  Metrics.mk state (StateData.total_enrolment row) total_updates
             (StateData.total_bio row) (StateData.total_demo row)
             enrol_share update_share idi ubi yir gci tcs.

(** The list [metrics] that the loop builds, one dict per state. *)
Definition metrics_rows
  (state_data : list StateData.row)
  (district_data : list DistrictData.row)
  (monthly_data : list MonthlyData.row) : list Metrics.row :=
  let national_enrolment :=
    int64_sum (map StateData.total_enrolment state_data) in
  let national_updates :=
    int64_sum (map StateData.total_updates state_data) in
  map (metrics_of_row national_enrolment national_updates
                      (national_youth_ratio state_data)
                      district_data monthly_data)
      state_data.

(** [pd.DataFrame(metrics)] has no column when the list is empty, and
    [metrics_df['IDI']] then raises KeyError('IDI'). *)
Definition calculate_metrics
  (state_data : list StateData.row)
  (district_data : list DistrictData.row)
  (monthly_data : list MonthlyData.row) : Exc + list Metrics.row :=
  match metrics_rows state_data district_data monthly_data with
  | [] => inl (KeyError "IDI")
  | metrics => inr metrics
  end.

(** [metrics_df['IDI'].sum()], the figure [calculate_metrics] prints as
    "IDI Sum (should be ~0)". *)
Definition idi_sum (metrics_df : list Metrics.row) : Q :=
  np_sum (map Metrics.IDI metrics_df).

(** *** Composite score: [calculate_health_score] *)

Definition score_row (idi_min idi_max : Q) (r : Metrics.row) : Scored.row :=
  let IDI_score :=
    100 * (1 - (Metrics.IDI r - idi_min) / (idi_max - idi_min + 0.001)) in
  let UBI_score :=
    clip 0 100 (100 * (1 - Qabs (Metrics.UBI r - 0.425) / 0.425)) in
  let YIR_score := 100 * Qmin (Metrics.YIR r) 1.5 / 1.5 in
  let GCI_score := 100 * (1 - Metrics.GCI r) in
  let TCS_score := 100 * Metrics.TCS r in
  let Health_Score :=
    0.25 * IDI_score + 0.25 * GCI_score + 0.20 * TCS_score
    + 0.20 * YIR_score + 0.10 * UBI_score in
  Scored.mk r IDI_score UBI_score YIR_score GCI_score TCS_score Health_Score.

Definition calculate_health_score (metrics_df : list Metrics.row)
  : list Scored.row :=
  let idi_min := series_min (map Metrics.IDI metrics_df) in
  let idi_max := series_max (map Metrics.IDI metrics_df) in
  map (score_row idi_min idi_max) metrics_df.

(** *** Archetypes: [classify_archetype], [assign_archetypes] *)

Definition classify_archetype (row : Scored.row) : string :=
  if Qltb (Scored.YIR row) 0.6 then "Excluded (Youth)"%string
  else if Qltb (Scored.UBI row) 0.25 || Qltb 0.65 (Scored.UBI row)
  then "Excluded (Update Imbalance)"%string
  else if Qltb 0.6 (Scored.GCI row) then "Excluded (Geographic)"%string
  else if Qltb (Scored.TCS row) 0.4 && Qltb (Scored.Health_Score row) 40
  then "Sleepwalker"%string
  else if Qltb 70 (Scored.Health_Score row)
          && Qltb 0.6 (Scored.TCS row)
          && Qltb (Scored.GCI row) 0.4
          && Qltb 0.8 (Scored.YIR row)
  then "Digital Leader"%string
  else if Qltb 0.03 (Scored.IDI row) then "Sprinter"%string
  else "Moderate"%string.

Definition archetype_symbol : list (string * string) :=
  [ ("Digital Leader", "[+]");
    ("Sprinter", "[~]");
    ("Sleepwalker", "[-]");
    ("Excluded (Youth)", "[!]");
    ("Excluded (Update Imbalance)", "[!]");
    ("Excluded (Geographic)", "[!]");
    ("Moderate", "[=]") ]%string.

Fixpoint dict_get (d : list (string * string)) (k : string) : option string :=
  match d with
  | [] => None
  | (k', v) :: t => if String.eqb k' k then Some v else dict_get t k
  end.

Definition assign_archetypes (metrics_df : list Scored.row)
  : list Classified.row :=
  map (fun r =>
         let archetype := classify_archetype r in
         let symbol := dict_get archetype_symbol archetype in
         Classified.mk r archetype symbol
           (option_map (fun s => (s ++ " " ++ archetype)%string) symbol))
      metrics_df.

(** *** Risks: [calculate_problem_risks] *)

Definition ages_of (r : StateData.row) : Ages.cols :=
  Ages.mk (StateData.age_0_5 r) (StateData.age_5_17 r)
          (StateData.age_18_greater r)
          (StateData.bio_age_5_17 r) (StateData.bio_age_17_ r)
          (StateData.demo_age_5_17 r) (StateData.demo_age_17_ r).

(** [df.merge(state_data[[...]], on='state', how='left')]: every row of
    [df] in order, once per matching state row, or once with NaN. *)
Definition merge_left_ages (df : list Classified.row)
  (state_data : list StateData.row)
  : list (Classified.row * option Ages.cols) :=
  flat_map
    (fun r =>
       let state := Metrics.state (Scored.metrics (Classified.scored r)) in
       match filter (fun s => String.eqb (StateData.state s) state)
                    state_data with
       | [] => [(r, None)]
       | ms => map (fun s => (r, Some (ages_of s))) ms
       end)
    df.

Definition risk_row (p : Classified.row * option Ages.cols) : Risk.row :=
  let '(r, ages) := p in
  let PDS_Risk :=
    clip 0 100
      (match ages with
       | Some a =>
           if (Ages.age_18_greater a >? 0)%Z
           then (1 - inject_Z (Ages.bio_age_17_ a)
                       / inject_Z (Ages.age_18_greater a)) * 100
           else 0
       | None => 0
       end) in
  let DBT_Risk :=
    clip 0 100
      (match ages with
       | Some a =>
           if (Ages.age_18_greater a >? 0)%Z
           then (1 - inject_Z (Ages.demo_age_17_ a)
                       / inject_Z (Ages.age_18_greater a)) * 100
           else 0
       | None => 0
       end) in
  let Scholarship_Risk :=
    clip 0 100 ((1 - Scored.YIR (Classified.scored r)) * 100) in
  let OTP_Risk :=
    clip 0 100
      (match ages with
       | Some a =>
           if (Ages.age_5_17 a >? 0)%Z
           then (inject_Z (int64_sub (Ages.age_5_17 a)
                                     (Ages.demo_age_5_17 a))
                 / inject_Z (Ages.age_5_17 a)) * 100
           else 0
       | None => 0
       end) in
  let Banking_Risk :=
    clip 0 100 (100 - Scored.Health_Score (Classified.scored r)) in
  Risk.mk r ages PDS_Risk DBT_Risk Scholarship_Risk OTP_Risk Banking_Risk
          ((PDS_Risk + DBT_Risk + Scholarship_Risk + OTP_Risk + Banking_Risk)
           / 5).

Definition calculate_problem_risks
  (state_data : list StateData.row) (metrics_df : list Classified.row)
  : list Risk.row :=
  map risk_row (merge_left_ages metrics_df state_data).

(** *** The stages on DataFrame objects

    [calculate_metrics] builds a new frame from a list of dicts, which
    no reference designates if the function raises.  The
    three stages after it start with [df = metrics_df.copy()] and assign
    their new columns to the copy; [calculate_problem_risks] rebinds
    [df] to the frame that the merge returns before it assigns. *)

Definition run_calculate_metrics (state_data district_data monthly_data : Ref)
  : M Ref :=
  sd <- deref state_data ;;
  dd <- deref district_data ;;
  md <- deref monthly_data ;;
  match sd, dd, md with
  | StateTable s, DistrictTable d, MonthlyTable m =>
      metrics_df <- lift (calculate_metrics s d m) ;;
      alloc (MetricsTable metrics_df)
  | _, _, _ => raise TypeError
  end.

Definition run_calculate_health_score (metrics_df : Ref) : M Ref :=
  df <- copy metrics_df ;;
  assign df (fun f =>
               match f with
               | MetricsTable t => inr (ScoredTable (calculate_health_score t))
               | _ => inl TypeError
               end) ;;;
  ret df.

Definition run_assign_archetypes (metrics_df : Ref) : M Ref :=
  df <- copy metrics_df ;;
  assign df (fun f =>
               match f with
               | ScoredTable t => inr (ClassifiedTable (assign_archetypes t))
               | _ => inl TypeError
               end) ;;;
  ret df.

Definition run_calculate_problem_risks (state_data metrics_df : Ref)
  : M Ref :=
  df <- copy metrics_df ;;
  sd <- deref state_data ;;
  f <- deref df ;;
  df <- match sd, f with
        | StateTable s, ClassifiedTable t =>
            alloc (MergedTable (merge_left_ages t s))
        | _, _ => raise TypeError
        end ;;
  assign df (fun f =>
               match f with
               | MergedTable t => inr (RiskTable (map risk_row t))
               | _ => inl TypeError
               end) ;;;
  ret df.

(** *** The pipeline: [main], up to the risk table

    The contents of the three CSV folders are the arguments. *)

Definition main (enrolment_csv : list Enrolment.record)
  (biometric_csv : list Biometric.record)
  (demographic_csv : list Demographic.record) : M Ref :=
  (* Load data *)
  enrolment <- alloc (Records (read_enrolment enrolment_csv)) ;;
  biometric <- alloc (Records (read_biometric biometric_csv)) ;;
  demographic <- alloc (Records (read_demographic demographic_csv)) ;;
  (* Preprocess *)
  p <- preprocess_data enrolment biometric demographic ;;
  let '(enrolment, biometric, demographic) := p in
  (* Aggregate *)
  state_data <- aggregate_by_state enrolment biometric demographic ;;
  district_data <- aggregate_by_district biometric demographic ;;
  monthly_data <- aggregate_by_month biometric demographic ;;
  (* Calculate metrics *)
  metrics_df <- run_calculate_metrics state_data district_data monthly_data ;;
  (* Calculate health score *)
  metrics_df <- run_calculate_health_score metrics_df ;;
  (* Assign archetypes *)
  metrics_df <- run_assign_archetypes metrics_df ;;
  (* Calculate problem-specific risks *)
  metrics_df <- run_calculate_problem_risks state_data metrics_df ;;
  ret metrics_df.

(** The table [main] returns, read back from the final store. *)
Definition run_main (enrolment_csv : list Enrolment.record)
  (biometric_csv : list Biometric.record)
  (demographic_csv : list Demographic.record) : Exc + list Risk.row :=
  match main enrolment_csv biometric_csv demographic_csv [] with
  | (inr r, s) =>
      match nth_error s r with
      | Some (RiskTable t) => inr t
      | _ => inl TypeError
      end
  | (inl e, _) => inl e
  end.

(** *** The standalone script

    [load_data], the body of the [try] for one file that [read_csv] has
    read: lower-case the column names and coerce the dates. *)

Section Standalone.

(** One cell of [pd.to_datetime(col, dayfirst=True)]. *)
Variable parse_dayfirst : string -> option Timestamp.
Variable str_lower : string -> string.

(** One cell of the column: NaT when the cell is missing or its text
    does not parse. *)
Definition coerce_cell (c : option string) : option Timestamp :=
  match c with Some s => parse_dayfirst s | None => None end.

Definition to_datetime_coerce (c : Column) : Exc + Column :=
  match c with
  | ColStr l => inr (ColDate (map coerce_cell l))
  | ColDate l => inr (ColDate l)
  | _ => inl TypeError
  end.

(** [df.columns = [c.lower() for c in df.columns]]. *)
Definition lower_columns (df : DataFrame) : DataFrame :=
  map (fun nc => (str_lower (fst nc), snd nc)) df.

Definition legacy_load_file (df : DataFrame) : Exc + DataFrame :=
  let df := lower_columns df in
  match get_col df "date" with
  | Some c =>
      match to_datetime_coerce c with
      | inr c' => inr (set_col df "date" c')
      | inl e => inl e
      end
  | None => inr df
  end.

(** [df_list]: a file whose [try] body raised is skipped. *)
Definition legacy_df_list (files : list (Exc + DataFrame)) : list DataFrame :=
  flat_map
    (fun f =>
       match f with
       | inr df =>
           match legacy_load_file df with inr d => [d] | inl _ => [] end
       | inl _ => []
       end)
    files.

End Standalone.

(** [main], the youth inclusion ratio: two sums of columns. *)
Definition legacy_youth_updates (r : MasterDf.row) : Z :=
  int64_add (MasterDf.bio_age_5_17 r) (MasterDf.demo_age_5_17 r).
Definition legacy_adult_updates (r : MasterDf.row) : Z :=
  int64_add (MasterDf.bio_age_17_ r) (MasterDf.demo_age_17_ r).

(** [Series.replace(0, 1)] on one cell. *)
Definition replace_0_1 (z : Z) : Z := if (z =? 0)%Z then 1%Z else z.

Definition legacy_state_youth_update_ratio (r : MasterDf.row) : Q :=
  inject_Z (legacy_youth_updates r)
  / inject_Z (replace_0_1 (legacy_adult_updates r)).

(** *** The statements of the specification

    The archetype cascade as the specification lists it: seven rules in
    priority order, each read only when every rule before it failed. *)

Definition rule1 (r : Scored.row) : Prop := Scored.YIR r < 0.6.
Definition rule2 (r : Scored.row) : Prop :=
  Scored.UBI r < 0.25 \/ 0.65 < Scored.UBI r.
Definition rule3 (r : Scored.row) : Prop := 0.6 < Scored.GCI r.
Definition rule4 (r : Scored.row) : Prop :=
  Scored.TCS r < 0.4 /\ Scored.Health_Score r < 40.
Definition rule5 (r : Scored.row) : Prop :=
  70 < Scored.Health_Score r /\ 0.6 < Scored.TCS r
  /\ Scored.GCI r < 0.4 /\ 0.8 < Scored.YIR r.
Definition rule6 (r : Scored.row) : Prop := 0.03 < Scored.IDI r.

Definition cascade (r : Scored.row) (archetype : string) : Prop :=
  (rule1 r -> archetype = "Excluded (Youth)"%string)
  /\ (~ rule1 r -> rule2 r ->
      archetype = "Excluded (Update Imbalance)"%string)
  /\ (~ rule1 r -> ~ rule2 r -> rule3 r ->
      archetype = "Excluded (Geographic)"%string)
  /\ (~ rule1 r -> ~ rule2 r -> ~ rule3 r -> rule4 r ->
      archetype = "Sleepwalker"%string)
  /\ (~ rule1 r -> ~ rule2 r -> ~ rule3 r -> ~ rule4 r -> rule5 r ->
      archetype = "Digital Leader"%string)
  /\ (~ rule1 r -> ~ rule2 r -> ~ rule3 r -> ~ rule4 r -> ~ rule5 r ->
      rule6 r -> archetype = "Sprinter"%string)
  /\ (~ rule1 r -> ~ rule2 r -> ~ rule3 r -> ~ rule4 r -> ~ rule5 r ->
      ~ rule6 r -> archetype = "Moderate"%string).

(** [y] is [x] clamped to the interval from 0 to 100. *)
Definition clamped_0_100 (x y : Q) : Prop :=
  (x < 0 /\ y == 0) \/ (0 <= x <= 100 /\ y == x) \/ (100 < x /\ y == 100).

(** The PDS and DBT risks of the risk row [r] are the clamped formulas
    over the counts of the state row [s], and 0 when [s] has no adult
    enrolment. *)
Definition pds_dbt_of (s : StateData.row) (r : Risk.row) : Prop :=
  ((0 < StateData.age_18_greater s)%Z ->
   clamped_0_100
     (100 * (1 - inject_Z (StateData.bio_age_17_ s)
                 / inject_Z (StateData.age_18_greater s)))
     (Risk.PDS_Risk r)
   /\ clamped_0_100
        (100 * (1 - inject_Z (StateData.demo_age_17_ s)
                    / inject_Z (StateData.age_18_greater s)))
        (Risk.DBT_Risk r))
  /\ ((StateData.age_18_greater s <= 0)%Z ->
      Risk.PDS_Risk r == 0 /\ Risk.DBT_Risk r == 0).

(** The state of a classified row. *)
Definition classified_state (c : Classified.row) : string :=
  Metrics.state (Scored.metrics (Classified.scored c)).

(** The unit interval and the percentage range. *)
Definition in_unit (x : Q) : Prop := 0 <= x <= 1.
Definition in_percent (x : Q) : Prop := 0 <= x <= 100.

(** Two arrays with equal entries, whatever fractions represent them. *)
Definition eqlistQ : list Q -> list Q -> Prop := Forall2 Qeq.

(** A list is ascending when each element is at most its successor. *)
Fixpoint ascending (l : list Q) : Prop :=
  match l with
  | [] => True
  | x :: t => match t with [] => True | y :: _ => x <= y end /\ ascending t
  end.

(** The five pillar scores and the health score of a row are
    percentages, and the health score is their weighted sum. *)
Definition scores_in_percent (s : Scored.row) : Prop :=
  in_percent (Scored.IDI_score s) /\ in_percent (Scored.UBI_score s)
  /\ in_percent (Scored.YIR_score s) /\ in_percent (Scored.GCI_score s)
  /\ in_percent (Scored.TCS_score s)
  /\ Scored.Health_Score s
     == 0.25 * Scored.IDI_score s + 0.25 * Scored.GCI_score s
        + 0.20 * Scored.TCS_score s + 0.20 * Scored.YIR_score s
        + 0.10 * Scored.UBI_score s
  /\ in_percent (Scored.Health_Score s).

(** UBI, GCI and TCS of a metrics row lie in the unit interval. *)
Definition pillars_in_unit (m : Metrics.row) : Prop :=
  in_unit (Metrics.UBI m) /\ in_unit (Metrics.GCI m)
  /\ in_unit (Metrics.TCS m).

(** A property of every value of a keyed frame, read through a cell
    that may be missing. *)
Definition cell {V : Type} (P : V -> Prop) (o : option V) : Prop :=
  match o with Some v => P v | None => True end.

(** Nonnegative counts, in a state row and in the input records. *)
Definition nonneg_state_row (r : StateData.row) : Prop :=
  (0 <= StateData.age_0_5 r /\ 0 <= StateData.age_5_17 r
   /\ 0 <= StateData.age_18_greater r /\ 0 <= StateData.total_enrolment r
   /\ 0 <= StateData.bio_age_5_17 r /\ 0 <= StateData.bio_age_17_ r
   /\ 0 <= StateData.total_bio r
   /\ 0 <= StateData.demo_age_5_17 r /\ 0 <= StateData.demo_age_17_ r
   /\ 0 <= StateData.total_demo r /\ 0 <= StateData.total_updates r)%Z.

Definition nonneg_enrolment (r : Enrolment.record) : Prop :=
  (0 <= Enrolment.age_0_5 r /\ 0 <= Enrolment.age_5_17 r
   /\ 0 <= Enrolment.age_18_greater r)%Z.
Definition nonneg_biometric (r : Biometric.record) : Prop :=
  (0 <= Biometric.bio_age_5_17 r /\ 0 <= Biometric.bio_age_17_ r)%Z.
Definition nonneg_demographic (r : Demographic.record) : Prop :=
  (0 <= Demographic.demo_age_5_17 r /\ 0 <= Demographic.demo_age_17_ r)%Z.

(** The tables of the pipeline as functions of the input records, the
    dates of the update records parsed. *)
Definition normalized (c : option string) : option string :=
  option_map (fun s => str_title (str_strip s)) c.

Definition add_columns (x y : list Z) : list Z :=
  map (fun p : Z * Z => int64_add (fst p) (snd p)) (combine x y).

Definition state_data_of (e : list Enrolment.record)
  (b : list Biometric.record) (d : list Demographic.record)
  : list StateData.row :=
  merge_state_data
    (groupby_enrol (map normalized (map Enrolment.state e))
       (map Enrolment.age_0_5 e) (map Enrolment.age_5_17 e)
       (map Enrolment.age_18_greater e)
       (add_columns (add_columns (map Enrolment.age_0_5 e)
                                 (map Enrolment.age_5_17 e))
                    (map Enrolment.age_18_greater e)))
    (groupby_bio (map normalized (map Biometric.state b))
       (map Biometric.bio_age_5_17 b) (map Biometric.bio_age_17_ b)
       (add_columns (map Biometric.bio_age_5_17 b)
                    (map Biometric.bio_age_17_ b)))
    (groupby_demo (map normalized (map Demographic.state d))
       (map Demographic.demo_age_5_17 d) (map Demographic.demo_age_17_ d)
       (add_columns (map Demographic.demo_age_5_17 d)
                    (map Demographic.demo_age_17_ d))).

Definition district_data_of (b : list Biometric.record)
  (d : list Demographic.record) : list DistrictData.row :=
  merge_district_data
    (groupby_total
       (dropna_keys
          (pair_keys (map normalized (map Biometric.state b))
                     (map normalized (map Biometric.district b)))
          (add_columns (map Biometric.bio_age_5_17 b)
                       (map Biometric.bio_age_17_ b))))
    (groupby_total
       (dropna_keys
          (pair_keys (map normalized (map Demographic.state d))
                     (map normalized (map Demographic.district d)))
          (add_columns (map Demographic.demo_age_5_17 d)
                       (map Demographic.demo_age_17_ d)))).

Definition monthly_data_of (b : list Biometric.record)
  (d : list Demographic.record) (tb td : list (option Timestamp))
  : list MonthlyData.row :=
  merge_monthly_data
    (groupby_total
       (dropna_keys
          (pair_keys (map normalized (map Biometric.state b))
                     (map (option_map to_period_M) tb))
          (add_columns (map Biometric.bio_age_5_17 b)
                       (map Biometric.bio_age_17_ b))))
    (groupby_total
       (dropna_keys
          (pair_keys (map normalized (map Demographic.state d))
                     (map (option_map to_period_M) td))
          (add_columns (map Demographic.demo_age_5_17 d)
                       (map Demographic.demo_age_17_ d)))).

Definition risk_table (sd : list StateData.row)
  (dd : list DistrictData.row) (md : list MonthlyData.row)
  : list Risk.row :=
  calculate_problem_risks sd
    (assign_archetypes (calculate_health_score (metrics_rows sd dd md))).

(** What the caller of a stage sees: every object of the store before
    the call is the same after it, and a returned reference designates
    an object that did not exist before. *)
Definition leaves_inputs_unchanged (m : M Ref) : Prop :=
  forall s r s',
    m s = (r, s') ->
    (forall i f, nth_error s i = Some f -> nth_error s' i = Some f)
    /\ (forall ref, r = inr ref ->
                    nth_error s ref = None
                    /\ exists f, nth_error s' ref = Some f).

(** [reads]: the computation leaves the store as it is.  [in_place]: it
    creates no object.  [returns x]: when it returns, it returns [x]. *)
Definition reads {A : Type} (m : M A) : Prop :=
  forall s, exists r, m s = (r, s).

Definition in_place {A : Type} (m : M A) : Prop :=
  forall s r s', m s = (r, s') -> length s' = length s.

Definition returns {A : Type} (x : A) (m : M A) : Prop :=
  forall s r s', m s = (inr r, s') -> r = x.

(** [touches_only l]: every object whose reference is not in [l] is the
    same before and after. *)
Definition touches_only {A : Type} (l : list Ref) (m : M A) : Prop :=
  forall s r s',
    m s = (r, s') ->
    forall i, ~ In i l -> nth_error s' i = nth_error s i.

(** Assertions on stores for the stages that may create objects and
    assign to the ones they created: from a store satisfying [P], the
    computation returns [a] in a store satisfying [Q a], or raises in a
    store satisfying [E]. *)
Definition triple {A : Type} (P : Store -> Prop) (m : M A)
  (Q : A -> Store -> Prop) (E : Store -> Prop) : Prop :=
  forall s, P s ->
            match m s with
            | (inr a, s') => Q a s'
            | (inl _, s') => E s'
            end.

(** The store [s] still begins with the objects of [old]. *)
Definition keeps (old s : Store) : Prop := exists rest, s = old ++ rest.

(** ... and [r] is one of the objects after them. *)
Definition created (old : Store) (r : Ref) (s : Store) : Prop :=
  keeps old s /\ (length old <= r < length s)%nat.

(** The stage creates its result and touches only what it created. *)
Definition fresh_result (m : M Ref) : Prop :=
  forall old, triple (keeps old) m (created old) (keeps old).

(** What [preprocess_data] has assigned in a frame [df], giving [df']:
    the 'date' column parsed, the 'month' column taken from it, the
    'state' and 'district' columns stripped and title-cased, the column
    [total] holding the sum of the columns [parts], and every other
    column as it was. *)
Definition sum_columns (cols : list (list Z)) : list Z :=
  match cols with
  | [] => []
  | c :: t => fold_left add_columns t c
  end.

Definition preprocessed (total : string) (parts : list string)
  (df df' : DataFrame) : Prop :=
  (exists c ts,
      get_col df "date" = Some c /\ to_datetime c = inr (ColDate ts)
      /\ get_col df' "date" = Some (ColDate ts)
      /\ get_col df' "month"
         = Some (ColPeriod (map (option_map to_period_M) ts)))
  /\ (exists c c',
        get_col df "state" = Some c /\ strip_title c = inr c'
        /\ get_col df' "state" = Some c')
  /\ (exists c c',
        get_col df "district" = Some c /\ strip_title c = inr c'
        /\ get_col df' "district" = Some c')
  /\ (exists cols,
        Forall2 (fun name c => get_col df name = Some (ColInt c)) parts cols
        /\ get_col df' total = Some (ColInt (sum_columns cols)))
  /\ (forall name,
        ~ In name ["date"; "month"; "state"; "district"; total]%string ->
        get_col df' name = get_col df name).

(** The three record frames are the objects [e], [b] and [d] of the
    store. *)
Definition record_frames (s : Store) (e b d : Ref)
  (de db dd : DataFrame) : Prop :=
  nth_error s e = Some (Records de) /\ nth_error s b = Some (Records db)
  /\ nth_error s d = Some (Records dd).

(** The date cells of all input records. *)
Definition all_dates (e : list Enrolment.record)
  (b : list Biometric.record) (d : list Demographic.record)
  : list (option string) :=
  map Enrolment.date e ++ map Biometric.date b ++ map Demographic.date d.

(** A date cell holds text that [pd.to_datetime] rejects; an empty cell
    does not. *)
Definition unparseable (c : option string) : Prop :=
  match c with Some s => strptime_dmY s = None | None => False end.

(** The text columns that [preprocess_data] strips and title-cases. *)
Definition name_columns (e : list Enrolment.record)
  (b : list Biometric.record) (d : list Demographic.record)
  : list (list (option string)) :=
  [ map Enrolment.state e; map Enrolment.district e;
    map Biometric.state b; map Biometric.district b;
    map Demographic.state d; map Demographic.district d ].

(** The value of a 64-bit integer: nothing is lost when it is held. *)
Definition in_int64 (z : Z) : Prop := (- 2 ^ 63 <= z < 2 ^ 63)%Z.

(** The counts of a record, signs left out, added up. *)
Definition enrolment_magnitude (r : Enrolment.record) : Z :=
  (Z.abs (Enrolment.age_0_5 r) + Z.abs (Enrolment.age_5_17 r)
   + Z.abs (Enrolment.age_18_greater r))%Z.
Definition biometric_magnitude (r : Biometric.record) : Z :=
  (Z.abs (Biometric.bio_age_5_17 r) + Z.abs (Biometric.bio_age_17_ r))%Z.
Definition demographic_magnitude (r : Demographic.record) : Z :=
  (Z.abs (Demographic.demo_age_5_17 r)
   + Z.abs (Demographic.demo_age_17_ r))%Z.

(** No sum overflows or is rounded: all counts of all records together
    stay below 2^53, so that every sum and difference the pipeline forms
    of them is held exactly, in an int64 column as in a float64 one. *)
Definition exact_counts (e : list Enrolment.record)
  (b : list Biometric.record) (d : list Demographic.record) : Prop :=
  (sumZ (map enrolment_magnitude e) + sumZ (map biometric_magnitude b)
   + sumZ (map demographic_magnitude d) < 2 ^ 53)%Z.

(** *** The aggregate tables, described by their rows

    The state of a record after [strip().title()], and the row that the
    state table holds for a state: every column is the sum of that column
    over the records of the state. *)

Definition enrolment_state (r : Enrolment.record) : option string :=
  normalized (Enrolment.state r).
Definition biometric_state (r : Biometric.record) : option string :=
  normalized (Biometric.state r).
Definition demographic_state (r : Demographic.record) : option string :=
  normalized (Demographic.state r).

Definition enrolment_total (r : Enrolment.record) : Z :=
  (Enrolment.age_0_5 r + Enrolment.age_5_17 r + Enrolment.age_18_greater r)%Z.
Definition biometric_total (r : Biometric.record) : Z :=
  (Biometric.bio_age_5_17 r + Biometric.bio_age_17_ r)%Z.
Definition demographic_total (r : Demographic.record) : Z :=
  (Demographic.demo_age_5_17 r + Demographic.demo_age_17_ r)%Z.

Definition state_row (e : list Enrolment.record) (b : list Biometric.record)
  (d : list Demographic.record) (k : string) : StateData.row :=
  StateData.mk k
    (records_sum enrolment_state Enrolment.age_0_5 e k)
    (records_sum enrolment_state Enrolment.age_5_17 e k)
    (records_sum enrolment_state Enrolment.age_18_greater e k)
    (records_sum enrolment_state enrolment_total e k)
    (records_sum biometric_state Biometric.bio_age_5_17 b k)
    (records_sum biometric_state Biometric.bio_age_17_ b k)
    (records_sum biometric_state biometric_total b k)
    (records_sum demographic_state Demographic.demo_age_5_17 d k)
    (records_sum demographic_state Demographic.demo_age_17_ d k)
    (records_sum demographic_state demographic_total d k)
    (records_sum biometric_state biometric_total b k
     + records_sum demographic_state demographic_total d k)%Z.

(** The states of all records of the three datasets that have one. *)
Definition all_states (e : list Enrolment.record) (b : list Biometric.record)
  (d : list Demographic.record) : list string :=
  present (map enrolment_state e) ++ present (map biometric_state b)
  ++ present (map demographic_state d).

(** The key of an update record in the district table and in the monthly
    table, for a date column that has parsed. *)
Definition parse_cell (c : option string) : option Timestamp :=
  match c with Some s => strptime_dmY s | None => None end.

Definition biometric_district (r : Biometric.record)
  : option (string * string) :=
  pair_key (biometric_state r) (normalized (Biometric.district r)).
Definition demographic_district (r : Demographic.record)
  : option (string * string) :=
  pair_key (demographic_state r) (normalized (Demographic.district r)).
Definition biometric_month (r : Biometric.record)
  : option (string * Period) :=
  pair_key (biometric_state r)
           (option_map to_period_M (parse_cell (Biometric.date r))).
Definition demographic_month (r : Demographic.record)
  : option (string * Period) :=
  pair_key (demographic_state r)
           (option_map to_period_M (parse_cell (Demographic.date r))).

(** The state of an update record whose date cell is empty, and of one
    whose district cell is. *)
Definition undated_biometric (r : Biometric.record) : option string :=
  match Biometric.date r with Some _ => None | None => biometric_state r end.
Definition undated_demographic (r : Demographic.record) : option string :=
  match Demographic.date r with
  | Some _ => None
  | None => demographic_state r
  end.
Definition unlocated_biometric (r : Biometric.record) : option string :=
  match Biometric.district r with
  | Some _ => None
  | None => biometric_state r
  end.
Definition unlocated_demographic (r : Demographic.record) : option string :=
  match Demographic.district r with
  | Some _ => None
  | None => demographic_state r
  end.

(** The state of a record that has a second key as well. *)
Definition state_of_pair {B : Type} (k : option (string * B))
  : option string :=
  option_map fst k.

(** The first half of [main]: load, preprocess, aggregate. *)
Definition aggregates (enrolment_csv : list Enrolment.record)
  (biometric_csv : list Biometric.record)
  (demographic_csv : list Demographic.record) : M (Ref * Ref * Ref) :=
  enrolment <- alloc (Records (read_enrolment enrolment_csv)) ;;
  biometric <- alloc (Records (read_biometric biometric_csv)) ;;
  demographic <- alloc (Records (read_demographic demographic_csv)) ;;
  p <- preprocess_data enrolment biometric demographic ;;
  let '(enrolment, biometric, demographic) := p in
  state_data <- aggregate_by_state enrolment biometric demographic ;;
  district_data <- aggregate_by_district biometric demographic ;;
  monthly_data <- aggregate_by_month biometric demographic ;;
  ret (state_data, district_data, monthly_data).

(** The three tables it returns, read back from the final store. *)
Definition run_aggregates (enrolment_csv : list Enrolment.record)
  (biometric_csv : list Biometric.record)
  (demographic_csv : list Demographic.record)
  : Exc + (list StateData.row * list DistrictData.row
           * list MonthlyData.row) :=
  match aggregates enrolment_csv biometric_csv demographic_csv [] with
  | (inr (sd, dd, md), s) =>
      match nth_error s sd, nth_error s dd, nth_error s md with
      | Some (StateTable ts), Some (DistrictTable td),
        Some (MonthlyTable tm) => inr (ts, td, tm)
      | _, _, _ => inl TypeError
      end
  | (inl x, _) => inl x
  end.

(** The rows of the district table and of the monthly table that
    [calculate_metrics] selects for a state. *)
Definition state_districts (district_data : list DistrictData.row)
  (state : string) : list DistrictData.row :=
  filter (fun d => String.eqb (DistrictData.state d) state) district_data.

Definition state_monthly (monthly_data : list MonthlyData.row)
  (state : string) : list MonthlyData.row :=
  filter (fun m => String.eqb (MonthlyData.state m) state) monthly_data.

(** The state of a row of the final table. *)
Definition risk_state (r : Risk.row) : string :=
  Metrics.state (Scored.metrics (Classified.scored (Risk.classified r))).

(** The number of districts of a state that have updates. *)
Definition active_districts (district_data : list DistrictData.row)
  (state : string) : nat :=
  length (filter (fun d => (0 <? DistrictData.total_updates d)%Z)
                 (state_districts district_data state)).

(** *** The standalone script: [master_df] and [main] *)

(** [master_df] after the two outer merges, [fillna(0)] and the filter
    [total_enrol > 100]; the rows are those of the engine's state table
    ([total_enrolment] for [total_enrol]; [total_updates] is not read). *)
Definition legacy_master_df (enrol_df : list Enrolment.record)
  (bio_df : list Biometric.record) (demo_df : list Demographic.record)
  : list StateData.row :=
  filter (fun r => (StateData.total_enrolment r >? 100)%Z)
         (merge_state_data
            (legacy_enrol_state (map Enrolment.state enrol_df)
               (map Enrolment.age_0_5 enrol_df)
               (map Enrolment.age_5_17 enrol_df)
               (map Enrolment.age_18_greater enrol_df))
            (legacy_bio_state (map Biometric.state bio_df)
               (map Biometric.bio_age_5_17 bio_df)
               (map Biometric.bio_age_17_ bio_df))
            (legacy_demo_state (map Demographic.state demo_df)
               (map Demographic.demo_age_5_17 demo_df)
               (map Demographic.demo_age_17_ demo_df))).

(** [main] from the three loaded frames to the classified [master_df];
    [None] when it returns early because a frame is empty. *)
Definition legacy_main (enrol_df : list Enrolment.record)
  (bio_df : list Biometric.record) (demo_df : list Demographic.record)
  : option (list (Master.row * string)) :=
  match enrol_df, bio_df, demo_df with
  | [], _, _ | _, [], _ | _, _, [] => None
  | _, _, _ =>
      let master_df := legacy_master_df enrol_df bio_df demo_df in
      let national_enrol :=
        int64_sum (map StateData.total_enrolment master_df) in
      let national_bio := int64_sum (map StateData.total_bio master_df) in
      let national_demo := int64_sum (map StateData.total_demo master_df) in
      let enrol_share := map (legacy_enrol_share national_enrol) master_df in
      let update_share :=
        map (legacy_update_share national_bio national_demo) master_df in
      let IDI :=
        map (fun p => fsub (fst p) (snd p)) (combine enrol_share update_share)
      in
      let UBI := map legacy_UBI master_df in
      let national_youth_update_ratio :=
        fdiv (fZ (int64_sum (map legacy_row_youth_updates master_df)))
             (fZ (int64_sum (map legacy_row_adult_updates master_df))) in
      let YIR := map (legacy_YIR national_youth_update_ratio) master_df in
      let s_idi := map (fsub (Finite 1)) (normalize (map fabs IDI)) in
      let s_ubi :=
        map (fun u => fsub (Finite 1)
                           (fmul (Finite 2) (fabs (fsub (Finite 0.5) u))))
            UBI in
      let s_yir := normalize YIR in
      let Health_Score :=
        map (fun p =>
               let '(i, u, y) := p in
               fmul (fadd (fadd (fmul (Finite 0.4) i) (fmul (Finite 0.3) u))
                          (fmul (Finite 0.3) y))
                    (Finite 100))
            (combine (combine s_idi s_ubi) s_yir) in
      let rows :=
        map (fun p =>
               let '(r, es, us, idi, ubi, yir, h) := p in
               Master.mk r es us idi ubi (legacy_row_youth_updates r)
                         (legacy_row_adult_updates r) yir (legacy_EMI r) h)
            (combine
               (combine
                  (combine
                     (combine (combine (combine master_df enrol_share)
                                       update_share) IDI) UBI) YIR)
               Health_Score) in
      Some (map (fun row => (row, get_archetype row)) rows)
  end.

(** The rows of [legacy_main], state by state. *)
Definition legacy_IDI (national_enrol national_bio national_demo : Z)
  (r : StateData.row) : float64 :=
  fsub (legacy_enrol_share national_enrol r)
       (legacy_update_share national_bio national_demo r).

Definition normalize_cell (series : list float64) (x : float64) : float64 :=
  fdiv (fsub x (fseries_min series))
       (fsub (fseries_max series) (fseries_min series)).

Definition legacy_health (s_idi s_ubi s_yir : float64) : float64 :=
  fmul (fadd (fadd (fmul (Finite 0.4) s_idi) (fmul (Finite 0.3) s_ubi))
             (fmul (Finite 0.3) s_yir))
       (Finite 100).

Definition legacy_s_ubi (u : float64) : float64 :=
  fsub (Finite 1) (fmul (Finite 2) (fabs (fsub (Finite 0.5) u))).

Definition legacy_row (master_df : list StateData.row) (r : StateData.row)
  : Master.row :=
  let national_enrol :=
    int64_sum (map StateData.total_enrolment master_df) in
  let national_bio := int64_sum (map StateData.total_bio master_df) in
  let national_demo := int64_sum (map StateData.total_demo master_df) in
  let idi := legacy_IDI national_enrol national_bio national_demo in
  let ratio :=
    fdiv (fZ (int64_sum (map legacy_row_youth_updates master_df)))
         (fZ (int64_sum (map legacy_row_adult_updates master_df))) in
  Master.mk r (legacy_enrol_share national_enrol r)
    (legacy_update_share national_bio national_demo r)
    (idi r) (legacy_UBI r)
    (legacy_row_youth_updates r) (legacy_row_adult_updates r)
    (legacy_YIR ratio r) (legacy_EMI r)
    (legacy_health
       (fsub (Finite 1)
             (normalize_cell (map (fun x => fabs (idi x)) master_df)
                             (fabs (idi r))))
       (legacy_s_ubi (legacy_UBI r))
       (normalize_cell (map (legacy_YIR ratio) master_df)
                       (legacy_YIR ratio r))).

(** What a float can be at the end of [main]. *)
Definition nan_or_between (lo hi : Q) (x : float64) : Prop :=
  match x with
  | NaN => True
  | Finite q => lo <= q <= hi
  | _ => False
  end.

Definition legacy_labels : list string :=
  [ "Digital Leader"; "Sprinter (High Growth, Lagging Infra)";
    "Struggling (Infra Deficit)"; "Exclusion Zone (Youth Left Behind)";
    "Biometric Laggard"; "Sleepwalker (Low Activity)" ]%string.

Definition finite_or_nan (x : float64) : Prop :=
  match x with Finite _ | NaN => True | _ => False end.

Definition legacy_master_row (r : StateData.row) : Prop :=
  (0 <= StateData.age_0_5 r /\ 0 <= StateData.age_5_17 r
   /\ 0 <= StateData.age_18_greater r /\ 0 <= StateData.total_enrolment r
   /\ 0 <= StateData.bio_age_5_17 r /\ 0 <= StateData.bio_age_17_ r
   /\ 0 <= StateData.total_bio r
   /\ 0 <= StateData.demo_age_5_17 r /\ 0 <= StateData.demo_age_17_ r
   /\ 0 <= StateData.total_demo r)%Z
  /\ (100 < StateData.total_enrolment r)%Z.

(** The row of [master_df] for a state, before the filter: the sums
    over the records of the state, the states as they are in the
    files. *)
Definition legacy_states (e : list Enrolment.record)
  (b : list Biometric.record) (d : list Demographic.record) : list string :=
  present (map Enrolment.state e) ++ present (map Biometric.state b)
  ++ present (map Demographic.state d).

Definition legacy_state_row (e : list Enrolment.record)
  (b : list Biometric.record) (d : list Demographic.record) (k : string)
  : StateData.row :=
  StateData.mk k
    (records_sum Enrolment.state Enrolment.age_0_5 e k)
    (records_sum Enrolment.state Enrolment.age_5_17 e k)
    (records_sum Enrolment.state Enrolment.age_18_greater e k)
    (records_sum Enrolment.state enrolment_total e k)
    (records_sum Biometric.state Biometric.bio_age_5_17 b k)
    (records_sum Biometric.state Biometric.bio_age_17_ b k)
    (records_sum Biometric.state biometric_total b k)
    (records_sum Demographic.state Demographic.demo_age_5_17 d k)
    (records_sum Demographic.state Demographic.demo_age_17_ d k)
    (records_sum Demographic.state demographic_total d k)
    (records_sum Biometric.state biometric_total b k
     + records_sum Demographic.state demographic_total d k)%Z.

(** A [master_df] whose column sums stay far below 2^63. *)
Definition legacy_small (m : list StateData.row) : Prop :=
  Forall legacy_master_row m
  /\ (sumZ (map StateData.total_enrolment m) < 2 ^ 62)%Z
  /\ (sumZ (map StateData.total_bio m)
      + sumZ (map StateData.total_demo m) < 2 ^ 62)%Z
  /\ (sumZ (map StateData.bio_age_5_17 m)
      + sumZ (map StateData.demo_age_5_17 m) < 2 ^ 62)%Z
  /\ (sumZ (map StateData.bio_age_17_ m)
      + sumZ (map StateData.demo_age_17_ m) < 2 ^ 62)%Z.

(** The three totals of a row of [master_df] are int64 values. *)
Definition int64_totals (r : StateData.row) : Prop :=
  in_int64 (StateData.total_enrolment r)
  /\ in_int64 (StateData.total_bio r) /\ in_int64 (StateData.total_demo r).

(** A state row without any update. *)
Definition no_updates (r : StateData.row) : Prop :=
  StateData.bio_age_5_17 r = 0%Z /\ StateData.bio_age_17_ r = 0%Z
  /\ StateData.total_bio r = 0%Z /\ StateData.demo_age_5_17 r = 0%Z
  /\ StateData.demo_age_17_ r = 0%Z /\ StateData.total_demo r = 0%Z.

Definition zero_bio (a : StateBio.agg) : Prop :=
  StateBio.bio_age_5_17 a = 0%Z /\ StateBio.bio_age_17_ a = 0%Z
  /\ StateBio.total_bio a = 0%Z.
Definition zero_demo (a : StateDemo.agg) : Prop :=
  StateDemo.demo_age_5_17 a = 0%Z /\ StateDemo.demo_age_17_ a = 0%Z
  /\ StateDemo.total_demo a = 0%Z.

(** ** Properties *)

(** *** Order and arithmetic helpers *)

Lemma Qltb_lt (x y : Q) : Qltb x y = true <-> x < y.
Proof.
  unfold Qltb. rewrite negb_true_iff. split; intro H.
  - apply Qnot_le_lt. intro L. apply Qle_bool_iff in L. congruence.
  - destruct (Qle_bool y x) eqn:E; [|reflexivity].
    apply Qle_bool_iff in E. lra.
Qed.

Lemma Qltb_ge (x y : Q) : Qltb x y = false <-> y <= x.
Proof.
  unfold Qltb. rewrite negb_false_iff. apply Qle_bool_iff.
Qed.

(** Turns every boolean comparison of the context into its proposition. *)
Ltac qprops :=
  repeat match goal with
         | H : Qltb _ _ = true |- _ => apply Qltb_lt in H
         | H : Qltb _ _ = false |- _ => apply Qltb_ge in H
         | H : Qle_bool _ _ = true |- _ => apply Qle_bool_iff in H
         | H : (_ && _)%bool = true |- _ =>
             apply andb_true_iff in H; destruct H
         | H : (_ || _)%bool = false |- _ =>
             apply orb_false_iff in H; destruct H
         | H : (_ && _)%bool = false |- _ =>
             apply andb_false_iff in H; destruct H
         end.

(** *** 64-bit integers *)

Lemma wrap64_small (z : Z) : in_int64 z -> wrap64 z = z.
Proof.
  unfold in_int64, wrap64. intro H.
  rewrite Z.mod_small by lia. lia.
Qed.

Lemma wrap64_in_int64 (z : Z) : in_int64 (wrap64 z).
Proof.
  unfold in_int64, wrap64.
  pose proof (Z.mod_pos_bound (z + 2 ^ 63) (2 ^ 64) eq_refl). lia.
Qed.

Lemma wrap64_0 : wrap64 0 = 0%Z.
Proof. reflexivity. Qed.

(** Values below 2^53 in absolute value are held by an int64. *)
Lemma in_int64_below (z m : Z) :
  (Z.abs z <= m)%Z -> (m < 2 ^ 53)%Z -> in_int64 z.
Proof. unfold in_int64. lia. Qed.

(** *** The archetype cascade *)

(** Closes the branch of a rule that fired: its own conjunct holds by
    computation, every other one has a premise the context refutes. *)
Ltac cascade_branch :=
  repeat split; intros; try reflexivity; exfalso; intuition lra.

Lemma classify_archetype_rule1 (row : Scored.row) :
  rule1 row -> classify_archetype row = "Excluded (Youth)"%string.
Proof.
  unfold rule1, classify_archetype. intro H.
  apply Qltb_lt in H. rewrite H. reflexivity.
Qed.

Lemma classify_archetype_closed (row : Scored.row) :
  In (classify_archetype row) (map fst archetype_symbol).
Proof.
  unfold classify_archetype.
  repeat match goal with
         | |- context [if ?b then _ else _] => destruct b
         end;
    cbn; tauto.
Qed.

(** C1.  The classifier is the seven-rule cascade in its fixed order, the
    first rule that matches deciding the label; in particular a row with
    YIR below 0.6 is labelled "Excluded (Youth)" whatever its other
    metrics are.  The label is always one of the seven of the symbol
    table. *)
Theorem classify_archetype_cascade :
  (forall row : Scored.row, cascade row (classify_archetype row))
  /\ (forall row : Scored.row,
        Scored.YIR row < 0.6 ->
        classify_archetype row = "Excluded (Youth)"%string)
  /\ (forall row : Scored.row,
        In (classify_archetype row) (map fst archetype_symbol)).
Proof.
  split; [|split; [exact classify_archetype_rule1
                  |exact classify_archetype_closed]].
  intro row.
  unfold cascade, rule1, rule2, rule3, rule4, rule5, rule6,
    classify_archetype.
  destruct (Qltb (Scored.YIR row) 0.6) eqn:E1;
    [qprops; cascade_branch|].
  destruct (Qltb (Scored.UBI row) 0.25 || Qltb 0.65 (Scored.UBI row))
    eqn:E2;
    [apply orb_true_iff in E2; destruct E2; qprops; cascade_branch|].
  destruct (Qltb 0.6 (Scored.GCI row)) eqn:E3;
    [qprops; cascade_branch|].
  destruct (Qltb (Scored.TCS row) 0.4
            && Qltb (Scored.Health_Score row) 40) eqn:E4;
    [qprops; cascade_branch|].
  destruct (Qltb 70 (Scored.Health_Score row)
            && Qltb 0.6 (Scored.TCS row)
            && Qltb (Scored.GCI row) 0.4
            && Qltb 0.8 (Scored.YIR row)) eqn:E5;
    [qprops; cascade_branch|].
  destruct (Qltb 0.03 (Scored.IDI row)) eqn:E6;
    [qprops; cascade_branch|].
  qprops; cascade_branch.
Qed.

(** *** Sorting *)

Lemma eqlistQ_refl (l : list Q) : eqlistQ l l.
Proof. induction l; constructor; auto. reflexivity. Qed.

Lemma eqlistQ_trans (l1 l2 l3 : list Q) :
  eqlistQ l1 l2 -> eqlistQ l2 l3 -> eqlistQ l1 l3.
Proof.
  intro H. revert l3. induction H as [|x y s t Hxy Hst IH]; intros l3 H3.
  - assumption.
  - inversion H3 as [|y' z t' u Hyz Htu]; subst. constructor.
    + rewrite Hxy. assumption.
    + apply IH. assumption.
Qed.

Lemma length_insert_sorted (x : Q) (l : list Q) :
  length (insert_sorted x l) = S (length l).
Proof.
  induction l as [|y t IH]; simpl; [reflexivity|].
  destruct (Qle_bool x y); simpl; auto.
Qed.

Lemma length_np_sort (l : list Q) : length (np_sort l) = length l.
Proof.
  induction l; simpl; [reflexivity|]. rewrite length_insert_sorted. auto.
Qed.

Lemma insert_sorted_Permutation (x : Q) (l : list Q) :
  Permutation (x :: l) (insert_sorted x l).
Proof.
  induction l as [|y t IH]; simpl; [apply Permutation_refl|].
  destruct (Qle_bool x y); [apply Permutation_refl|].
  eapply perm_trans; [apply perm_swap|]. apply perm_skip, IH.
Qed.

Lemma np_sort_Permutation (l : list Q) : Permutation l (np_sort l).
Proof.
  induction l as [|x t IH]; simpl; [constructor|].
  eapply perm_trans; [apply perm_skip, IH|]. apply insert_sorted_Permutation.
Qed.

Lemma Forall_np_sort (P : Q -> Prop) (l : list Q) :
  Forall P l -> Forall P (np_sort l).
Proof.
  intro H. eapply Permutation_Forall; [apply np_sort_Permutation|assumption].
Qed.

Lemma insert_sorted_ascending (x : Q) (l : list Q) :
  ascending l -> ascending (insert_sorted x l).
Proof.
  induction l as [|y t IH]; intro H.
  - simpl. auto.
  - cbn [insert_sorted]. destruct (Qle_bool x y) eqn:E.
    + apply Qle_bool_iff in E. split; assumption.
    + assert (L : y < x)
        by (apply Qltb_lt; unfold Qltb; rewrite E; reflexivity).
      destruct H as [Hy Ht]. specialize (IH Ht).
      split; [|assumption].
      destruct t as [|z u]; cbn [insert_sorted].
      * lra.
      * destruct (Qle_bool x z); [lra|assumption].
Qed.

Lemma np_sort_ascending (l : list Q) : ascending (np_sort l).
Proof.
  induction l as [|x t IH]; [exact I|]. apply insert_sorted_ascending, IH.
Qed.

Lemma insert_sorted_eqlistQ (x x' : Q) (l l' : list Q) :
  x == x' -> eqlistQ l l' ->
  eqlistQ (insert_sorted x l) (insert_sorted x' l').
Proof.
  intros Hx H. induction H as [|y y' t t' Hy Ht IH]; cbn [insert_sorted].
  - constructor; [assumption|constructor].
  - rewrite (Qleb_comp x x' Hx y y' Hy).
    destruct (Qle_bool x' y').
    + constructor; [assumption|]. constructor; assumption.
    + constructor; assumption.
Qed.

Ltac qleb_split :=
  repeat (match goal with
          | |- context [Qle_bool ?a ?b] =>
              lazymatch goal with
              | H : Qle_bool a b = _ |- _ => rewrite H
              | _ => destruct (Qle_bool a b) eqn:?
              end
          end; cbn [insert_sorted]).

Ltac qleb_facts :=
  repeat match goal with
         | H : Qle_bool _ _ = true |- _ => apply Qle_bool_iff in H
         | H : Qle_bool ?a ?b = false |- _ =>
             assert (b < a)
               by (apply Qltb_lt; unfold Qltb; rewrite H; reflexivity);
             clear H
         end.

(** Inserting two values in either order gives the same array, up to
    the representation of equal rationals. *)
Lemma insert_sorted_swap (x y : Q) (l : list Q) :
  eqlistQ (insert_sorted x (insert_sorted y l))
          (insert_sorted y (insert_sorted x l)).
Proof.
  induction l as [|z t IH]; cbn [insert_sorted]; qleb_split; qleb_facts;
    try (exfalso; lra);
    repeat (constructor; try lra);
    try apply eqlistQ_refl; try apply IH.
Qed.

Lemma np_sort_respects_Permutation (l l' : list Q) :
  Permutation l l' -> eqlistQ (np_sort l) (np_sort l').
Proof.
  induction 1 as [|x l l' HP IH|x y l|l1 l2 l3 H12 IH12 H23 IH23];
    cbn [np_sort fold_right].
  - constructor.
  - apply insert_sorted_eqlistQ; [reflexivity|assumption].
  - apply insert_sorted_swap.
  - eapply eqlistQ_trans; eassumption.
Qed.

(** *** Sums *)

Lemma np_sum_eqlistQ (l l' : list Q) : eqlistQ l l' -> np_sum l == np_sum l'.
Proof.
  induction 1 as [|x y s t Hxy Hst IH]; cbn [np_sum]; [reflexivity|].
  rewrite Hxy, IH. reflexivity.
Qed.

Lemma np_mul_eqlistQ (r l l' : list Q) :
  eqlistQ l l' -> eqlistQ (np_mul r l) (np_mul r l').
Proof.
  intro H. revert r. unfold np_mul.
  induction H as [|x y s t Hxy Hst IH]; intros [|a r];
    cbn [combine map fst snd]; try constructor.
  - rewrite Hxy. reflexivity.
  - apply IH.
Qed.

Lemma last_cumsum_from (acc x : Q) (t : list Q) (d : Q) :
  last (cumsum_from acc (x :: t)) d == acc + np_sum (x :: t).
Proof.
  revert acc x. induction t as [|y t IH]; intros acc x.
  - simpl. lra.
  - change (cumsum_from acc (x :: y :: t))
      with ((acc + x) :: cumsum_from (acc + x) (y :: t)).
    change (last ((acc + x) :: cumsum_from (acc + x) (y :: t)) d)
      with (last (cumsum_from (acc + x) (y :: t)) d).
    rewrite IH. cbn [np_sum]. lra.
Qed.

(** [cumsum[-1]] is the sum of the array. *)
Lemma last_np_cumsum (l : list Q) : last (np_cumsum l) 0 == np_sum l.
Proof.
  destruct l as [|x t]; [reflexivity|].
  unfold np_cumsum. rewrite last_cumsum_from. lra.
Qed.

Lemma np_sum_const (c : Q) (l : list Q) :
  Forall (fun x => x == c) l ->
  np_sum l == inject_Z (Z.of_nat (length l)) * c.
Proof.
  induction 1 as [|x t Hx Ht IH].
  - simpl. change (inject_Z 0) with 0. ring.
  - cbn [np_sum length]. rewrite IH, Hx, Nat2Z.inj_succ. unfold Z.succ.
    rewrite inject_Z_plus. change (inject_Z 1) with 1. ring.
Qed.

Lemma np_arange_cons (a b : Z) :
  (a < b)%Z -> np_arange a b = inject_Z a :: np_arange (a + 1) b.
Proof.
  intro H. unfold np_arange.
  replace (Z.to_nat (b - a)) with (S (Z.to_nat (b - (a + 1)))) by lia.
  cbn [seq map]. f_equal.
  - f_equal. lia.
  - rewrite <- seq_shift, map_map. apply map_ext. intro i. f_equal. lia.
Qed.

Lemma np_arange_nil (a b : Z) : (b <= a)%Z -> np_arange a b = [].
Proof.
  intro H. unfold np_arange.
  replace (Z.to_nat (b - a)) with 0%nat by lia. reflexivity.
Qed.

(** The rank-weighted sum of [n] copies of [c], ranks starting at [a]. *)
Lemma ranked_sum_const (c : Q) (l : list Q) :
  Forall (fun x => x == c) l ->
  forall a : Z,
    2 * np_sum (np_mul (np_arange a (a + Z.of_nat (length l))) l)
    == inject_Z (Z.of_nat (length l))
       * (2 * inject_Z a + inject_Z (Z.of_nat (length l)) - 1) * c.
Proof.
  induction 1 as [|x t Hx Ht IH]; intro a.
  - simpl. rewrite np_arange_nil by lia. simpl.
    change (inject_Z 0) with 0. ring.
  - cbn [length]. rewrite np_arange_cons by lia.
    replace (a + Z.of_nat (S (length t)))%Z
      with ((a + 1) + Z.of_nat (length t))%Z by lia.
    unfold np_mul. cbn [combine map np_sum fst snd].
    fold (np_mul (np_arange (a + 1) (a + 1 + Z.of_nat (length t))) t).
    assert (E := IH (a + 1)%Z).
    rewrite Nat2Z.inj_succ. unfold Z.succ. rewrite !inject_Z_plus in *.
    rewrite Hx. change (inject_Z 1) with 1 in *. nra.
Qed.

(** *** The Gini coefficient *)

Lemma filter_positive_idem (l : list Q) :
  filter positive (filter positive l) = filter positive l.
Proof.
  induction l as [|x t IH]; simpl; [reflexivity|].
  destruct (positive x) eqn:E; simpl; rewrite ?E, IH; reflexivity.
Qed.

Lemma filter_positive_all (l : list Q) :
  Forall (fun x => 0 < x) l -> filter positive l = l.
Proof.
  induction 1 as [|x t Hx Ht IH]; simpl; [reflexivity|].
  rewrite IH. replace (positive x) with true; [reflexivity|].
  symmetry. apply Qltb_lt. assumption.
Qed.

Lemma calculate_gini_clamped (values : list Q) :
  0 <= calculate_gini values <= 1.
Proof.
  unfold calculate_gini.
  destruct (length (filter positive values) <? 2)%nat; [lra|].
  cbv zeta. split.
  - apply Q.le_max_l.
  - apply Q.max_lub; [lra|apply Q.le_min_l].
Qed.

Lemma calculate_gini_few (values : list Q) :
  (length (filter positive values) < 2)%nat -> calculate_gini values = 0.
Proof.
  intro H. unfold calculate_gini.
  apply Nat.ltb_lt in H. rewrite H. reflexivity.
Qed.

Lemma calculate_gini_all_equal (values : list Q) (c : Q) :
  0 < c -> (2 <= length values)%nat -> Forall (fun v => v == c) values ->
  calculate_gini values == 0.
Proof.
  intros Hc Hn Hall. unfold calculate_gini.
  rewrite filter_positive_all.
  2:{ eapply Forall_impl; [|exact Hall]. cbv beta. intros a Ha. lra. }
  destruct (Nat.ltb_spec (length values) 2) as [L|L]; [lia|].
  cbv zeta. set (s := np_sort values).
  assert (Hs : Forall (fun x => x == c) s)
    by (apply Forall_np_sort; assumption).
  assert (Hl : length s = length values) by apply length_np_sort.
  rewrite last_np_cumsum, (np_sum_const c s Hs).
  assert (R := ranked_sum_const c s Hs 1%Z).
  replace (Z.of_nat (length s) + 1)%Z with (1 + Z.of_nat (length s))%Z
    by lia.
  rewrite R. set (n := inject_Z (Z.of_nat (length s))).
  assert (Hn2 : 2 <= n).
  { unfold n. rewrite Hl. change 2 with (inject_Z 2).
    rewrite <- Zle_Qle. lia. }
  change (inject_Z 1) with 1.
  assert (G : n * (2 * 1 + n - 1) * c / (n * (n * c)) - (n + 1) / n == 0).
  { field. split; lra. }
  rewrite G. reflexivity.
Qed.

Lemma calculate_gini_binary64_few (np_sum64 : list binary64 -> binary64)
  (values : list binary64) :
  (length (filter b64_positive values) < 2)%nat ->
  calculate_gini_binary64 np_sum64 values = b64_of_Z 0.
Proof.
  intro H. unfold calculate_gini_binary64.
  apply Nat.ltb_lt in H. rewrite H. reflexivity.
Qed.

(** C5, as the code has it.  The Gini computation looks only at the
    positive entries; with fewer than two of them it returns 0, in
    float64 as in exact arithmetic.  On two or more positive entries that
    are all equal the formula over the ascending sort is
    (n+1)/n - (n+1)/n: in exact arithmetic the result is 0, which the
    clamp leaves at 0. *)
Theorem calculate_gini_degenerate :
  (forall values : list Q,
      calculate_gini values = calculate_gini (filter positive values))
  /\ (forall values : list Q,
        (length (filter positive values) < 2)%nat ->
        calculate_gini values = 0)
  /\ (forall (np_sum64 : list binary64 -> binary64)
             (values : list binary64),
        (length (filter b64_positive values) < 2)%nat ->
        calculate_gini_binary64 np_sum64 values = b64_of_Z 0)
  /\ (forall (values : list Q) (c : Q),
        0 < c -> (2 <= length values)%nat ->
        Forall (fun v => v == c) values ->
        calculate_gini values == 0)
  /\ (forall values : list Q,
        (2 <= length (filter positive values))%nat ->
        let sorted := np_sort (filter positive values) in
        let n := inject_Z (Z.of_nat (length sorted)) in
        ascending sorted
        /\ Permutation (filter positive values) sorted
        /\ calculate_gini values
           == Qmax 0 (Qmin 1
                ((2 * np_sum (np_mul (np_arange 1 (Z.of_nat (length sorted) + 1))
                                     sorted))
                 / (n * np_sum sorted) - (n + 1) / n))).
Proof.
  split; [|split; [|split; [|split]]].
  - intro values. unfold calculate_gini.
    rewrite filter_positive_idem. reflexivity.
  - exact calculate_gini_few.
  - exact calculate_gini_binary64_few.
  - exact calculate_gini_all_equal.
  - intros values H sorted n. split; [apply np_sort_ascending|].
    split; [apply np_sort_Permutation|].
    unfold calculate_gini.
    destruct (Nat.ltb_spec (length (filter positive values)) 2) as [L|L];
      [lia|].
    cbv zeta. fold sorted. rewrite last_np_cumsum. reflexivity.
Qed.

Lemma Permutation_filter_Q (f : Q -> bool) (l l' : list Q) :
  Permutation l l' -> Permutation (filter f l) (filter f l').
Proof.
  induction 1 as [|x l l' HP IH|x y l|l1 l2 l3 H12 IH12 H23 IH23]; simpl.
  - constructor.
  - destruct (f x); [constructor|]; assumption.
  - destruct (f x), (f y); try apply Permutation_refl. apply perm_swap.
  - eapply Permutation_trans; eassumption.
Qed.

Lemma filter_positive_zeros (v zs : list Q) :
  Forall (fun z => z == 0) zs ->
  filter positive (v ++ zs) = filter positive v.
Proof.
  intro H. rewrite filter_app.
  replace (filter positive zs) with (@nil Q); [apply app_nil_r|].
  induction H as [|z t Hz Ht IH]; simpl; [reflexivity|].
  destruct (positive z) eqn:E; [|assumption].
  apply Qltb_lt in E. lra.
Qed.

Lemma calculate_gini_Permutation (v p : list Q) :
  Permutation v p -> calculate_gini p == calculate_gini v.
Proof.
  intro HP. unfold calculate_gini.
  apply (Permutation_filter_Q positive) in HP.
  set (fv := filter positive v) in *.
  set (fp := filter positive p) in *.
  rewrite <- (Permutation_length HP).
  destruct (length fv <? 2)%nat; [reflexivity|]. cbv zeta.
  assert (E := np_sort_respects_Permutation _ _ HP).
  rewrite !length_np_sort, <- (Permutation_length HP), !last_np_cumsum.
  rewrite (np_sum_eqlistQ _ _ E).
  rewrite (np_sum_eqlistQ _ _
             (np_mul_eqlistQ (np_arange 1 (Z.of_nat (length fv) + 1)) _ _ E)).
  reflexivity.
Qed.

(** C10.  The Gini coefficient does not depend on the order of its input
    nor on zero entries added to it: any rearrangement [p] of [v] followed
    by any number of zeros has the coefficient of [v]. *)
Theorem calculate_gini_invariant (v zs p : list Q) :
  Forall (fun z => z == 0) zs ->
  Permutation (v ++ zs) p ->
  calculate_gini p == calculate_gini v.
Proof.
  intros Hz HP. rewrite (calculate_gini_Permutation _ _ HP).
  unfold calculate_gini.
  rewrite (filter_positive_zeros v zs Hz). reflexivity.
Qed.

(** *** The youth-to-adult ratio *)

(** C2, as the code has it.  In [calculate_metrics] a state without adult
    updates gets the ratio 0, so that its YIR is 0 when the national ratio
    is positive and 1 otherwise; the divisor 1 is substituted only by the
    standalone script, whose ratio is then the number of youth updates. *)
Theorem youth_ratio_without_adults :
  (forall row : StateData.row,
      (StateData.bio_age_17_ row + StateData.demo_age_17_ row = 0)%Z ->
      state_youth_ratio row == 0)
  /\ (forall (ne nu : Z) (nyr : Q) (dd : list DistrictData.row)
             (md : list MonthlyData.row) (row : StateData.row),
        (StateData.bio_age_17_ row + StateData.demo_age_17_ row = 0)%Z ->
        Metrics.YIR (metrics_of_row ne nu nyr dd md row)
        == if Qltb 0 nyr then 0 else 1)
  /\ (forall r : MasterDf.row,
        legacy_adult_updates r = 0%Z ->
        legacy_state_youth_update_ratio r
        == inject_Z (legacy_youth_updates r)).
Proof.
  assert (A : forall row : StateData.row,
             (StateData.bio_age_17_ row + StateData.demo_age_17_ row = 0)%Z ->
             state_youth_ratio row == 0).
  { intros row H. unfold state_youth_ratio. rewrite H. reflexivity. }
  split; [exact A|split].
  - intros ne nu nyr dd md row H.
    unfold metrics_of_row. cbn [Metrics.YIR].
    destruct (Qltb 0 nyr) eqn:E; [|reflexivity].
    apply Qltb_lt in E. rewrite (A row H). field. lra.
  - intros r H. unfold legacy_state_youth_update_ratio, replace_0_1.
    rewrite H. cbn [Z.eqb]. change (inject_Z 1) with 1. field.
Qed.

(** *** The infrastructure deficit index *)

Lemma inject_Z_pos (z : Z) : (0 < z)%Z -> 0 < inject_Z z.
Proof. intro H. change 0 with (inject_Z 0). rewrite <- Zlt_Qlt. exact H. Qed.

Lemma inject_Z_nonneg (z : Z) : (0 <= z)%Z -> 0 <= inject_Z z.
Proof. intro H. change 0 with (inject_Z 0). rewrite <- Zle_Qle. exact H. Qed.




(** *** Clamping *)

Lemma clip_in_percent (x : Q) : in_percent (clip 0 100 x).
Proof.
  unfold in_percent, clip. split.
  - apply Q.min_glb; [lra|apply Q.le_max_l].
  - apply Q.le_min_l.
Qed.

Lemma clip_clamped (x y : Q) : x == y -> clamped_0_100 x (clip 0 100 y).
Proof.
  intro E. unfold clamped_0_100, clip.
  destruct (Q.max_spec 0 y) as [[L M]|[L M]];
    destruct (Q.min_spec 100 (Qmax 0 y)) as [[L' M']|[L' M']];
    set (m := Qmax 0 y) in *; set (r := Qmin 100 m) in *.
  - right. right. lra.
  - right. left. lra.
  - exfalso. lra.
  - destruct (Qlt_le_dec x 0) as [N|N]; [left|right; left]; lra.
Qed.

(** *** The risk mapper *)

Lemma merge_left_ages_In (df : list Classified.row)
  (state_data : list StateData.row) (c : Classified.row)
  (ages : option Ages.cols) :
  In (c, ages) (merge_left_ages df state_data) ->
  In c df
  /\ match ages with
     | Some a =>
         exists s, In s state_data
                   /\ StateData.state s
                      = Metrics.state (Scored.metrics (Classified.scored c))
                   /\ a = ages_of s
     | None =>
         forall s, In s state_data ->
                   StateData.state s
                   <> Metrics.state (Scored.metrics (Classified.scored c))
     end.
Proof.
  unfold merge_left_ages. rewrite in_flat_map.
  intros [r [Hr Hin]].
  set (same := fun s : StateData.row =>
                 String.eqb (StateData.state s)
                   (Metrics.state (Scored.metrics (Classified.scored r))))
    in *.
  destruct (filter same state_data) as [|m ms] eqn:F.
  - destruct Hin as [E|[]]. inversion E; subst. split; [assumption|].
    intros s Hs Heq.
    assert (In s (filter same state_data)) as X.
    { apply filter_In. split; [assumption|]. unfold same.
      apply String.eqb_eq. assumption. }
    rewrite F in X. destruct X.
  - rewrite in_map_iff in Hin. destruct Hin as [s [E Hs]].
    inversion E; subst. split; [assumption|].
    exists s. rewrite <- F in Hs. apply filter_In in Hs.
    destruct Hs as [Hs1 Hs2]. unfold same in Hs2.
    apply String.eqb_eq in Hs2. auto.
Qed.

Lemma merge_left_ages_match (df : list Classified.row)
  (state_data : list StateData.row) (c : Classified.row)
  (s : StateData.row) :
  In c df -> In s state_data ->
  StateData.state s = classified_state c ->
  In (c, Some (ages_of s)) (merge_left_ages df state_data).
Proof.
  intros Hc Hs E. unfold merge_left_ages. apply in_flat_map.
  exists c. split; [exact Hc|].
  fold (classified_state c).
  assert (F : In s (filter (fun x => String.eqb (StateData.state x)
                                       (classified_state c)) state_data)).
  { apply filter_In. split; [exact Hs|]. apply String.eqb_eq. exact E. }
  destruct (filter _ state_data) as [|m ms]; [destruct F|].
  apply (in_map (fun x => (c, Some (ages_of x)))). exact F.
Qed.

Lemma merge_left_ages_miss (df : list Classified.row)
  (state_data : list StateData.row) (c : Classified.row) :
  In c df ->
  (forall s, In s state_data -> StateData.state s <> classified_state c) ->
  In (c, None) (merge_left_ages df state_data).
Proof.
  intros Hc Hs. unfold merge_left_ages. apply in_flat_map.
  exists c. split; [exact Hc|].
  fold (classified_state c).
  destruct (filter _ state_data) as [|m ms] eqn:F; [left; reflexivity|].
  assert (X : In m (m :: ms)) by (left; reflexivity).
  rewrite <- F in X. apply filter_In in X. destruct X as [X1 X2].
  apply String.eqb_eq in X2. destruct (Hs m X1 X2).
Qed.

Lemma risk_row_pds_dbt (c : Classified.row) (s : StateData.row) :
  pds_dbt_of s (risk_row (c, Some (ages_of s))).
Proof.
  unfold pds_dbt_of, risk_row.
  cbn [Risk.PDS_Risk Risk.DBT_Risk ages_of Ages.age_18_greater
       Ages.bio_age_17_ Ages.demo_age_17_].
  split.
  - intro P. apply Z.gtb_lt in P. rewrite P.
    split; apply clip_clamped; ring.
  - intro N. destruct (Z.gtb_spec (StateData.age_18_greater s) 0) as [P|P];
      [lia|]. split; reflexivity.
Qed.

(** C7.  In every row of the risk table the two risks lie between 0 and
    100.  A row of the risk table comes from a row of the classified
    table and a state row of the same state: its PDS_Risk is then
    100 * (1 - bio_age_17_ / age_18_greater) over the counts of that
    state row, clamped to that range, and its DBT_Risk the same with
    demo_age_17_, as soon as age_18_greater is positive, and both are 0
    when age_18_greater is 0 (or below); or it comes from a classified
    row for whose state there is no state row, and both risks are 0.
    Conversely every state row of the state of a classified row gives
    such a row of the risk table, and a classified row without any
    gives one too. *)
Theorem pds_dbt_risk_clamped (state_data : list StateData.row)
  (metrics_df : list Classified.row) :
  let t := calculate_problem_risks state_data metrics_df in
  (forall r, In r t ->
     in_percent (Risk.PDS_Risk r) /\ in_percent (Risk.DBT_Risk r)
     /\ In (Risk.classified r) metrics_df
     /\ ((exists s, In s state_data
                    /\ StateData.state s
                       = classified_state (Risk.classified r)
                    /\ Risk.ages r = Some (ages_of s)
                    /\ pds_dbt_of s r)
         \/ ((forall s, In s state_data ->
                        StateData.state s
                        <> classified_state (Risk.classified r))
             /\ Risk.ages r = None
             /\ Risk.PDS_Risk r == 0 /\ Risk.DBT_Risk r == 0)))
  /\ (forall c s,
        In c metrics_df -> In s state_data ->
        StateData.state s = classified_state c ->
        exists r, In r t /\ Risk.classified r = c
                  /\ Risk.ages r = Some (ages_of s) /\ pds_dbt_of s r)
  /\ (forall c,
        In c metrics_df ->
        (forall s, In s state_data ->
                   StateData.state s <> classified_state c) ->
        exists r, In r t /\ Risk.classified r = c /\ Risk.ages r = None
                  /\ Risk.PDS_Risk r == 0 /\ Risk.DBT_Risk r == 0).
Proof.
  cbv zeta. unfold calculate_problem_risks. split; [|split].
  - intros r Hr. apply in_map_iff in Hr.
    destruct Hr as [[c ages] [E Hin]]. subst r.
    apply merge_left_ages_In in Hin. destruct Hin as [Hc Hages].
    split; [apply clip_in_percent|]. split; [apply clip_in_percent|].
    split; [exact Hc|].
    destruct ages as [a|].
    + left. destruct Hages as (s & Hs & Es & ->).
      exists s. split; [exact Hs|]. split; [exact Es|].
      split; [reflexivity|apply risk_row_pds_dbt].
    + right. split; [exact Hages|]. split; [reflexivity|].
      split; reflexivity.
  - intros c s Hc Hs E.
    exists (risk_row (c, Some (ages_of s))).
    split; [apply in_map, merge_left_ages_match; assumption|].
    split; [reflexivity|]. split; [reflexivity|apply risk_row_pds_dbt].
  - intros c Hc Hs. exists (risk_row (c, None)).
    split; [apply in_map, merge_left_ages_miss; assumption|].
    repeat split; reflexivity.
Qed.

(** *** Bounds of the pillar metrics *)

Lemma Qdiv_nonneg (a b : Q) : 0 <= a -> 0 < b -> 0 <= a / b.
Proof. intros Ha Hb. apply Qle_shift_div_l; [assumption|]. lra. Qed.

Lemma Qdiv_le_1 (a b : Q) : a <= b -> 0 < b -> a / b <= 1.
Proof. intros Ha Hb. apply Qle_shift_div_r; [assumption|]. lra. Qed.

Lemma state_youth_ratio_nonneg (row : StateData.row) :
  (0 <= StateData.bio_age_5_17 row)%Z ->
  (0 <= StateData.demo_age_5_17 row)%Z ->
  0 <= state_youth_ratio row.
Proof.
  intros Hb Hd. unfold state_youth_ratio.
  destruct (Z.gtb_spec
              (StateData.bio_age_17_ row + StateData.demo_age_17_ row) 0)
    as [P|P]; [|lra].
  apply Qdiv_nonneg; [apply inject_Z_nonneg; lia|apply inject_Z_pos; lia].
Qed.

Lemma metrics_of_row_bounds (ne nu : Z) (nyr : Q)
  (dd : list DistrictData.row) (md : list MonthlyData.row)
  (row : StateData.row) :
  (0 <= StateData.total_bio row)%Z ->
  (0 <= StateData.total_demo row)%Z ->
  let m := metrics_of_row ne nu nyr dd md row in
  in_unit (Metrics.UBI m) /\ in_unit (Metrics.GCI m)
  /\ in_unit (Metrics.TCS m).
Proof.
  intros Hb Hd m. unfold m, metrics_of_row, in_unit.
  cbn [Metrics.UBI Metrics.GCI Metrics.TCS]. repeat apply conj.
  - destruct (Z.gtb_spec
                (StateData.total_bio row + StateData.total_demo row) 0)
      as [P|P]; [|lra].
    apply Qdiv_nonneg; [apply inject_Z_nonneg; lia|apply inject_Z_pos; lia].
  - destruct (Z.gtb_spec
                (StateData.total_bio row + StateData.total_demo row) 0)
      as [P|P]; [|lra].
    apply Qdiv_le_1; [rewrite <- Zle_Qle; lia|apply inject_Z_pos; lia].
  - match goal with |- context [if ?b then _ else _] => destruct b end;
      [apply calculate_gini_clamped|lra].
  - match goal with |- context [if ?b then _ else _] => destruct b end;
      [apply calculate_gini_clamped|lra].
  - match goal with |- context [if ?b then _ else _] => destruct b end;
      [apply Q.le_max_l|lra].
  - match goal with |- context [if ?b then _ else _] =>
                      destruct b eqn:E end; [|lra].
    apply andb_true_iff in E. destruct E as [_ E]. apply Qltb_lt in E.
    apply Q.max_lub; [lra|].
    match goal with
    | |- 1 - ?s / ?mean <= 1 =>
        assert (0 <= s / mean)
          by (apply Qdiv_nonneg; [apply np_sqrt_nonneg|assumption]);
        lra
    end.
Qed.

Lemma metrics_of_row_YIR_nonneg (ne nu : Z) (nyr : Q)
  (dd : list DistrictData.row) (md : list MonthlyData.row)
  (row : StateData.row) :
  (0 <= StateData.bio_age_5_17 row)%Z ->
  (0 <= StateData.demo_age_5_17 row)%Z ->
  0 <= Metrics.YIR (metrics_of_row ne nu nyr dd md row).
Proof.
  intros Hb Hd. unfold metrics_of_row. cbn [Metrics.YIR].
  destruct (Qltb 0 nyr) eqn:E; [|lra].
  apply Qltb_lt in E.
  apply Qdiv_nonneg; [apply state_youth_ratio_nonneg|]; assumption.
Qed.

(** *** Bounds of the health score *)

Lemma fold_left_Qmin_le (l : list Q) (a : Q) :
  fold_left Qmin l a <= a
  /\ forall x, In x l -> fold_left Qmin l a <= x.
Proof.
  revert a. induction l as [|y t IH]; intro a; cbn [fold_left].
  - split; [lra|intros x []].
  - destruct (IH (Qmin a y)) as [H1 H2].
    assert (Qmin a y <= a) by apply Q.le_min_l.
    assert (Qmin a y <= y) by apply Q.le_min_r.
    split; [lra|]. intros x [->|Hx]; [lra|auto].
Qed.

Lemma fold_left_Qmax_ge (l : list Q) (a : Q) :
  a <= fold_left Qmax l a
  /\ forall x, In x l -> x <= fold_left Qmax l a.
Proof.
  revert a. induction l as [|y t IH]; intro a; cbn [fold_left].
  - split; [lra|intros x []].
  - destruct (IH (Qmax a y)) as [H1 H2].
    assert (a <= Qmax a y) by apply Q.le_max_l.
    assert (y <= Qmax a y) by apply Q.le_max_r.
    split; [lra|]. intros x [->|Hx]; [lra|auto].
Qed.

Lemma series_min_le (l : list Q) (x : Q) : In x l -> series_min l <= x.
Proof.
  destruct l as [|a t]; [intros []|]. unfold series_min.
  destruct (fold_left_Qmin_le t a) as [H1 H2].
  intros [->|Hx]; auto.
Qed.

Lemma series_max_ge (l : list Q) (x : Q) : In x l -> x <= series_max l.
Proof.
  destruct l as [|a t]; [intros []|]. unfold series_max.
  destruct (fold_left_Qmax_ge t a) as [H1 H2].
  intros [->|Hx]; auto.
Qed.

Lemma score_row_bounds (idi_min idi_max : Q) (r : Metrics.row) :
  idi_min <= Metrics.IDI r <= idi_max ->
  0 <= Metrics.YIR r ->
  in_unit (Metrics.GCI r) -> in_unit (Metrics.TCS r) ->
  scores_in_percent (score_row idi_min idi_max r).
Proof.
  unfold in_unit, scores_in_percent, in_percent.
  intros Hidi Hyir Hgci Htcs.
  unfold score_row.
  cbn [Scored.Health_Score Scored.IDI_score Scored.UBI_score
       Scored.YIR_score Scored.GCI_score Scored.TCS_score].
  set (u := clip 0 100 (100 * (1 - Qabs (Metrics.UBI r - 0.425) / 0.425))).
  assert (Hu : 0 <= u <= 100) by apply clip_in_percent.
  set (q := (Metrics.IDI r - idi_min) / (idi_max - idi_min + 0.001)).
  assert (Hq : 0 <= q <= 1).
  { unfold q. split.
    - apply Qdiv_nonneg; lra.
    - apply Qdiv_le_1; lra. }
  set (y := Qmin (Metrics.YIR r) 1.5).
  assert (Hy : 0 <= y <= 1.5).
  { unfold y. split; [apply Q.min_glb; lra|apply Q.le_min_r]. }
  assert (Ey : 100 * y / 1.5 == (200 # 3) * y) by (field).
  rewrite Ey. repeat apply conj; lra.
Qed.

Lemma calculate_health_score_bounds (metrics_df : list Metrics.row) :
  Forall (fun r => 0 <= Metrics.YIR r /\ in_unit (Metrics.GCI r)
                   /\ in_unit (Metrics.TCS r)) metrics_df ->
  Forall scores_in_percent (calculate_health_score metrics_df).
Proof.
  intro H. unfold calculate_health_score. rewrite Forall_map.
  rewrite Forall_forall in *. intros r Hr.
  destruct (H r Hr) as [Hy [Hg Ht]].
  apply score_row_bounds; try assumption.
  split.
  - apply series_min_le, in_map, Hr.
  - apply series_max_ge, in_map, Hr.
Qed.


(** *** Group keys *)

#[export] Instance KeyLaws_string : KeyLaws string.
Proof.
  split.
  - intros a b. apply OrderedTypeEx.String_as_OT.cmp_eq.
  - intros a b. apply String.compare_antisym.
  - intros a b c Hab Hbc.
    apply OrderedTypeEx.String_as_OT.cmp_lt. apply OrderedTypeEx.String_as_OT.cmp_lt in Hab, Hbc.
    eapply OrderedTypeEx.String_as_OT.lt_trans; eassumption.
Qed.

#[export] Instance KeyLaws_Z : KeyLaws Z.
Proof.
  split.
  - intros a b. apply Z.compare_eq_iff.
  - intros a b. apply Z.compare_antisym.
  - intros a b c Hab Hbc. unfold key_compare, Key_Z in *.
    rewrite Z.compare_lt_iff in *. lia.
Qed.

Lemma key_compare_refl {K : Type} `{KeyLaws K} (a : K) :
  key_compare a a = Eq.
Proof. apply key_eq. reflexivity. Qed.

Lemma key_compare_gt {K : Type} `{KeyLaws K} (a b : K) :
  key_compare a b = Gt <-> key_compare b a = Lt.
Proof.
  rewrite (key_antisym a b). destruct (key_compare a b); cbn; split;
    congruence.
Qed.

#[export] Instance KeyLaws_pair {A B : Type} `{KeyLaws A} `{KeyLaws B} :
  KeyLaws (A * B).
Proof.
  split.
  - intros [a1 b1] [a2 b2]. unfold key_compare, Key_pair. cbn [fst snd].
    destruct (key_compare a1 a2) eqn:E.
    + apply key_eq in E. subst a2. rewrite key_eq.
      split; [intros ->; reflexivity|intro P; inversion P; reflexivity].
    + split; [discriminate|]. intro P. inversion P; subst.
      rewrite key_compare_refl in E. discriminate.
    + split; [discriminate|]. intro P. inversion P; subst.
      rewrite key_compare_refl in E. discriminate.
  - intros [a1 b1] [a2 b2]. unfold key_compare, Key_pair. cbn [fst snd].
    rewrite (key_antisym a1 a2).
    destruct (key_compare a1 a2); cbn [CompOpp]; try reflexivity.
    apply key_antisym.
  - intros [a1 b1] [a2 b2] [a3 b3]. unfold key_compare, Key_pair.
    cbn [fst snd].
    destruct (key_compare a1 a2) eqn:E12; try discriminate;
      destruct (key_compare a2 a3) eqn:E23; try discriminate.
    + apply key_eq in E12, E23. subst a2 a3. rewrite key_compare_refl.
      apply key_lt_trans.
    + apply key_eq in E12. subst a2. rewrite E23. reflexivity.
    + apply key_eq in E23. subst a3. rewrite E12. reflexivity.
    + rewrite (key_lt_trans _ _ _ E12 E23). reflexivity.
Qed.

Lemma key_eqb_eq {K : Type} `{KeyLaws K} (a b : K) :
  key_eqb a b = true <-> a = b.
Proof.
  unfold key_eqb. rewrite <- key_eq.
  destruct (key_compare a b); split; congruence.
Qed.

Lemma key_eqb_refl {K : Type} `{KeyLaws K} (a : K) : key_eqb a a = true.
Proof. apply key_eqb_eq. reflexivity. Qed.

Lemma key_eqb_neq {K : Type} `{KeyLaws K} (a b : K) :
  key_eqb a b = false <-> a <> b.
Proof.
  rewrite <- key_eqb_eq. destruct (key_eqb a b); split; congruence.
Qed.

Lemma insert_key_In {K : Type} `{KeyLaws K} (k x : K) (l : list K) :
  In x (insert_key k l) <-> x = k \/ In x l.
Proof.
  induction l as [|k' t IH]; cbn [insert_key In].
  - intuition congruence.
  - destruct (key_compare k k') eqn:E; cbn [In].
    + apply key_eq in E. subst k'. intuition congruence.
    + intuition congruence.
    + rewrite IH. intuition congruence.
Qed.

Lemma insert_key_ascending {K : Type} `{KeyLaws K} (k : K) (l : list K) :
  ascending_keys l -> ascending_keys (insert_key k l).
Proof.
  unfold ascending_keys. induction 1 as [|k' t Ht IH Hk']; cbn [insert_key].
  - constructor; constructor.
  - destruct (key_compare k k') eqn:E.
    + constructor; assumption.
    + constructor; [constructor; assumption|].
      constructor; [assumption|].
      rewrite Forall_forall in *. intros x Hx.
      eapply key_lt_trans; [exact E|apply Hk', Hx].
    + constructor; [assumption|].
      rewrite Forall_forall in *. intros x Hx.
      apply insert_key_In in Hx. destruct Hx as [->|Hx].
      * apply key_compare_gt. exact E.
      * apply Hk', Hx.
Qed.

Lemma unique_sorted_In {K : Type} `{KeyLaws K} (x : K) (ks : list K) :
  In x (unique_sorted ks) <-> In x ks.
Proof.
  induction ks as [|k t IH]; cbn [unique_sorted fold_right In].
  - tauto.
  - fold (unique_sorted t). rewrite insert_key_In, IH.
    intuition congruence.
Qed.

Lemma unique_sorted_ascending {K : Type} `{KeyLaws K} (ks : list K) :
  ascending_keys (unique_sorted ks).
Proof.
  induction ks as [|k t IH]; cbn [unique_sorted fold_right].
  - constructor.
  - apply insert_key_ascending, IH.
Qed.

Lemma ascending_keys_NoDup {K : Type} `{KeyLaws K} (l : list K) :
  ascending_keys l -> NoDup l.
Proof.
  induction 1 as [|k t Ht IH Hk]; constructor; [|assumption].
  intro Hin. rewrite Forall_forall in Hk. specialize (Hk k Hin).
  rewrite key_compare_refl in Hk. discriminate.
Qed.

Lemma unique_sorted_NoDup {K : Type} `{KeyLaws K} (ks : list K) :
  NoDup (unique_sorted ks).
Proof. apply ascending_keys_NoDup, unique_sorted_ascending. Qed.

(** *** Exact sums *)

Lemma sumZ_app (x y : list Z) : sumZ (x ++ y) = (sumZ x + sumZ y)%Z.
Proof.
  induction x as [|a t IH]; cbn [app sumZ fold_right]; [reflexivity|].
  unfold sumZ in *. cbn [fold_right]. rewrite IH. ring.
Qed.

Lemma sumZ_map_add {A : Type} (f g : A -> Z) (l : list A) :
  sumZ (map (fun a => (f a + g a)%Z) l)
  = (sumZ (map f l) + sumZ (map g l))%Z.
Proof.
  unfold sumZ. induction l as [|a t IH]; cbn [map fold_right];
    [reflexivity|].
  rewrite IH. ring.
Qed.

Lemma sumZ_map_ext {A : Type} (f g : A -> Z) (l : list A) :
  (forall a, In a l -> f a = g a) ->
  sumZ (map f l) = sumZ (map g l).
Proof.
  intro E. f_equal. apply map_ext_in. exact E.
Qed.

Lemma sumZ_map_zero {A : Type} (f : A -> Z) (l : list A) :
  (forall a, In a l -> f a = 0%Z) -> sumZ (map f l) = 0%Z.
Proof.
  unfold sumZ. induction l as [|a t IH]; cbn [map fold_right In];
    intro E; [reflexivity|].
  rewrite IH by (intros; apply E; tauto). rewrite E by tauto. reflexivity.
Qed.

(** Over distinct keys, a value attached to one key is counted once. *)
Lemma sum_indicator {K : Type} `{KeyLaws K} (L : list K) (a : K) (z : Z) :
  NoDup L -> In a L ->
  sumZ (map (fun q => if key_eqb a q then z else 0%Z) L) = z.
Proof.
  induction 1 as [|x t Hx Ht IH]; cbn [In]; [tauto|].
  intros [->|Ha].
  - change (sumZ (map ?f (a :: t))) with (f a + sumZ (map f t))%Z.
    cbv beta. rewrite key_eqb_refl.
    rewrite sumZ_map_zero; [ring|].
    intros q Hq. destruct (key_eqb a q) eqn:E; [|reflexivity].
    apply key_eqb_eq in E. subst q. contradiction.
  - change (sumZ (map ?f (x :: t))) with (f x + sumZ (map f t))%Z.
    cbv beta. rewrite IH by assumption.
    destruct (key_eqb a x) eqn:E; [|ring].
    apply key_eqb_eq in E. subst x. contradiction.
Qed.

Lemma sumZ_cons (z : Z) (l : list Z) : sumZ (z :: l) = (z + sumZ l)%Z.
Proof. reflexivity. Qed.

Lemma sumZ_nonneg (l : list Z) :
  Forall (fun z => (0 <= z)%Z) l -> (0 <= sumZ l)%Z.
Proof.
  induction 1 as [|z t Hz Ht IH]; cbn [sumZ fold_right]; [lia|].
  fold (sumZ t). lia.
Qed.

Lemma sumZ_map_le {A : Type} (f g : A -> Z) (l : list A) :
  (forall a, In a l -> (f a <= g a)%Z) ->
  (sumZ (map f l) <= sumZ (map g l))%Z.
Proof.
  induction l as [|a t IH]; intro H; cbn [map]; [reflexivity|].
  rewrite !sumZ_cons.
  pose proof (H a (or_introl eq_refl)).
  assert (sumZ (map f t) <= sumZ (map g t))%Z
    by (apply IH; intros; apply H; right; assumption).
  lia.
Qed.

Lemma sumZ_map_nonneg {A : Type} (f : A -> Z) (l : list A) :
  (forall a, In a l -> (0 <= f a)%Z) -> (0 <= sumZ (map f l))%Z.
Proof.
  intro H. apply sumZ_nonneg. rewrite Forall_map. apply Forall_forall.
  exact H.
Qed.

Lemma sumZ_filter_le {A : Type} (m : A -> Z) (p : A -> bool) (l : list A) :
  (forall a, In a l -> (0 <= m a)%Z) ->
  (sumZ (map m (filter p l)) <= sumZ (map m l))%Z.
Proof.
  induction l as [|a t IH]; intro H; cbn [filter map]; [reflexivity|].
  pose proof (H a (or_introl eq_refl)).
  assert (sumZ (map m (filter p t)) <= sumZ (map m t))%Z
    by (apply IH; intros; apply H; right; assumption).
  destruct (p a); cbn [map]; rewrite ?sumZ_cons; lia.
Qed.

Lemma sumZ_map_abs {A : Type} (f : A -> Z) (l : list A) :
  (Z.abs (sumZ (map f l)) <= sumZ (map (fun a => Z.abs (f a)) l))%Z.
Proof.
  induction l as [|a t IH]; cbn [map]; [reflexivity|].
  rewrite !sumZ_cons. lia.
Qed.

Lemma sumZ_member_le {A : Type} (f : A -> Z) (l : list A) (a : A) :
  Forall (fun x => (0 <= f x)%Z) l -> In a l ->
  (f a <= sumZ (map f l))%Z.
Proof using Type.
  clear strptime_dmY str_strip str_title.
  induction 1 as [|x t Hx Ht IH]; cbn [In map]; [tauto|].
  rewrite sumZ_cons.
  assert (0 <= sumZ (map f t))%Z.
  { apply sumZ_nonneg. rewrite Forall_map. exact Ht. }
  intros [->|Hin]; [lia|]. specialize (IH Hin). lia.
Qed.

Lemma filter_none {A : Type} (p : A -> bool) (l : list A) :
  (forall x, In x l -> p x = false) -> filter p l = [].
Proof.
  induction l as [|a t IH]; cbn [filter In]; intro E; [reflexivity|].
  rewrite (E a) by tauto. apply IH. intros; apply E; tauto.
Qed.

Lemma filter_map_comm {A B : Type} (p : B -> bool) (f : A -> B)
  (l : list A) :
  filter p (map f l) = map f (filter (fun a => p (f a)) l).
Proof.
  induction l as [|a t IH]; cbn [map filter]; [reflexivity|].
  destruct (p (f a)); cbn [map]; rewrite IH; reflexivity.
Qed.

(** *** Sums over the records of a key *)

Lemma in_present {K : Type} (k : K) (keys : list (option K)) :
  In k (present keys) <-> In (Some k) keys.
Proof.
  unfold present. rewrite in_flat_map. split.
  - intros (o & Ho & Hk). destruct o as [q|]; [|destruct Hk].
    destruct Hk as [->|[]]. exact Ho.
  - intro H. exists (Some k). split; [exact H|left; reflexivity].
Qed.

Lemma key_is_true {K : Type} `{KeyLaws K} (k : K) (o : option K) :
  key_is k o = true <-> o = Some k.
Proof.
  destruct o as [q|]; cbn [key_is]; [|split; discriminate].
  rewrite key_eqb_eq. split; [intros ->; reflexivity|].
  intro E. inversion E. reflexivity.
Qed.

Lemma records_sum_cons {R K : Type} `{Key K} (key : R -> option K)
  (f : R -> Z) (r : R) (l : list R) (k : K) :
  records_sum key f (r :: l) k
  = ((if key_is k (key r) then f r else 0) + records_sum key f l k)%Z.
Proof.
  unfold records_sum. cbn [filter].
  destruct (key_is k (key r)); reflexivity.
Qed.

Lemma records_sum_absent {R K : Type} `{KeyLaws K} (key : R -> option K)
  (f : R -> Z) (l : list R) (k : K) :
  ~ In k (present (map key l)) -> records_sum key f l k = 0%Z.
Proof.
  intro N. unfold records_sum. rewrite filter_none; [reflexivity|].
  intros r Hr. destruct (key_is k (key r)) eqn:E; [|reflexivity].
  apply key_is_true in E. exfalso. apply N, in_present.
  rewrite <- E. apply in_map, Hr.
Qed.

(** The groups selected by [p] partition the records selected by [p]:
    summing the group sums gives the sum over these records. *)
Lemma records_sum_groups {R K : Type} `{KeyLaws K} (key : R -> option K)
  (f : R -> Z) (p : K -> bool) (l : list R) (L : list K) :
  NoDup L -> (forall q, In q (present (map key l)) -> In q L) ->
  sumZ (map (records_sum key f l) (filter p L))
  = sumZ (map f (filter (fun r => match key r with
                                  | Some q => p q
                                  | None => false
                                  end) l)).
Proof.
  intros HL. induction l as [|r t IH]; intro Hcov.
  - cbn [filter map]. apply sumZ_map_zero. reflexivity.
  - assert (Hcov' : forall q, In q (present (map key t)) -> In q L).
    { intros q Hq. apply Hcov. apply in_present. cbn [map]. right.
      apply in_present. exact Hq. }
    rewrite (sumZ_map_ext _ (fun k =>
      ((if key_is k (key r) then f r else 0)
       + records_sum key f t k)%Z))
      by (intros; apply records_sum_cons).
    rewrite sumZ_map_add, (IH Hcov'). cbn [filter].
    destruct (key r) as [q|] eqn:Eq.
    + assert (Hq : In q L).
      { apply Hcov, in_present. cbn [map]. left. exact Eq. }
      cbn [key_is]. destruct (p q) eqn:P.
      * rewrite sum_indicator;
          [reflexivity|apply NoDup_filter, HL|].
        apply filter_In. split; [exact Hq|exact P].
      * rewrite sumZ_map_zero; [reflexivity|].
        intros k Hk. apply filter_In in Hk. destruct Hk as [_ Pk].
        destruct (key_eqb q k) eqn:E; [|reflexivity].
        apply key_eqb_eq in E. congruence.
    + cbn [key_is]. rewrite sumZ_map_zero; [reflexivity|].
      intros; reflexivity.
Qed.

Lemma records_sum_all {R K : Type} `{KeyLaws K} (key : R -> option K)
  (f : R -> Z) (l : list R) (L : list K) :
  NoDup L -> (forall q, In q (present (map key l)) -> In q L) ->
  sumZ (map (records_sum key f l) L) = sumZ (map f (with_key key l)).
Proof.
  intros HL Hcov.
  pose proof (records_sum_groups key f (fun _ => true) l L HL Hcov) as E.
  rewrite forallb_filter_id in E by (apply forallb_forall; reflexivity).
  exact E.
Qed.

Lemma records_sum_abs {R K : Type} `{Key K} (key : R -> option K)
  (f m : R -> Z) (l : list R) (k : K) :
  (forall r, In r l -> (Z.abs (f r) <= m r)%Z) ->
  (Z.abs (records_sum key f l k) <= sumZ (map m l))%Z.
Proof.
  intro Hm. unfold records_sum.
  eapply Z.le_trans; [apply sumZ_map_abs|].
  eapply Z.le_trans.
  - apply (sumZ_map_le _ m). intros r Hr. apply Hm.
    apply filter_In in Hr. apply Hr.
  - apply sumZ_filter_le. intros r Hr. specialize (Hm r Hr). lia.
Qed.

Lemma records_sum_nonneg {R K : Type} `{Key K} (key : R -> option K)
  (f : R -> Z) (l : list R) (k : K) :
  (forall r, In r l -> (0 <= f r)%Z) -> (0 <= records_sum key f l k)%Z.
Proof.
  intro Hf. unfold records_sum. apply sumZ_map_nonneg.
  intros r Hr. apply Hf. apply filter_In in Hr. apply Hr.
Qed.

Lemma records_sum_add {R K : Type} `{Key K} (key : R -> option K)
  (f g : R -> Z) (l : list R) (k : K) :
  records_sum key (fun r => (f r + g r)%Z) l k
  = (records_sum key f l k + records_sum key g l k)%Z.
Proof. unfold records_sum. apply sumZ_map_add. Qed.

(** *** [groupby(...).sum()] against the exact sums *)

Lemma dropna_keys_cons {K : Type} (o : option K) (keys : list (option K))
  (v : Z) (vals : list Z) :
  dropna_keys (o :: keys) (v :: vals)
  = match o with Some k => [(k, v)] | None => [] end
    ++ dropna_keys keys vals.
Proof. reflexivity. Qed.

Lemma dropna_keys_present {R K : Type} (key : R -> option K) (f : R -> Z)
  (l : list R) :
  map fst (dropna_keys (map key l) (map f l)) = present (map key l).
Proof.
  induction l as [|r t IH]; [reflexivity|].
  cbn [map]. rewrite dropna_keys_cons, map_app, IH.
  unfold present. cbn [flat_map]. destruct (key r); reflexivity.
Qed.

(** The group of [k] holds the values of the records of key [k]. *)
Lemma dropna_keys_group {R K : Type} `{Key K} (key : R -> option K)
  (f : R -> Z) (l : list R) (k : K) :
  map snd (filter (fun p => key_eqb (fst p) k)
                  (dropna_keys (map key l) (map f l)))
  = map f (filter (fun r => key_is k (key r)) l).
Proof.
  induction l as [|r t IH]; [reflexivity|].
  cbn [map]. rewrite dropna_keys_cons, filter_app, map_app, IH.
  cbn [filter]. destruct (key r) as [q|]; cbn [key_is filter fst];
    [|reflexivity].
  destruct (key_eqb q k); reflexivity.
Qed.

Lemma group_sum_wraps {R K : Type} `{Key K} (key : R -> option K)
  (f : R -> Z) (l : list R) (k : K) :
  group_sum (dropna_keys (map key l) (map f l)) k
  = wrap64 (records_sum key f l k).
Proof.
  unfold group_sum, int64_sum, records_sum. rewrite dropna_keys_group.
  reflexivity.
Qed.

(** With the magnitudes of the records adding up to less than 2^53, a
    group sum is the exact sum. *)
Lemma group_sum_records {R K : Type} `{Key K} (key : R -> option K)
  (f m : R -> Z) (l : list R) (k : K) :
  (forall r, In r l -> (Z.abs (f r) <= m r)%Z) ->
  (sumZ (map m l) < 2 ^ 53)%Z ->
  group_sum (dropna_keys (map key l) (map f l)) k = records_sum key f l k.
Proof.
  intros Hm Hb. rewrite group_sum_wraps. apply wrap64_small.
  eapply in_int64_below; [|exact Hb]. apply records_sum_abs. exact Hm.
Qed.

Lemma group_sum_in_int64 {K : Type} `{Key K} (kv : list (K * Z)) (k : K) :
  in_int64 (group_sum kv k).
Proof. apply wrap64_in_int64. Qed.

Lemma pair_keys_map {R A B : Type} (f : R -> option A) (g : R -> option B)
  (l : list R) :
  pair_keys (map f l) (map g l) = map (fun r => pair_key (f r) (g r)) l.
Proof.
  unfold pair_keys. induction l as [|r t IH]; [reflexivity|].
  cbn [map combine fst snd]. f_equal. exact IH.
Qed.

Lemma add_columns_map {R : Type} (f g : R -> Z) (l : list R) :
  add_columns (map f l) (map g l) = map (fun r => int64_add (f r) (g r)) l.
Proof.
  unfold add_columns. induction l as [|r t IH]; cbn [map combine];
    [reflexivity|].
  cbn [fst snd]. f_equal. exact IH.
Qed.

(** *** Lookups in a frame that has one row per key *)

Lemma lookup_notin {K V : Type} `{KeyLaws K} (k : K) (l : list (K * V)) :
  ~ In k (map fst l) -> lookup k l = None.
Proof.
  induction l as [|[k' v] t IH]; cbn [lookup map In fst]; intro N;
    [reflexivity|].
  destruct (key_eqb k' k) eqn:E.
  - apply key_eqb_eq in E. tauto.
  - apply IH. tauto.
Qed.

Lemma lookup_map_In {K V : Type} `{KeyLaws K} (h : K -> V) (k : K)
  (L : list K) :
  In k L -> lookup k (map (fun q => (q, h q)) L) = Some (h k).
Proof.
  induction L as [|q t IH]; cbn [lookup map In]; [tauto|].
  intro Hin. destruct (key_eqb q k) eqn:E.
  - apply key_eqb_eq in E. subst q. reflexivity.
  - apply IH. destruct Hin as [->|Hin]; [|assumption].
    rewrite key_eqb_refl in E. discriminate.
Qed.

Lemma map_fst_keyed {K V : Type} (h : K -> V) (L : list K) :
  map fst (map (fun q => (q, h q)) L) = L.
Proof. rewrite map_map. cbn [fst]. apply map_id. Qed.

Lemma lookup_map_notin {K V : Type} `{KeyLaws K} (h : K -> V) (k : K)
  (L : list K) :
  ~ In k L -> lookup k (map (fun q => (q, h q)) L) = None.
Proof.
  intro N. apply lookup_notin. rewrite map_fst_keyed. exact N.
Qed.

Lemma merge_outer_keys {K A B : Type} `{Key K} (l : list (K * A))
  (r : list (K * B)) :
  map fst (merge_outer l r) = unique_sorted (map fst l ++ map fst r).
Proof. unfold merge_outer. apply map_fst_keyed. Qed.

(** The columns of the left and of the right frame after an outer merge:
    those of the frame's own row, missing where it has none. *)
Lemma merge_outer_left {K A B : Type} `{KeyLaws K} (l : list (K * A))
  (r : list (K * B)) (k : K) :
  match lookup k (merge_outer l r) with
  | Some (a, _) => a
  | None => None
  end = lookup k l.
Proof.
  unfold merge_outer.
  destruct (in_dec (fun a b : K =>
              match key_eqb a b as c
              return key_eqb a b = c -> {a = b} + {a <> b} with
              | true => fun E => left (proj1 (key_eqb_eq a b) E)
              | false => fun E => right (proj1 (key_eqb_neq a b) E)
              end eq_refl) k (unique_sorted (map fst l ++ map fst r)))
    as [Hin|Hout].
  - rewrite lookup_map_In by assumption. reflexivity.
  - rewrite lookup_map_notin by assumption.
    symmetry. apply lookup_notin. intro Hk. apply Hout.
    apply unique_sorted_In, in_or_app. left. exact Hk.
Qed.

Lemma merge_outer_right {K A B : Type} `{KeyLaws K} (l : list (K * A))
  (r : list (K * B)) (k : K) :
  match lookup k (merge_outer l r) with
  | Some (_, b) => b
  | None => None
  end = lookup k r.
Proof.
  unfold merge_outer.
  destruct (in_dec (fun a b : K =>
              match key_eqb a b as c
              return key_eqb a b = c -> {a = b} + {a <> b} with
              | true => fun E => left (proj1 (key_eqb_eq a b) E)
              | false => fun E => right (proj1 (key_eqb_neq a b) E)
              end eq_refl) k (unique_sorted (map fst l ++ map fst r)))
    as [Hin|Hout].
  - rewrite lookup_map_In by assumption. reflexivity.
  - rewrite lookup_map_notin by assumption.
    symmetry. apply lookup_notin. intro Hk. apply Hout.
    apply unique_sorted_In, in_or_app. right. exact Hk.
Qed.

(** Two ascending lists with the same elements are the same list. *)
Lemma ascending_keys_ext {K : Type} `{KeyLaws K} (l1 l2 : list K) :
  ascending_keys l1 -> ascending_keys l2 ->
  (forall x, In x l1 <-> In x l2) -> l1 = l2.
Proof.
  unfold ascending_keys. intro S1. revert l2.
  induction S1 as [|a t1 St1 IH Ha]; intros l2 S2 E.
  - destruct l2 as [|b t2]; [reflexivity|].
    destruct (proj2 (E b) (or_introl eq_refl)).
  - destruct S2 as [|b t2 St2 Hb].
    { destruct (proj1 (E a) (or_introl eq_refl)). }
    rewrite Forall_forall in Ha, Hb.
    assert (a = b) as <-.
    { destruct (proj1 (E a) (or_introl eq_refl)) as [Eab|Hab];
        [congruence|].
      destruct (proj2 (E b) (or_introl eq_refl)) as [Eba|Hba];
        [congruence|].
      specialize (Ha _ Hba). specialize (Hb _ Hab).
      rewrite (key_antisym a b), Ha in Hb. discriminate. }
    f_equal. apply IH; [assumption|].
    intro x. split; intro Hx.
    + destruct (proj1 (E x) (or_intror Hx)) as [<-|Hx2]; [|assumption].
      specialize (Ha _ Hx). rewrite key_compare_refl in Ha. discriminate.
    + destruct (proj2 (E x) (or_intror Hx)) as [<-|Hx1]; [|assumption].
      specialize (Hb _ Hx). rewrite key_compare_refl in Hb. discriminate.
Qed.

Lemma unique_sorted_ext {K : Type} `{KeyLaws K} (l1 l2 : list K) :
  (forall x, In x l1 <-> In x l2) -> unique_sorted l1 = unique_sorted l2.
Proof.
  intro E. apply ascending_keys_ext; try apply unique_sorted_ascending.
  intro x. rewrite !unique_sorted_In. apply E.
Qed.

Lemma in_key_dec {K : Type} `{KeyLaws K} (k : K) (L : list K) :
  In k L \/ ~ In k L.
Proof.
  induction L as [|q t [IH|IH]]; cbn [In]; [tauto|tauto|].
  destruct (key_eqb q k) eqn:E.
  - apply key_eqb_eq in E. tauto.
  - apply key_eqb_neq in E. tauto.
Qed.

(** A summed column of a [groupby] frame, read after the merges and
    [fillna(0)]: the sum over the records of the key. *)
Lemma fillna0_groupby {R K V : Type} `{KeyLaws K} (key : R -> option K)
  (f : R -> Z) (l : list R) (h : K -> V) (proj : V -> Z) (k : K) :
  (forall q, proj (h q) = records_sum key f l q) ->
  fillna0 proj (lookup k (map (fun q => (q, h q))
                              (unique_sorted (present (map key l)))))
  = records_sum key f l k.
Proof.
  intro E.
  destruct (in_key_dec k (unique_sorted (present (map key l))))
    as [Hin|Hout].
  - rewrite lookup_map_In by assumption. cbn [fillna0]. apply E.
  - rewrite lookup_map_notin by assumption. cbn [fillna0].
    symmetry. apply records_sum_absent.
    rewrite unique_sorted_In in Hout. exact Hout.
Qed.

(** *** The counts of the records, under the bound *)

Lemma enrolment_magnitude_sum (e : list Enrolment.record) :
  (0 <= sumZ (map enrolment_magnitude e))%Z.
Proof.
  apply sumZ_map_nonneg. intros r _. unfold enrolment_magnitude. lia.
Qed.

Lemma biometric_magnitude_sum (b : list Biometric.record) :
  (0 <= sumZ (map biometric_magnitude b))%Z.
Proof.
  apply sumZ_map_nonneg. intros r _. unfold biometric_magnitude. lia.
Qed.

Lemma demographic_magnitude_sum (d : list Demographic.record) :
  (0 <= sumZ (map demographic_magnitude d))%Z.
Proof.
  apply sumZ_map_nonneg. intros r _. unfold demographic_magnitude. lia.
Qed.

Lemma exact_counts_each (e : list Enrolment.record)
  (b : list Biometric.record) (d : list Demographic.record) :
  exact_counts e b d ->
  (sumZ (map enrolment_magnitude e) < 2 ^ 53)%Z
  /\ (sumZ (map biometric_magnitude b) < 2 ^ 53)%Z
  /\ (sumZ (map demographic_magnitude d) < 2 ^ 53)%Z.
Proof.
  unfold exact_counts. intro H.
  pose proof (enrolment_magnitude_sum e).
  pose proof (biometric_magnitude_sum b).
  pose proof (demographic_magnitude_sum d). lia.
Qed.

Lemma enrolment_magnitude_le (e : list Enrolment.record)
  (r : Enrolment.record) :
  In r e -> (enrolment_magnitude r <= sumZ (map enrolment_magnitude e))%Z.
Proof.
  apply sumZ_member_le. apply Forall_forall. intros x _.
  unfold enrolment_magnitude. lia.
Qed.

Lemma biometric_magnitude_le (b : list Biometric.record)
  (r : Biometric.record) :
  In r b -> (biometric_magnitude r <= sumZ (map biometric_magnitude b))%Z.
Proof.
  apply sumZ_member_le. apply Forall_forall. intros x _.
  unfold biometric_magnitude. lia.
Qed.

Lemma demographic_magnitude_le (d : list Demographic.record)
  (r : Demographic.record) :
  In r d ->
  (demographic_magnitude r <= sumZ (map demographic_magnitude d))%Z.
Proof.
  apply sumZ_member_le. apply Forall_forall. intros x _.
  unfold demographic_magnitude. lia.
Qed.

(** The total columns that [preprocess_data] adds. *)
Lemma total_enrolment_column (e : list Enrolment.record) :
  (sumZ (map enrolment_magnitude e) < 2 ^ 53)%Z ->
  add_columns (add_columns (map Enrolment.age_0_5 e)
                           (map Enrolment.age_5_17 e))
              (map Enrolment.age_18_greater e)
  = map enrolment_total e.
Proof.
  intro Hb. rewrite !add_columns_map. apply map_ext_in. intros r Hr.
  pose proof (enrolment_magnitude_le e r Hr) as Hr'.
  unfold int64_add, enrolment_total, enrolment_magnitude in *.
  rewrite (wrap64_small (Enrolment.age_0_5 r + Enrolment.age_5_17 r))
    by (unfold in_int64; lia).
  apply wrap64_small. unfold in_int64. lia.
Qed.

Lemma total_bio_column (b : list Biometric.record) :
  (sumZ (map biometric_magnitude b) < 2 ^ 53)%Z ->
  add_columns (map Biometric.bio_age_5_17 b) (map Biometric.bio_age_17_ b)
  = map biometric_total b.
Proof.
  intro Hb. rewrite add_columns_map. apply map_ext_in. intros r Hr.
  pose proof (biometric_magnitude_le b r Hr) as Hr'.
  unfold int64_add, biometric_total, biometric_magnitude in *.
  apply wrap64_small. unfold in_int64. lia.
Qed.

Lemma total_demo_column (d : list Demographic.record) :
  (sumZ (map demographic_magnitude d) < 2 ^ 53)%Z ->
  add_columns (map Demographic.demo_age_5_17 d)
              (map Demographic.demo_age_17_ d)
  = map demographic_total d.
Proof.
  intro Hb. rewrite add_columns_map. apply map_ext_in. intros r Hr.
  pose proof (demographic_magnitude_le d r Hr) as Hr'.
  unfold int64_add, demographic_total, demographic_magnitude in *.
  apply wrap64_small. unfold in_int64. lia.
Qed.

(** The sum of a column over the records of a key is bounded by the
    magnitudes. *)
Lemma enrolment_sum_abs {K : Type} `{Key K}
  (key : Enrolment.record -> option K) (f : Enrolment.record -> Z)
  (e : list Enrolment.record) (k : K) :
  (forall r, (Z.abs (f r) <= enrolment_magnitude r)%Z) ->
  (Z.abs (records_sum key f e k) <= sumZ (map enrolment_magnitude e))%Z.
Proof. intro Hf. apply records_sum_abs. intros r _. apply Hf. Qed.

Lemma biometric_sum_abs {K : Type} `{Key K}
  (key : Biometric.record -> option K) (f : Biometric.record -> Z)
  (b : list Biometric.record) (k : K) :
  (forall r, (Z.abs (f r) <= biometric_magnitude r)%Z) ->
  (Z.abs (records_sum key f b k) <= sumZ (map biometric_magnitude b))%Z.
Proof. intro Hf. apply records_sum_abs. intros r _. apply Hf. Qed.

Lemma demographic_sum_abs {K : Type} `{Key K}
  (key : Demographic.record -> option K) (f : Demographic.record -> Z)
  (d : list Demographic.record) (k : K) :
  (forall r, (Z.abs (f r) <= demographic_magnitude r)%Z) ->
  (Z.abs (records_sum key f d k) <= sumZ (map demographic_magnitude d))%Z.
Proof. intro Hf. apply records_sum_abs. intros r _. apply Hf. Qed.

(** Closes a goal [Z.abs (column r) <= magnitude r]. *)
Ltac magnitude :=
  intros;
  unfold enrolment_magnitude, biometric_magnitude, demographic_magnitude,
    enrolment_total, biometric_total, demographic_total;
  lia.

(** *** The state table *)

(** The three frames of sums per state, read at a state after the
    merges and [fillna(0)]. *)
Lemma groupby_enrol_cells (e : list Enrolment.record) (k : string) :
  (sumZ (map enrolment_magnitude e) < 2 ^ 53)%Z ->
  let cells :=
    lookup k (groupby_enrol (map enrolment_state e)
                (map Enrolment.age_0_5 e) (map Enrolment.age_5_17 e)
                (map Enrolment.age_18_greater e) (map enrolment_total e)) in
  fillna0 StateEnrol.age_0_5 cells
  = records_sum enrolment_state Enrolment.age_0_5 e k
  /\ fillna0 StateEnrol.age_5_17 cells
     = records_sum enrolment_state Enrolment.age_5_17 e k
  /\ fillna0 StateEnrol.age_18_greater cells
     = records_sum enrolment_state Enrolment.age_18_greater e k
  /\ fillna0 StateEnrol.total_enrolment cells
     = records_sum enrolment_state enrolment_total e k.
Proof.
  intros Hb cells. unfold cells, groupby_enrol.
  repeat split; apply fillna0_groupby; intro q;
    cbn [StateEnrol.age_0_5 StateEnrol.age_5_17 StateEnrol.age_18_greater
         StateEnrol.total_enrolment];
    apply (group_sum_records _ _ enrolment_magnitude);
    first [exact Hb|magnitude].
Qed.

Lemma groupby_bio_cells (b : list Biometric.record) (k : string) :
  (sumZ (map biometric_magnitude b) < 2 ^ 53)%Z ->
  let cells :=
    lookup k (groupby_bio (map biometric_state b)
                (map Biometric.bio_age_5_17 b) (map Biometric.bio_age_17_ b)
                (map biometric_total b)) in
  fillna0 StateBio.bio_age_5_17 cells
  = records_sum biometric_state Biometric.bio_age_5_17 b k
  /\ fillna0 StateBio.bio_age_17_ cells
     = records_sum biometric_state Biometric.bio_age_17_ b k
  /\ fillna0 StateBio.total_bio cells
     = records_sum biometric_state biometric_total b k.
Proof.
  intros Hb cells. unfold cells, groupby_bio.
  repeat split; apply fillna0_groupby; intro q;
    cbn [StateBio.bio_age_5_17 StateBio.bio_age_17_ StateBio.total_bio];
    apply (group_sum_records _ _ biometric_magnitude);
    first [exact Hb|magnitude].
Qed.

Lemma groupby_demo_cells (d : list Demographic.record) (k : string) :
  (sumZ (map demographic_magnitude d) < 2 ^ 53)%Z ->
  let cells :=
    lookup k (groupby_demo (map demographic_state d)
                (map Demographic.demo_age_5_17 d)
                (map Demographic.demo_age_17_ d)
                (map demographic_total d)) in
  fillna0 StateDemo.demo_age_5_17 cells
  = records_sum demographic_state Demographic.demo_age_5_17 d k
  /\ fillna0 StateDemo.demo_age_17_ cells
     = records_sum demographic_state Demographic.demo_age_17_ d k
  /\ fillna0 StateDemo.total_demo cells
     = records_sum demographic_state demographic_total d k.
Proof.
  intros Hb cells. unfold cells, groupby_demo.
  repeat split; apply fillna0_groupby; intro q;
    cbn [StateDemo.demo_age_5_17 StateDemo.demo_age_17_
         StateDemo.total_demo];
    apply (group_sum_records _ _ demographic_magnitude);
    first [exact Hb|magnitude].
Qed.

Lemma state_data_of_rows (e : list Enrolment.record)
  (b : list Biometric.record) (d : list Demographic.record) :
  exact_counts e b d ->
  state_data_of e b d
  = map (state_row e b d) (unique_sorted (all_states e b d)).
Proof.
  intro Hx. destruct (exact_counts_each e b d Hx) as (He & Hb & Hd).
  unfold state_data_of, merge_state_data.
  rewrite (total_enrolment_column e He), (total_bio_column b Hb),
    (total_demo_column d Hd).
  rewrite !map_map.
  change (fun r => normalized (Enrolment.state r)) with enrolment_state.
  change (fun r => normalized (Biometric.state r)) with biometric_state.
  change (fun r => normalized (Demographic.state r)) with demographic_state.
  set (E := groupby_enrol _ _ _ _ _).
  set (B := groupby_bio _ _ _ _).
  set (D := groupby_demo _ _ _ _).
  unfold merge_outer at 1. rewrite map_map.
  rewrite merge_outer_keys.
  assert (KE : map fst E = unique_sorted (present (map enrolment_state e)))
    by apply map_fst_keyed.
  assert (KB : map fst B = unique_sorted (present (map biometric_state b)))
    by apply map_fst_keyed.
  assert (KD : map fst D
               = unique_sorted (present (map demographic_state d)))
    by apply map_fst_keyed.
  rewrite (unique_sorted_ext _ (all_states e b d)).
  2:{ intro x. unfold all_states.
      rewrite !in_app_iff, unique_sorted_In, in_app_iff, KE, KB, KD,
        !unique_sorted_In. tauto. }
  apply map_ext. intro k.
  rewrite (merge_outer_left E B k), (merge_outer_right E B k).
  destruct (groupby_enrol_cells e k He) as (E1 & E2 & E3 & E4).
  destruct (groupby_bio_cells b k Hb) as (B1 & B2 & B3).
  destruct (groupby_demo_cells d k Hd) as (D1 & D2 & D3).
  fold E in E1, E2, E3, E4. fold B in B1, B2, B3. fold D in D1, D2, D3.
  rewrite E1, E2, E3, E4, B1, B2, B3, D1, D2, D3.
  unfold state_row. f_equal.
  unfold int64_add. apply wrap64_small.
  pose proof (biometric_sum_abs biometric_state biometric_total b k
                ltac:(magnitude)).
  pose proof (demographic_sum_abs demographic_state demographic_total d k
                ltac:(magnitude)).
  unfold exact_counts in Hx. pose proof (enrolment_magnitude_sum e).
  unfold in_int64. lia.
Qed.

(** *** The district and the monthly table *)

Lemma string_key_eqb (a b : string) : key_eqb a b = String.eqb a b.
Proof.
  destruct (String.eqb_spec a b) as [->|N].
  - apply key_eqb_refl.
  - apply key_eqb_neq. exact N.
Qed.

Lemma groupby_total_keys {R K : Type} `{Key K} (key : R -> option K)
  (f : R -> Z) (l : list R) :
  map fst (groupby_total (dropna_keys (map key l) (map f l)))
  = unique_sorted (present (map key l)).
Proof.
  unfold groupby_total. rewrite map_fst_keyed, dropna_keys_present.
  reflexivity.
Qed.

Lemma groupby_total_cell {R K : Type} `{KeyLaws K} (key : R -> option K)
  (f m : R -> Z) (l : list R) (k : K) :
  (forall r, In r l -> (Z.abs (f r) <= m r)%Z) ->
  (sumZ (map m l) < 2 ^ 53)%Z ->
  fillna0 (fun z : Z => z)
          (lookup k (groupby_total (dropna_keys (map key l) (map f l))))
  = records_sum key f l k.
Proof.
  intros Hm Hb. unfold groupby_total. rewrite dropna_keys_present.
  apply (fillna0_groupby key f l _ (fun z : Z => z) k).
  intro q. apply (group_sum_records key f m); assumption.
Qed.

(** The rows of one state in a frame merged from two frames grouped by
    (state, second key): their [total_updates] add up to the sums over
    the records of the state that have the second key. *)
Lemma merged_totals_of_state {R1 R2 K2 : Type} `{KeyLaws K2}
  (key1 : R1 -> option (string * K2)) (f1 m1 : R1 -> Z) (l1 : list R1)
  (key2 : R2 -> option (string * K2)) (f2 m2 : R2 -> Z) (l2 : list R2)
  (s : string) :
  (forall r, In r l1 -> (Z.abs (f1 r) <= m1 r)%Z) ->
  (forall r, In r l2 -> (Z.abs (f2 r) <= m2 r)%Z) ->
  (sumZ (map m1 l1) + sumZ (map m2 l2) < 2 ^ 53)%Z ->
  let G1 := groupby_total (dropna_keys (map key1 l1) (map f1 l1)) in
  let G2 := groupby_total (dropna_keys (map key2 l2) (map f2 l2)) in
  sumZ (map (fun k =>
               int64_add (fillna0 (fun z : Z => z) (lookup k G1))
                         (fillna0 (fun z : Z => z) (lookup k G2)))
            (filter (fun k => String.eqb (fst k) s)
                    (unique_sorted (map fst G1 ++ map fst G2))))
  = (records_sum (fun r => state_of_pair (key1 r)) f1 l1 s
     + records_sum (fun r => state_of_pair (key2 r)) f2 l2 s)%Z.
Proof.
  intros H1 H2 Hb G1 G2.
  assert (P1 : (0 <= sumZ (map m1 l1))%Z).
  { apply sumZ_map_nonneg. intros r Hr. specialize (H1 r Hr). lia. }
  assert (P2 : (0 <= sumZ (map m2 l2))%Z).
  { apply sumZ_map_nonneg. intros r Hr. specialize (H2 r Hr). lia. }
  rewrite (sumZ_map_ext _ (fun k => (records_sum key1 f1 l1 k
                                     + records_sum key2 f2 l2 k)%Z)).
  2:{ intros k _. unfold G1, G2.
      rewrite (groupby_total_cell key1 f1 m1 l1 k H1) by lia.
      rewrite (groupby_total_cell key2 f2 m2 l2 k H2) by lia.
      unfold int64_add. apply wrap64_small.
      pose proof (records_sum_abs key1 f1 m1 l1 k H1).
      pose proof (records_sum_abs key2 f2 m2 l2 k H2).
      unfold in_int64. lia. }
  rewrite sumZ_map_add. unfold G1, G2. rewrite !groupby_total_keys.
  set (U := unique_sorted _).
  assert (HU : NoDup U) by apply unique_sorted_NoDup.
  assert (E : forall (B : Type) (o : option (string * B)),
             match o with
             | Some q => String.eqb (fst q) s
             | None => false
             end = key_is s (state_of_pair o)).
  { intros B [q|]; cbn [state_of_pair option_map key_is]; [|reflexivity].
    symmetry. apply string_key_eqb. }
  f_equal.
  - rewrite (records_sum_groups key1 f1 (fun k => String.eqb (fst k) s)
               l1 U HU).
    + unfold records_sum. do 2 f_equal. apply filter_ext. intro r. apply E.
    + intros q Hq. apply unique_sorted_In, in_or_app. left.
      apply unique_sorted_In, Hq.
  - rewrite (records_sum_groups key2 f2 (fun k => String.eqb (fst k) s)
               l2 U HU).
    + unfold records_sum. do 2 f_equal. apply filter_ext. intro r. apply E.
    + intros q Hq. apply unique_sorted_In, in_or_app. right.
      apply unique_sorted_In, Hq.
Qed.

Lemma exact_counts_updates (e : list Enrolment.record)
  (b : list Biometric.record) (d : list Demographic.record) :
  exact_counts e b d ->
  (sumZ (map biometric_magnitude b) + sumZ (map demographic_magnitude d)
   < 2 ^ 53)%Z.
Proof.
  unfold exact_counts. pose proof (enrolment_magnitude_sum e). lia.
Qed.

Lemma district_data_of_state (b : list Biometric.record)
  (d : list Demographic.record) (s : string) :
  (sumZ (map biometric_magnitude b) + sumZ (map demographic_magnitude d)
   < 2 ^ 53)%Z ->
  sumZ (map DistrictData.total_updates
            (state_districts (district_data_of b d) s))
  = (records_sum (fun r => state_of_pair (biometric_district r))
                 biometric_total b s
     + records_sum (fun r => state_of_pair (demographic_district r))
                   demographic_total d s)%Z.
Proof.
  intro Hx.
  pose proof (biometric_magnitude_sum b).
  pose proof (demographic_magnitude_sum d).
  unfold state_districts, district_data_of, merge_district_data,
    merge_outer.
  rewrite (total_bio_column b), (total_demo_column d) by lia.
  rewrite !map_map, !pair_keys_map.
  rewrite filter_map_comm, map_map. cbn [DistrictData.state fst snd].
  cbn [DistrictData.total_updates].
  apply (merged_totals_of_state biometric_district biometric_total
           biometric_magnitude b demographic_district demographic_total
           demographic_magnitude d s); [magnitude|magnitude|exact Hx].
Qed.

Lemma parse_all_cells (l : list (option string))
  (ts : list (option Timestamp)) :
  parse_all l = inr ts -> ts = map parse_cell l.
Proof.
  revert ts. induction l as [|[x|] t IH]; intro ts; cbn [parse_all map].
  - intro E. inversion E. reflexivity.
  - cbn [parse_cell]. destruct (strptime_dmY x) as [y|]; [|discriminate].
    destruct (parse_all t) as [|ts']; [discriminate|].
    intro E. inversion E. rewrite (IH ts' eq_refl). reflexivity.
  - destruct (parse_all t) as [|ts']; [discriminate|].
    intro E. inversion E. rewrite (IH ts' eq_refl). reflexivity.
Qed.

Lemma monthly_data_of_state (b : list Biometric.record)
  (d : list Demographic.record) (tb td : list (option Timestamp))
  (s : string) :
  (sumZ (map biometric_magnitude b) + sumZ (map demographic_magnitude d)
   < 2 ^ 53)%Z ->
  parse_all (map Biometric.date b) = inr tb ->
  parse_all (map Demographic.date d) = inr td ->
  sumZ (map MonthlyData.total_updates
            (state_monthly (monthly_data_of b d tb td) s))
  = (records_sum (fun r => state_of_pair (biometric_month r))
                 biometric_total b s
     + records_sum (fun r => state_of_pair (demographic_month r))
                   demographic_total d s)%Z.
Proof.
  intros Hx Pb Pd.
  pose proof (biometric_magnitude_sum b).
  pose proof (demographic_magnitude_sum d).
  rewrite (parse_all_cells _ _ Pb), (parse_all_cells _ _ Pd).
  unfold state_monthly, monthly_data_of, merge_monthly_data, merge_outer.
  rewrite (total_bio_column b), (total_demo_column d) by lia.
  rewrite !map_map, !pair_keys_map.
  rewrite filter_map_comm, map_map. cbn [MonthlyData.state fst snd].
  cbn [MonthlyData.total_updates].
  apply (merged_totals_of_state biometric_month biometric_total
           biometric_magnitude b demographic_month demographic_total
           demographic_magnitude d s); [magnitude|magnitude|exact Hx].
Qed.

(** An update record that has its second key is counted under its
    state; the others are the ones the frame grouped by two keys has
    lost. *)
Lemma records_sum_split {R B : Type} (st : R -> option string)
  (k2 : R -> option B) (f : R -> Z) (l : list R) (s : string) :
  records_sum st f l s
  = (records_sum (fun r => state_of_pair (pair_key (st r) (k2 r))) f l s
     + records_sum (fun r => match k2 r with
                             | Some _ => None
                             | None => st r
                             end) f l s)%Z.
Proof.
  induction l as [|r t IH]; [reflexivity|].
  rewrite !records_sum_cons, IH.
  destruct (st r) as [x|], (k2 r) as [y|];
    cbn [pair_key state_of_pair option_map key_is fst];
    repeat match goal with
           | |- context [key_eqb ?a ?b] => destruct (key_eqb a b)
           end; lia.
Qed.

(** *** The pipeline, run on its input *)

Ltac run_stages :=
  cbn -[merge_state_data groupby_enrol groupby_bio groupby_demo
        merge_district_data merge_monthly_data groupby_total
        calculate_metrics metrics_rows calculate_health_score
        assign_archetypes calculate_problem_risks merge_left_ages risk_row
        dropna_keys pair_keys present read_as_float combine map].

Ltac unfold_stages :=
  unfold main, preprocess_data, aggregate_by_state, aggregate_by_district,
    aggregate_by_month, run_calculate_metrics, run_calculate_health_score,
    run_assign_archetypes, run_calculate_problem_risks, parse_date_column,
    month_column, standardize_names, add_total_enrolment, add_total_bio,
    add_total_demo, get_strs, get_ints, get_periods,
    getitem, setitem, assign, copy, deref, alloc, bind, ret, raise, lift.

(** Destructs the tests of [strip_title] on the six text columns. *)
Ltac name_columns_cases :=
  repeat match goal with
         | |- context [read_as_float ?l] =>
             destruct (read_as_float l) eqn:?; run_stages;
             try reflexivity
         end.

(** The three tables that the aggregation stages build, when the dates
    have parsed and the six text columns have text. *)
Lemma run_aggregates_eq (e : list Enrolment.record)
  (b : list Biometric.record) (d : list Demographic.record) :
  run_aggregates e b d
  = match parse_all (map Enrolment.date e) with
    | inl x => inl x
    | inr te =>
        match parse_all (map Biometric.date b) with
        | inl x => inl x
        | inr tb =>
            match parse_all (map Demographic.date d) with
            | inl x => inl x
            | inr td =>
                if existsb read_as_float (name_columns e b d)
                then inl AttributeError
                else inr (state_data_of e b d, district_data_of b d,
                          monthly_data_of b d tb td)
            end
        end
    end.
Proof.
  unfold run_aggregates, aggregates. unfold_stages. run_stages.
  destruct (parse_all (map Enrolment.date e)) as [x|te]; run_stages;
    [reflexivity|].
  destruct (parse_all (map Biometric.date b)) as [x|tb]; run_stages;
    [reflexivity|].
  destruct (parse_all (map Demographic.date d)) as [x|td]; run_stages;
    [reflexivity|].
  unfold name_columns. name_columns_cases.
Qed.

(** [main] raises when a date does not parse, when a text column has
    no text, and when there is no state at all; otherwise it returns the
    risk table of the aggregated records. *)
Lemma run_main_eq (e : list Enrolment.record) (b : list Biometric.record)
  (d : list Demographic.record) :
  run_main e b d
  = match parse_all (map Enrolment.date e) with
    | inl x => inl x
    | inr te =>
        match parse_all (map Biometric.date b) with
        | inl x => inl x
        | inr tb =>
            match parse_all (map Demographic.date d) with
            | inl x => inl x
            | inr td =>
                if existsb read_as_float (name_columns e b d)
                then inl AttributeError
                else
                  match calculate_metrics (state_data_of e b d)
                          (district_data_of b d)
                          (monthly_data_of b d tb td) with
                  | inl x => inl x
                  | inr m =>
                      inr (calculate_problem_risks (state_data_of e b d)
                             (assign_archetypes (calculate_health_score m)))
                  end
            end
        end
    end.
Proof.
  unfold run_main. unfold_stages. run_stages.
  destruct (parse_all (map Enrolment.date e)) as [x|te]; run_stages;
    [reflexivity|].
  destruct (parse_all (map Biometric.date b)) as [x|tb]; run_stages;
    [reflexivity|].
  destruct (parse_all (map Demographic.date d)) as [x|td]; run_stages;
    [reflexivity|].
  unfold name_columns. name_columns_cases.
  match goal with
  | |- context [calculate_metrics ?s ?dd ?md] =>
      change (calculate_metrics s dd md)
        with (calculate_metrics (state_data_of e b d) (district_data_of b d)
                (monthly_data_of b d tb td))
  end.
  destruct (calculate_metrics _ _ _) as [x|m]; run_stages; reflexivity.
Qed.

Lemma calculate_metrics_inr (sd : list StateData.row)
  (dd : list DistrictData.row) (md : list MonthlyData.row)
  (m : list Metrics.row) :
  calculate_metrics sd dd md = inr m
  <-> sd <> [] /\ m = metrics_rows sd dd md.
Proof.
  unfold calculate_metrics. destruct sd as [|row t].
  - cbn. split; [discriminate|]. intros [H _]. congruence.
  - unfold metrics_rows. cbn [map]. split.
    + intro E. inversion E. split; [discriminate|reflexivity].
    + intros [_ ->]. reflexivity.
Qed.

Lemma calculate_metrics_inl (sd : list StateData.row)
  (dd : list DistrictData.row) (md : list MonthlyData.row) (x : Exc) :
  calculate_metrics sd dd md = inl x
  <-> sd = [] /\ x = KeyError "IDI".
Proof.
  unfold calculate_metrics. destruct sd as [|row t].
  - cbn. split.
    + intro E. inversion E. split; reflexivity.
    + intros [_ ->]. reflexivity.
  - unfold metrics_rows. cbn [map]. split; [discriminate|].
    intros [H _]. discriminate H.
Qed.

Lemma parse_all_inr (l : list (option string)) :
  Forall (fun c => ~ unparseable c) l ->
  parse_all l = inr (map parse_cell l).
Proof.
  induction 1 as [|c t Hc Ht IH]; cbn [parse_all map]; [reflexivity|].
  destruct c as [x|]; cbn [parse_cell unparseable] in *.
  - destruct (strptime_dmY x) as [ts|]; [|contradiction Hc; reflexivity].
    rewrite IH. reflexivity.
  - rewrite IH. reflexivity.
Qed.

Lemma parse_all_inl (l : list (option string)) :
  Exists unparseable l -> parse_all l = inl ValueError.
Proof.
  induction 1 as [c t Hc|c t Ht IH]; cbn [parse_all].
  - destruct c as [x|]; [|destruct Hc]. cbn [unparseable] in Hc.
    rewrite Hc. reflexivity.
  - destruct c as [x|].
    + destruct (strptime_dmY x); [|reflexivity]. rewrite IH. reflexivity.
    + rewrite IH. reflexivity.
Qed.

Lemma parse_all_error (l : list (option string)) (x : Exc) :
  parse_all l = inl x -> x = ValueError.
Proof.
  revert x. induction l as [|[s|] t IH]; intro x; cbn [parse_all].
  - discriminate.
  - destruct (strptime_dmY s); [|congruence].
    destruct (parse_all t) as [y|r]; [|discriminate].
    intro E. inversion E; subst. apply IH. reflexivity.
  - destruct (parse_all t) as [y|r]; [|discriminate].
    intro E. inversion E; subst. apply IH. reflexivity.
Qed.

Lemma parse_all_inr_Forall (l : list (option string))
  (r : list (option Timestamp)) :
  parse_all l = inr r -> Forall (fun c => ~ unparseable c) l.
Proof.
  revert r. induction l as [|[s|] t IH]; intro r; cbn [parse_all].
  - constructor.
  - destruct (strptime_dmY s) eqn:E; [|discriminate].
    destruct (parse_all t) as [x|r']; [discriminate|].
    intros _. constructor; [cbn; congruence|]. eapply IH. reflexivity.
  - destruct (parse_all t) as [x|r']; [discriminate|].
    intros _. constructor; [cbn; tauto|]. eapply IH. reflexivity.
Qed.

Lemma run_main_inr (e : list Enrolment.record) (b : list Biometric.record)
  (d : list Demographic.record) (t : list Risk.row) :
  run_main e b d = inr t ->
  exists tb td,
    parse_all (map Biometric.date b) = inr tb
    /\ parse_all (map Demographic.date d) = inr td
    /\ Forall (fun c => ~ unparseable c) (all_dates e b d)
    /\ existsb read_as_float (name_columns e b d) = false
    /\ state_data_of e b d <> []
    /\ t = risk_table (state_data_of e b d) (district_data_of b d)
                      (monthly_data_of b d tb td).
Proof.
  rewrite run_main_eq.
  destruct (parse_all (map Enrolment.date e)) as [|te] eqn:Pe;
    [discriminate|].
  destruct (parse_all (map Biometric.date b)) as [|tb] eqn:Pb;
    [discriminate|].
  destruct (parse_all (map Demographic.date d)) as [|td] eqn:Pd;
    [discriminate|].
  destruct (existsb read_as_float (name_columns e b d)); [discriminate|].
  destruct (calculate_metrics _ _ _) as [x|m] eqn:Em; [discriminate|].
  apply calculate_metrics_inr in Em. destruct Em as [Hne ->].
  intro E. inversion E. exists tb, td.
  split; [reflexivity|]. split; [reflexivity|].
  split; [|split; [reflexivity|split; [exact Hne|reflexivity]]].
  unfold all_dates. rewrite !Forall_app.
  apply parse_all_inr_Forall in Pe, Pb, Pd. auto.
Qed.

Lemma run_aggregates_inr (e : list Enrolment.record)
  (b : list Biometric.record) (d : list Demographic.record)
  (sd : list StateData.row) (dd : list DistrictData.row)
  (md : list MonthlyData.row) :
  run_aggregates e b d = inr (sd, dd, md) ->
  exists tb td,
    parse_all (map Biometric.date b) = inr tb
    /\ parse_all (map Demographic.date d) = inr td
    /\ sd = state_data_of e b d /\ dd = district_data_of b d
    /\ md = monthly_data_of b d tb td.
Proof.
  rewrite run_aggregates_eq.
  destruct (parse_all (map Enrolment.date e)); [discriminate|].
  destruct (parse_all (map Biometric.date b)) as [|tb]; [discriminate|].
  destruct (parse_all (map Demographic.date d)) as [|td]; [discriminate|].
  destruct (existsb read_as_float (name_columns e b d)); [discriminate|].
  intro E. inversion E. exists tb, td. repeat split; reflexivity.
Qed.

Lemma run_main_error (e : list Enrolment.record) (b : list Biometric.record)
  (d : list Demographic.record) :
  Exists unparseable (all_dates e b d) ->
  run_main e b d = inl ValueError.
Proof.
  intro H. rewrite run_main_eq.
  destruct (parse_all (map Enrolment.date e)) as [x|te] eqn:Pe.
  { f_equal. eapply parse_all_error. eassumption. }
  destruct (parse_all (map Biometric.date b)) as [x|tb] eqn:Pb.
  { f_equal. eapply parse_all_error. eassumption. }
  destruct (parse_all (map Demographic.date d)) as [x|td] eqn:Pd.
  { f_equal. eapply parse_all_error. eassumption. }
  exfalso.
  apply parse_all_inr_Forall in Pe, Pb, Pd.
  unfold all_dates in H. rewrite !Exists_app in H.
  rewrite Forall_forall in Pe, Pb, Pd.
  destruct H as [H|[H|H]]; apply Exists_exists in H;
    destruct H as [s [Hin Hs]];
    [apply (Pe s Hin)|apply (Pb s Hin)|apply (Pd s Hin)]; exact Hs.
Qed.

(** Without text that does not parse, the only errors left are the
    AttributeError of a text column read as float64 and the KeyError of
    an empty state table. *)
Lemma run_main_parsed (e : list Enrolment.record)
  (b : list Biometric.record) (d : list Demographic.record) :
  Forall (fun c => ~ unparseable c) (all_dates e b d) ->
  run_main e b d
  = if existsb read_as_float (name_columns e b d) then inl AttributeError
    else match state_data_of e b d with
         | [] => inl (KeyError "IDI")
         | sd =>
             inr (risk_table sd (district_data_of b d)
                    (monthly_data_of b d (map parse_cell
                                              (map Biometric.date b))
                                     (map parse_cell
                                          (map Demographic.date d))))
         end.
Proof.
  unfold all_dates. rewrite !Forall_app. intros (He & Hb & Hd).
  rewrite run_main_eq, (parse_all_inr _ He), (parse_all_inr _ Hb),
    (parse_all_inr _ Hd).
  destruct (existsb read_as_float (name_columns e b d)); [reflexivity|].
  destruct (calculate_metrics _ _ _) as [x|m] eqn:Em.
  - apply calculate_metrics_inl in Em. destruct Em as [-> ->].
    reflexivity.
  - apply calculate_metrics_inr in Em. destruct Em as [Hne ->].
    destruct (state_data_of e b d) as [|row t] eqn:Es;
      [contradiction Hne; reflexivity|]. reflexivity.
Qed.

(** *** Aggregates of nonnegative counts *)

Lemma state_row_nonneg (e : list Enrolment.record)
  (b : list Biometric.record) (d : list Demographic.record) (k : string) :
  Forall nonneg_enrolment e -> Forall nonneg_biometric b ->
  Forall nonneg_demographic d ->
  nonneg_state_row (state_row e b d k).
Proof using Type.
  clear strptime_dmY.
  rewrite !Forall_forall. intros He Hb Hd.
  unfold nonneg_state_row, state_row.
  cbn [StateData.age_0_5 StateData.age_5_17 StateData.age_18_greater
       StateData.total_enrolment StateData.bio_age_5_17
       StateData.bio_age_17_ StateData.total_bio StateData.demo_age_5_17
       StateData.demo_age_17_ StateData.total_demo StateData.total_updates].
  assert (0 <= records_sum biometric_state biometric_total b k)%Z.
  { apply records_sum_nonneg. intros r Hr.
    destruct (Hb r Hr). unfold biometric_total. lia. }
  assert (0 <= records_sum demographic_state demographic_total d k)%Z.
  { apply records_sum_nonneg. intros r Hr.
    destruct (Hd r Hr). unfold demographic_total. lia. }
  repeat apply conj; try lia; try assumption;
    apply records_sum_nonneg; intros r Hr;
    first [ destruct (He r Hr) as (A1 & A2 & A3);
            unfold enrolment_total; lia
          | destruct (Hb r Hr) as (A1 & A2); lia
          | destruct (Hd r Hr) as (A1 & A2); lia ].
Qed.

Lemma state_data_of_nonneg (e : list Enrolment.record)
  (b : list Biometric.record) (d : list Demographic.record) :
  Forall nonneg_enrolment e -> Forall nonneg_biometric b ->
  Forall nonneg_demographic d -> exact_counts e b d ->
  Forall nonneg_state_row (state_data_of e b d).
Proof.
  intros He Hb Hd Hx. rewrite (state_data_of_rows e b d Hx), Forall_map.
  apply Forall_forall. intros k _. apply state_row_nonneg; assumption.
Qed.

(** *** Rows of the result tables *)

Lemma metrics_rows_In (sd : list StateData.row)
  (dd : list DistrictData.row) (md : list MonthlyData.row)
  (m : Metrics.row) :
  In m (metrics_rows sd dd md) ->
  exists row,
    In row sd
    /\ m = metrics_of_row (int64_sum (map StateData.total_enrolment sd))
                          (int64_sum (map StateData.total_updates sd))
                          (national_youth_ratio sd) dd md row.
Proof.
  unfold metrics_rows. rewrite in_map_iff.
  intros [row [E Hin]]. exists row. auto.
Qed.

Lemma calculate_health_score_In (metrics_df : list Metrics.row)
  (s : Scored.row) :
  In s (calculate_health_score metrics_df) ->
  In (Scored.metrics s) metrics_df.
Proof.
  unfold calculate_health_score. rewrite in_map_iff.
  intros [m [E Hin]]. subst s. exact Hin.
Qed.

Lemma risk_table_In (sd : list StateData.row) (dd : list DistrictData.row)
  (md : list MonthlyData.row) (r : Risk.row) :
  In r (risk_table sd dd md) ->
  In (Classified.scored (Risk.classified r))
     (calculate_health_score (metrics_rows sd dd md))
  /\ Classified.Archetype (Risk.classified r)
     = classify_archetype (Classified.scored (Risk.classified r)).
Proof.
  unfold risk_table, calculate_problem_risks. rewrite in_map_iff.
  intros [[c ages] [E Hin]]. subst r.
  apply merge_left_ages_In in Hin. destruct Hin as [Hc _].
  unfold risk_row. cbn [Risk.classified].
  unfold assign_archetypes in Hc. rewrite in_map_iff in Hc.
  destruct Hc as [s [E Hs]]. subst c.
  cbn [Classified.scored Classified.Archetype]. auto.
Qed.

Lemma metrics_rows_bounds (sd : list StateData.row)
  (dd : list DistrictData.row) (md : list MonthlyData.row) :
  Forall nonneg_state_row sd ->
  Forall (fun m => pillars_in_unit m /\ 0 <= Metrics.YIR m)
         (metrics_rows sd dd md).
Proof.
  intro H. apply Forall_forall. intros m Hm.
  apply metrics_rows_In in Hm. destruct Hm as [row [Hrow E]].
  rewrite Forall_forall in H. specialize (H row Hrow).
  unfold nonneg_state_row in H. subst m. split.
  - apply metrics_of_row_bounds; tauto.
  - apply metrics_of_row_YIR_nonneg; tauto.
Qed.

(** The scores of a run on nonnegative counts that stay exact. *)
Lemma run_main_scores (e : list Enrolment.record)
  (b : list Biometric.record) (d : list Demographic.record)
  (t : list Risk.row) :
  Forall nonneg_enrolment e -> Forall nonneg_biometric b ->
  Forall nonneg_demographic d ->
  exact_counts e b d ->
  run_main e b d = inr t ->
  Forall (fun r =>
            pillars_in_unit
              (Scored.metrics (Classified.scored (Risk.classified r)))
            /\ scores_in_percent (Classified.scored (Risk.classified r)))
         t.
Proof.
  intros He Hb Hd Hx Hrun.
  destruct (run_main_inr _ _ _ _ Hrun) as (tb & td & _ & _ & _ & _ & _ & ->).
  apply Forall_forall. intros r Hr.
  apply risk_table_In in Hr. destruct Hr as [Hs _].
  assert (B := metrics_rows_bounds _ (district_data_of b d)
                 (monthly_data_of b d tb td)
                 (state_data_of_nonneg e b d He Hb Hd Hx)).
  split.
  - apply calculate_health_score_In in Hs.
    rewrite Forall_forall in B. apply (B _ Hs).
  - assert (S : Forall scores_in_percent
                  (calculate_health_score
                     (metrics_rows (state_data_of e b d)
                        (district_data_of b d)
                        (monthly_data_of b d tb td)))).
    { apply calculate_health_score_bounds.
      eapply Forall_impl; [|exact B].
      unfold pillars_in_unit. intros m. tauto. }
    rewrite Forall_forall in S. apply (S _ Hs).
Qed.

Lemma unique_sorted_nil {K : Type} `{KeyLaws K} (l : list K) :
  unique_sorted l = [] -> l = [].
Proof.
  destruct l as [|a t]; [reflexivity|]. intro E.
  assert (Hin : In a (unique_sorted (a :: t)))
    by (apply unique_sorted_In; left; reflexivity).
  rewrite E in Hin. destruct Hin.
Qed.

(** [main] returns its table when no date cell holds text that does not
    parse, each of the six name columns holds text and some record has a
    state. *)
Lemma run_main_returns (e : list Enrolment.record)
  (b : list Biometric.record) (d : list Demographic.record) :
  exact_counts e b d ->
  Forall (fun c => ~ unparseable c) (all_dates e b d) ->
  existsb read_as_float (name_columns e b d) = false ->
  all_states e b d <> [] ->
  exists t, run_main e b d = inr t.
Proof.
  intros Hx Hd Hn Hs. rewrite (run_main_parsed e b d Hd), Hn.
  destruct (state_data_of e b d) as [|row sd] eqn:E.
  - exfalso. apply Hs. rewrite (state_data_of_rows e b d Hx) in E.
    apply map_eq_nil in E. apply unique_sorted_nil, E.
  - eexists. reflexivity.
Qed.

(** C6.  On input records with nonnegative counts that add up to less
    than 2^53: the pipeline returns its table when no date cell holds
    text that does not parse, the state and district columns hold text
    and some record has a state; and UBI, GCI and TCS of every region of
    the table that it returns lie in the unit interval. *)
Theorem pillar_metrics_in_unit (e : list Enrolment.record)
  (b : list Biometric.record) (d : list Demographic.record) :
  Forall nonneg_enrolment e -> Forall nonneg_biometric b ->
  Forall nonneg_demographic d ->
  exact_counts e b d ->
  (Forall (fun c => ~ unparseable c) (all_dates e b d) ->
   existsb read_as_float (name_columns e b d) = false ->
   all_states e b d <> [] ->
   exists t, run_main e b d = inr t)
  /\ forall t,
      run_main e b d = inr t ->
      Forall (fun r =>
                pillars_in_unit
                  (Scored.metrics (Classified.scored (Risk.classified r))))
             t.
Proof.
  intros He Hb Hd Hx. split; [apply run_main_returns, Hx|].
  intros t Hrun.
  eapply Forall_impl; [|exact (run_main_scores e b d t He Hb Hd Hx Hrun)].
  intros r [H _]. exact H.
Qed.

(** C3.  On input records with nonnegative counts that add up to less
    than 2^53: the pipeline returns its table when no date cell holds
    text that does not parse, the state and district columns hold text
    and some record has a state; and the health score of every region of
    the table that it returns is the weighted sum of its five pillar
    scores and lies between 0 and 100, as does each pillar score. *)
Theorem health_score_in_percent (e : list Enrolment.record)
  (b : list Biometric.record) (d : list Demographic.record) :
  Forall nonneg_enrolment e -> Forall nonneg_biometric b ->
  Forall nonneg_demographic d ->
  exact_counts e b d ->
  (Forall (fun c => ~ unparseable c) (all_dates e b d) ->
   existsb read_as_float (name_columns e b d) = false ->
   all_states e b d <> [] ->
   exists t, run_main e b d = inr t)
  /\ forall t,
      run_main e b d = inr t ->
      Forall (fun r =>
                scores_in_percent (Classified.scored (Risk.classified r)))
             t.
Proof.
  intros He Hb Hd Hx. split; [apply run_main_returns, Hx|].
  intros t Hrun.
  eapply Forall_impl; [|exact (run_main_scores e b d t He Hb Hd Hx Hrun)].
  intros r [_ H]. exact H.
Qed.

Lemma get_set_col_same (df : DataFrame) (name : string) (c : Column) :
  get_col (set_col df name c) name = Some c.
Proof.
  induction df as [|[n c0] t IH]; cbn [set_col get_col].
  - rewrite String.eqb_refl. reflexivity.
  - destruct (String.eqb n name) eqn:E; cbn [get_col]; rewrite E; auto.
Qed.

Lemma get_set_col_other (df : DataFrame) (name other : string) (c : Column) :
  other <> name ->
  get_col (set_col df name c) other = get_col df other.
Proof.
  intro N. induction df as [|[n c0] t IH]; cbn [set_col get_col].
  - destruct (String.eqb name other) eqn:E; [|reflexivity].
    apply String.eqb_eq in E. congruence.
  - destruct (String.eqb n name) eqn:E; cbn [get_col].
    + apply String.eqb_eq in E. subst n.
      destruct (String.eqb name other) eqn:E'; [|reflexivity].
      apply String.eqb_eq in E'. congruence.
    + destruct (String.eqb n other); [reflexivity|exact IH].
Qed.

(** *** Dates that do not parse, and dates that are missing *)

Lemma records_sum_ext {R K : Type} `{Key K} (key key' : R -> option K)
  (f : R -> Z) (l : list R) (k : K) :
  (forall r, In r l -> key r = key' r) ->
  records_sum key f l k = records_sum key' f l k.
Proof.
  intro E. unfold records_sum.
  assert (F : filter (fun r => key_is k (key r)) l
              = filter (fun r => key_is k (key' r)) l).
  { induction l as [|r t IH]; [reflexivity|]. cbn [filter].
    rewrite (E r) by (left; reflexivity).
    rewrite IH by (intros; apply E; right; assumption). reflexivity. }
  rewrite F. reflexivity.
Qed.

(** Once the dates have parsed, the records without a month are those
    whose date cell is empty. *)
Lemma parsed_month_missing (c : option string) (st : option string) :
  ~ unparseable c ->
  match option_map to_period_M (parse_cell c) with
  | Some _ => None
  | None => st
  end = match c with Some _ => None | None => st end.
Proof.
  destruct c as [x|]; cbn [unparseable parse_cell option_map];
    [|reflexivity].
  destruct (strptime_dmY x); [reflexivity|]. intro H. contradiction H.
  reflexivity.
Qed.

(** Of the updates of a state, the monthly table has lost those of the
    records without a date, and the district table those of the records
    without a district. *)
Lemma monthly_totals_of_state (e : list Enrolment.record)
  (b : list Biometric.record) (d : list Demographic.record)
  (tb td : list (option Timestamp)) (k : string) :
  exact_counts e b d ->
  parse_all (map Biometric.date b) = inr tb ->
  parse_all (map Demographic.date d) = inr td ->
  sumZ (map MonthlyData.total_updates
            (state_monthly (monthly_data_of b d tb td) k))
  = (StateData.total_updates (state_row e b d k)
     - (records_sum undated_biometric biometric_total b k
        + records_sum undated_demographic demographic_total d k))%Z.
Proof.
  intros Hx Pb Pd.
  rewrite (monthly_data_of_state b d tb td k
             (exact_counts_updates e b d Hx) Pb Pd).
  cbn [state_row StateData.total_updates].
  pose proof (records_sum_split biometric_state
                (fun r => option_map to_period_M
                            (parse_cell (Biometric.date r)))
                biometric_total b k) as Sb.
  pose proof (records_sum_split demographic_state
                (fun r => option_map to_period_M
                            (parse_cell (Demographic.date r)))
                demographic_total d k) as Sd.
  rewrite (records_sum_ext
             (fun r => match option_map to_period_M
                               (parse_cell (Biometric.date r)) with
                       | Some _ => None
                       | None => biometric_state r
                       end)
             undated_biometric biometric_total b k) in Sb.
  2:{ intros r Hr. apply parsed_month_missing.
      apply parse_all_inr_Forall in Pb. rewrite Forall_forall in Pb.
      apply Pb, in_map, Hr. }
  rewrite (records_sum_ext
             (fun r => match option_map to_period_M
                               (parse_cell (Demographic.date r)) with
                       | Some _ => None
                       | None => demographic_state r
                       end)
             undated_demographic demographic_total d k) in Sd.
  2:{ intros r Hr. apply parsed_month_missing.
      apply parse_all_inr_Forall in Pd. rewrite Forall_forall in Pd.
      apply Pd, in_map, Hr. }
  unfold biometric_month, demographic_month. lia.
Qed.

Lemma missing_district (c : option string) (st : option string) :
  match normalized c with Some _ => None | None => st end
  = match c with Some _ => None | None => st end.
Proof. destruct c; reflexivity. Qed.

Lemma district_totals_of_state (e : list Enrolment.record)
  (b : list Biometric.record) (d : list Demographic.record) (k : string) :
  exact_counts e b d ->
  sumZ (map DistrictData.total_updates
            (state_districts (district_data_of b d) k))
  = (StateData.total_updates (state_row e b d k)
     - (records_sum unlocated_biometric biometric_total b k
        + records_sum unlocated_demographic demographic_total d k))%Z.
Proof.
  intros Hx.
  rewrite (district_data_of_state b d k (exact_counts_updates e b d Hx)).
  cbn [state_row StateData.total_updates].
  pose proof (records_sum_split biometric_state
                (fun r => normalized (Biometric.district r))
                biometric_total b k) as Sb.
  pose proof (records_sum_split demographic_state
                (fun r => normalized (Demographic.district r))
                demographic_total d k) as Sd.
  rewrite (records_sum_ext
             (fun r => match normalized (Biometric.district r) with
                       | Some _ => None
                       | None => biometric_state r
                       end)
             unlocated_biometric biometric_total b k) in Sb
    by (intros; apply missing_district).
  rewrite (records_sum_ext
             (fun r => match normalized (Demographic.district r) with
                       | Some _ => None
                       | None => demographic_state r
                       end)
             unlocated_demographic demographic_total d k) in Sd
    by (intros; apply missing_district).
  unfold biometric_district, demographic_district. lia.
Qed.

Lemma state_rows_In (e : list Enrolment.record)
  (b : list Biometric.record) (d : list Demographic.record)
  (row : StateData.row) :
  exact_counts e b d -> In row (state_data_of e b d) ->
  row = state_row e b d (StateData.state row)
  /\ In (StateData.state row) (all_states e b d).
Proof.
  intros Hx Hrow. rewrite (state_data_of_rows e b d Hx) in Hrow.
  apply in_map_iff in Hrow. destruct Hrow as (k & <- & Hk).
  split; [reflexivity|]. apply (proj1 (unique_sorted_In _ _)) in Hk.
  exact Hk.
Qed.

(** C8, as the code has it.  In the engine a date cell whose text does
    not parse makes the whole run end with the ValueError of the parser:
    no table is returned, no record is dropped and nothing is counted; a
    table is returned only if no date cell holds such text.  An empty
    date cell is no error: it becomes NaT and the record stays in its
    frame; the record is counted in the totals of its state, and the
    monthly table, grouped by month, leaves it out without a count.  In
    the standalone script the dates of a file become NaT where the cell
    is empty or does not parse: the entry stays in the date column, the
    other columns are as read, and nothing is counted. *)
Theorem unparseable_date_handling :
  (forall (e : list Enrolment.record) (b : list Biometric.record)
          (d : list Demographic.record),
      Exists unparseable (all_dates e b d) ->
      run_main e b d = inl ValueError)
  /\ (forall (e : list Enrolment.record) (b : list Biometric.record)
             (d : list Demographic.record) (t : list Risk.row),
        run_main e b d = inr t ->
        Forall (fun c => ~ unparseable c) (all_dates e b d))
  /\ (forall (e : list Enrolment.record) (b : list Biometric.record)
             (d : list Demographic.record),
        Forall (fun c => ~ unparseable c) (all_dates e b d) ->
        run_main e b d <> inl ValueError
        /\ to_datetime (ColStr (map Enrolment.date e))
           = inr (ColDate (map parse_cell (map Enrolment.date e)))
        /\ to_datetime (ColStr (map Biometric.date b))
           = inr (ColDate (map parse_cell (map Biometric.date b)))
        /\ to_datetime (ColStr (map Demographic.date d))
           = inr (ColDate (map parse_cell (map Demographic.date d))))
  /\ (forall (e : list Enrolment.record) (b : list Biometric.record)
             (d : list Demographic.record) (sd : list StateData.row)
             (dd : list DistrictData.row) (md : list MonthlyData.row),
        exact_counts e b d ->
        run_aggregates e b d = inr (sd, dd, md) ->
        Forall (fun row =>
                  let k := StateData.state row in
                  StateData.total_updates row
                  = (records_sum biometric_state biometric_total b k
                     + records_sum demographic_state demographic_total d k)%Z
                  /\ sumZ (map MonthlyData.total_updates
                               (state_monthly md k))
                     = (StateData.total_updates row
                        - (records_sum undated_biometric biometric_total
                                       b k
                           + records_sum undated_demographic
                                         demographic_total d k))%Z)
               sd)
  /\ (forall (parse_dayfirst : string -> option Timestamp)
             (str_lower : string -> string)
             (df : DataFrame) (dates : list (option string)),
        get_col (lower_columns str_lower df) "date" = Some (ColStr dates) ->
        exists df',
          legacy_load_file parse_dayfirst str_lower df = inr df'
          /\ get_col df' "date"
             = Some (ColDate (map (coerce_cell parse_dayfirst) dates))
          /\ length (map (coerce_cell parse_dayfirst) dates) = length dates
          /\ forall name, name <> "date"%string ->
                          get_col df' name
                          = get_col (lower_columns str_lower df) name).
Proof.
  split; [exact run_main_error|]. split.
  { intros e b d t Hrun.
    destruct (run_main_inr _ _ _ _ Hrun) as (tb & td & _ & _ & H & _).
    exact H. }
  split.
  { intros e b d H. split.
    - rewrite (run_main_parsed e b d H).
      destruct (existsb read_as_float (name_columns e b d));
        [discriminate|].
      destruct (state_data_of e b d); discriminate.
    - unfold all_dates in H. rewrite !Forall_app in H.
      destruct H as (He & Hb & Hd). cbn [to_datetime].
      rewrite (parse_all_inr _ He), (parse_all_inr _ Hb),
        (parse_all_inr _ Hd). repeat split. }
  split.
  { intros e b d sd dd md Hx Hrun.
    destruct (run_aggregates_inr _ _ _ _ _ _ Hrun)
      as (tb & td & Pb & Pd & -> & _ & ->).
    apply Forall_forall. intros row Hrow. cbv zeta.
    destruct (state_rows_In e b d row Hx Hrow) as [E _].
    rewrite (monthly_totals_of_state e b d tb td _ Hx Pb Pd).
    rewrite <- E. split; [|reflexivity].
    rewrite E at 1. reflexivity. }
  intros parse_dayfirst str_lower df dates H.
  unfold legacy_load_file. rewrite H.
  cbn [to_datetime_coerce]. eexists. split; [reflexivity|].
  split; [apply get_set_col_same|]. split; [apply length_map|].
  intros name N. apply get_set_col_other. exact N.
Qed.

(** *** Stages and the store *)

Lemma keeps_refl (old : Store) : keeps old old.
Proof. exists []. symmetry. apply app_nil_r. Qed.

Lemma keeps_length (old s : Store) :
  keeps old s -> (length old <= length s)%nat.
Proof. intros [rest ->]. rewrite length_app. lia. Qed.

Lemma keeps_alloc (old s : Store) (f : Frame) :
  keeps old s -> created old (length s) (s ++ [f]).
Proof.
  intros [rest ->]. split.
  - exists (rest ++ [f]). symmetry. apply app_assoc.
  - rewrite !length_app. cbn [length]. lia.
Qed.

Lemma length_update {A : Type} (l : list A) (i : nat) (a : A) :
  length (update l i a) = length l.
Proof.
  revert i. induction l as [|x t IH]; intros [|j]; cbn [update length];
    auto.
Qed.

Lemma update_app_r {A : Type} (l rest : list A) (i : nat) (a : A) :
  (length l <= i)%nat ->
  update (l ++ rest) i a = l ++ update rest (i - length l) a.
Proof.
  revert i. induction l as [|x t IH]; intros i H.
  - cbn [app length]. rewrite Nat.sub_0_r. reflexivity.
  - cbn [length] in H. destruct i as [|j]; [lia|].
    cbn [app update length]. rewrite IH by lia. reflexivity.
Qed.

(** Assigning to an object created after [old] keeps [old]. *)
Lemma created_update (old s : Store) (r ref : Ref) (f : Frame) :
  created old r s -> (length old <= ref)%nat ->
  created old r (update s ref f).
Proof.
  intros [[rest ->] Hr] Href. split.
  - exists (update rest (ref - length old) f). apply update_app_r, Href.
  - rewrite length_update. exact Hr.
Qed.

Lemma triple_ret {A : Type} (P : Store -> Prop) (a : A)
  (Q : A -> Store -> Prop) (E : Store -> Prop) :
  (forall s, P s -> Q a s) -> triple P (ret a) Q E.
Proof. intros H s Hs. apply H, Hs. Qed.

Lemma triple_raise {A : Type} (P : Store -> Prop) (x : Exc)
  (Q : A -> Store -> Prop) (E : Store -> Prop) :
  (forall s, P s -> E s) -> triple P (raise x) Q E.
Proof. intros H s Hs. apply H, Hs. Qed.

Lemma triple_bind {A B : Type} (P : Store -> Prop) (m : M A)
  (k : A -> M B) (Q : A -> Store -> Prop) (R : B -> Store -> Prop)
  (E : Store -> Prop) :
  triple P m Q E -> (forall a, triple (Q a) (k a) R E) ->
  triple P (bind m k) R E.
Proof.
  intros Hm Hk s Hs. unfold bind. specialize (Hm s Hs).
  destruct (m s) as [[x|a] s1]; [exact Hm|]. apply (Hk a s1 Hm).
Qed.

(** A computation that leaves the store as it is keeps any assertion. *)
Lemma triple_reads {A : Type} (P E : Store -> Prop) (m : M A) :
  reads m -> (forall s, P s -> E s) -> triple P m (fun _ => P) E.
Proof.
  intros Hm W s Hs. destruct (Hm s) as [r Er]. rewrite Er.
  destruct r; [apply W|]; exact Hs.
Qed.

Lemma created_keeps (old : Store) (r : Ref) (s : Store) :
  created old r s -> keeps old s.
Proof. intro H. apply H. Qed.

Lemma reads_ret {A : Type} (a : A) : reads (ret a).
Proof. intro s. eexists. reflexivity. Qed.

Lemma reads_raise {A : Type} (x : Exc) : reads (@raise A x).
Proof. intro s. eexists. reflexivity. Qed.

Lemma reads_lift {A : Type} (r : Exc + A) : reads (lift r).
Proof. intro s. eexists. reflexivity. Qed.

Lemma reads_bind {A B : Type} (m : M A) (k : A -> M B) :
  reads m -> (forall a, reads (k a)) -> reads (bind m k).
Proof.
  intros Hm Hk s. unfold bind. destruct (Hm s) as [r E]. rewrite E.
  destruct r as [x|a]; [eexists; reflexivity|apply Hk].
Qed.

Lemma reads_deref (r : Ref) : reads (deref r).
Proof.
  intro s. unfold deref. destruct (nth_error s r); eexists; reflexivity.
Qed.

Lemma reads_getitem (r : Ref) (name : string) : reads (getitem r name).
Proof.
  unfold getitem. apply reads_bind; [apply reads_deref|].
  intros [df| | | | | | | |]; try apply reads_raise.
  destruct (get_col df name); [apply reads_ret|apply reads_raise].
Qed.

Lemma reads_get_strs (r : Ref) (name : string) : reads (get_strs r name).
Proof.
  unfold get_strs. apply reads_bind; [apply reads_getitem|].
  intros [l|l|l|l]; try apply reads_raise. apply reads_ret.
Qed.

Lemma reads_get_ints (r : Ref) (name : string) : reads (get_ints r name).
Proof.
  unfold get_ints. apply reads_bind; [apply reads_getitem|].
  intros [l|l|l|l]; try apply reads_raise. apply reads_ret.
Qed.

Lemma reads_get_periods (r : Ref) (name : string) :
  reads (get_periods r name).
Proof.
  unfold get_periods. apply reads_bind; [apply reads_getitem|].
  intros [l|l|l|l]; try apply reads_raise. apply reads_ret.
Qed.

Lemma triple_alloc (old : Store) (f : Frame) :
  triple (keeps old) (alloc f) (created old) (keeps old).
Proof. intros s Hs. apply keeps_alloc, Hs. Qed.

Lemma triple_copy (old : Store) (r : Ref) :
  triple (keeps old) (copy r) (created old) (keeps old).
Proof.
  unfold copy. eapply triple_bind.
  - apply triple_reads; [apply reads_deref|auto].
  - intro f. apply triple_alloc.
Qed.

(** Assigning to the created object [df] keeps it created. *)
Lemma triple_assign (old : Store) (df : Ref) (g : Frame -> Exc + Frame) :
  triple (created old df) (assign df g) (fun _ => created old df)
         (keeps old).
Proof.
  unfold assign. eapply triple_bind.
  - apply triple_reads; [apply reads_deref|apply created_keeps].
  - intro f. eapply triple_bind.
    + apply triple_reads; [apply reads_lift|apply created_keeps].
    + intros f' s Hs. apply created_update; [exact Hs|]. apply Hs.
Qed.

Lemma fresh_alloc (f : Frame) : fresh_result (alloc f).
Proof. intro old. apply triple_alloc. Qed.

Lemma fresh_raise (x : Exc) : fresh_result (raise x).
Proof. intro old. apply triple_raise. auto. Qed.

Lemma fresh_bind {A : Type} (m : M A) (k : A -> M Ref) :
  reads m -> (forall a, fresh_result (k a)) -> fresh_result (bind m k).
Proof.
  intros Hm Hk old. eapply triple_bind.
  - apply triple_reads; [exact Hm|auto].
  - intro a. apply Hk.
Qed.

Ltac fresh_steps :=
  repeat (apply fresh_bind;
          [first [ apply reads_get_strs | apply reads_get_ints
                 | apply reads_get_periods | apply reads_deref ]
          |intro]).

Lemma fresh_aggregate_by_state (e b d : Ref) :
  fresh_result (aggregate_by_state e b d).
Proof. unfold aggregate_by_state. fresh_steps. apply fresh_alloc. Qed.

Lemma fresh_aggregate_by_district (b d : Ref) :
  fresh_result (aggregate_by_district b d).
Proof. unfold aggregate_by_district. fresh_steps. apply fresh_alloc. Qed.

Lemma fresh_aggregate_by_month (b d : Ref) :
  fresh_result (aggregate_by_month b d).
Proof. unfold aggregate_by_month. fresh_steps. apply fresh_alloc. Qed.

Ltac fresh_frames :=
  repeat match goal with
         | |- fresh_result (match ?f with _ => _ end) => destruct f
         end;
  first [ apply fresh_alloc | apply fresh_raise
        | apply fresh_bind; [apply reads_lift|intro; apply fresh_alloc] ].

Lemma fresh_run_calculate_metrics (sd dd md : Ref) :
  fresh_result (run_calculate_metrics sd dd md).
Proof. unfold run_calculate_metrics. fresh_steps. fresh_frames. Qed.

(** A copy, assignments to the copy, and the copy returned. *)
Lemma fresh_copy_assign (r : Ref) (g : Frame -> Exc + Frame) :
  fresh_result (df <- copy r ;; assign df g ;;; ret df).
Proof.
  intro old. eapply triple_bind; [apply triple_copy|].
  intro df. eapply triple_bind; [apply triple_assign|].
  intro u. apply triple_ret. auto.
Qed.

Lemma fresh_run_calculate_health_score (m : Ref) :
  fresh_result (run_calculate_health_score m).
Proof. apply fresh_copy_assign. Qed.

Lemma fresh_run_assign_archetypes (m : Ref) :
  fresh_result (run_assign_archetypes m).
Proof. apply fresh_copy_assign. Qed.

Lemma fresh_run_calculate_problem_risks (sd m : Ref) :
  fresh_result (run_calculate_problem_risks sd m).
Proof.
  intro old. unfold run_calculate_problem_risks.
  eapply triple_bind; [apply triple_copy|]. intro df0.
  eapply triple_bind.
  { apply triple_reads; [apply reads_deref|apply created_keeps]. }
  intro fs. eapply triple_bind.
  { apply triple_reads; [apply reads_deref|apply created_keeps]. }
  intro f. apply (triple_bind _ _ _ (created old)).
  - assert (W : forall s, created old df0 s -> keeps old s)
      by apply created_keeps.
    destruct fs; try (apply triple_raise; exact W).
    destruct f; try (apply triple_raise; exact W).
    intros s Hs. apply keeps_alloc, W, Hs.
  - intro df. eapply triple_bind; [apply triple_assign|].
    intro u. apply triple_ret. auto.
Qed.

Lemma fresh_result_unchanged (m : M Ref) :
  fresh_result m -> leaves_inputs_unchanged m.
Proof.
  intros H s r s' E. specialize (H s s (keeps_refl s)). rewrite E in H.
  assert (K : keeps s s').
  { destruct r; [exact H|apply H]. }
  destruct K as [rest ->]. split.
  - intros i g Hi. rewrite nth_error_app1; [assumption|].
    apply nth_error_Some. congruence.
  - intros ref Hr. subst r. destruct H as [_ [Hlo Hhi]]. split.
    + apply nth_error_None. exact Hlo.
    + destruct (nth_error (s ++ rest) ref) as [f|] eqn:N;
        [exists f; reflexivity|].
      apply nth_error_None in N. lia.
Qed.

Lemma in_place_reads {A : Type} (m : M A) : reads m -> in_place m.
Proof.
  intros H s r s' E. destruct (H s) as [r' E']. rewrite E' in E.
  inversion E. reflexivity.
Qed.

Lemma in_place_bind {A B : Type} (m : M A) (k : A -> M B) :
  in_place m -> (forall a, in_place (k a)) -> in_place (bind m k).
Proof.
  intros Hm Hk s r s'. unfold bind.
  destruct (m s) as [[x|a] s1] eqn:E; intro E'.
  - inversion E'; subst. eapply Hm. eassumption.
  - rewrite (Hk a _ _ _ E'). eapply Hm. eassumption.
Qed.

Lemma in_place_setitem (r : Ref) (name : string) (c : Column) :
  in_place (setitem r name c).
Proof.
  unfold setitem, assign.
  apply in_place_bind; [apply in_place_reads, reads_deref|]. intro f.
  apply in_place_bind; [apply in_place_reads, reads_lift|]. intro f'.
  intros s x s' E. inversion E. apply length_update.
Qed.

Lemma returns_ret {A : Type} (x : A) : returns x (ret x).
Proof. intros s r s' E. inversion E. reflexivity. Qed.

Lemma returns_bind {A B : Type} (x : B) (m : M A) (k : A -> M B) :
  (forall a, returns x (k a)) -> returns x (bind m k).
Proof.
  intros Hk s r s'. unfold bind.
  destruct (m s) as [[e|a] s1]; intro E; [discriminate|].
  eapply Hk. eassumption.
Qed.

Ltac in_place_steps :=
  repeat first
    [ apply in_place_setitem
    | apply in_place_reads, reads_getitem
    | apply in_place_reads, reads_lift
    | apply in_place_reads, reads_ret
    | apply in_place_bind; [|intro] ].

Lemma nth_error_update_other {A : Type} (l : list A) (i j : nat) (a : A) :
  i <> j -> nth_error (update l j a) i = nth_error l i.
Proof.
  revert i j. induction l as [|x t IH]; intros i j N.
  - reflexivity.
  - destruct j as [|j], i as [|i]; cbn [update nth_error];
      try reflexivity; try congruence.
    apply IH. congruence.
Qed.

Lemma touches_reads {A : Type} (l : list Ref) (m : M A) :
  reads m -> touches_only l m.
Proof.
  intros H s r s' E i _. destruct (H s) as [r' E']. rewrite E' in E.
  inversion E. reflexivity.
Qed.

Lemma touches_bind {A B : Type} (l : list Ref) (m : M A) (k : A -> M B) :
  touches_only l m -> (forall a, touches_only l (k a)) ->
  touches_only l (bind m k).
Proof.
  intros Hm Hk s r s'. unfold bind.
  destruct (m s) as [[x|a] s1] eqn:E; intros E' i Hi.
  - inversion E'; subst. eapply Hm; eassumption.
  - rewrite (Hk a _ _ _ E' i Hi). eapply Hm; eassumption.
Qed.

Lemma touches_setitem (l : list Ref) (r : Ref) (name : string) (c : Column) :
  In r l -> touches_only l (setitem r name c).
Proof.
  intro Hr. unfold setitem, assign.
  apply touches_bind; [apply touches_reads, reads_deref|]. intro f.
  apply touches_bind; [apply touches_reads, reads_lift|]. intro f'.
  intros s x s' E i Hi. inversion E.
  apply nth_error_update_other. intro N. subst i. contradiction.
Qed.

Ltac touches_steps :=
  repeat first
    [ apply touches_setitem; cbn [In]; tauto
    | apply touches_reads, reads_getitem
    | apply touches_reads, reads_lift
    | apply touches_reads, reads_ret
    | apply touches_bind; [|intro] ].

Lemma preprocess_data_in_place (e b d : Ref) :
  in_place (preprocess_data e b d)
  /\ returns (e, b, d) (preprocess_data e b d)
  /\ touches_only [e; b; d] (preprocess_data e b d).
Proof.
  unfold preprocess_data, parse_date_column, month_column,
    standardize_names, add_total_enrolment, add_total_bio, add_total_demo.
  split; [|split].
  - in_place_steps.
  - repeat (apply returns_bind; intro). apply returns_ret.
  - touches_steps.
Qed.

(** *** What [preprocess_data] assigns *)

Lemma bind_inr {A B : Type} (m : M A) (k : A -> M B) (s : Store) (r : B)
  (s' : Store) :
  bind m k s = (inr r, s') ->
  exists a s1, m s = (inr a, s1) /\ k a s1 = (inr r, s').
Proof.
  unfold bind. destruct (m s) as [[x|a] s1]; [discriminate|].
  intro E. exists a, s1. split; [reflexivity|exact E].
Qed.

Lemma nth_error_update_same {A : Type} (l : list A) (i : nat) (a x : A) :
  nth_error l i = Some x -> nth_error (update l i a) i = Some a.
Proof.
  revert i. induction l as [|y t IH]; intros [|j]; cbn [nth_error update];
    try discriminate; [reflexivity|apply IH].
Qed.

Lemma getitem_inr (s : Store) (x : Ref) (df : DataFrame) (name : string)
  (c : Column) (s' : Store) :
  nth_error s x = Some (Records df) ->
  getitem x name s = (inr c, s') ->
  get_col df name = Some c /\ s' = s.
Proof.
  intros Hs. unfold getitem, deref, bind, ret, raise. rewrite Hs.
  destruct (get_col df name); [|discriminate].
  intro E. inversion E. split; reflexivity.
Qed.

Lemma setitem_run (s : Store) (x : Ref) (df : DataFrame) (name : string)
  (c : Column) :
  nth_error s x = Some (Records df) ->
  setitem x name c s = (inr tt, update s x (Records (set_col df name c))).
Proof.
  intro Hs. unfold setitem, assign, deref, bind, lift. rewrite Hs.
  reflexivity.
Qed.

Lemma lift_inr {A : Type} (r : Exc + A) (s : Store) (a : A) (s' : Store) :
  lift r s = (inr a, s') -> r = inr a /\ s' = s.
Proof. unfold lift. intro E. inversion E. split; reflexivity. Qed.

Lemma to_datetime_ColDate (c c' : Column) :
  to_datetime c = inr c' -> exists ts, c' = ColDate ts.
Proof.
  destruct c as [l|l|l|l]; cbn [to_datetime]; try discriminate.
  - destruct (parse_all l) as [|r]; [discriminate|].
    intro E. inversion E. eexists. reflexivity.
  - intro E. inversion E. eexists. reflexivity.
Qed.

(** The stages of [preprocess_data] on one frame, when they return. *)
Lemma parse_date_column_inr (s : Store) (x : Ref) (df : DataFrame)
  (u : unit) (s' : Store) :
  nth_error s x = Some (Records df) ->
  parse_date_column x s = (inr u, s') ->
  exists c ts,
    get_col df "date" = Some c /\ to_datetime c = inr (ColDate ts)
    /\ s' = update s x (Records (set_col df "date" (ColDate ts))).
Proof.
  intros Hs H. unfold parse_date_column in H.
  apply bind_inr in H. destruct H as (c & s1 & H1 & H).
  apply (getitem_inr _ _ _ _ _ _ Hs) in H1. destruct H1 as [Hc ->].
  apply bind_inr in H. destruct H as (c' & s2 & H2 & H).
  apply lift_inr in H2. destruct H2 as [Hd ->].
  destruct (to_datetime_ColDate _ _ Hd) as [ts ->].
  rewrite (setitem_run _ _ _ _ _ Hs) in H. inversion H.
  exists c, ts. repeat split; assumption.
Qed.

Lemma month_column_inr (s : Store) (x : Ref) (df : DataFrame)
  (u : unit) (s' : Store) :
  nth_error s x = Some (Records df) ->
  month_column x s = (inr u, s') ->
  exists ts,
    get_col df "date" = Some (ColDate ts)
    /\ s' = update s x
               (Records (set_col df "month"
                           (ColPeriod (map (option_map to_period_M) ts)))).
Proof.
  intros Hs H. unfold month_column in H.
  apply bind_inr in H. destruct H as (c & s1 & H1 & H).
  apply (getitem_inr _ _ _ _ _ _ Hs) in H1. destruct H1 as [Hc ->].
  apply bind_inr in H. destruct H as (c' & s2 & H2 & H).
  apply lift_inr in H2. destruct H2 as [Hd ->].
  destruct c as [l|l|l|l]; cbn [dt_to_period] in Hd; try discriminate.
  inversion Hd. subst c'.
  rewrite (setitem_run _ _ _ _ _ Hs) in H. inversion H.
  exists l. split; [exact Hc|reflexivity].
Qed.

Lemma update_update {A : Type} (l : list A) (i : nat) (a a' : A) :
  update (update l i a) i a' = update l i a'.
Proof.
  revert i. induction l as [|y t IH]; intros [|j]; cbn [update];
    try reflexivity. rewrite IH. reflexivity.
Qed.

Lemma standardize_names_inr (s : Store) (x : Ref) (df : DataFrame)
  (u : unit) (s' : Store) :
  nth_error s x = Some (Records df) ->
  standardize_names x s = (inr u, s') ->
  exists c1 c1' c2 c2',
    get_col df "state" = Some c1 /\ strip_title c1 = inr c1'
    /\ get_col df "district" = Some c2 /\ strip_title c2 = inr c2'
    /\ s' = update s x
               (Records (set_col (set_col df "state" c1') "district" c2')).
Proof.
  intros Hs H. unfold standardize_names in H.
  apply bind_inr in H. destruct H as (c1 & s1 & H1 & H).
  apply (getitem_inr _ _ _ _ _ _ Hs) in H1. destruct H1 as [Hc1 ->].
  apply bind_inr in H. destruct H as (c1' & s2 & H2 & H).
  apply lift_inr in H2. destruct H2 as [Hd1 ->].
  apply bind_inr in H. destruct H as (u1 & s3 & H3 & H).
  rewrite (setitem_run _ _ _ _ _ Hs) in H3. inversion H3. subst s3.
  pose proof (nth_error_update_same s x
                (Records (set_col df "state" c1')) _ Hs) as Hs'.
  apply bind_inr in H. destruct H as (c2 & s4 & H4 & H).
  apply (getitem_inr _ _ _ _ _ _ Hs') in H4. destruct H4 as [Hc2 ->].
  apply bind_inr in H. destruct H as (c2' & s5 & H5 & H).
  apply lift_inr in H5. destruct H5 as [Hd2 ->].
  rewrite (setitem_run _ _ _ _ _ Hs'), update_update in H. inversion H.
  rewrite get_set_col_other in Hc2 by discriminate.
  exists c1, c1', c2, c2'. repeat split; assumption.
Qed.

Lemma col_add_inr (a b c : Column) :
  col_add a b = inr c ->
  exists x y, a = ColInt x /\ b = ColInt y /\ c = ColInt (add_columns x y).
Proof.
  destruct a as [l|x|l|l], b as [l'|y|l'|l']; cbn [col_add];
    try discriminate.
  intro E. inversion E. exists x, y. repeat split.
Qed.

Lemma add_total_enrolment_inr (s : Store) (x : Ref) (df : DataFrame)
  (u : unit) (s' : Store) :
  nth_error s x = Some (Records df) ->
  add_total_enrolment x s = (inr u, s') ->
  exists a0 a1 a2,
    Forall2 (fun name c => get_col df name = Some (ColInt c))
            ["age_0_5"; "age_5_17"; "age_18_greater"]%string [a0; a1; a2]
    /\ s' = update s x
               (Records (set_col df "total_enrolment"
                           (ColInt (sum_columns [a0; a1; a2])))).
Proof.
  intros Hs H. unfold add_total_enrolment in H.
  apply bind_inr in H. destruct H as (c0 & s1 & H1 & H).
  apply (getitem_inr _ _ _ _ _ _ Hs) in H1. destruct H1 as [Hc0 ->].
  apply bind_inr in H. destruct H as (c1 & s1 & H1 & H).
  apply (getitem_inr _ _ _ _ _ _ Hs) in H1. destruct H1 as [Hc1 ->].
  apply bind_inr in H. destruct H as (c2 & s1 & H1 & H).
  apply (getitem_inr _ _ _ _ _ _ Hs) in H1. destruct H1 as [Hc2 ->].
  apply bind_inr in H. destruct H as (c01 & s1 & H1 & H).
  apply lift_inr in H1. destruct H1 as [Ha ->].
  apply bind_inr in H. destruct H as (tot & s1 & H1 & H).
  apply lift_inr in H1. destruct H1 as [Hb ->].
  apply col_add_inr in Ha. destruct Ha as (a0 & a1 & -> & -> & ->).
  apply col_add_inr in Hb. destruct Hb as (a01 & a2 & E & -> & ->).
  inversion E. subst a01.
  rewrite (setitem_run _ _ _ _ _ Hs) in H. inversion H.
  exists a0, a1, a2. split; [|reflexivity].
  repeat constructor; assumption.
Qed.

Lemma add_total_bio_inr (s : Store) (x : Ref) (df : DataFrame)
  (u : unit) (s' : Store) :
  nth_error s x = Some (Records df) ->
  add_total_bio x s = (inr u, s') ->
  exists b0 b1,
    Forall2 (fun name c => get_col df name = Some (ColInt c))
            ["bio_age_5_17"; "bio_age_17_"]%string [b0; b1]
    /\ s' = update s x
               (Records (set_col df "total_bio"
                           (ColInt (sum_columns [b0; b1])))).
Proof.
  intros Hs H. unfold add_total_bio in H.
  apply bind_inr in H. destruct H as (c0 & s1 & H1 & H).
  apply (getitem_inr _ _ _ _ _ _ Hs) in H1. destruct H1 as [Hc0 ->].
  apply bind_inr in H. destruct H as (c1 & s1 & H1 & H).
  apply (getitem_inr _ _ _ _ _ _ Hs) in H1. destruct H1 as [Hc1 ->].
  apply bind_inr in H. destruct H as (tot & s1 & H1 & H).
  apply lift_inr in H1. destruct H1 as [Ha ->].
  apply col_add_inr in Ha. destruct Ha as (b0 & b1 & -> & -> & ->).
  rewrite (setitem_run _ _ _ _ _ Hs) in H. inversion H.
  exists b0, b1. split; [|reflexivity].
  repeat constructor; assumption.
Qed.

Lemma add_total_demo_inr (s : Store) (x : Ref) (df : DataFrame)
  (u : unit) (s' : Store) :
  nth_error s x = Some (Records df) ->
  add_total_demo x s = (inr u, s') ->
  exists d0 d1,
    Forall2 (fun name c => get_col df name = Some (ColInt c))
            ["demo_age_5_17"; "demo_age_17_"]%string [d0; d1]
    /\ s' = update s x
               (Records (set_col df "total_demo"
                           (ColInt (sum_columns [d0; d1])))).
Proof.
  intros Hs H. unfold add_total_demo in H.
  apply bind_inr in H. destruct H as (c0 & s1 & H1 & H).
  apply (getitem_inr _ _ _ _ _ _ Hs) in H1. destruct H1 as [Hc0 ->].
  apply bind_inr in H. destruct H as (c1 & s1 & H1 & H).
  apply (getitem_inr _ _ _ _ _ _ Hs) in H1. destruct H1 as [Hc1 ->].
  apply bind_inr in H. destruct H as (tot & s1 & H1 & H).
  apply lift_inr in H1. destruct H1 as [Ha ->].
  apply col_add_inr in Ha. destruct Ha as (d0 & d1 & -> & -> & ->).
  rewrite (setitem_run _ _ _ _ _ Hs) in H. inversion H.
  exists d0, d1. split; [|reflexivity].
  repeat constructor; assumption.
Qed.

(** Assigning to one of three distinct frames. *)
Lemma record_frames_e (s : Store) (e b d : Ref) (de db dd de' : DataFrame) :
  NoDup [e; b; d] -> record_frames s e b d de db dd ->
  record_frames (update s e (Records de')) e b d de' db dd.
Proof.
  intros N (He & Hb & Hd). inversion N as [|? ? N1 N2]; subst.
  cbn [In] in N1. unfold record_frames.
  rewrite (nth_error_update_same _ _ _ _ He).
  rewrite !nth_error_update_other by (intro; subst; tauto). auto.
Qed.

Lemma record_frames_b (s : Store) (e b d : Ref) (de db dd db' : DataFrame) :
  NoDup [e; b; d] -> record_frames s e b d de db dd ->
  record_frames (update s b (Records db')) e b d de db' dd.
Proof.
  intros N (He & Hb & Hd). inversion N as [|? ? N1 N2]; subst.
  inversion N2 as [|? ? N3 N4]; subst. cbn [In] in N1, N3.
  unfold record_frames.
  rewrite (nth_error_update_same _ _ _ _ Hb).
  rewrite !nth_error_update_other by (intro; subst; tauto). auto.
Qed.

Lemma record_frames_d (s : Store) (e b d : Ref) (de db dd dd' : DataFrame) :
  NoDup [e; b; d] -> record_frames s e b d de db dd ->
  record_frames (update s d (Records dd')) e b d de db dd'.
Proof.
  intros N (He & Hb & Hd). inversion N as [|? ? N1 N2]; subst.
  inversion N2 as [|? ? N3 N4]; subst. cbn [In] in N1, N3.
  unfold record_frames.
  rewrite (nth_error_update_same _ _ _ _ Hd).
  rewrite !nth_error_update_other by (intro; subst; tauto). auto.
Qed.

(** The frame that the four stages leave. *)
Lemma preprocessed_frame (total : string) (parts : list string)
  (df : DataFrame) (c : Column) (ts : list (option Timestamp))
  (c1 c1' c2 c2' : Column) (cols : list (list Z)) :
  ~ In total ["date"; "month"; "state"; "district"]%string ->
  (forall name, In name parts ->
                ~ In name ["date"; "month"; "state"; "district"]%string) ->
  get_col df "date" = Some c -> to_datetime c = inr (ColDate ts) ->
  let d1 := set_col df "date" (ColDate ts) in
  let d2 := set_col d1 "month"
              (ColPeriod (map (option_map to_period_M) ts)) in
  get_col d2 "state" = Some c1 -> strip_title c1 = inr c1' ->
  get_col d2 "district" = Some c2 -> strip_title c2 = inr c2' ->
  let d3 := set_col (set_col d2 "state" c1') "district" c2' in
  Forall2 (fun name x => get_col d3 name = Some (ColInt x)) parts cols ->
  preprocessed total parts df
    (set_col d3 total (ColInt (sum_columns cols))).
Proof.
  intros Nt Np Hc Hts d1 d2 H1 H1' H2 H2' d3 Hcols.
  assert (O : forall name,
             ~ In name ["date"; "month"; "state"; "district"]%string ->
             get_col d3 name = get_col df name).
  { intros name N. cbn [In] in N. unfold d3, d2, d1.
    rewrite !get_set_col_other by (intro; subst; tauto). reflexivity. }
  unfold preprocessed. repeat apply conj.
  - exists c, ts. split; [exact Hc|]. split; [exact Hts|].
    cbn [In] in Nt. split.
    + rewrite get_set_col_other by (intro; subst; tauto). unfold d3, d2.
      rewrite !get_set_col_other by discriminate.
      apply get_set_col_same.
    + rewrite get_set_col_other by (intro; subst; tauto). unfold d3.
      rewrite !get_set_col_other by discriminate.
      apply get_set_col_same.
  - exists c1, c1'. unfold d2, d1 in H1.
    rewrite !get_set_col_other in H1 by discriminate.
    split; [exact H1|]. split; [exact H1'|].
    cbn [In] in Nt.
    rewrite get_set_col_other by (intro; subst; tauto). unfold d3.
    rewrite get_set_col_other by discriminate. apply get_set_col_same.
  - exists c2, c2'. unfold d2, d1 in H2.
    rewrite !get_set_col_other in H2 by discriminate.
    split; [exact H2|]. split; [exact H2'|].
    cbn [In] in Nt.
    rewrite get_set_col_other by (intro; subst; tauto).
    apply get_set_col_same.
  - exists cols. split; [|apply get_set_col_same].
    clear - Hcols Np O. induction Hcols as [|name x parts cols Hx Ht IH];
      constructor.
    + rewrite <- O; [exact Hx|]. apply Np. left. reflexivity.
    + apply IH. intros n Hn. apply Np. right. exact Hn.
  - intros name N. cbn [In] in N.
    rewrite get_set_col_other by (intro; subst; tauto).
    apply O. cbn [In]. tauto.
Qed.

(** [preprocess_data] on three distinct record frames, when it returns:
    it returns the references it was given, and each frame has its date,
    month, state, district and total columns assigned, and its other
    columns as they were. *)
Lemma preprocess_data_columns (s : Store) (e b d : Ref)
  (de db dd : DataFrame) (r : Ref * Ref * Ref) (s' : Store) :
  NoDup [e; b; d] -> record_frames s e b d de db dd ->
  preprocess_data e b d s = (inr r, s') ->
  r = (e, b, d)
  /\ exists de' db' dd',
      record_frames s' e b d de' db' dd'
      /\ preprocessed "total_enrolment"
           ["age_0_5"; "age_5_17"; "age_18_greater"]%string de de'
      /\ preprocessed "total_bio" ["bio_age_5_17"; "bio_age_17_"]%string
           db db'
      /\ preprocessed "total_demo"
           ["demo_age_5_17"; "demo_age_17_"]%string dd dd'.
Proof.
  intros N F H. unfold preprocess_data in H.
  (* dates *)
  apply bind_inr in H. destruct H as (u & s1 & H1 & H).
  apply (parse_date_column_inr _ _ _ _ _ (proj1 F)) in H1.
  destruct H1 as (ce & tse & Ee1 & Ee2 & ->).
  apply (record_frames_e _ _ _ _ _ _ _ (set_col de "date" (ColDate tse)) N)
    in F.
  apply bind_inr in H. destruct H as (u1 & s1 & H1 & H).
  apply (parse_date_column_inr _ _ _ _ _ (proj1 (proj2 F))) in H1.
  destruct H1 as (cb & tsb & Eb1 & Eb2 & ->).
  apply (record_frames_b _ _ _ _ _ _ _ (set_col db "date" (ColDate tsb)) N)
    in F.
  apply bind_inr in H. destruct H as (u2 & s1 & H1 & H).
  apply (parse_date_column_inr _ _ _ _ _ (proj2 (proj2 F))) in H1.
  destruct H1 as (cd & tsd & Ed1 & Ed2 & ->).
  apply (record_frames_d _ _ _ _ _ _ _ (set_col dd "date" (ColDate tsd)) N)
    in F.
  (* months *)
  apply bind_inr in H. destruct H as (u3 & s1 & H1 & H).
  apply (month_column_inr _ _ _ _ _ (proj1 F)) in H1.
  destruct H1 as (tse' & Me & ->).
  rewrite get_set_col_same in Me. inversion Me. subst tse'. clear Me.
  match type of F with
  | record_frames _ _ _ _ ?x _ _ =>
      apply (record_frames_e _ _ _ _ _ _ _
               (set_col x "month"
                  (ColPeriod (map (option_map to_period_M) tse))) N) in F
  end.
  apply bind_inr in H. destruct H as (u4 & s1 & H1 & H).
  apply (month_column_inr _ _ _ _ _ (proj1 (proj2 F))) in H1.
  destruct H1 as (tsb' & Mb & ->).
  rewrite get_set_col_same in Mb. inversion Mb. subst tsb'. clear Mb.
  match type of F with
  | record_frames _ _ _ _ _ ?x _ =>
      apply (record_frames_b _ _ _ _ _ _ _
               (set_col x "month"
                  (ColPeriod (map (option_map to_period_M) tsb))) N) in F
  end.
  apply bind_inr in H. destruct H as (u5 & s1 & H1 & H).
  apply (month_column_inr _ _ _ _ _ (proj2 (proj2 F))) in H1.
  destruct H1 as (tsd' & Md & ->).
  rewrite get_set_col_same in Md. inversion Md. subst tsd'. clear Md.
  match type of F with
  | record_frames _ _ _ _ _ _ ?x =>
      apply (record_frames_d _ _ _ _ _ _ _
               (set_col x "month"
                  (ColPeriod (map (option_map to_period_M) tsd))) N) in F
  end.
  (* names *)
  apply bind_inr in H. destruct H as (u6 & s1 & H1 & H).
  apply (standardize_names_inr _ _ _ _ _ (proj1 F)) in H1.
  destruct H1 as (e1 & e1' & e2 & e2' & Ne1 & Ne2 & Ne3 & Ne4 & ->).
  match type of F with
  | record_frames _ _ _ _ ?x _ _ =>
      apply (record_frames_e _ _ _ _ _ _ _
               (set_col (set_col x "state" e1') "district" e2') N) in F
  end.
  apply bind_inr in H. destruct H as (u7 & s1 & H1 & H).
  apply (standardize_names_inr _ _ _ _ _ (proj1 (proj2 F))) in H1.
  destruct H1 as (b1 & b1' & b2 & b2' & Nb1 & Nb2 & Nb3 & Nb4 & ->).
  match type of F with
  | record_frames _ _ _ _ _ ?x _ =>
      apply (record_frames_b _ _ _ _ _ _ _
               (set_col (set_col x "state" b1') "district" b2') N) in F
  end.
  apply bind_inr in H. destruct H as (u8 & s1 & H1 & H).
  apply (standardize_names_inr _ _ _ _ _ (proj2 (proj2 F))) in H1.
  destruct H1 as (d1 & d1' & d2 & d2' & Nd1 & Nd2 & Nd3 & Nd4 & ->).
  match type of F with
  | record_frames _ _ _ _ _ _ ?x =>
      apply (record_frames_d _ _ _ _ _ _ _
               (set_col (set_col x "state" d1') "district" d2') N) in F
  end.
  (* totals *)
  apply bind_inr in H. destruct H as (u9 & s1 & H1 & H).
  apply (add_total_enrolment_inr _ _ _ _ _ (proj1 F)) in H1.
  destruct H1 as (a0 & a1 & a2 & Te & ->).
  match type of F with
  | record_frames _ _ _ _ ?x _ _ =>
      apply (record_frames_e _ _ _ _ _ _ _
               (set_col x "total_enrolment"
                  (ColInt (sum_columns [a0; a1; a2]))) N) in F
  end.
  apply bind_inr in H. destruct H as (u10 & s1 & H1 & H).
  apply (add_total_bio_inr _ _ _ _ _ (proj1 (proj2 F))) in H1.
  destruct H1 as (b0 & b1'' & Tb & ->).
  match type of F with
  | record_frames _ _ _ _ _ ?x _ =>
      apply (record_frames_b _ _ _ _ _ _ _
               (set_col x "total_bio"
                  (ColInt (sum_columns [b0; b1'']))) N) in F
  end.
  apply bind_inr in H. destruct H as (u11 & s1 & H1 & H).
  apply (add_total_demo_inr _ _ _ _ _ (proj2 (proj2 F))) in H1.
  destruct H1 as (d0 & d1'' & Td & ->).
  match type of F with
  | record_frames _ _ _ _ _ _ ?x =>
      apply (record_frames_d _ _ _ _ _ _ _
               (set_col x "total_demo"
                  (ColInt (sum_columns [d0; d1'']))) N) in F
  end.
  unfold ret in H. inversion H. subst. split; [reflexivity|].
  do 3 eexists. split; [exact F|].
  split; [|split].
  - apply (preprocessed_frame _ _ de ce tse e1 e1' e2 e2');
      try assumption.
    + cbn [In]. intros [E|[E|[E|[E|[]]]]]; discriminate E.
    + intros name Hn. cbn [In] in *.
      destruct Hn as [<-|[<-|[<-|[]]]];
        intros [E|[E|[E|[E|[]]]]]; discriminate E.
  - apply (preprocessed_frame _ _ db cb tsb b1 b1' b2 b2');
      try assumption.
    + cbn [In]. intros [E|[E|[E|[E|[]]]]]; discriminate E.
    + intros name Hn. cbn [In] in *.
      destruct Hn as [<-|[<-|[]]];
        intros [E|[E|[E|[E|[]]]]]; discriminate E.
  - apply (preprocessed_frame _ _ dd cd tsd d1 d1' d2 d2');
      try assumption.
    + cbn [In]. intros [E|[E|[E|[E|[]]]]]; discriminate E.
    + intros name Hn. cbn [In] in *.
      destruct Hn as [<-|[<-|[]]];
        intros [E|[E|[E|[E|[]]]]]; discriminate E.
Qed.

(** On the frames as they are read, [preprocess_data] returns when no
    date cell holds text that does not parse and each of the six text
    columns has text. *)
Lemma preprocess_data_returns (e : list Enrolment.record)
  (b : list Biometric.record) (d : list Demographic.record) :
  Forall (fun c => ~ unparseable c) (all_dates e b d) ->
  existsb read_as_float (name_columns e b d) = false ->
  exists s',
    preprocess_data 0%nat 1%nat 2%nat
      [Records (read_enrolment e); Records (read_biometric b);
       Records (read_demographic d)]
    = (inr (0, 1, 2)%nat, s').
Proof.
  intros H N. unfold all_dates in H. rewrite !Forall_app in H.
  destruct H as (He & Hb & Hd). unfold name_columns in N.
  cbn [existsb] in N. rewrite !orb_false_iff in N.
  destruct N as (N1 & N2 & N3 & N4 & N5 & N6 & _).
  unfold_stages. run_stages.
  rewrite (parse_all_inr _ He). run_stages.
  rewrite (parse_all_inr _ Hb). run_stages.
  rewrite (parse_all_inr _ Hd). run_stages.
  rewrite N1. run_stages. rewrite N2. run_stages.
  rewrite N3. run_stages. rewrite N4. run_stages.
  rewrite N5. run_stages. rewrite N6. run_stages.
  eexists. reflexivity.
Qed.

(** C9, as the code has it.  Aggregation, pillar metrics, health
    scoring, archetype assignment and risk mapping leave every existing
    table as it is and return a table that did not exist before.
    Preprocessing does not: it creates no table, touches no table but the
    three it is given, and returns these same three tables, in which it
    has assigned the date, state and district columns and added the month
    and the total column; on the frames as read it returns when the dates
    parse and the name columns hold text. *)
Theorem stages_and_their_inputs :
  (forall e b d : Ref, leaves_inputs_unchanged (aggregate_by_state e b d))
  /\ (forall b d : Ref, leaves_inputs_unchanged (aggregate_by_district b d))
  /\ (forall b d : Ref, leaves_inputs_unchanged (aggregate_by_month b d))
  /\ (forall sd dd md : Ref,
        leaves_inputs_unchanged (run_calculate_metrics sd dd md))
  /\ (forall m : Ref, leaves_inputs_unchanged (run_calculate_health_score m))
  /\ (forall m : Ref, leaves_inputs_unchanged (run_assign_archetypes m))
  /\ (forall sd m : Ref,
        leaves_inputs_unchanged (run_calculate_problem_risks sd m))
  /\ (forall e b d : Ref,
        in_place (preprocess_data e b d)
        /\ returns (e, b, d) (preprocess_data e b d)
        /\ touches_only [e; b; d] (preprocess_data e b d))
  /\ (forall (s : Store) (e b d : Ref) (de db dd : DataFrame)
             (r : Ref * Ref * Ref) (s' : Store),
        NoDup [e; b; d] -> record_frames s e b d de db dd ->
        preprocess_data e b d s = (inr r, s') ->
        exists de' db' dd',
          record_frames s' e b d de' db' dd'
          /\ preprocessed "total_enrolment"
               ["age_0_5"; "age_5_17"; "age_18_greater"]%string de de'
          /\ preprocessed "total_bio"
               ["bio_age_5_17"; "bio_age_17_"]%string db db'
          /\ preprocessed "total_demo"
               ["demo_age_5_17"; "demo_age_17_"]%string dd dd')
  /\ (forall (e : list Enrolment.record) (b : list Biometric.record)
             (d : list Demographic.record),
        Forall (fun c => ~ unparseable c) (all_dates e b d) ->
        existsb read_as_float (name_columns e b d) = false ->
        exists s',
          preprocess_data 0%nat 1%nat 2%nat
            [Records (read_enrolment e); Records (read_biometric b);
             Records (read_demographic d)]
          = (inr (0, 1, 2)%nat, s')).
Proof.
  repeat apply conj; intros; try apply fresh_result_unchanged.
  - apply fresh_aggregate_by_state.
  - apply fresh_aggregate_by_district.
  - apply fresh_aggregate_by_month.
  - apply fresh_run_calculate_metrics.
  - apply fresh_run_calculate_health_score.
  - apply fresh_run_assign_archetypes.
  - apply fresh_run_calculate_problem_risks.
  - apply preprocess_data_in_place.
  - eapply preprocess_data_columns; eassumption.
  - apply preprocess_data_returns; assumption.
Qed.
(** *** The aggregated tables against the input records *)

Lemma state_row_state (e : list Enrolment.record)
  (b : list Biometric.record) (d : list Demographic.record)
  (L : list string) :
  map StateData.state (map (state_row e b d) L) = L.
Proof. rewrite map_map. cbn [state_row StateData.state]. apply map_id. Qed.

Lemma all_states_cover (e : list Enrolment.record)
  (b : list Biometric.record) (d : list Demographic.record) :
  let U := unique_sorted (all_states e b d) in
  (forall q, In q (present (map enrolment_state e)) -> In q U)
  /\ (forall q, In q (present (map biometric_state b)) -> In q U)
  /\ (forall q, In q (present (map demographic_state d)) -> In q U).
Proof.
  cbv zeta. repeat split; intros q Hq; apply unique_sorted_In;
    unfold all_states; rewrite !in_app_iff; auto.
Qed.

Lemma records_sum_no_key {R K : Type} `{Key K} (key : R -> option K)
  (f : R -> Z) (l : list R) (k : K) :
  (forall r, In r l -> key r = None) -> records_sum key f l k = 0%Z.
Proof.
  intro E. unfold records_sum. rewrite filter_none; [reflexivity|].
  intros r Hr. rewrite (E r Hr). reflexivity.
Qed.

(** [aggregate_by_state] after [preprocess_data], on counts that stay
    exact: the state table has exactly one row for every state that
    occurs, once stripped and title-cased, in a record of any of the three
    datasets; the rows are in ascending order of the state; and every
    column of a row is the sum of that column over the records of the
    state, 0 where a dataset has no record of it, with [total_updates] the
    sum of both update totals. *)
Theorem aggregate_by_state_rows (e : list Enrolment.record)
  (b : list Biometric.record) (d : list Demographic.record)
  (sd : list StateData.row) (dd : list DistrictData.row)
  (md : list MonthlyData.row) :
  exact_counts e b d ->
  run_aggregates e b d = inr (sd, dd, md) ->
  ascending_keys (map StateData.state sd)
  /\ (forall k, In k (map StateData.state sd) <-> In k (all_states e b d))
  /\ Forall (fun row => row = state_row e b d (StateData.state row)) sd.
Proof.
  intros Hx Hrun.
  destruct (run_aggregates_inr _ _ _ _ _ _ Hrun)
    as (tb & td & _ & _ & -> & _ & _).
  rewrite (state_data_of_rows e b d Hx), state_row_state.
  split; [apply unique_sorted_ascending|].
  split; [intro k; apply unique_sorted_In|].
  apply Forall_forall. intros row Hrow.
  apply in_map_iff in Hrow. destruct Hrow as (k & <- & _). reflexivity.
Qed.

Lemma state_data_totals (e : list Enrolment.record)
  (b : list Biometric.record) (d : list Demographic.record) :
  exact_counts e b d ->
  let sd := state_data_of e b d in
  sumZ (map StateData.total_enrolment sd)
  = sumZ (map enrolment_total (with_key enrolment_state e))
  /\ sumZ (map StateData.total_bio sd)
     = sumZ (map biometric_total (with_key biometric_state b))
  /\ sumZ (map StateData.total_demo sd)
     = sumZ (map demographic_total (with_key demographic_state d))
  /\ sumZ (map StateData.total_updates sd)
     = (sumZ (map biometric_total (with_key biometric_state b))
        + sumZ (map demographic_total (with_key demographic_state d)))%Z.
Proof.
  intros Hx. cbv zeta.
  rewrite (state_data_of_rows e b d Hx), !map_map.
  cbn [state_row StateData.total_enrolment StateData.total_bio
       StateData.total_demo StateData.total_updates].
  destruct (all_states_cover e b d) as (Ce & Cb & Cd).
  pose proof (unique_sorted_NoDup (all_states e b d)) as HU.
  rewrite sumZ_map_add.
  rewrite !(records_sum_all enrolment_state enrolment_total e _ HU Ce).
  rewrite !(records_sum_all biometric_state biometric_total b _ HU Cb).
  rewrite !(records_sum_all demographic_state demographic_total d _ HU Cd).
  repeat split; reflexivity.
Qed.

Lemma sumZ_with_key_abs {R K : Type} (key : R -> option K) (f m : R -> Z)
  (l : list R) :
  (forall r, (Z.abs (f r) <= m r)%Z) ->
  (Z.abs (sumZ (map f (with_key key l))) <= sumZ (map m l))%Z.
Proof.
  intro Hm. pose proof (sumZ_map_abs f (with_key key l)) as A.
  pose proof (sumZ_map_le (fun a => Z.abs (f a)) m (with_key key l)
                (fun a _ => Hm a)) as B.
  assert (C : (sumZ (map m (with_key key l)) <= sumZ (map m l))%Z).
  { apply sumZ_filter_le. intros a _. specialize (Hm a). lia. }
  lia.
Qed.

(** The national totals of [calculate_metrics] do not wrap on counts
    that stay exact. *)
Lemma national_totals_exact (e : list Enrolment.record)
  (b : list Biometric.record) (d : list Demographic.record) :
  exact_counts e b d ->
  let sd := state_data_of e b d in
  int64_sum (map StateData.total_enrolment sd)
  = sumZ (map StateData.total_enrolment sd)
  /\ int64_sum (map StateData.total_updates sd)
     = sumZ (map StateData.total_updates sd).
Proof.
  intro Hx. cbv zeta.
  destruct (state_data_totals e b d Hx) as (Ee & _ & _ & Eu).
  pose proof (sumZ_with_key_abs enrolment_state enrolment_total
                enrolment_magnitude e) as Ae.
  pose proof (sumZ_with_key_abs biometric_state biometric_total
                biometric_magnitude b) as Ab.
  pose proof (sumZ_with_key_abs demographic_state demographic_total
                demographic_magnitude d) as Ad.
  pose proof (enrolment_magnitude_sum e).
  pose proof (biometric_magnitude_sum b).
  pose proof (demographic_magnitude_sum d).
  unfold exact_counts in Hx. unfold int64_sum.
  split; apply wrap64_small; unfold in_int64.
  - rewrite Ee. specialize (Ae ltac:(magnitude)). lia.
  - rewrite Eu. specialize (Ab ltac:(magnitude)).
    specialize (Ad ltac:(magnitude)). lia.
Qed.

(** [aggregate_by_state], on counts that stay exact, loses exactly the
    records without a state and duplicates none: the columns
    [total_enrolment], [total_bio] and [total_demo] of the state table add
    up to the totals over the input records that have a state, and
    [total_updates] adds up to the biometric and demographic updates of
    these records. *)
Theorem aggregate_by_state_totals (e : list Enrolment.record)
  (b : list Biometric.record) (d : list Demographic.record)
  (sd : list StateData.row) (dd : list DistrictData.row)
  (md : list MonthlyData.row) :
  exact_counts e b d ->
  run_aggregates e b d = inr (sd, dd, md) ->
  sumZ (map StateData.total_enrolment sd)
  = sumZ (map enrolment_total (with_key enrolment_state e))
  /\ sumZ (map StateData.total_bio sd)
     = sumZ (map biometric_total (with_key biometric_state b))
  /\ sumZ (map StateData.total_demo sd)
     = sumZ (map demographic_total (with_key demographic_state d))
  /\ sumZ (map StateData.total_updates sd)
     = (sumZ (map biometric_total (with_key biometric_state b))
        + sumZ (map demographic_total (with_key demographic_state d)))%Z.
Proof.
  intros Hx Hrun.
  destruct (run_aggregates_inr _ _ _ _ _ _ Hrun)
    as (tb & td & _ & _ & -> & _ & _).
  exact (state_data_totals e b d Hx).
Qed.

(** [aggregate_by_district] against [aggregate_by_state], on counts that
    stay exact: the district rows that [calculate_metrics] selects for a
    state of the state table have [total_updates] adding up to the
    [total_updates] of that state less the updates of its records without
    a district, which the groupby on (state, district) drops; they add up
    to the state's [total_updates] when every update record has a
    district. *)
Theorem district_totals_add_up (e : list Enrolment.record)
  (b : list Biometric.record) (d : list Demographic.record)
  (sd : list StateData.row) (dd : list DistrictData.row)
  (md : list MonthlyData.row) :
  exact_counts e b d ->
  run_aggregates e b d = inr (sd, dd, md) ->
  Forall (fun row =>
            let k := StateData.state row in
            sumZ (map DistrictData.total_updates (state_districts dd k))
            = (StateData.total_updates row
               - (records_sum unlocated_biometric biometric_total b k
                  + records_sum unlocated_demographic demographic_total
                                d k))%Z
            /\ ((forall r, In r b -> Biometric.district r <> None) ->
                (forall r, In r d -> Demographic.district r <> None) ->
                sumZ (map DistrictData.total_updates
                          (state_districts dd k))
                = StateData.total_updates row)) sd.
Proof.
  intros Hx Hrun.
  destruct (run_aggregates_inr _ _ _ _ _ _ Hrun)
    as (tb & td & _ & _ & -> & -> & _).
  apply Forall_forall. intros row Hrow. cbv zeta.
  destruct (state_rows_In e b d row Hx Hrow) as [E _].
  rewrite (district_totals_of_state e b d _ Hx), <- E.
  split; [reflexivity|]. intros Nb Nd.
  rewrite !records_sum_no_key; [lia| |].
  - intros r Hr. unfold unlocated_demographic.
    destruct (Demographic.district r) eqn:Er; [reflexivity|].
    contradiction (Nd r Hr).
  - intros r Hr. unfold unlocated_biometric.
    destruct (Biometric.district r) eqn:Er; [reflexivity|].
    contradiction (Nb r Hr).
Qed.

(** [aggregate_by_month] against [aggregate_by_state], on counts that
    stay exact: the monthly rows that [calculate_metrics] selects for a
    state of the state table have [total_updates] adding up to the
    [total_updates] of that state less the updates of its records without
    a date, whose month is missing and which the groupby on (state, month)
    drops; they add up to the state's [total_updates] when every update
    record has a date. *)
Theorem monthly_totals_add_up (e : list Enrolment.record)
  (b : list Biometric.record) (d : list Demographic.record)
  (sd : list StateData.row) (dd : list DistrictData.row)
  (md : list MonthlyData.row) :
  exact_counts e b d ->
  run_aggregates e b d = inr (sd, dd, md) ->
  Forall (fun row =>
            let k := StateData.state row in
            sumZ (map MonthlyData.total_updates (state_monthly md k))
            = (StateData.total_updates row
               - (records_sum undated_biometric biometric_total b k
                  + records_sum undated_demographic demographic_total
                                d k))%Z
            /\ ((forall r, In r b -> Biometric.date r <> None) ->
                (forall r, In r d -> Demographic.date r <> None) ->
                sumZ (map MonthlyData.total_updates (state_monthly md k))
                = StateData.total_updates row)) sd.
Proof.
  intros Hx Hrun.
  destruct (run_aggregates_inr _ _ _ _ _ _ Hrun)
    as (tb & td & Pb & Pd & -> & _ & ->).
  apply Forall_forall. intros row Hrow. cbv zeta.
  destruct (state_rows_In e b d row Hx Hrow) as [E _].
  rewrite (monthly_totals_of_state e b d tb td _ Hx Pb Pd), <- E.
  split; [reflexivity|]. intros Nb Nd.
  rewrite !records_sum_no_key; [lia| |].
  - intros r Hr. unfold undated_demographic.
    destruct (Demographic.date r) eqn:Er; [reflexivity|].
    contradiction (Nd r Hr).
  - intros r Hr. unfold undated_biometric.
    destruct (Biometric.date r) eqn:Er; [reflexivity|].
    contradiction (Nb r Hr).
Qed.

(** *** One row per state, from the state table to the risk table *)

Lemma metrics_rows_states (sd : list StateData.row)
  (dd : list DistrictData.row) (md : list MonthlyData.row) :
  map Metrics.state (metrics_rows sd dd md) = map StateData.state sd.
Proof.
  unfold metrics_rows. rewrite map_map. reflexivity.
Qed.

Lemma classified_states (m : list Metrics.row) :
  map (fun c => Metrics.state (Scored.metrics (Classified.scored c)))
      (assign_archetypes (calculate_health_score m))
  = map Metrics.state m.
Proof.
  unfold assign_archetypes, calculate_health_score. rewrite !map_map.
  reflexivity.
Qed.

Lemma filter_state_row (e : list Enrolment.record)
  (b : list Biometric.record) (d : list Demographic.record)
  (L : list string) (k : string) :
  NoDup L -> In k L ->
  filter (fun s => String.eqb (StateData.state s) k)
         (map (state_row e b d) L)
  = [state_row e b d k].
Proof.
  induction 1 as [|x t Hx Ht IH]; cbn [In]; [tauto|].
  cbn [map filter]. cbn [state_row StateData.state].
  fold (state_row e b d x).
  destruct (String.eqb_spec x k) as [->|N].
  - intros _. f_equal.
    rewrite filter_none; [reflexivity|].
    intros s Hs. apply in_map_iff in Hs. destruct Hs as (y & <- & Hy).
    cbn [state_row StateData.state].
    apply String.eqb_neq. intros ->. contradiction.
  - intros [E|Hk]; [contradiction|]. apply IH, Hk.
Qed.

Lemma merge_left_ages_unique (e : list Enrolment.record)
  (b : list Biometric.record) (d : list Demographic.record)
  (L : list string) (df : list Classified.row) :
  NoDup L ->
  Forall (fun c =>
            In (Metrics.state (Scored.metrics (Classified.scored c))) L)
         df ->
  merge_left_ages df (map (state_row e b d) L)
  = map (fun c =>
           (c, Some (ages_of
                       (state_row e b d
                          (Metrics.state
                             (Scored.metrics (Classified.scored c)))))))
        df.
Proof.
  intros HL. unfold merge_left_ages.
  induction 1 as [|c t Hc Ht IH]; [reflexivity|].
  match goal with
  | |- flat_map ?f (c :: t) = _ =>
      change (flat_map f (c :: t)) with (f c ++ flat_map f t)
  end.
  cbv beta. rewrite IH, (filter_state_row e b d L _ HL Hc). reflexivity.
Qed.

(** [main], on counts that stay exact, through the left merge of
    [calculate_problem_risks]: the table it returns has exactly one row
    for every state of the input records, in ascending order, and the age
    columns merged into a row are those of the state's own row of the
    state table, the sums over the state's records, never missing. *)
Theorem one_risk_row_per_state (e : list Enrolment.record)
  (b : list Biometric.record) (d : list Demographic.record)
  (t : list Risk.row) :
  exact_counts e b d ->
  run_main e b d = inr t ->
  map risk_state t = unique_sorted (all_states e b d)
  /\ Forall (fun r =>
               Risk.ages r
               = Some (ages_of (state_row e b d (risk_state r)))) t.
Proof.
  intros Hx Hrun.
  destruct (run_main_inr _ _ _ _ Hrun) as (tb & td & _ & _ & _ & _ & _ & ->).
  unfold risk_table, calculate_problem_risks.
  set (dd := district_data_of b d).
  set (md := monthly_data_of b d tb td).
  rewrite (state_data_of_rows e b d Hx).
  set (U := unique_sorted (all_states e b d)).
  set (sd := map (state_row e b d) U).
  set (df := assign_archetypes
               (calculate_health_score (metrics_rows sd dd md))).
  assert (Hst : map (fun c => Metrics.state
                                (Scored.metrics (Classified.scored c))) df
                = U).
  { unfold df. rewrite classified_states, metrics_rows_states.
    apply state_row_state. }
  change (merge_left_ages df sd)
    with (merge_left_ages df (map (state_row e b d) U)).
  rewrite (merge_left_ages_unique e b d U df).
  - rewrite !map_map. unfold risk_state.
    cbn [risk_row Risk.classified Risk.ages]. split; [exact Hst|].
    apply Forall_forall. intros r Hr. apply in_map_iff in Hr.
    destruct Hr as (c & <- & _). reflexivity.
  - apply unique_sorted_NoDup.
  - apply Forall_forall. intros c Hc. rewrite <- Hst.
    apply (in_map (fun c => Metrics.state
                              (Scored.metrics (Classified.scored c)))).
    exact Hc.
Qed.

(** *** How large a Gini coefficient can be *)

Lemma np_sum_nonneg (l : list Q) :
  Forall (fun x => 0 <= x) l -> 0 <= np_sum l.
Proof.
  induction 1 as [|x t Hx Ht IH]; cbn [np_sum]; lra.
Qed.

Lemma np_sum_positive (l : list Q) :
  Forall (fun x => 0 < x) l -> l <> [] -> 0 < np_sum l.
Proof.
  intros H N. destruct H as [|x t Hx Ht]; [congruence|].
  cbn [np_sum].
  assert (0 <= np_sum t).
  { apply np_sum_nonneg. eapply Forall_impl; [|exact Ht].
    cbv beta. intros; lra. }
  lra.
Qed.

(** Every rank is at most the length: the ranked sum of nonnegative
    values is at most the last rank times their sum. *)
Lemma ranked_sum_le (l : list Q) :
  Forall (fun x => 0 <= x) l ->
  forall a : Z,
    (0 <= a)%Z ->
    np_sum (np_mul (np_arange a (a + Z.of_nat (length l))) l)
    <= (inject_Z a + inject_Z (Z.of_nat (length l)) - 1) * np_sum l.
Proof.
  induction 1 as [|x t Hx Ht IH]; intros a Ha.
  - simpl. rewrite np_arange_nil by lia. simpl. lra.
  - cbn [length]. rewrite np_arange_cons by lia.
    replace (a + Z.of_nat (S (length t)))%Z
      with ((a + 1) + Z.of_nat (length t))%Z by lia.
    unfold np_mul. cbn [combine map np_sum fst snd].
    fold (np_mul (np_arange (a + 1) (a + 1 + Z.of_nat (length t))) t).
    assert (E := IH (a + 1)%Z ltac:(lia)).
    assert (S := np_sum_nonneg t Ht).
    assert (L : 0 <= inject_Z (Z.of_nat (length t))).
    { change 0 with (inject_Z 0). rewrite <- Zle_Qle. lia. }
    assert (A : 0 <= inject_Z a).
    { change 0 with (inject_Z 0). rewrite <- Zle_Qle. lia. }
    rewrite Nat2Z.inj_succ. unfold Z.succ. rewrite !inject_Z_plus in *.
    change (inject_Z 1) with 1 in *. nra.
Qed.

Lemma calculate_gini_le (values : list Q) :
  (1 <= length (filter positive values))%nat ->
  calculate_gini values
  <= 1 - 1 / inject_Z (Z.of_nat (length (filter positive values))).
Proof.
  intro Hn. unfold calculate_gini.
  set (v := filter positive values) in *.
  assert (Hv : Forall (fun x => 0 < x) v).
  { apply Forall_forall. intros x Hx. apply filter_In in Hx.
    apply Qltb_lt, Hx. }
  assert (N1 : 1 <= inject_Z (Z.of_nat (length v))).
  { change 1 with (inject_Z 1). rewrite <- Zle_Qle. lia. }
  assert (B : 0 <= 1 - 1 / inject_Z (Z.of_nat (length v))).
  { assert (1 / inject_Z (Z.of_nat (length v)) <= 1); [|lra].
    apply Qle_shift_div_r; lra. }
  destruct (Nat.ltb_spec (length v) 2) as [L|L]; [exact B|].
  cbv zeta. set (s := np_sort v).
  assert (Hs : Forall (fun x => 0 < x) s)
    by (apply Forall_np_sort; assumption).
  assert (Hl : length s = length v) by apply length_np_sort.
  rewrite last_np_cumsum, Hl.
  assert (T : 0 < np_sum s).
  { apply np_sum_positive; [assumption|].
    intro E. rewrite E in Hl. cbn in Hl. lia. }
  assert (R := ranked_sum_le s
                 ltac:(eapply Forall_impl; [|exact Hs]; cbv beta;
                       intros; lra) 1%Z ltac:(lia)).
  rewrite Hl in R.
  replace (Z.of_nat (length v) + 1)%Z with (1 + Z.of_nat (length v))%Z
    by lia.
  set (n := inject_Z (Z.of_nat (length v))) in *.
  change (inject_Z 1) with 1 in R.
  set (S := np_sum (np_mul (np_arange 1 (1 + Z.of_nat (length v))) s))
    in *.
  apply Q.max_lub; [exact B|].
  eapply Qle_trans; [apply Q.le_min_r|].
  assert (D : 2 * S / (n * np_sum s) <= 2).
  { apply Qle_shift_div_r; [nra|]. nra. }
  assert (F : (n + 1) / n == 1 + 1 / n) by (field; lra).
  rewrite F. lra.
Qed.

Lemma calculate_gini_le_half (values : list Q) :
  (length (filter positive values) <= 2)%nat ->
  calculate_gini values <= 0.5.
Proof.
  intro H2.
  destruct (Nat.le_gt_cases 1 (length (filter positive values)))
    as [H1|H0].
  - eapply Qle_trans; [apply calculate_gini_le, H1|].
    set (n := inject_Z (Z.of_nat (length (filter positive values)))).
    assert (N1 : 1 <= n).
    { unfold n. change 1 with (inject_Z 1). rewrite <- Zle_Qle. lia. }
    assert (N2 : n <= 2).
    { unfold n. change 2 with (inject_Z 2). rewrite <- Zle_Qle. lia. }
    assert (0.5 <= 1 / n); [|lra].
    apply Qle_shift_div_l; lra.
  - rewrite calculate_gini_few by lia. lra.
Qed.

(** [calculate_gini] on n positive entries is at most 1 - 1/n, so at most
    one half when no more than two entries are positive. *)
Theorem calculate_gini_at_most (values : list Q) :
  ((1 <= length (filter positive values))%nat ->
   calculate_gini values
   <= 1 - 1 / inject_Z (Z.of_nat (length (filter positive values))))
  /\ ((length (filter positive values) <= 2)%nat ->
      calculate_gini values <= 0.5).
Proof.
  split.
  - apply calculate_gini_le.
  - apply calculate_gini_le_half.
Qed.

Lemma positive_inject_Z (z : Z) : positive (inject_Z z) = (0 <? z)%Z.
Proof.
  unfold positive. destruct (Z.ltb_spec 0 z) as [P|N].
  - apply Qltb_lt. change 0 with (inject_Z 0). rewrite <- Zlt_Qlt. exact P.
  - destruct (Qltb 0 (inject_Z z)) eqn:E; [|reflexivity].
    apply Qltb_lt in E. change 0 with (inject_Z 0) in E.
    rewrite <- Zlt_Qlt in E. lia.
Qed.

Lemma metrics_of_row_GCI_le_half (ne nu : Z) (nyr : Q)
  (dd : list DistrictData.row) (md : list MonthlyData.row)
  (row : StateData.row) :
  (active_districts dd (StateData.state row) <= 2)%nat ->
  Metrics.GCI (metrics_of_row ne nu nyr dd md row) <= 0.5.
Proof.
  intro H. unfold metrics_of_row. cbv zeta. cbn [Metrics.GCI].
  match goal with |- (if ?c then _ else _) <= _ => destruct c end;
    [|lra].
  apply calculate_gini_le_half.
  rewrite filter_map_comm, length_map.
  erewrite filter_ext; [exact H|].
  intro r. apply positive_inject_Z.
Qed.

(** [classify_archetype] after [calculate_metrics]: a state is labelled
    'Excluded (Geographic)' only if at least three of its districts have
    updates, since the Gini coefficient of two districts cannot exceed
    one half and the rule asks for more than 0.6. *)
Theorem geographic_exclusion_needs_three_districts
  (sd : list StateData.row) (dd : list DistrictData.row)
  (md : list MonthlyData.row) (m : list Metrics.row) :
  calculate_metrics sd dd md = inr m ->
  Forall (fun c =>
            Classified.Archetype c = "Excluded (Geographic)"%string ->
            (3 <= active_districts dd
                    (Metrics.state
                       (Scored.metrics (Classified.scored c))))%nat)
         (assign_archetypes (calculate_health_score m)).
Proof.
  intro Em0. apply calculate_metrics_inr in Em0. destruct Em0 as [_ ->].
  apply Forall_forall. intros c Hc.
  unfold assign_archetypes in Hc. apply in_map_iff in Hc.
  destruct Hc as (r & <- & Hr). cbn [Classified.Archetype Classified.scored].
  pose proof (calculate_health_score_In _ _ Hr) as Hm.
  apply metrics_rows_In in Hm. destruct Hm as (row & _ & Em).
  intro Hlabel.
  destruct (Nat.le_gt_cases 3
              (active_districts dd (Metrics.state (Scored.metrics r))))
    as [|Hfew]; [assumption|exfalso].
  assert (G : Scored.GCI r <= 0.5).
  { unfold Scored.GCI. rewrite Em. apply metrics_of_row_GCI_le_half.
    rewrite Em in Hfew. cbn [metrics_of_row Metrics.state] in Hfew. lia. }
  revert Hlabel. unfold classify_archetype.
  destruct (Qltb (Scored.YIR r) 0.6); [discriminate|].
  destruct (Qltb (Scored.UBI r) 0.25 || Qltb 0.65 (Scored.UBI r));
    [discriminate|].
  destruct (Qltb 0.6 (Scored.GCI r)) eqn:E.
  { apply Qltb_lt in E. lra. }
  repeat match goal with
         | |- (if ?c then _ else _) = _ -> _ => destruct c
         end; discriminate.
Qed.

(** *** The pillar scores *)

Lemma fold_left_Qmin_In (l : list Q) (a : Q) :
  exists x, In x (a :: l) /\ x == fold_left Qmin l a.
Proof.
  revert a. induction l as [|y t IH]; intro a; cbn [fold_left].
  - exists a. split; [left; reflexivity|reflexivity].
  - destruct (IH (Qmin a y)) as (x & [<-|Hx] & E).
    + destruct (Q.min_spec a y) as [[_ M]|[_ M]].
      * exists a. split; [left; reflexivity|]. rewrite <- E, M.
        reflexivity.
      * exists y. split; [right; left; reflexivity|]. rewrite <- E, M.
        reflexivity.
    + exists x. split; [right; right; exact Hx|exact E].
Qed.

Lemma series_min_In (l : list Q) :
  l <> [] -> exists x, In x l /\ x == series_min l.
Proof.
  destruct l as [|a t]; [congruence|]. intros _.
  apply fold_left_Qmin_In.
Qed.

Lemma idi_span_positive (l : list Q) :
  0 < series_max l - series_min l + 0.001.
Proof.
  destruct l as [|a t]; [cbn; lra|].
  assert (series_min (a :: t) <= a)
    by (apply series_min_le; left; reflexivity).
  assert (a <= series_max (a :: t))
    by (apply series_max_ge; left; reflexivity).
  lra.
Qed.

(** [calculate_health_score]: within one table the IDI score does not
    increase with the IDI, so that a state of smaller IDI has at least the
    score of a state of larger IDI; it is never 0, because of the 0.001
    added to the span, and it is 100 for a state of smallest IDI. *)
Theorem idi_score_ranking (metrics_df : list Metrics.row) :
  let t := calculate_health_score metrics_df in
  Forall (fun r =>
            0 < Scored.IDI_score r <= 100
            /\ Forall (fun r' =>
                         Scored.IDI r <= Scored.IDI r'
                         -> Scored.IDI_score r' <= Scored.IDI_score r) t)
         t
  /\ (t <> [] -> Exists (fun r => Scored.IDI_score r == 100) t).
Proof.
  cbv zeta. unfold calculate_health_score.
  set (lo := series_min (map Metrics.IDI metrics_df)).
  set (hi := series_max (map Metrics.IDI metrics_df)).
  assert (HD : 0 < hi - lo + 0.001) by apply idi_span_positive.
  assert (Hi : 0 < / (hi - lo + 0.001)) by (apply Qinv_lt_0_compat, HD).
  assert (Hone : (hi - lo + 0.001) * / (hi - lo + 0.001) == 1)
    by (apply Qmult_inv_r; lra).
  assert (Hin : forall m, In m metrics_df -> lo <= Metrics.IDI m <= hi).
  { intros m Hm. split.
    - apply series_min_le, in_map, Hm.
    - apply series_max_ge, in_map, Hm. }
  split.
  - rewrite Forall_map. apply Forall_forall. intros m Hm.
    cbn [score_row Scored.IDI_score]. unfold Scored.IDI.
    cbn [Scored.metrics]. unfold Qdiv.
    set (i := / (hi - lo + 0.001)) in *.
    pose proof (Hin m Hm) as Bm.
    split; [split; nra|].
    rewrite Forall_map. apply Forall_forall. intros m' Hm'.
    cbn [score_row Scored.IDI_score Scored.metrics].
    pose proof (Hin m' Hm') as Bm'. unfold Qdiv. fold i.
    intro; nra.
  - intro Hne.
    destruct (series_min_In (map Metrics.IDI metrics_df)) as (x & Hx & Ex).
    { destruct metrics_df; [contradiction Hne; reflexivity|discriminate]. }
    apply in_map_iff in Hx. destruct Hx as (m & <- & Hm).
    apply Exists_exists. exists (score_row lo hi m).
    split; [apply in_map, Hm|].
    cbn [score_row Scored.IDI_score]. fold lo in Ex. rewrite Ex.
    unfold Qdiv. ring.
Qed.

Lemma clip_cases (x : Q) :
  (x <= 0 /\ clip 0 100 x == 0)
  \/ (0 <= x <= 100 /\ clip 0 100 x == x)
  \/ (100 <= x /\ clip 0 100 x == 100).
Proof.
  destruct (clip_clamped x x (Qeq_refl x)) as [[H E]|[[H E]|[H E]]].
  - left. split; [lra|exact E].
  - right. left. split; [exact H|exact E].
  - right. right. split; [lra|exact E].
Qed.

(** [calculate_health_score]: the UBI score is 100 exactly at the ideal
    balance 0.425 and 0 exactly from 0.85 on (and at or below 0); the YIR
    score is 100 exactly from 1.5 on and proportional to the YIR below. *)
Theorem ubi_yir_score_shape (metrics_df : list Metrics.row) :
  Forall (fun r =>
            (Scored.UBI_score r == 100 <-> Scored.UBI r == 0.425)
            /\ (Scored.UBI_score r == 0
                <-> Scored.UBI r <= 0 \/ 0.85 <= Scored.UBI r)
            /\ (Scored.YIR_score r == 100 <-> 1.5 <= Scored.YIR r)
            /\ (Scored.YIR r <= 1.5 ->
                Scored.YIR_score r == 100 * Scored.YIR r / 1.5))
         (calculate_health_score metrics_df).
Proof.
  unfold calculate_health_score. rewrite Forall_map.
  apply Forall_forall. intros m _.
  unfold Scored.UBI, Scored.YIR.
  cbn [score_row Scored.UBI_score Scored.YIR_score Scored.metrics].
  set (u := Metrics.UBI m). set (y := Metrics.YIR m).
  assert (Eu : 100 * (1 - Qabs (u - 0.425) / 0.425)
               == 100 - (4000 # 17) * Qabs (u - 0.425)) by field.
  assert (Ey : 100 * Qmin y 1.5 / 1.5 == (200 # 3) * Qmin y 1.5) by field.
  assert (Ey' : 100 * y / 1.5 == (200 # 3) * y) by field.
  rewrite Ey.
  destruct (clip_cases (100 * (1 - Qabs (u - 0.425) / 0.425)))
    as [[H E]|[[H E]|[H E]]]; rewrite E; rewrite Eu in *; clear E;
    (assert (A : (0 <= u - 0.425 /\ Qabs (u - 0.425) == u - 0.425)
                 \/ (u - 0.425 <= 0
                     /\ Qabs (u - 0.425) == - (u - 0.425)));
     [destruct (Qlt_le_dec (u - 0.425) 0);
      [right; split; [lra|apply Qabs_neg; lra]
      |left; split; [lra|apply Qabs_pos; lra]]|]);
    (destruct (Q.min_spec y 1.5) as [[My Em]|[My Em]]; rewrite Em);
    destruct A as [[A1 A2]|[A1 A2]]; rewrite A2 in *;
    repeat split; intros; try lra;
    try (destruct (Qlt_le_dec u 0.85); [right; lra|left; lra]);
    try (match goal with H : _ \/ _ |- _ => destruct H; lra end).
Qed.

(** *** The risk columns *)

(** [calculate_problem_risks], on any state table and any classified
    table: the Scholarship, OTP and Banking risks lie in [0,100]; the
    composite risk is the mean of the five risks, so it lies in [0,100]
    too, and it is 100 only if each of the five is 100. *)
Theorem problem_risks_in_percent (state_data : list StateData.row)
  (metrics_df : list Classified.row) :
  Forall (fun r =>
            in_percent (Risk.Scholarship_Risk r)
            /\ in_percent (Risk.OTP_Risk r)
            /\ in_percent (Risk.Banking_Risk r)
            /\ 5 * Risk.Composite_Problem_Risk r
               == Risk.PDS_Risk r + Risk.DBT_Risk r
                  + Risk.Scholarship_Risk r + Risk.OTP_Risk r
                  + Risk.Banking_Risk r
            /\ in_percent (Risk.Composite_Problem_Risk r)
            /\ (Risk.Composite_Problem_Risk r == 100 ->
                Risk.PDS_Risk r == 100 /\ Risk.DBT_Risk r == 100
                /\ Risk.Scholarship_Risk r == 100
                /\ Risk.OTP_Risk r == 100 /\ Risk.Banking_Risk r == 100))
         (calculate_problem_risks state_data metrics_df).
Proof.
  unfold calculate_problem_risks. rewrite Forall_map.
  apply Forall_forall. intros [c ages] _. unfold risk_row.
  cbn [Risk.PDS_Risk Risk.DBT_Risk Risk.Scholarship_Risk Risk.OTP_Risk
       Risk.Banking_Risk Risk.Composite_Problem_Risk].
  set (r1 := clip 0 100 _). set (r2 := clip 0 100 _).
  set (r3 := clip 0 100 _). set (r4 := clip 0 100 _).
  set (r5 := clip 0 100 _).
  assert (H1 : in_percent r1) by apply clip_in_percent.
  assert (H2 : in_percent r2) by apply clip_in_percent.
  assert (H3 : in_percent r3) by apply clip_in_percent.
  assert (H4 : in_percent r4) by apply clip_in_percent.
  assert (H5 : in_percent r5) by apply clip_in_percent.
  unfold in_percent in *.
  set (comp := (_ + _ + _ + _ + _) / 5).
  assert (E : 5 * comp == r1 + r2 + r3 + r4 + r5)
    by (unfold comp; field).
  repeat split; intros; repeat split; lra.
Qed.

(** [calculate_problem_risks] after [assign_archetypes]: a state is
    labelled 'Excluded (Youth)' exactly when its Scholarship risk is
    above 40, both being the test YIR < 0.6. *)
Theorem excluded_youth_iff_scholarship_risk
  (state_data : list StateData.row) (scored : list Scored.row) :
  Forall (fun r =>
            Classified.Archetype (Risk.classified r)
            = "Excluded (Youth)"%string
            <-> 40 < Risk.Scholarship_Risk r)
         (calculate_problem_risks state_data (assign_archetypes scored)).
Proof.
  apply Forall_forall. intros r Hr.
  unfold calculate_problem_risks in Hr. apply in_map_iff in Hr.
  destruct Hr as ([c ages] & <- & Hin).
  apply merge_left_ages_In in Hin. destruct Hin as [Hc _].
  unfold assign_archetypes in Hc. apply in_map_iff in Hc.
  destruct Hc as (s & <- & _).
  cbn [risk_row Risk.classified Risk.Scholarship_Risk
       Classified.Archetype Classified.scored].
  destruct (clip_cases ((1 - Scored.YIR s) * 100))
    as [[H E]|[[H E]|[H E]]]; rewrite E; clear E;
    unfold classify_archetype;
    (destruct (Qltb (Scored.YIR s) 0.6) eqn:Y;
     [apply Qltb_lt in Y|apply Qltb_ge in Y]);
    (split; [intro L|intro L; try reflexivity; try lra]); try lra;
    exfalso; revert L;
    repeat match goal with
           | |- (if ?c then _ else _) = _ -> _ => destruct c
           end; discriminate.
Qed.

(** [main] on records with nonnegative counts that stay exact: the
    Banking risk of every state is exactly 100 minus its health score, the
    clip never acting because the health score is within [0,100]. *)
Theorem banking_risk_mirrors_health (e : list Enrolment.record)
  (b : list Biometric.record) (d : list Demographic.record)
  (t : list Risk.row) :
  Forall nonneg_enrolment e -> Forall nonneg_biometric b ->
  Forall nonneg_demographic d ->
  exact_counts e b d ->
  run_main e b d = inr t ->
  Forall (fun r =>
            Risk.Banking_Risk r
            == 100 - Scored.Health_Score
                       (Classified.scored (Risk.classified r))) t.
Proof.
  intros He Hb Hd Hx Hrun.
  pose proof (run_main_scores e b d t He Hb Hd Hx Hrun) as S.
  destruct (run_main_inr _ _ _ _ Hrun)
    as (tb & td & _ & _ & _ & _ & _ & ->).
  apply Forall_forall. intros r Hr.
  rewrite Forall_forall in S. destruct (S r Hr) as [_ Sc].
  destruct Sc as (_ & _ & _ & _ & _ & _ & Hh). unfold in_percent in Hh.
  unfold risk_table, calculate_problem_risks in Hr.
  apply in_map_iff in Hr. destruct Hr as ([c ages] & <- & _).
  cbn [risk_row Risk.Banking_Risk Risk.classified] in *.
  destruct (clip_cases (100 - Scored.Health_Score (Classified.scored c)))
    as [[H E]|[[H E]|[H E]]]; rewrite E; lra.
Qed.

(** *** Archetype symbols *)

(** [assign_archetypes]: the rows keep their order and their scores; the
    symbol is never missing, it is the entry of the symbol table for the
    row's archetype, the display text is the symbol, a space and the
    archetype, and the symbol is '[!]' exactly for the three 'Excluded'
    archetypes. *)
Theorem assign_archetypes_symbols (scored : list Scored.row) :
  map Classified.scored (assign_archetypes scored) = scored
  /\ Forall (fun c =>
               exists s,
                 In (Classified.Archetype c, s) archetype_symbol
                 /\ Classified.Archetype_Symbol c = Some s
                 /\ Classified.Archetype_Display c
                    = Some (s ++ " " ++ Classified.Archetype c)%string
                 /\ (s = "[!]"%string
                     <-> String.prefix "Excluded"
                           (Classified.Archetype c) = true))
            (assign_archetypes scored).
Proof.
  unfold assign_archetypes. split.
  - rewrite map_map. cbn [Classified.scored]. apply map_id.
  - rewrite Forall_map. apply Forall_forall. intros r _.
    cbn [Classified.Archetype Classified.Archetype_Symbol
         Classified.Archetype_Display].
    unfold classify_archetype.
    repeat match goal with
           | |- context [if ?b then _ else _] => destruct b
           end;
      (eexists; refine (conj _ (conj eq_refl (conj eq_refl _)));
       [cbn; tauto
       |split; intro H;
        first [reflexivity|vm_compute in H; discriminate H]]).
Qed.

(** *** Recommendations *)

Lemma list_sum_cons (x : nat) (l : list nat) :
  list_sum (x :: l) = (x + list_sum l)%nat.
Proof. reflexivity. Qed.

Lemma list_sum_filter_positive {A : Type} (f : A -> nat) (l : list A) :
  list_sum (map f (filter (fun a => (0 <? f a)%nat) l))
  = list_sum (map f l).
Proof.
  induction l as [|a t IH]; cbn [filter map]; [reflexivity|].
  destruct (Nat.ltb_spec 0 (f a)) as [P|N]; cbn [map];
    rewrite ?list_sum_cons, IH; lia.
Qed.

(** Counting the rows label by label, over distinct labels, counts the
    rows that carry one of the labels. *)
Lemma count_by_archetype (L : list string) (t : list Risk.row) :
  NoDup L ->
  list_sum (map (fun a => length (with_archetype a t)) L)
  = length (filter (fun r =>
                      existsb (String.eqb
                                 (Classified.Archetype (Risk.classified r)))
                              L) t).
Proof.
  intro HL. induction t as [|r t IH].
  - cbn. induction L; cbn; [reflexivity|].
    apply IHL. inversion HL; assumption.
  - unfold with_archetype in *. cbn [filter].
    set (a := Classified.Archetype (Risk.classified r)) in *.
    transitivity
      ((if existsb (String.eqb a) L then 1 else 0)
       + list_sum (map (fun a0 =>
                          length (filter
                                    (fun r0 =>
                                       String.eqb
                                         (Classified.Archetype
                                            (Risk.classified r0)) a0) t))
                       L))%nat.
    + clear IH. induction HL as [|x L' Hx HL' IHL];
        cbn [map existsb]; [reflexivity|].
      rewrite !list_sum_cons, IHL.
      destruct (String.eqb_spec a x) as [E|N].
      * cbn [orb length]. subst x.
        replace (existsb (String.eqb a) L') with false; [lia|].
        symmetry. apply not_true_is_false. intro Ex.
        apply existsb_exists in Ex. destruct Ex as (y & Hy & Ey).
        apply String.eqb_eq in Ey. subst y. contradiction.
      * cbn [orb]. lia.
    + rewrite IH. destruct (existsb (String.eqb a) L); cbn [length]; lia.
Qed.

Lemma recommendations_archetypes (t : list Risk.row) :
  map Recommendation.Archetype (generate_recommendations_by_archetype t)
  = filter (fun a => (0 <? length (with_archetype a t))%nat)
           archetype_order.
Proof.
  unfold generate_recommendations_by_archetype, archetype_order.
  cbv zeta. cbn [filter].
  repeat match goal with
         | |- context [(0 <? length ?l)%nat] =>
             destruct (0 <? length l)%nat
         end; reflexivity.
Qed.

Lemma recommendations_counts (t : list Risk.row) :
  map Recommendation.State_Count (generate_recommendations_by_archetype t)
  = map (fun a => length (with_archetype a t))
        (filter (fun a => (0 <? length (with_archetype a t))%nat)
                archetype_order).
Proof.
  unfold generate_recommendations_by_archetype, archetype_order.
  cbv zeta. cbn [filter].
  repeat match goal with
         | |- context [(0 <? length ?l)%nat] =>
             destruct (0 <? length l)%nat
         end; reflexivity.
Qed.

Lemma archetype_order_NoDup : NoDup archetype_order.
Proof.
  unfold archetype_order.
  repeat (constructor;
          [cbn [In]; intro H;
           repeat (destruct H as [H|H]; [discriminate H|]); exact H|]).
  constructor.
Qed.

(** [generate_recommendations_by_archetype]: the table has one row for
    each archetype that has states, in the order of the seven blocks and
    none twice; a row's [State_Count] is the number of states of its
    archetype and at least 1; the counts add up to the number of states
    whose archetype is one of the seven, which is every state of a table
    that comes from [assign_archetypes]. *)
Theorem recommendations_cover_states (t : list Risk.row) :
  let recs := generate_recommendations_by_archetype t in
  map Recommendation.Archetype recs
  = filter (fun a => (0 <? length (with_archetype a t))%nat)
           archetype_order
  /\ NoDup (map Recommendation.Archetype recs)
  /\ Forall (fun rec =>
               Recommendation.State_Count rec
               = length (with_archetype (Recommendation.Archetype rec) t)
               /\ (1 <= Recommendation.State_Count rec)%nat) recs
  /\ (list_sum (map Recommendation.State_Count recs) <= length t)%nat
  /\ ((exists state_data scored,
          t = calculate_problem_risks state_data
                (assign_archetypes scored)) ->
      list_sum (map Recommendation.State_Count recs) = length t).
Proof.
  cbv zeta.
  assert (Hsum : list_sum (map Recommendation.State_Count
                             (generate_recommendations_by_archetype t))
                 = length (filter
                             (fun r =>
                                existsb
                                  (String.eqb
                                     (Classified.Archetype
                                        (Risk.classified r)))
                                  archetype_order) t)).
  { rewrite recommendations_counts.
    rewrite (list_sum_filter_positive
               (fun a => length (with_archetype a t))).
    apply count_by_archetype, archetype_order_NoDup. }
  split; [apply recommendations_archetypes|].
  split.
  { rewrite recommendations_archetypes.
    apply NoDup_filter, archetype_order_NoDup. }
  split.
  { apply Forall_forall. intros rec Hrec.
    unfold generate_recommendations_by_archetype in Hrec. cbv zeta in Hrec.
    repeat (apply in_app_or in Hrec; destruct Hrec as [Hrec|Hrec]);
      (match type of Hrec with
       | In _ (if (0 <? ?n)%nat then _ else _) =>
           destruct (Nat.ltb_spec 0 n) as [P|N];
           [destruct Hrec as [<-|[]]|destruct Hrec]
       end;
       cbn [Recommendation.State_Count Recommendation.Archetype];
       split; [reflexivity|exact P]). }
  split.
  { rewrite Hsum. apply filter_length_le. }
  intros (sd & scored & ->). rewrite Hsum. f_equal.
  apply forallb_filter_id, forallb_forall. intros r Hr.
  unfold calculate_problem_risks in Hr. apply in_map_iff in Hr.
  destruct Hr as ([c ages] & <- & Hin).
  apply merge_left_ages_In in Hin. destruct Hin as [Hc _].
  unfold assign_archetypes in Hc. apply in_map_iff in Hc.
  destruct Hc as (s & <- & _).
  cbn [risk_row Risk.classified Classified.Archetype].
  unfold classify_archetype.
  repeat match goal with
         | |- context [if ?b then _ else _] => destruct b
         end; reflexivity.
Qed.

Lemma sprinter_primary_largest (sprinters : list Risk.row) :
  sprinter_primary sprinters
  = largest_mean_risk (np_mean (map Risk.PDS_Risk sprinters))
                      (np_mean (map Risk.DBT_Risk sprinters))
                      (np_mean (map Risk.OTP_Risk sprinters)).
Proof.
  unfold sprinter_primary, largest_mean_risk, sort_desc.
  cbn [map fold_right fst snd insert_desc].
  set (p := np_mean (map Risk.PDS_Risk sprinters)).
  set (d := np_mean (map Risk.DBT_Risk sprinters)).
  set (o := np_mean (map Risk.OTP_Risk sprinters)).
  destruct (Qltb d o) eqn:Hdo; cbn [insert_desc fst snd];
    destruct (Qltb p o) eqn:Hpo; cbn [insert_desc fst snd];
    destruct (Qltb p d) eqn:Hpd; cbn [insert_desc fst snd];
    destruct (Qle_bool d p) eqn:Ldp; destruct (Qle_bool o p) eqn:Lop;
    destruct (Qle_bool o d) eqn:Lod; cbn [andb];
    try reflexivity; exfalso; qprops;
    repeat match goal with
           | H : Qle_bool _ _ = false |- _ =>
               apply not_true_iff_false in H;
               rewrite Qle_bool_iff in H
           end; lra.
Qed.

(** [generate_recommendations_by_archetype], the Sprinter block: as soon
    as a state is labelled 'Sprinter' there is a Sprinter row, and the
    risk type named in its primary issue and in its intervention is the
    one with the largest mean over the Sprinter states among PDS, DBT
    and OTP, the earlier in this order when means are equal. *)
Theorem sprinter_recommendation (t : list Risk.row) :
  with_archetype "Sprinter" t <> [] ->
  let sprinters := with_archetype "Sprinter" t in
  let pds := np_mean (map Risk.PDS_Risk sprinters) in
  let dbt := np_mean (map Risk.DBT_Risk sprinters) in
  let otp := np_mean (map Risk.OTP_Risk sprinters) in
  exists rec primary,
    In rec (generate_recommendations_by_archetype t)
    /\ Recommendation.Archetype rec = "Sprinter"%string
    /\ Recommendation.State_Count rec = length sprinters
    /\ Recommendation.Primary_Issue rec
       = ("Infrastructure lag (" ++ primary ++ ")")%string
    /\ Recommendation.Recommended_Intervention rec
       = ("Rapid deployment of mobile update vans; " ++ primary
          ++ "-focused camps; scaling infrastructure")%string
    /\ ((dbt <= pds /\ otp <= pds -> primary = "PDS"%string)
        /\ (pds < dbt /\ otp <= dbt -> primary = "DBT"%string)
        /\ (pds < otp /\ dbt < otp -> primary = "OTP"%string)).
Proof.
  intro Hne. cbv zeta.
  set (sprinters := with_archetype "Sprinter" t) in *.
  eexists. exists (sprinter_primary sprinters).
  split.
  { unfold generate_recommendations_by_archetype. cbv zeta.
    fold sprinters.
    apply in_or_app. right. apply in_or_app. left.
    destruct (Nat.ltb_spec 0 (length sprinters)) as [P|N].
    - left. reflexivity.
    - destruct sprinters; [congruence|cbn in N; lia]. }
  cbn [Recommendation.Archetype Recommendation.State_Count
       Recommendation.Primary_Issue
       Recommendation.Recommended_Intervention].
  repeat (split; [reflexivity|]).
  rewrite sprinter_primary_largest. unfold largest_mean_risk.
  set (p := np_mean (map Risk.PDS_Risk sprinters)).
  set (d := np_mean (map Risk.DBT_Risk sprinters)).
  set (o := np_mean (map Risk.OTP_Risk sprinters)).
  destruct (Qle_bool d p) eqn:Ldp; destruct (Qle_bool o p) eqn:Lop;
    destruct (Qle_bool o d) eqn:Lod; cbn [andb];
    repeat split; intros [A B]; try reflexivity; exfalso; qprops;
    repeat match goal with
           | H : Qle_bool _ _ = false |- _ =>
               apply not_true_iff_false in H;
               rewrite Qle_bool_iff in H
           end; lra.
Qed.

(** *** Critical counts *)

Lemma filter_length_mono {A : Type} (p q : A -> bool) (l : list A) :
  (forall a, In a l -> p a = true -> q a = true) ->
  (length (filter p l) <= length (filter q l))%nat.
Proof.
  induction l as [|a t IH]; intro H; cbn [filter]; [lia|].
  assert (IH' := IH (fun x Hx => H x (or_intror Hx))).
  pose proof (H a (or_introl eq_refl)) as Ha.
  destruct (p a), (q a); cbn [length];
    first [lia|discriminate (Ha eq_refl)].
Qed.

Lemma filter_length_disjoint {A : Type} (p q : A -> bool) (l : list A) :
  (forall a, In a l -> p a = true -> q a = false) ->
  (length (filter p l) + length (filter q l) <= length l)%nat.
Proof.
  induction l as [|a t IH]; intro H; cbn [filter]; [cbn; lia|].
  assert (IH' := IH (fun x Hx => H x (or_intror Hx))).
  pose proof (H a (or_introl eq_refl)) as Ha.
  destruct (p a), (q a); cbn [length];
    first [lia|discriminate (Ha eq_refl)].
Qed.

Lemma risk_rows_of_classified (state_data : list StateData.row)
  (scored : list Scored.row) (r : Risk.row) :
  In r (calculate_problem_risks state_data (assign_archetypes scored)) ->
  exists s ages,
    Risk.classified r
    = Classified.mk s (classify_archetype s)
        (dict_get archetype_symbol (classify_archetype s))
        (option_map (fun x => (x ++ " " ++ classify_archetype s)%string)
                    (dict_get archetype_symbol (classify_archetype s)))
    /\ Risk.Scholarship_Risk r = clip 0 100 ((1 - Scored.YIR s) * 100)
    /\ Risk.Banking_Risk r = clip 0 100 (100 - Scored.Health_Score s)
    /\ Risk.ages r = ages.
Proof.
  intro Hr. unfold calculate_problem_risks in Hr.
  apply in_map_iff in Hr. destruct Hr as ([c ages] & <- & Hin).
  apply merge_left_ages_In in Hin. destruct Hin as [Hc _].
  unfold assign_archetypes in Hc. apply in_map_iff in Hc.
  destruct Hc as (s & <- & _).
  exists s, ages. repeat split.
Qed.

Lemma archetypes_and_risks (state_data : list StateData.row)
  (scored : list Scored.row) (r : Risk.row) :
  In r (calculate_problem_risks state_data (assign_archetypes scored)) ->
  let a := Classified.Archetype (Risk.classified r) in
  (50 < Risk.Scholarship_Risk r -> a = "Excluded (Youth)"%string)
  /\ (a = "Sleepwalker"%string -> 60 < Risk.Banking_Risk r)
  /\ (a = "Digital Leader"%string ->
      Risk.Banking_Risk r < 30 /\ Risk.Scholarship_Risk r < 20).
Proof.
  intro Hr.
  destruct (risk_rows_of_classified _ _ _ Hr) as (s & ages & -> & -> & -> & _).
  cbv zeta. cbn [Classified.Archetype].
  destruct (clip_cases ((1 - Scored.YIR s) * 100))
    as [[H1 E1]|[[H1 E1]|[H1 E1]]]; rewrite E1; clear E1;
    destruct (clip_cases (100 - Scored.Health_Score s))
      as [[H2 E2]|[[H2 E2]|[H2 E2]]]; rewrite E2; clear E2;
    unfold classify_archetype;
    (destruct (Qltb (Scored.YIR s) 0.6) eqn:C1;
     [|destruct (Qltb (Scored.UBI s) 0.25 || Qltb 0.65 (Scored.UBI s));
       [|destruct (Qltb 0.6 (Scored.GCI s));
         [|destruct (Qltb (Scored.TCS s) 0.4
                     && Qltb (Scored.Health_Score s) 40) eqn:C4;
           [|destruct (Qltb 70 (Scored.Health_Score s)
                       && Qltb 0.6 (Scored.TCS s)
                       && Qltb (Scored.GCI s) 0.4
                       && Qltb 0.8 (Scored.YIR s)) eqn:C5;
             [|destruct (Qltb 0.03 (Scored.IDI s))]]]]]);
    qprops;
    (split; [intro L; try reflexivity; exfalso; lra|]);
    (split; [intro L; try discriminate L; lra|]);
    intro L; try discriminate L; split; lra.
Qed.

(** The critical counts that [generate_insights_report] and [main]
    print, against the archetypes, on a table that comes from
    [assign_archetypes] and [calculate_problem_risks]: a state with a
    Scholarship risk above 50 is 'Excluded (Youth)', every 'Sleepwalker'
    has a Banking risk above 60 and so is counted as critical for
    banking, and no 'Digital Leader' is. *)
Theorem critical_counts_and_archetypes (state_data : list StateData.row)
  (scored : list Scored.row) :
  let t := calculate_problem_risks state_data (assign_archetypes scored) in
  Forall (fun r =>
            let a := Classified.Archetype (Risk.classified r) in
            (50 < Risk.Scholarship_Risk r -> a = "Excluded (Youth)"%string)
            /\ (a = "Sleepwalker"%string -> 60 < Risk.Banking_Risk r)
            /\ (a = "Digital Leader"%string ->
                Risk.Banking_Risk r < 30 /\ Risk.Scholarship_Risk r < 20))
         t
  /\ (critical_scholarship t
      <= length (with_archetype "Excluded (Youth)" t))%nat
  /\ (length (with_archetype "Sleepwalker" t) <= critical_banking t)%nat
  /\ (critical_banking t + length (with_archetype "Digital Leader" t)
      <= length t)%nat.
Proof.
  cbv zeta.
  set (t := calculate_problem_risks state_data (assign_archetypes scored)).
  assert (H : forall r, In r t -> _) by
    (intros r Hr; exact (archetypes_and_risks state_data scored r Hr)).
  cbv zeta in H.
  split; [apply Forall_forall; exact H|].
  unfold critical_scholarship, critical_banking, with_archetype.
  split; [|split].
  - apply filter_length_mono. intros r Hr L. apply Qltb_lt in L.
    apply String.eqb_eq. apply (H r Hr), L.
  - apply filter_length_mono. intros r Hr L. apply String.eqb_eq in L.
    apply Qltb_lt. pose proof (proj1 (proj2 (H r Hr)) L). lra.
  - apply filter_length_disjoint. intros r Hr L. apply Qltb_lt in L.
    apply String.eqb_neq. intro E.
    pose proof (proj1 (proj2 (proj2 (H r Hr)) E)). lra.
Qed.

(** *** Failures of [preprocess_data] *)

(** [preprocess_data] on a frame without a 'date' column: the first
    statement raises KeyError('date') and nothing has been changed. *)
Theorem preprocess_data_missing_date (s : Store)
  (enrolment biometric demographic : Ref) (df : DataFrame) :
  nth_error s enrolment = Some (Records df) ->
  get_col df "date" = None ->
  preprocess_data enrolment biometric demographic s
  = (inl (KeyError "date"), s).
Proof.
  intros Hs Hc.
  unfold preprocess_data, parse_date_column, getitem, deref, bind.
  rewrite Hs, Hc. reflexivity.
Qed.

(** [preprocess_data] is not atomic: when the enrolment dates parse and
    a biometric date does not, the ValueError leaves the enrolment frame
    with its 'date' column already converted, and the two other frames
    as they were; when an enrolment date does not parse, nothing has
    been changed. *)
Theorem preprocess_data_failure_state (e : list Enrolment.record)
  (b : list Biometric.record) (d : list Demographic.record) :
  let s := [ Records (read_enrolment e); Records (read_biometric b);
             Records (read_demographic d) ] in
  (Exists unparseable (map Enrolment.date e) ->
   preprocess_data 0%nat 1%nat 2%nat s = (inl ValueError, s))
  /\ (forall te,
         parse_all (map Enrolment.date e) = inr te ->
         Exists unparseable (map Biometric.date b) ->
         preprocess_data 0%nat 1%nat 2%nat s
         = (inl ValueError,
            [ Records (set_col (read_enrolment e) "date" (ColDate te));
              Records (read_biometric b); Records (read_demographic d) ])).
Proof.
  cbv zeta. split.
  - intro He. apply parse_all_inl in He.
    unfold preprocess_data. unfold_stages. run_stages.
    rewrite He. reflexivity.
  - intros te He Hb. apply parse_all_inl in Hb.
    unfold preprocess_data. unfold_stages. run_stages.
    rewrite He. run_stages. rewrite Hb. reflexivity.
Qed.

(** *** Youth inclusion and temporal consistency at the edges *)

Lemma Forall2_map_r {A B : Type} (P : A -> B -> Prop) (f : A -> B)
  (l : list A) :
  (forall a, In a l -> P a (f a)) -> Forall2 P l (map f l).
Proof.
  induction l as [|a t IH]; intro H; cbn [map]; constructor.
  - apply H. left. reflexivity.
  - apply IH. intros x Hx. apply H. right. exact Hx.
Qed.

Lemma classified_table_rows (sd : list StateData.row)
  (dd : list DistrictData.row) (md : list MonthlyData.row) :
  let ne := int64_sum (map StateData.total_enrolment sd) in
  let nu := int64_sum (map StateData.total_updates sd) in
  let nyr := national_youth_ratio sd in
  let metrics := metrics_rows sd dd md in
  let lo := series_min (map Metrics.IDI metrics) in
  let hi := series_max (map Metrics.IDI metrics) in
  assign_archetypes (calculate_health_score metrics)
  = map (fun row =>
           let s := score_row lo hi (metrics_of_row ne nu nyr dd md row) in
           Classified.mk s (classify_archetype s)
             (dict_get archetype_symbol (classify_archetype s))
             (option_map
                (fun x => (x ++ " " ++ classify_archetype s)%string)
                (dict_get archetype_symbol (classify_archetype s))))
        sd.
Proof.
  cbv zeta. unfold assign_archetypes, calculate_health_score.
  unfold metrics_rows at 3. rewrite !map_map. reflexivity.
Qed.

(** [calculate_metrics] with [classify_archetype], state by state: when
    the national youth ratio is positive, a state without adult updates
    or without youth updates has YIR 0 and is labelled 'Excluded
    (Youth)', whatever its other metrics; when the national ratio is not
    positive, every state has YIR 1 and none is labelled so. *)
Theorem youth_exclusion_at_the_edges (sd : list StateData.row)
  (dd : list DistrictData.row) (md : list MonthlyData.row)
  (m : list Metrics.row) :
  calculate_metrics sd dd md = inr m ->
  Forall2
    (fun row c =>
       Metrics.state (Scored.metrics (Classified.scored c))
       = StateData.state row
       /\ (0 < national_youth_ratio sd ->
           (StateData.bio_age_17_ row + StateData.demo_age_17_ row <= 0
            \/ StateData.bio_age_5_17 row + StateData.demo_age_5_17 row
               = 0)%Z ->
           Scored.YIR (Classified.scored c) == 0
           /\ Classified.Archetype c = "Excluded (Youth)"%string)
       /\ (~ 0 < national_youth_ratio sd ->
           Scored.YIR (Classified.scored c) == 1
           /\ Classified.Archetype c <> "Excluded (Youth)"%string))
    sd (assign_archetypes (calculate_health_score m)).
Proof.
  intro Em. apply calculate_metrics_inr in Em. destruct Em as [_ ->].
  rewrite classified_table_rows. cbv zeta.
  apply Forall2_map_r. intros row _.
  cbn [Classified.scored Classified.Archetype].
  set (lo := series_min _). set (hi := series_max _).
  unfold Scored.YIR.
  cbn [score_row Scored.metrics metrics_of_row Metrics.YIR Metrics.state].
  split; [reflexivity|]. split.
  - intros Hn Hrow. apply Qltb_lt in Hn. rewrite Hn.
    assert (Y : state_youth_ratio row == 0).
    { unfold state_youth_ratio.
      destruct (Z.gtb_spec
                  (StateData.bio_age_17_ row + StateData.demo_age_17_ row)
                  0) as [P|N]; [|reflexivity].
      destruct Hrow as [Hr|Hr]; [lia|]. rewrite Hr.
      unfold Qdiv. change (inject_Z 0) with 0. ring. }
    assert (Y0 : state_youth_ratio row / national_youth_ratio sd == 0).
    { rewrite Y. unfold Qdiv. ring. }
    split; [exact Y0|].
    unfold classify_archetype, Scored.YIR.
    cbn [score_row Scored.metrics metrics_of_row Metrics.YIR].
    rewrite Hn.
    replace (Qltb (state_youth_ratio row / national_youth_ratio sd) 0.6)
      with true; [reflexivity|].
    symmetry. apply Qltb_lt. rewrite Y0. lra.
  - intro Hn.
    assert (E : Qltb 0 (national_youth_ratio sd) = false).
    { destruct (Qltb 0 (national_youth_ratio sd)) eqn:E; [|reflexivity].
      apply Qltb_lt in E. contradiction. }
    rewrite E. split; [reflexivity|].
    unfold classify_archetype, Scored.YIR.
    cbn [score_row Scored.metrics metrics_of_row Metrics.YIR].
    rewrite E. change (Qltb 1 0.6) with false. cbv iota.
    repeat match goal with
           | |- context [if ?c then _ else _] => destruct c
           end; discriminate.
Qed.

Lemma np_sum_all_zero (l : list Q) :
  Forall (fun x => x == 0) l -> np_sum l == 0.
Proof.
  induction 1 as [|x t Hx Ht IH]; cbn [np_sum]; [reflexivity|].
  rewrite Hx, IH. ring.
Qed.

Lemma np_mean_const (c : Q) (l : list Q) :
  l <> [] -> Forall (fun x => x == c) l -> np_mean l == c.
Proof.
  intros Hne H. unfold np_mean. rewrite (np_sum_const c l H).
  assert (0 < inject_Z (Z.of_nat (length l))).
  { change 0 with (inject_Z 0). rewrite <- Zlt_Qlt.
    destruct l; [congruence|cbn [length]; lia]. }
  field. lra.
Qed.

(** The variance that [np.std] takes the root of is 0 on a constant
    series. *)
Lemma variance_const (c : Q) (l : list Q) :
  l <> [] -> Forall (fun x => x == c) l ->
  np_mean (map (fun x => Qabs (x - np_mean l) * Qabs (x - np_mean l)) l)
  == 0.
Proof.
  intros Hne H. pose proof (np_mean_const c l Hne H) as M.
  unfold np_mean at 1. rewrite np_sum_all_zero.
  - unfold Qdiv. ring.
  - rewrite Forall_map. eapply Forall_impl; [|exact H].
    cbv beta. intros x Hx. rewrite M, Hx.
    setoid_replace (c - c) with 0 by ring. reflexivity.
Qed.

(** [calculate_metrics], the temporal consistency score: a state with
    fewer than two monthly rows gets the neutral 0.5; a state whose
    monthly rows (two or more) all have the same positive total gets 1,
    provided the square root of 0 is 0. *)
Theorem tcs_of_short_and_steady_series (ne nu : Z) (nyr : Q)
  (dd : list DistrictData.row) (md : list MonthlyData.row)
  (row : StateData.row) :
  let months := state_monthly md (StateData.state row) in
  let tcs := Metrics.TCS (metrics_of_row ne nu nyr dd md row) in
  ((length months < 2)%nat -> tcs == 0.5)
  /\ ((forall x, x == 0 -> np_sqrt x == 0) ->
      forall c : Z,
        (0 < c)%Z -> (2 <= length months)%nat ->
        Forall (fun m => MonthlyData.total_updates m = c) months ->
        tcs == 1).
Proof.
  cbv zeta. unfold metrics_of_row. cbv zeta. cbn [Metrics.TCS].
  fold (state_monthly md (StateData.state row)).
  set (months := state_monthly md (StateData.state row)).
  set (l := map (fun m => inject_Z (MonthlyData.total_updates m)) months).
  assert (Hl : length l = length months) by apply length_map.
  split.
  - intro Hshort. rewrite Hl.
    destruct (Nat.ltb_spec 1 (length months)) as [P|N]; [lia|].
    reflexivity.
  - intros Hsqrt c Hc Hlong Hall. rewrite Hl.
    destruct (Nat.ltb_spec 1 (length months)) as [P|N]; [|lia].
    assert (Hconst : Forall (fun x => x == inject_Z c) l).
    { unfold l. rewrite Forall_map. eapply Forall_impl; [|exact Hall].
      cbv beta. intros m ->. reflexivity. }
    assert (Hne : l <> []).
    { intro E. rewrite E in Hl. cbn in Hl. lia. }
    pose proof (np_mean_const _ l Hne Hconst) as M.
    assert (Cpos : 0 < inject_Z c).
    { change 0 with (inject_Z 0). rewrite <- Zlt_Qlt. exact Hc. }
    replace (Qltb 0 (np_mean l)) with true
      by (symmetry; apply Qltb_lt; rewrite M; exact Cpos).
    cbn [andb]. unfold np_std.
    rewrite (Hsqrt _ (variance_const _ l Hne Hconst)).
    setoid_replace (1 - 0 / np_mean l) with 1
      by (unfold Qdiv; ring).
    reflexivity.
Qed.

(** *** The Gini coefficient does not depend on the unit *)

Lemma positive_scale (c x : Q) : 0 < c -> positive (c * x) = positive x.
Proof.
  intro Hc. unfold positive.
  destruct (Qltb 0 x) eqn:E.
  - apply Qltb_lt in E. apply Qltb_lt. nra.
  - apply Qltb_ge in E. destruct (Qltb 0 (c * x)) eqn:F; [|reflexivity].
    apply Qltb_lt in F. nra.
Qed.

Lemma filter_positive_scale (c : Q) (l : list Q) :
  0 < c ->
  filter positive (map (Qmult c) l) = map (Qmult c) (filter positive l).
Proof.
  intro Hc. induction l as [|x t IH]; cbn [map filter]; [reflexivity|].
  rewrite (positive_scale c x Hc), IH.
  destruct (positive x); reflexivity.
Qed.

Lemma Qle_bool_scale (c x y : Q) :
  0 < c -> Qle_bool (c * x) (c * y) = Qle_bool x y.
Proof.
  intro Hc. destruct (Qle_bool x y) eqn:E.
  - apply Qle_bool_iff in E. apply Qle_bool_iff. nra.
  - destruct (Qle_bool (c * x) (c * y)) eqn:F; [|reflexivity].
    apply Qle_bool_iff in F.
    assert (x <= y) by nra.
    apply Qle_bool_iff in H. congruence.
Qed.

Lemma insert_sorted_scale (c x : Q) (l : list Q) :
  0 < c ->
  insert_sorted (c * x) (map (Qmult c) l)
  = map (Qmult c) (insert_sorted x l).
Proof.
  intro Hc. induction l as [|y t IH]; cbn [map insert_sorted];
    [reflexivity|].
  rewrite (Qle_bool_scale c x y Hc).
  destruct (Qle_bool x y); cbn [map]; [reflexivity|].
  rewrite IH. reflexivity.
Qed.

Lemma np_sort_scale (c : Q) (l : list Q) :
  0 < c -> np_sort (map (Qmult c) l) = map (Qmult c) (np_sort l).
Proof.
  intro Hc. unfold np_sort.
  induction l as [|x t IH]; cbn [map fold_right]; [reflexivity|].
  rewrite IH. apply insert_sorted_scale, Hc.
Qed.

Lemma np_sum_scale (c : Q) (l : list Q) :
  np_sum (map (Qmult c) l) == c * np_sum l.
Proof.
  induction l as [|x t IH]; cbn [map np_sum]; [ring|].
  rewrite IH. ring.
Qed.

Lemma ranked_sum_scale (c : Q) (r l : list Q) :
  np_sum (np_mul r (map (Qmult c) l)) == c * np_sum (np_mul r l).
Proof.
  unfold np_mul. revert r.
  induction l as [|x t IH]; intros [|i r]; cbn [map combine np_sum];
    try ring.
  cbn [fst snd]. rewrite IH. ring.
Qed.

(** [calculate_gini] does not depend on the unit of the values:
    multiplying every value by the same positive factor leaves the
    coefficient unchanged. *)
Theorem calculate_gini_scale_invariant (c : Q) (values : list Q) :
  0 < c ->
  calculate_gini (map (Qmult c) values) == calculate_gini values.
Proof.
  intro Hc. unfold calculate_gini.
  rewrite (filter_positive_scale c values Hc), length_map.
  set (v := filter positive values).
  destruct (Nat.ltb_spec (length v) 2) as [L|L]; [reflexivity|].
  cbv zeta.
  rewrite (np_sort_scale c v Hc), length_map, !last_np_cumsum.
  rewrite ranked_sum_scale, np_sum_scale.
  set (s := np_sort v).
  assert (Hs : Forall (fun x => 0 < x) s).
  { apply Forall_np_sort. apply Forall_forall. intros x Hx.
    apply filter_In in Hx. apply Qltb_lt, Hx. }
  assert (Hl : length s = length v) by apply length_np_sort.
  assert (T : 0 < np_sum s).
  { apply np_sum_positive; [assumption|].
    intro E. rewrite E in Hl. cbn in Hl. lia. }
  assert (N : 2 <= inject_Z (Z.of_nat (length s))).
  { rewrite Hl. change 2 with (inject_Z 2). rewrite <- Zle_Qle. lia. }
  set (n := inject_Z (Z.of_nat (length s))) in *.
  set (S := np_sum (np_mul _ s)).
  assert (E : 2 * (c * S) / (n * (c * np_sum s)) - (n + 1) / n
              == 2 * S / (n * np_sum s) - (n + 1) / n).
  { field. repeat split; lra. }
  rewrite E. reflexivity.
Qed.

(** *** The risks of a state, from the input records *)

Lemma risk_table_of_records (e : list Enrolment.record)
  (b : list Biometric.record) (d : list Demographic.record)
  (dd : list DistrictData.row) (md : list MonthlyData.row) :
  exact_counts e b d ->
  risk_table (state_data_of e b d) dd md
  = map (fun c =>
           risk_row
             (c, Some (ages_of
                         (state_row e b d
                            (Metrics.state
                               (Scored.metrics (Classified.scored c)))))))
        (assign_archetypes
           (calculate_health_score
              (metrics_rows (state_data_of e b d) dd md))).
Proof.
  intro Hx. unfold risk_table, calculate_problem_risks.
  set (df := assign_archetypes _).
  assert (Hst : map (fun c => Metrics.state
                                (Scored.metrics (Classified.scored c))) df
                = unique_sorted (all_states e b d)).
  { unfold df. rewrite classified_states, metrics_rows_states.
    rewrite (state_data_of_rows e b d Hx). apply state_row_state. }
  rewrite (state_data_of_rows e b d Hx) at 1.
  rewrite (merge_left_ages_unique e b d _ df).
  - rewrite map_map. reflexivity.
  - apply unique_sorted_NoDup.
  - apply Forall_forall. intros c Hc. rewrite <- Hst.
    apply (in_map (fun c => Metrics.state
                              (Scored.metrics (Classified.scored c)))).
    exact Hc.
Qed.

(** [main], from the records to the risks, on counts that stay exact:
    the PDS, DBT and OTP risks of a state are the clipped formulas over
    the sums of the state's records, and a state that has no enrolment
    record (it occurs in the update datasets only) gets 0 for all
    three. *)
Theorem risks_from_records (e : list Enrolment.record)
  (b : list Biometric.record) (d : list Demographic.record)
  (t : list Risk.row) :
  exact_counts e b d ->
  run_main e b d = inr t ->
  Forall
    (fun r =>
       let k := risk_state r in
       let adults := records_sum enrolment_state Enrolment.age_18_greater
                       e k in
       let children := records_sum enrolment_state Enrolment.age_5_17 e k in
       let bio := records_sum biometric_state Biometric.bio_age_17_ b k in
       let demo := records_sum demographic_state Demographic.demo_age_17_
                     d k in
       let demo_young :=
         records_sum demographic_state Demographic.demo_age_5_17 d k in
       Risk.PDS_Risk r
       = clip 0 100 (if (adults >? 0)%Z
                     then (1 - inject_Z bio / inject_Z adults) * 100
                     else 0)
       /\ Risk.DBT_Risk r
          = clip 0 100 (if (adults >? 0)%Z
                        then (1 - inject_Z demo / inject_Z adults) * 100
                        else 0)
       /\ Risk.OTP_Risk r
          = clip 0 100 (if (children >? 0)%Z
                        then inject_Z (children - demo_young)
                             / inject_Z children * 100
                        else 0)
       /\ (~ In (Some k) (map enrolment_state e) ->
           Risk.PDS_Risk r == 0 /\ Risk.DBT_Risk r == 0
           /\ Risk.OTP_Risk r == 0))
    t.
Proof.
  intros Hx Hrun.
  destruct (run_main_inr _ _ _ _ Hrun)
    as (tb & td & _ & _ & _ & _ & _ & ->).
  rewrite (risk_table_of_records e b d _ _ Hx), Forall_map.
  apply Forall_forall. intros c _. cbv zeta. unfold risk_state.
  cbn [risk_row Risk.classified Risk.PDS_Risk Risk.DBT_Risk Risk.OTP_Risk
       ages_of state_row Ages.age_18_greater Ages.age_5_17
       Ages.bio_age_17_ Ages.demo_age_17_ Ages.demo_age_5_17
       StateData.age_18_greater StateData.age_5_17 StateData.bio_age_17_
       StateData.demo_age_17_ StateData.demo_age_5_17].
  set (k := Metrics.state (Scored.metrics (Classified.scored c))).
  assert (W : int64_sub (records_sum enrolment_state Enrolment.age_5_17 e k)
                (records_sum demographic_state Demographic.demo_age_5_17
                             d k)
              = (records_sum enrolment_state Enrolment.age_5_17 e k
                 - records_sum demographic_state Demographic.demo_age_5_17
                               d k)%Z).
  { unfold int64_sub. apply wrap64_small. unfold in_int64.
    pose proof (enrolment_sum_abs enrolment_state Enrolment.age_5_17 e k
                  ltac:(magnitude)).
    pose proof (demographic_sum_abs demographic_state
                  Demographic.demo_age_5_17 d k ltac:(magnitude)).
    pose proof (biometric_magnitude_sum b).
    unfold exact_counts in Hx. lia. }
  rewrite W.
  repeat (split; [reflexivity|]).
  intro Hout.
  assert (Hout' : ~ In k (present (map enrolment_state e)))
    by (intro Hin; apply Hout, in_present, Hin).
  rewrite !(records_sum_absent enrolment_state _ e _ Hout').
  repeat split; reflexivity.
Qed.

(** *** Shares of the national totals *)

Lemma share_in_unit (x n : Z) :
  (0 <= x <= n)%Z ->
  in_unit (if (n >? 0)%Z then inject_Z x / inject_Z n else 0).
Proof.
  intros [H0 Hn]. unfold in_unit.
  destruct (Z.gtb_spec n 0) as [P|N]; [|lra].
  pose proof (inject_Z_pos n P). pose proof (inject_Z_nonneg x H0).
  split; [apply Qdiv_nonneg; assumption|].
  apply Qdiv_le_1; [rewrite <- Zle_Qle; exact Hn|assumption].
Qed.

(** [calculate_metrics] over a run of [main] on records with nonnegative
    counts that stay exact: the enrolment share and the update share of
    every state lie in [0,1], its IDI, their difference, lies in [-1,1],
    and the [total_updates] it recomputes as total_bio + total_demo is the
    [total_updates] of the state table. *)
Theorem shares_in_unit_idi_bounded (e : list Enrolment.record)
  (b : list Biometric.record) (d : list Demographic.record)
  (t : list Risk.row) :
  Forall nonneg_enrolment e -> Forall nonneg_biometric b ->
  Forall nonneg_demographic d ->
  exact_counts e b d ->
  run_main e b d = inr t ->
  Forall (fun r =>
            let m := Scored.metrics (Classified.scored (Risk.classified r))
            in
            in_unit (Metrics.enrol_share m)
            /\ in_unit (Metrics.update_share m)
            /\ Metrics.IDI m
               == Metrics.enrol_share m - Metrics.update_share m
            /\ -1 <= Metrics.IDI m <= 1
            /\ Metrics.total_updates m
               = StateData.total_updates
                   (state_row e b d (Metrics.state m))) t.
Proof.
  intros He Hb Hd Hx Hrun.
  destruct (run_main_inr _ _ _ _ Hrun)
    as (tb & td & _ & _ & _ & _ & _ & ->).
  pose proof (state_data_of_nonneg e b d He Hb Hd Hx) as Hsd.
  destruct (national_totals_exact e b d Hx) as [Ne Nu].
  apply Forall_forall. intros r Hr.
  pose proof (risk_table_In _ _ _ _ Hr) as [Hs _].
  apply calculate_health_score_In in Hs.
  apply metrics_rows_In in Hs. destruct Hs as (row & Hrow & ->).
  rewrite Ne, Nu.
  pose proof (proj1 (Forall_forall _ _) Hsd row Hrow) as N.
  assert (Ee : (0 <= StateData.total_enrolment row
                <= sumZ (map StateData.total_enrolment
                             (state_data_of e b d)))%Z).
  { split; [apply N|]. apply sumZ_member_le; [|exact Hrow].
    eapply Forall_impl; [|exact Hsd]. intros x Hx'. apply Hx'. }
  assert (Eu : (0 <= StateData.total_updates row
                <= sumZ (map StateData.total_updates
                             (state_data_of e b d)))%Z).
  { split; [apply N|]. apply sumZ_member_le; [|exact Hrow].
    eapply Forall_impl; [|exact Hsd]. intros x Hx'. apply Hx'. }
  pose proof (share_in_unit _ _ Ee) as Se.
  pose proof (share_in_unit _ _ Eu) as Su.
  cbv zeta.
  cbn [metrics_of_row Metrics.enrol_share Metrics.update_share Metrics.IDI
       Metrics.total_updates Metrics.state].
  unfold in_unit in *.
  split; [exact Se|]. split; [exact Su|].
  split; [reflexivity|]. split; [lra|].
  destruct (state_rows_In e b d row Hx Hrow) as [E _].
  rewrite E at 1 2. reflexivity.
Qed.

(** *** The standalone script *)

Lemma combine_map_map {A B C : Type} (f : A -> B) (g : A -> C)
  (l : list A) :
  combine (map f l) (map g l) = map (fun a => (f a, g a)) l.
Proof using Type.
  induction l as [|a t IH]; cbn [map combine]; [reflexivity|].
  rewrite IH. reflexivity.
Qed.

Lemma combine_map_r {A C : Type} (g : A -> C) (l : list A) :
  combine l (map g l) = map (fun a => (a, g a)) l.
Proof using Type.
  induction l as [|a t IH]; cbn [map combine]; [reflexivity|].
  rewrite IH. reflexivity.
Qed.

Lemma normalize_map {A : Type} (f : A -> float64) (l : list A) :
  normalize (map f l) = map (fun a => normalize_cell (map f l) (f a)) l.
Proof. unfold normalize. rewrite map_map. reflexivity. Qed.

(** [main] column by column is [legacy_row] state by state. *)
Lemma legacy_main_rows (e : list Enrolment.record)
  (b : list Biometric.record) (d : list Demographic.record) :
  e <> [] -> b <> [] -> d <> [] ->
  legacy_main e b d
  = Some (map (fun r =>
                 (legacy_row (legacy_master_df e b d) r,
                  get_archetype (legacy_row (legacy_master_df e b d) r)))
              (legacy_master_df e b d)).
Proof using Type.
  intros He Hb Hd. unfold legacy_main.
  destruct e as [|e0 e']; [congruence|].
  destruct b as [|b0 b']; [congruence|].
  destruct d as [|d0 d']; [congruence|].
  cbv zeta.
  set (m := legacy_master_df _ _ _). f_equal.
  rewrite (combine_map_map (legacy_enrol_share _)
                           (legacy_update_share _ _) m).
  rewrite map_map. cbn [fst snd].
  change (fun x => fsub (legacy_enrol_share ?ne x)
                        (legacy_update_share ?nb ?nd x))
    with (legacy_IDI ne nb nd).
  rewrite !map_map, !normalize_map, !map_map.
  rewrite (combine_map_r (legacy_enrol_share _) m).
  repeat progress (rewrite ?map_map, ?combine_map_map).
  apply map_ext. intro r. reflexivity.
Qed.

Lemma Qeq_bool_true (x y : Q) : Qeq_bool x y = true <-> x == y.
Proof. split; [apply Qeq_bool_eq|apply Qeq_eq_bool]. Qed.

Lemma Qeq_bool_false (x y : Q) : Qeq_bool x y = false <-> ~ x == y.
Proof using Type.
  rewrite <- Qeq_bool_true. destruct (Qeq_bool x y); split; congruence.
Qed.

(** The smallest and the largest of finite cells. *)
Lemma fold_fmin_finite (t : list float64) (x : Q) :
  Forall (fun y => exists q, y = Finite q) t ->
  exists lo,
    fold_left (fun a b => if flt b a then b else a) t (Finite x)
    = Finite lo
    /\ lo <= x
    /\ forall q, In (Finite q) t -> lo <= q.
Proof using Type.
  intro H. revert x.
  induction H as [|y t [q ->] Ht IH]; intro x; cbn [fold_left].
  - exists x. split; [reflexivity|]. split; [lra|intros q []].
  - unfold flt at 2. cbn [fgt].
    destruct (Qltb q x) eqn:E; [apply Qltb_lt in E|apply Qltb_ge in E].
    + destruct (IH q) as (lo & -> & L1 & L2). exists lo.
      split; [reflexivity|]. split; [lra|].
      intros q' [Eq|Hin]; [inversion Eq; subst; lra|auto].
    + destruct (IH x) as (lo & -> & L1 & L2). exists lo.
      split; [reflexivity|]. split; [lra|].
      intros q' [Eq|Hin]; [inversion Eq; subst; lra|auto].
Qed.

Lemma fold_fmax_finite (t : list float64) (x : Q) :
  Forall (fun y => exists q, y = Finite q) t ->
  exists hi,
    fold_left (fun a b => if fgt b a then b else a) t (Finite x)
    = Finite hi
    /\ x <= hi
    /\ forall q, In (Finite q) t -> q <= hi.
Proof using Type.
  intro H. revert x.
  induction H as [|y t [q ->] Ht IH]; intro x; cbn [fold_left].
  - exists x. split; [reflexivity|]. split; [lra|intros q []].
  - cbn [fgt].
    destruct (Qltb x q) eqn:E; [apply Qltb_lt in E|apply Qltb_ge in E].
    + destruct (IH q) as (hi & -> & L1 & L2). exists hi.
      split; [reflexivity|]. split; [lra|].
      intros q' [Eq|Hin]; [inversion Eq; subst; lra|auto].
    + destruct (IH x) as (hi & -> & L1 & L2). exists hi.
      split; [reflexivity|]. split; [lra|].
      intros q' [Eq|Hin]; [inversion Eq; subst; lra|auto].
Qed.

Lemma filter_not_nan (series : list float64) :
  Forall finite_or_nan series ->
  Forall (fun y => exists q, y = Finite q)
         (filter (fun x => negb (isnan x)) series)
  /\ forall q, In (Finite q) series ->
               In (Finite q) (filter (fun x => negb (isnan x)) series).
Proof using Type.
  intro H. split.
  - apply Forall_forall. intros y Hy. apply filter_In in Hy.
    destruct Hy as [Hin Hn]. rewrite Forall_forall in H.
    specialize (H y Hin). destruct y; cbn in *; try contradiction;
      try discriminate. eexists. reflexivity.
  - intros q Hq. apply filter_In. split; [exact Hq|reflexivity].
Qed.

Lemma fseries_bounds (series : list float64) (q : Q) :
  Forall finite_or_nan series -> In (Finite q) series ->
  exists lo hi,
    fseries_min series = Finite lo /\ fseries_max series = Finite hi
    /\ lo <= q <= hi.
Proof using Type.
  intros H Hq. destruct (filter_not_nan series H) as [HF Hin].
  specialize (Hin q Hq). unfold fseries_min, fseries_max.
  destruct (filter (fun x => negb (isnan x)) series) as [|y t];
    [destruct Hin|].
  inversion HF as [|? ? [x ->] Ht]; subst.
  destruct (fold_fmin_finite t x Ht) as (lo & -> & L1 & L2).
  destruct (fold_fmax_finite t x Ht) as (hi & -> & H1 & H2).
  exists lo, hi. split; [reflexivity|]. split; [reflexivity|].
  destruct Hin as [Eq|Hin'].
  - inversion Eq; subst. lra.
  - specialize (L2 q Hin'). specialize (H2 q Hin'). lra.
Qed.

(** [normalize] on a series of finite and NaN cells: a cell becomes NaN
    or a number of [0,1]. *)
Lemma normalize_cell_range (series : list float64) (x : float64) :
  Forall finite_or_nan series -> In x series ->
  nan_or_between 0 1 (normalize_cell series x).
Proof using Type.
  intros H Hx. unfold normalize_cell.
  pose proof (proj1 (Forall_forall _ _) H x Hx) as Fx.
  destruct x as [q| | |]; cbn in Fx; try contradiction.
  - destruct (fseries_bounds series q H Hx) as (lo & hi & -> & -> & B).
    cbn [fsub fneg fadd fdiv].
    destruct (Qeq_bool (hi + - lo) 0) eqn:E.
    + apply Qeq_bool_true in E.
      replace (Qeq_bool (q + - lo) 0) with true; [exact I|].
      symmetry. apply Qeq_bool_true. lra.
    + apply Qeq_bool_false in E. cbn [nan_or_between].
      assert (0 < hi + - lo).
      { destruct (Qlt_le_dec 0 (hi + - lo)); [assumption|].
        exfalso. apply E. lra. }
      split.
      * apply Qle_shift_div_l; lra.
      * apply Qle_shift_div_r; lra.
  - cbn. exact I.
Qed.

(** On a series with a single cell, [normalize] gives NaN. *)
Lemma normalize_cell_single (x : float64) : normalize_cell [x] x = NaN.
Proof using Type.
  unfold normalize_cell, fseries_min, fseries_max.
  destruct x as [q| | |]; cbn [filter isnan negb fold_left fsub fneg fadd
                               fdiv]; try reflexivity.
  replace (Qeq_bool (q + - q) 0) with true; [reflexivity|].
  symmetry. apply Qeq_bool_true. ring.
Qed.

(** A part of a nonnegative whole, as a float: NaN when the whole is 0,
    otherwise the fraction, in [0,1]. *)
(** *** The standalone script: sums of int64 columns *)

Lemma int64_add_0_0 : int64_add 0 0 = 0%Z.
Proof. exact wrap64_0. Qed.

Lemma int64_sum_zero (l : list Z) : sumZ l = 0%Z -> int64_sum l = 0%Z.
Proof. unfold int64_sum. intros ->. exact wrap64_0. Qed.

Lemma int64_sum_single (x : Z) : in_int64 x -> int64_sum [x] = x.
Proof.
  intro H. unfold int64_sum. change (sumZ [x]) with (x + 0)%Z.
  rewrite Z.add_0_r. apply wrap64_small, H.
Qed.

Lemma group_sum_zero {K : Type} `{Key K} (kv : list (K * Z)) (k : K) :
  Forall (fun p => snd p = 0%Z) kv -> group_sum kv k = 0%Z.
Proof using Type.
  intro Hz. unfold group_sum. apply int64_sum_zero, sumZ_map_zero.
  intros p Hp. apply filter_In in Hp.
  apply (proj1 (Forall_forall _ _) Hz p), Hp.
Qed.

Lemma dropna_keys_snd_Forall {K : Type} (P : Z -> Prop)
  (keys : list (option K)) (vals : list Z) :
  Forall P vals -> Forall (fun p => P (snd p)) (dropna_keys keys vals).
Proof using Type.
  intro Hv. apply Forall_forall. intros [k v] Hin.
  unfold dropna_keys in Hin. apply in_flat_map in Hin.
  destruct Hin as ([o v'] & Hc & Hin). cbn [fst snd] in Hin.
  destruct o as [q|]; [|destruct Hin].
  destruct Hin as [E|[]]. inversion E. subst. cbn [snd].
  apply in_combine_r in Hc. apply (proj1 (Forall_forall _ _) Hv), Hc.
Qed.

Lemma lookup_In {K V : Type} `{Key K} (k : K) (l : list (K * V)) (v : V) :
  lookup k l = Some v -> exists k', In (k', v) l.
Proof using Type.
  induction l as [|[k' v'] t IH]; cbn [lookup]; [discriminate|].
  destruct (key_eqb k' k).
  - intro E. inversion E. subst. exists k'. left. reflexivity.
  - intro E. destruct (IH E) as [q Hq]. exists q. right. exact Hq.
Qed.

Lemma lookup_cell {K V : Type} `{Key K} (P : V -> Prop) (k : K)
  (l : list (K * V)) :
  Forall (fun kv => P (snd kv)) l -> cell P (lookup k l).
Proof using Type.
  intro Hl. unfold cell. destruct (lookup k l) as [v|] eqn:E; [|exact I].
  destruct (lookup_In k l v E) as [k' Hin].
  rewrite Forall_forall in Hl. apply (Hl (k', v) Hin).
Qed.

Lemma merge_outer_cells {K A B : Type} `{Key K} (P : A -> Prop)
  (Q : B -> Prop) (l : list (K * A)) (r : list (K * B)) :
  Forall (fun kv => P (snd kv)) l -> Forall (fun kv => Q (snd kv)) r ->
  Forall (fun kv => cell P (fst (snd kv)) /\ cell Q (snd (snd kv)))
         (merge_outer l r).
Proof using Type.
  intros Hl Hr. unfold merge_outer. rewrite Forall_map.
  apply Forall_forall. intros k _. cbn [fst snd].
  split; apply lookup_cell; assumption.
Qed.

Lemma fillna0_zero {A : Type} (P : A -> Prop) (f : A -> Z)
  (o : option A) :
  (forall a, P a -> f a = 0%Z) -> cell P o -> fillna0 f o = 0%Z.
Proof. intros H C. destruct o as [a|]; [apply H, C|reflexivity]. Qed.

(** Every row of the merged frame is built from one cell of each of the
    three frames, a missing cell counting as 0. *)
Lemma merge_state_data_cells (PE : StateEnrol.agg -> Prop)
  (PB : StateBio.agg -> Prop) (PD : StateDemo.agg -> Prop)
  (state_enrol : list (string * StateEnrol.agg))
  (state_bio : list (string * StateBio.agg))
  (state_demo : list (string * StateDemo.agg)) :
  Forall (fun kv => PE (snd kv)) state_enrol ->
  Forall (fun kv => PB (snd kv)) state_bio ->
  Forall (fun kv => PD (snd kv)) state_demo ->
  Forall (fun row =>
            exists e b d,
              cell PE e /\ cell PB b /\ cell PD d
              /\ StateData.age_0_5 row = fillna0 StateEnrol.age_0_5 e
              /\ StateData.age_5_17 row = fillna0 StateEnrol.age_5_17 e
              /\ StateData.age_18_greater row
                 = fillna0 StateEnrol.age_18_greater e
              /\ StateData.total_enrolment row
                 = fillna0 StateEnrol.total_enrolment e
              /\ StateData.bio_age_5_17 row
                 = fillna0 StateBio.bio_age_5_17 b
              /\ StateData.bio_age_17_ row = fillna0 StateBio.bio_age_17_ b
              /\ StateData.total_bio row = fillna0 StateBio.total_bio b
              /\ StateData.demo_age_5_17 row
                 = fillna0 StateDemo.demo_age_5_17 d
              /\ StateData.demo_age_17_ row
                 = fillna0 StateDemo.demo_age_17_ d
              /\ StateData.total_demo row = fillna0 StateDemo.total_demo d)
         (merge_state_data state_enrol state_bio state_demo).
Proof using Type.
  intros He Hb Hd. unfold merge_state_data. rewrite Forall_map.
  assert (H1 := merge_outer_cells PE PB _ _ He Hb).
  assert (H2 := merge_outer_cells
                  (fun eb => cell PE (fst eb) /\ cell PB (snd eb))
                  PD _ _ H1 Hd).
  eapply Forall_impl; [|exact H2].
  intros [k [eb d]] [Heb Hdm]. cbn [fst snd] in Heb, Hdm.
  exists (match eb with Some (e, _) => e | None => None end),
         (match eb with Some (_, b) => b | None => None end), d.
  split; [destruct eb as [[e b]|]; [apply Heb|exact I]|].
  split; [destruct eb as [[e b]|]; [apply Heb|exact I]|].
  split; [exact Hdm|].
  cbn [StateData.age_0_5 StateData.age_5_17 StateData.age_18_greater
       StateData.total_enrolment StateData.bio_age_5_17
       StateData.bio_age_17_ StateData.total_bio StateData.demo_age_5_17
       StateData.demo_age_17_ StateData.total_demo].
  repeat split; reflexivity.
Qed.

Lemma merge_state_data_no_updates
  (state_enrol : list (string * StateEnrol.agg))
  (state_bio : list (string * StateBio.agg))
  (state_demo : list (string * StateDemo.agg)) :
  Forall (fun kv => zero_bio (snd kv)) state_bio ->
  Forall (fun kv => zero_demo (snd kv)) state_demo ->
  Forall no_updates (merge_state_data state_enrol state_bio state_demo).
Proof using Type.
  intros Hb Hd.
  assert (He : Forall (fun kv : string * StateEnrol.agg => True)
                      state_enrol)
    by (apply Forall_forall; intros; exact I).
  eapply Forall_impl;
    [|exact (merge_state_data_cells (fun _ => True) zero_bio zero_demo
               _ _ _ He Hb Hd)].
  intros row Hrow. unfold no_updates.
  destruct Hrow as (e & b & d & _ & Cb & Cd & _ & _ & _ & _
                    & -> & -> & -> & -> & -> & ->).
  repeat apply conj;
    first [ eapply fillna0_zero; [|exact Cb]; unfold zero_bio;
            intros a (A1 & A2 & A3); assumption
          | eapply fillna0_zero; [|exact Cd]; unfold zero_demo;
            intros a (A1 & A2 & A3); assumption ].
Qed.

Lemma fillna0_int64 {A : Type} (P : A -> Prop) (f : A -> Z)
  (o : option A) :
  (forall a, P a -> in_int64 (f a)) -> cell P o -> in_int64 (fillna0 f o).
Proof using Type.
  intros H C. destruct o as [a|]; [apply H, C|].
  cbn [fillna0]. unfold in_int64. lia.
Qed.

(** The totals of [master_df] are int64 values, whatever the counts. *)
Lemma legacy_master_df_int64 (e : list Enrolment.record)
  (b : list Biometric.record) (d : list Demographic.record) :
  Forall int64_totals (legacy_master_df e b d).
Proof using Type.
  unfold legacy_master_df. apply Forall_forall. intros r Hr.
  apply filter_In in Hr. destruct Hr as [Hr _]. revert r Hr.
  apply Forall_forall.
  eapply Forall_impl;
    [|apply (merge_state_data_cells
               (fun a => in_int64 (StateEnrol.total_enrolment a))
               (fun a => in_int64 (StateBio.total_bio a))
               (fun a => in_int64 (StateDemo.total_demo a)))].
  - intros row (e0 & b0 & d0 & Ce & Cb & Cd & _ & _ & _ & Ee
                & _ & _ & Eb & _ & _ & Ed).
    unfold int64_totals. rewrite Ee, Eb, Ed.
    repeat split;
      first [ apply (fillna0_int64 _ _ _ (fun a H => H) Ce)
            | apply (fillna0_int64 _ _ _ (fun a H => H) Cb)
            | apply (fillna0_int64 _ _ _ (fun a H => H) Cd) ].
  - unfold legacy_enrol_state. rewrite Forall_map. apply Forall_forall.
    intros k _. cbv zeta. cbn [snd StateEnrol.total_enrolment].
    apply wrap64_in_int64.
  - unfold legacy_bio_state. rewrite Forall_map. apply Forall_forall.
    intros k _. cbv zeta. cbn [snd StateBio.total_bio].
    apply wrap64_in_int64.
  - unfold legacy_demo_state. rewrite Forall_map. apply Forall_forall.
    intros k _. cbv zeta. cbn [snd StateDemo.total_demo].
    apply wrap64_in_int64.
Qed.

(** *** The standalone script: [master_df] on counts that stay exact *)

Lemma sumZ_filter_abs {R : Type} (p : R -> bool) (f m : R -> Z)
  (l : list R) :
  (forall r, (Z.abs (f r) <= m r)%Z) ->
  (Z.abs (sumZ (map f (filter p l))) <= sumZ (map m l))%Z.
Proof using Type.
  intro Hm. pose proof (sumZ_map_abs f (filter p l)) as A.
  pose proof (sumZ_map_le (fun a => Z.abs (f a)) m (filter p l)
                (fun a _ => Hm a)) as B.
  assert (C : (sumZ (map m (filter p l)) <= sumZ (map m l))%Z).
  { apply sumZ_filter_le. intros a _. specialize (Hm a). lia. }
  lia.
Qed.

Lemma legacy_enrol_cells (e : list Enrolment.record) (k : string) :
  (sumZ (map enrolment_magnitude e) < 2 ^ 53)%Z ->
  let cells :=
    lookup k (legacy_enrol_state (map Enrolment.state e)
                (map Enrolment.age_0_5 e) (map Enrolment.age_5_17 e)
                (map Enrolment.age_18_greater e)) in
  fillna0 StateEnrol.age_0_5 cells
  = records_sum Enrolment.state Enrolment.age_0_5 e k
  /\ fillna0 StateEnrol.age_5_17 cells
     = records_sum Enrolment.state Enrolment.age_5_17 e k
  /\ fillna0 StateEnrol.age_18_greater cells
     = records_sum Enrolment.state Enrolment.age_18_greater e k
  /\ fillna0 StateEnrol.total_enrolment cells
     = records_sum Enrolment.state enrolment_total e k.
Proof.
  intros Hb cells. unfold cells, legacy_enrol_state. cbv zeta.
  repeat split; apply fillna0_groupby; intro q;
    cbn [StateEnrol.age_0_5 StateEnrol.age_5_17 StateEnrol.age_18_greater
         StateEnrol.total_enrolment];
    try (apply (group_sum_records _ _ enrolment_magnitude);
         first [exact Hb|magnitude]).
  rewrite !(group_sum_records _ _ enrolment_magnitude)
    by first [exact Hb|magnitude].
  assert (E : records_sum Enrolment.state enrolment_total e q
              = (records_sum Enrolment.state Enrolment.age_0_5 e q
                 + records_sum Enrolment.state Enrolment.age_5_17 e q
                 + records_sum Enrolment.state Enrolment.age_18_greater
                               e q)%Z).
  { unfold enrolment_total.
    rewrite (records_sum_add Enrolment.state
               (fun r => (Enrolment.age_0_5 r + Enrolment.age_5_17 r)%Z)
               Enrolment.age_18_greater).
    rewrite (records_sum_add Enrolment.state Enrolment.age_0_5
               Enrolment.age_5_17).
    reflexivity. }
  pose proof (enrolment_sum_abs Enrolment.state enrolment_total e q
                ltac:(magnitude)) as A.
  unfold int64_sum, sumZ. cbn [fold_right]. rewrite Z.add_0_r, E.
  rewrite Z.add_assoc. apply wrap64_small. unfold in_int64. lia.
Qed.

Lemma legacy_bio_cells (b : list Biometric.record) (k : string) :
  (sumZ (map biometric_magnitude b) < 2 ^ 53)%Z ->
  let cells :=
    lookup k (legacy_bio_state (map Biometric.state b)
                (map Biometric.bio_age_5_17 b)
                (map Biometric.bio_age_17_ b)) in
  fillna0 StateBio.bio_age_5_17 cells
  = records_sum Biometric.state Biometric.bio_age_5_17 b k
  /\ fillna0 StateBio.bio_age_17_ cells
     = records_sum Biometric.state Biometric.bio_age_17_ b k
  /\ fillna0 StateBio.total_bio cells
     = records_sum Biometric.state biometric_total b k.
Proof.
  intros Hb cells. unfold cells, legacy_bio_state. cbv zeta.
  repeat split; apply fillna0_groupby; intro q;
    cbn [StateBio.bio_age_5_17 StateBio.bio_age_17_ StateBio.total_bio];
    try (apply (group_sum_records _ _ biometric_magnitude);
         first [exact Hb|magnitude]).
  rewrite !(group_sum_records _ _ biometric_magnitude)
    by first [exact Hb|magnitude].
  assert (E : records_sum Biometric.state biometric_total b q
              = (records_sum Biometric.state Biometric.bio_age_5_17 b q
                 + records_sum Biometric.state Biometric.bio_age_17_ b q)%Z).
  { unfold biometric_total.
    rewrite (records_sum_add Biometric.state Biometric.bio_age_5_17
               Biometric.bio_age_17_).
    reflexivity. }
  pose proof (biometric_sum_abs Biometric.state biometric_total b q
                ltac:(magnitude)) as A.
  unfold int64_sum, sumZ. cbn [fold_right]. rewrite Z.add_0_r, E.
  apply wrap64_small. unfold in_int64. lia.
Qed.

Lemma legacy_demo_cells (d : list Demographic.record) (k : string) :
  (sumZ (map demographic_magnitude d) < 2 ^ 53)%Z ->
  let cells :=
    lookup k (legacy_demo_state (map Demographic.state d)
                (map Demographic.demo_age_5_17 d)
                (map Demographic.demo_age_17_ d)) in
  fillna0 StateDemo.demo_age_5_17 cells
  = records_sum Demographic.state Demographic.demo_age_5_17 d k
  /\ fillna0 StateDemo.demo_age_17_ cells
     = records_sum Demographic.state Demographic.demo_age_17_ d k
  /\ fillna0 StateDemo.total_demo cells
     = records_sum Demographic.state demographic_total d k.
Proof.
  intros Hb cells. unfold cells, legacy_demo_state. cbv zeta.
  repeat split; apply fillna0_groupby; intro q;
    cbn [StateDemo.demo_age_5_17 StateDemo.demo_age_17_
         StateDemo.total_demo];
    try (apply (group_sum_records _ _ demographic_magnitude);
         first [exact Hb|magnitude]).
  rewrite !(group_sum_records _ _ demographic_magnitude)
    by first [exact Hb|magnitude].
  assert (E : records_sum Demographic.state demographic_total d q
              = (records_sum Demographic.state Demographic.demo_age_5_17
                             d q
                 + records_sum Demographic.state Demographic.demo_age_17_
                               d q)%Z).
  { unfold demographic_total.
    rewrite (records_sum_add Demographic.state Demographic.demo_age_5_17
               Demographic.demo_age_17_).
    reflexivity. }
  pose proof (demographic_sum_abs Demographic.state demographic_total d q
                ltac:(magnitude)) as A.
  unfold int64_sum, sumZ. cbn [fold_right]. rewrite Z.add_0_r, E.
  apply wrap64_small. unfold in_int64. lia.
Qed.

(** [master_df] before the filter, row by row. *)
Lemma legacy_merged_rows (e : list Enrolment.record)
  (b : list Biometric.record) (d : list Demographic.record) :
  exact_counts e b d ->
  merge_state_data
    (legacy_enrol_state (map Enrolment.state e) (map Enrolment.age_0_5 e)
       (map Enrolment.age_5_17 e) (map Enrolment.age_18_greater e))
    (legacy_bio_state (map Biometric.state b)
       (map Biometric.bio_age_5_17 b) (map Biometric.bio_age_17_ b))
    (legacy_demo_state (map Demographic.state d)
       (map Demographic.demo_age_5_17 d) (map Demographic.demo_age_17_ d))
  = map (legacy_state_row e b d) (unique_sorted (legacy_states e b d)).
Proof.
  intro Hx. destruct (exact_counts_each e b d Hx) as (He & Hb & Hd).
  unfold merge_state_data.
  set (E := legacy_enrol_state _ _ _ _).
  set (B := legacy_bio_state _ _ _).
  set (D := legacy_demo_state _ _ _).
  unfold merge_outer at 1. rewrite map_map.
  rewrite merge_outer_keys.
  assert (KE : map fst E = unique_sorted (present (map Enrolment.state e))).
  { unfold E, legacy_enrol_state. rewrite map_map. apply map_id. }
  assert (KB : map fst B = unique_sorted (present (map Biometric.state b))).
  { unfold B, legacy_bio_state. rewrite map_map. apply map_id. }
  assert (KD : map fst D
               = unique_sorted (present (map Demographic.state d))).
  { unfold D, legacy_demo_state. rewrite map_map. apply map_id. }
  rewrite (unique_sorted_ext _ (legacy_states e b d)).
  2:{ intro x. unfold legacy_states.
      rewrite !in_app_iff, unique_sorted_In, in_app_iff, KE, KB, KD,
        !unique_sorted_In. tauto. }
  apply map_ext. intro k.
  rewrite (merge_outer_left E B k), (merge_outer_right E B k).
  destruct (legacy_enrol_cells e k He) as (E1 & E2 & E3 & E4).
  destruct (legacy_bio_cells b k Hb) as (B1 & B2 & B3).
  destruct (legacy_demo_cells d k Hd) as (D1 & D2 & D3).
  fold E in E1, E2, E3, E4. fold B in B1, B2, B3. fold D in D1, D2, D3.
  rewrite E1, E2, E3, E4, B1, B2, B3, D1, D2, D3.
  unfold legacy_state_row. f_equal.
  unfold int64_add. apply wrap64_small.
  pose proof (biometric_sum_abs Biometric.state biometric_total b k
                ltac:(magnitude)).
  pose proof (demographic_sum_abs Demographic.state demographic_total d k
                ltac:(magnitude)).
  unfold exact_counts in Hx. pose proof (enrolment_magnitude_sum e).
  unfold in_int64. lia.
Qed.

Lemma legacy_states_cover (e : list Enrolment.record)
  (b : list Biometric.record) (d : list Demographic.record) :
  let U := unique_sorted (legacy_states e b d) in
  (forall q, In q (present (map Enrolment.state e)) -> In q U)
  /\ (forall q, In q (present (map Biometric.state b)) -> In q U)
  /\ (forall q, In q (present (map Demographic.state d)) -> In q U).
Proof.
  cbv zeta. repeat split; intros q Hq; apply unique_sorted_In;
    unfold legacy_states; rewrite !in_app_iff; auto.
Qed.

(** The sum of a column of [master_df] is within the magnitudes of the
    records. *)
Lemma legacy_column_abs {R : Type} (key : R -> option string)
  (f m : R -> Z) (l : list R) (p : string -> bool) (L : list string) :
  NoDup L -> (forall q, In q (present (map key l)) -> In q L) ->
  (forall r, (Z.abs (f r) <= m r)%Z) ->
  (Z.abs (sumZ (map (records_sum key f l) (filter p L)))
   <= sumZ (map m l))%Z.
Proof.
  intros HL Hc Hm. rewrite (records_sum_groups key f p l L HL Hc).
  apply sumZ_filter_abs, Hm.
Qed.

Lemma legacy_master_df_small (e : list Enrolment.record)
  (b : list Biometric.record) (d : list Demographic.record) :
  Forall nonneg_enrolment e -> Forall nonneg_biometric b ->
  Forall nonneg_demographic d -> exact_counts e b d ->
  legacy_small (legacy_master_df e b d).
Proof.
  intros He Hb Hd Hx. unfold legacy_master_df.
  rewrite (legacy_merged_rows e b d Hx), filter_map_comm.
  cbn [legacy_state_row StateData.total_enrolment].
  set (p := fun k => (records_sum Enrolment.state enrolment_total e k
                      >? 100)%Z).
  set (L := unique_sorted (legacy_states e b d)).
  pose proof (unique_sorted_NoDup (legacy_states e b d)) as HL.
  destruct (legacy_states_cover e b d) as (Ce & Cb & Cd).
  fold L in HL, Ce, Cb, Cd.
  rewrite Forall_forall in He, Hb, Hd.
  unfold legacy_small. split.
  - rewrite Forall_map. apply Forall_forall. intros k Hk.
    apply filter_In in Hk. destruct Hk as [_ Hbig]. unfold p in Hbig.
    apply Z.gtb_lt in Hbig. unfold legacy_master_row, legacy_state_row.
    cbn [StateData.age_0_5 StateData.age_5_17 StateData.age_18_greater
         StateData.total_enrolment StateData.bio_age_5_17
         StateData.bio_age_17_ StateData.total_bio StateData.demo_age_5_17
         StateData.demo_age_17_ StateData.total_demo].
    split; [|lia].
    repeat split; apply records_sum_nonneg; intros r Hr;
      first [ destruct (He r Hr) as (A1 & A2 & A3)
            | destruct (Hb r Hr) as (A1 & A2)
            | destruct (Hd r Hr) as (A1 & A2) ];
      unfold enrolment_total, biometric_total, demographic_total; lia.
  - rewrite !map_map.
    cbn [legacy_state_row StateData.total_enrolment StateData.total_bio
         StateData.total_demo StateData.bio_age_5_17 StateData.bio_age_17_
         StateData.demo_age_5_17 StateData.demo_age_17_].
    pose proof (legacy_column_abs Enrolment.state enrolment_total
                  enrolment_magnitude e p L HL Ce ltac:(magnitude)).
    pose proof (legacy_column_abs Biometric.state biometric_total
                  biometric_magnitude b p L HL Cb ltac:(magnitude)).
    pose proof (legacy_column_abs Demographic.state demographic_total
                  demographic_magnitude d p L HL Cd ltac:(magnitude)).
    pose proof (legacy_column_abs Biometric.state Biometric.bio_age_5_17
                  biometric_magnitude b p L HL Cb ltac:(magnitude)).
    pose proof (legacy_column_abs Biometric.state Biometric.bio_age_17_
                  biometric_magnitude b p L HL Cb ltac:(magnitude)).
    pose proof (legacy_column_abs Demographic.state
                  Demographic.demo_age_5_17
                  demographic_magnitude d p L HL Cd ltac:(magnitude)).
    pose proof (legacy_column_abs Demographic.state
                  Demographic.demo_age_17_
                  demographic_magnitude d p L HL Cd ltac:(magnitude)).
    pose proof (enrolment_magnitude_sum e).
    pose proof (biometric_magnitude_sum b).
    pose proof (demographic_magnitude_sum d).
    unfold exact_counts in Hx.
    repeat match goal with
           | |- context [map (fun x : string => ?f x) ?l] =>
               change (map (fun x : string => f x) l) with (map f l)
           end.
    repeat split; lia.
Qed.

(** On a small [master_df] no sum of [main] wraps. *)
Lemma legacy_small_exact (m : list StateData.row) :
  legacy_small m ->
  int64_sum (map StateData.total_enrolment m)
  = sumZ (map StateData.total_enrolment m)
  /\ int64_add (int64_sum (map StateData.total_bio m))
              (int64_sum (map StateData.total_demo m))
     = (sumZ (map StateData.total_bio m)
        + sumZ (map StateData.total_demo m))%Z
  /\ int64_sum (map legacy_row_youth_updates m)
     = (sumZ (map StateData.bio_age_5_17 m)
        + sumZ (map StateData.demo_age_5_17 m))%Z
  /\ int64_sum (map legacy_row_adult_updates m)
     = (sumZ (map StateData.bio_age_17_ m)
        + sumZ (map StateData.demo_age_17_ m))%Z
  /\ (forall r, In r m ->
                int64_add (StateData.total_bio r) (StateData.total_demo r)
                = (StateData.total_bio r + StateData.total_demo r)%Z
                /\ legacy_row_youth_updates r
                   = (StateData.bio_age_5_17 r
                      + StateData.demo_age_5_17 r)%Z
                /\ legacy_row_adult_updates r
                   = (StateData.bio_age_17_ r
                      + StateData.demo_age_17_ r)%Z).
Proof using Type.
  clear strptime_dmY str_strip str_title.
  intros (Hm & S1 & S2 & S3 & S4).
  assert (N : forall f : StateData.row -> Z,
             (forall r, legacy_master_row r -> (0 <= f r)%Z) ->
             (0 <= sumZ (map f m))%Z
             /\ forall r, In r m -> (0 <= f r <= sumZ (map f m))%Z).
  { intros f Hf.
    assert (F : Forall (fun x => (0 <= f x)%Z) m)
      by (eapply Forall_impl; [|exact Hm]; exact Hf).
    split.
    - apply sumZ_nonneg. rewrite Forall_map. exact F.
    - intros r Hr. split.
      + apply (proj1 (Forall_forall _ _) F r Hr).
      + apply sumZ_member_le; assumption. }
  destruct (N StateData.total_enrolment) as [T0 _];
    [intros r [Hr _]; apply Hr|].
  destruct (N StateData.total_bio) as [B0 Br]; [intros r [Hr _]; apply Hr|].
  destruct (N StateData.total_demo) as [D0 Dr];
    [intros r [Hr _]; apply Hr|].
  destruct (N StateData.bio_age_5_17) as [Y0 Yr];
    [intros r [Hr _]; apply Hr|].
  destruct (N StateData.demo_age_5_17) as [Z0 Zr];
    [intros r [Hr _]; apply Hr|].
  destruct (N StateData.bio_age_17_) as [A0 Ar];
    [intros r [Hr _]; apply Hr|].
  destruct (N StateData.demo_age_17_) as [C0 Cr];
    [intros r [Hr _]; apply Hr|].
  clear N.
  assert (R : forall r, In r m ->
                int64_add (StateData.total_bio r) (StateData.total_demo r)
                = (StateData.total_bio r + StateData.total_demo r)%Z
                /\ legacy_row_youth_updates r
                   = (StateData.bio_age_5_17 r
                      + StateData.demo_age_5_17 r)%Z
                /\ legacy_row_adult_updates r
                   = (StateData.bio_age_17_ r
                      + StateData.demo_age_17_ r)%Z).
  { intros r Hr. specialize (Br r Hr). specialize (Dr r Hr).
    specialize (Yr r Hr). specialize (Zr r Hr). specialize (Ar r Hr).
    specialize (Cr r Hr).
    unfold legacy_row_youth_updates, legacy_row_adult_updates, int64_add.
    repeat split; apply wrap64_small; unfold in_int64; lia. }
  assert (EY : sumZ (map legacy_row_youth_updates m)
               = (sumZ (map StateData.bio_age_5_17 m)
                  + sumZ (map StateData.demo_age_5_17 m))%Z).
  { rewrite <- sumZ_map_add. f_equal. apply map_ext_in.
    intros r Hr. apply (R r Hr). }
  assert (EA : sumZ (map legacy_row_adult_updates m)
               = (sumZ (map StateData.bio_age_17_ m)
                  + sumZ (map StateData.demo_age_17_ m))%Z).
  { rewrite <- sumZ_map_add. f_equal. apply map_ext_in.
    intros r Hr. apply (R r Hr). }
  unfold int64_sum at 1 4 5. rewrite EY, EA.
  unfold int64_add, int64_sum.
  rewrite (wrap64_small (sumZ (map StateData.total_bio m)))
    by (unfold in_int64; lia).
  rewrite (wrap64_small (sumZ (map StateData.total_demo m)))
    by (unfold in_int64; lia).
  repeat split; try (apply wrap64_small; unfold in_int64; lia);
    apply (R r H).
Qed.

Lemma fdiv_part (a n : Z) :
  (0 <= a <= n)%Z ->
  (n = 0%Z /\ fdiv (fZ a) (fZ n) = NaN)
  \/ ((0 < n)%Z
      /\ fdiv (fZ a) (fZ n) = Finite (inject_Z a / inject_Z n)
      /\ 0 <= inject_Z a / inject_Z n <= 1).
Proof using Type.
  intros [Ha Hn]. unfold fZ. cbn [fdiv].
  destruct (Z.eq_dec n 0) as [E|N].
  - left. split; [exact E|]. subst n. assert (a = 0%Z) by lia. subst a.
    reflexivity.
  - right. assert (P : (0 < n)%Z) by lia. split; [exact P|].
    assert (Q0 : 0 < inject_Z n).
    { change 0 with (inject_Z 0). rewrite <- Zlt_Qlt. exact P. }
    assert (A0 : 0 <= inject_Z a).
    { change 0 with (inject_Z 0). rewrite <- Zle_Qle. exact Ha. }
    assert (AN : inject_Z a <= inject_Z n) by (rewrite <- Zle_Qle; exact Hn).
    replace (Qeq_bool (inject_Z n) 0) with false
      by (symmetry; apply Qeq_bool_false; lra).
    split; [reflexivity|]. split.
    + apply Qle_shift_div_l; lra.
    + apply Qle_shift_div_r; lra.
Qed.

Lemma legacy_enrol_share_finite (m : list StateData.row)
  (r : StateData.row) :
  legacy_small m -> In r m ->
  exists q,
    legacy_enrol_share (int64_sum (map StateData.total_enrolment m)) r
    = Finite q
    /\ 0 < q <= 100.
Proof using Type.
  intros Hs Hr. destruct (legacy_small_exact m Hs) as (E1 & _).
  destruct Hs as (Hm & _). rewrite E1. unfold legacy_enrol_share.
  assert (Hr' : legacy_master_row r)
    by (exact (proj1 (Forall_forall _ _) Hm r Hr)).
  destruct Hr' as [_ Hbig].
  assert (Hle : (StateData.total_enrolment r
                 <= sumZ (map StateData.total_enrolment m))%Z).
  { apply sumZ_member_le; [|exact Hr].
    eapply Forall_impl; [|exact Hm]. intros x [_ Hx]. cbv beta. lia. }
  destruct (fdiv_part (StateData.total_enrolment r)
              (sumZ (map StateData.total_enrolment m)))
    as [[E _]|(P & -> & B)]; [lia|lia|].
  cbn [fmul]. eexists. split; [reflexivity|].
  set (x := inject_Z (StateData.total_enrolment r)
            / inject_Z (sumZ (map StateData.total_enrolment m))) in *.
  assert (0 < x).
  { unfold x. apply Qlt_shift_div_l.
    - change 0 with (inject_Z 0). rewrite <- Zlt_Qlt. exact P.
    - rewrite Qmult_0_l. change 0 with (inject_Z 0).
      rewrite <- Zlt_Qlt. lia. }
  lra.
Qed.

Lemma legacy_update_share_range (m : list StateData.row)
  (r : StateData.row) :
  legacy_small m -> In r m ->
  nan_or_between 0 100
    (legacy_update_share (int64_sum (map StateData.total_bio m))
                         (int64_sum (map StateData.total_demo m)) r).
Proof using Type.
  intros Hs Hr. destruct (legacy_small_exact m Hs) as (_ & E2 & _ & _ & R).
  destruct Hs as (Hm & _). unfold legacy_update_share.
  rewrite E2, (proj1 (R r Hr)).
  assert (Hb : (0 <= StateData.total_bio r
                <= sumZ (map StateData.total_bio m))%Z).
  { split.
    - apply (proj1 (Forall_forall _ _) Hm r Hr).
    - apply sumZ_member_le; [|exact Hr].
      eapply Forall_impl; [|exact Hm]. intros x [Hx _]. apply Hx. }
  assert (Hd : (0 <= StateData.total_demo r
                <= sumZ (map StateData.total_demo m))%Z).
  { split.
    - apply (proj1 (Forall_forall _ _) Hm r Hr).
    - apply sumZ_member_le; [|exact Hr].
      eapply Forall_impl; [|exact Hm]. intros x [Hx _]. apply Hx. }
  destruct (fdiv_part (StateData.total_bio r + StateData.total_demo r)
              (sumZ (map StateData.total_bio m)
               + sumZ (map StateData.total_demo m)))
    as [[_ ->]|(_ & -> & B)]; [lia|exact I|].
  cbn [fmul nan_or_between]. lra.
Qed.

Lemma legacy_IDI_range (m : list StateData.row) (r : StateData.row) :
  legacy_small m -> In r m ->
  nan_or_between (-100) 100
    (legacy_IDI (int64_sum (map StateData.total_enrolment m))
                (int64_sum (map StateData.total_bio m))
                (int64_sum (map StateData.total_demo m)) r).
Proof using Type.
  intros Hm Hr. unfold legacy_IDI.
  destruct (legacy_enrol_share_finite m r Hm Hr) as (q & -> & B).
  pose proof (legacy_update_share_range m r Hm Hr) as U.
  destruct (legacy_update_share _ _ r) as [u| | |]; cbn in U;
    try contradiction; cbn [fsub fneg fadd nan_or_between];
    [lra|exact I].
Qed.

Lemma legacy_UBI_range (m : list StateData.row) (r : StateData.row) :
  legacy_small m -> In r m -> nan_or_between 0 1 (legacy_UBI r).
Proof using Type.
  intros Hs Hr. destruct (legacy_small_exact m Hs) as (_ & _ & _ & _ & R).
  destruct Hs as (Hm & _).
  destruct (proj1 (Forall_forall _ _) Hm r Hr) as [H _].
  unfold legacy_UBI. rewrite (proj1 (R r Hr)).
  destruct (fdiv_part (StateData.total_bio r)
              (StateData.total_bio r + StateData.total_demo r))
    as [[_ ->]|(_ & -> & B)]; [|exact I|exact B].
  lia.
Qed.

Lemma fdiv_ratio_finite_or_nan (y a' Y A : Z) :
  (0 <= y <= Y)%Z -> (0 < a')%Z -> (0 <= A)%Z ->
  finite_or_nan (fdiv (fdiv (fZ y) (fZ a')) (fdiv (fZ Y) (fZ A))).
Proof using Type.
  intros Hy Ha' HA.
  assert (Qa' : 0 < inject_Z a').
  { change 0 with (inject_Z 0). rewrite <- Zlt_Qlt. exact Ha'. }
  unfold fZ. cbn [fdiv].
  replace (Qeq_bool (inject_Z a') 0) with false
    by (symmetry; apply Qeq_bool_false; lra).
  destruct (Qeq_bool (inject_Z A) 0) eqn:EA.
  - destruct (Qeq_bool (inject_Z Y) 0); [exact I|].
    destruct (Qltb 0 (inject_Z Y)); cbn; exact I.
  - cbn [fdiv].
    destruct (Qeq_bool (inject_Z Y / inject_Z A) 0) eqn:ER; [|exact I].
    apply Qeq_bool_true in ER. apply Qeq_bool_false in EA.
    assert (QA : 0 < inject_Z A).
    { assert (0 <= inject_Z A)
        by (change 0 with (inject_Z 0); rewrite <- Zle_Qle; exact HA).
      destruct (Qlt_le_dec 0 (inject_Z A)); [assumption|].
      exfalso. apply EA. lra. }
    assert (Y0 : inject_Z Y == 0).
    { assert (E : inject_Z Y == inject_Z Y / inject_Z A * inject_Z A)
        by (field; lra).
      rewrite E, ER. ring. }
    assert (HY : Y = 0%Z)
      by (unfold Qeq in Y0; cbn [Qnum Qden inject_Z] in Y0; lia).
    assert (Hy0 : y = 0%Z) by lia.
    replace (Qeq_bool (inject_Z y / inject_Z a') 0) with true;
      [exact I|].
    symmetry. apply Qeq_bool_true. rewrite Hy0. unfold Qdiv.
    change (inject_Z 0) with 0. ring.
Qed.

Lemma legacy_YIR_finite_or_nan (m : list StateData.row)
  (r : StateData.row) :
  legacy_small m -> In r m ->
  finite_or_nan
    (legacy_YIR
       (fdiv (fZ (int64_sum (map legacy_row_youth_updates m)))
             (fZ (int64_sum (map legacy_row_adult_updates m)))) r).
Proof using Type.
  intros Hs Hr.
  destruct (legacy_small_exact m Hs) as (_ & _ & EY & EA & R).
  destruct Hs as (Hm & _). unfold legacy_YIR.
  rewrite EY, EA. destruct (R r Hr) as (_ & -> & ->).
  assert (N : forall f : StateData.row -> Z,
             (forall x, legacy_master_row x -> (0 <= f x)%Z) ->
             (0 <= f r <= sumZ (map f m))%Z).
  { intros f Hf.
    assert (F : Forall (fun x => (0 <= f x)%Z) m)
      by (eapply Forall_impl; [|exact Hm]; exact Hf).
    split.
    - apply (proj1 (Forall_forall _ _) F r Hr).
    - apply sumZ_member_le; assumption. }
  pose proof (N StateData.bio_age_5_17 (fun x H => proj1 (proj2 (proj2 (proj2 (proj2 (proj1 H))))))) as N1.
  pose proof (N StateData.demo_age_5_17 (fun x H => proj1 (proj2 (proj2 (proj2 (proj2 (proj2 (proj2 (proj2 (proj1 H)))))))))) as N2.
  pose proof (N StateData.bio_age_17_ (fun x H => proj1 (proj2 (proj2 (proj2 (proj2 (proj2 (proj1 H)))))))) as N3.
  pose proof (N StateData.demo_age_17_ (fun x H => proj1 (proj2 (proj2 (proj2 (proj2 (proj2 (proj2 (proj2 (proj2 (proj1 H))))))))))) as N4.
  apply fdiv_ratio_finite_or_nan; [lia| |lia].
  destruct (Z.eqb_spec (StateData.bio_age_17_ r + StateData.demo_age_17_ r)
              0); lia.
Qed.

Lemma legacy_health_range (i u y : float64) :
  nan_or_between 0 1 i -> nan_or_between 0 1 u -> nan_or_between 0 1 y ->
  nan_or_between 0 100 (legacy_health i u y).
Proof using Type.
  unfold legacy_health.
  destruct i as [i| | |], u as [u| | |], y as [y| | |];
    cbn [nan_or_between]; try contradiction; intros Hi Hu Hy;
    cbn [fmul fadd nan_or_between]; try exact I.
  lra.
Qed.

Lemma one_minus_range (x : float64) :
  nan_or_between 0 1 x -> nan_or_between 0 1 (fsub (Finite 1) x).
Proof using Type.
  clear strptime_dmY str_strip str_title.
  destruct x as [q| | |]; cbn [nan_or_between fsub fneg fadd];
    try contradiction; [lra|tauto].
Qed.

Lemma legacy_s_ubi_range (u : float64) :
  nan_or_between 0 1 u -> nan_or_between 0 1 (legacy_s_ubi u).
Proof using Type.
  clear strptime_dmY str_strip str_title.
  unfold legacy_s_ubi.
  destruct u as [q| | |]; cbn [nan_or_between fsub fneg fadd fabs fmul];
    try contradiction; [|tauto].
  intro B.
  destruct (Qlt_le_dec (0.5 + - q) 0).
  - rewrite Qabs_neg by lra. lra.
  - rewrite Qabs_pos by lra. lra.
Qed.

Lemma legacy_main_Some (e : list Enrolment.record)
  (b : list Biometric.record) (d : list Demographic.record)
  (t : list (Master.row * string)) :
  legacy_main e b d = Some t ->
  t = map (fun r =>
             (legacy_row (legacy_master_df e b d) r,
              get_archetype (legacy_row (legacy_master_df e b d) r)))
          (legacy_master_df e b d).
Proof using Type.
  intro H.
  assert (He : e <> []) by (intros ->; discriminate H).
  assert (Hb : b <> []).
  { intros ->. destruct e; discriminate H. }
  assert (Hd : d <> []).
  { intros ->. destruct e, b; discriminate H. }
  rewrite (legacy_main_rows e b d He Hb Hd) in H.
  inversion H. reflexivity.
Qed.

Lemma legacy_row_health_range (m : list StateData.row)
  (r : StateData.row) :
  legacy_small m -> In r m ->
  nan_or_between 0 100 (Master.Health_Score (legacy_row m r)).
Proof using Type.
  clear strptime_dmY str_strip str_title.
  intros Hm Hr. cbn [legacy_row Master.Health_Score].
  apply legacy_health_range.
  - apply one_minus_range. apply normalize_cell_range.
    + rewrite Forall_map. apply Forall_forall. intros x Hx.
      pose proof (legacy_IDI_range m x Hm Hx) as B.
      destruct (legacy_IDI _ _ _ x); cbn in *; tauto.
    + apply (in_map (fun x => fabs (legacy_IDI _ _ _ x))). exact Hr.
  - apply legacy_s_ubi_range, (legacy_UBI_range m); assumption.
  - apply normalize_cell_range.
    + rewrite Forall_map. apply Forall_forall. intros x Hx.
      apply legacy_YIR_finite_or_nan; assumption.
    + apply (in_map (legacy_YIR _)). exact Hr.
Qed.

(** The standalone [main] on records with nonnegative counts that stay
    exact: every state it keeps has more than 100 enrolments; its
    enrolment share is a number of (0,100]; its update share, IDI, UBI and
    YIR are numbers in their ranges or NaN, never infinite; and its health
    score is NaN or a number of [0,100]. *)
Theorem legacy_scores_nan_or_bounded (e : list Enrolment.record)
  (b : list Biometric.record) (d : list Demographic.record)
  (t : list (Master.row * string)) :
  Forall nonneg_enrolment e -> Forall nonneg_biometric b ->
  Forall nonneg_demographic d ->
  exact_counts e b d ->
  legacy_main e b d = Some t ->
  Forall (fun p =>
            let row := fst p in
            (100 < StateData.total_enrolment (Master.base row))%Z
            /\ (exists q, Master.enrol_share row = Finite q /\ 0 < q <= 100)
            /\ nan_or_between 0 100 (Master.update_share row)
            /\ nan_or_between (-100) 100 (Master.IDI row)
            /\ nan_or_between 0 1 (Master.UBI row)
            /\ finite_or_nan (Master.YIR row)
            /\ nan_or_between 0 100 (Master.Health_Score row)
            /\ snd p = get_archetype row)
         t.
Proof.
  intros He Hb Hd Hx Hrun. rewrite (legacy_main_Some e b d t Hrun).
  pose proof (legacy_master_df_small e b d He Hb Hd Hx) as Hm.
  set (m := legacy_master_df e b d) in *.
  rewrite Forall_map. apply Forall_forall. intros r Hr.
  cbv zeta. cbn [fst snd].
  split; [apply (proj1 (Forall_forall _ _) (proj1 Hm) r Hr)|].
  split; [apply legacy_enrol_share_finite; assumption|].
  split; [apply legacy_update_share_range; assumption|].
  split; [apply legacy_IDI_range; assumption|].
  split; [apply (legacy_UBI_range m); assumption|].
  split; [apply legacy_YIR_finite_or_nan; assumption|].
  split; [apply legacy_row_health_range; assumption|reflexivity].
Qed.

(** [get_archetype] of the standalone script: the label is one of six;
    'Digital Leader' is given exactly when the health score is above 60,
    so never when it is NaN; the Sprinter rule is read only then; and a
    row whose health score, IDI, YIR and UBI are all NaN falls through
    to 'Sleepwalker (Low Activity)'. *)
Theorem get_archetype_cascade (row : Master.row) :
  In (get_archetype row) legacy_labels
  /\ (get_archetype row = "Digital Leader"%string
      <-> fgt (Master.Health_Score row) (Finite 60) = true)
  /\ (Master.Health_Score row = NaN ->
      get_archetype row <> "Digital Leader"%string)
  /\ (get_archetype row = "Sprinter (High Growth, Lagging Infra)"%string
      <-> fgt (Master.Health_Score row) (Finite 60) = false
          /\ fgt (Master.IDI row) (Finite 1.0) = true
          /\ fgt (Master.enrol_share row) (Finite 5.0) = true)
  /\ (Master.Health_Score row = NaN -> Master.IDI row = NaN ->
      Master.YIR row = NaN -> Master.UBI row = NaN ->
      get_archetype row = "Sleepwalker (Low Activity)"%string).
Proof using Type.
  clear strptime_dmY str_strip str_title.
  unfold get_archetype, legacy_labels. cbv zeta.
  split; [|split; [|split; [|split]]].
  - repeat match goal with
           | |- context [if ?c then _ else _] => destruct c
           end; cbn; tauto.
  - destruct (fgt (Master.Health_Score row) (Finite 60));
      [split; reflexivity|].
    split; [|discriminate].
    repeat match goal with
           | |- context [if ?c then _ else _] => destruct c
           end; discriminate.
  - intros ->. cbn [fgt]. 
    repeat match goal with
           | |- context [if ?c then _ else _] => destruct c
           end; discriminate.
  - destruct (fgt (Master.Health_Score row) (Finite 60)).
    { split; [discriminate|]. intros [H _]. discriminate H. }
    destruct (fgt (Master.IDI row) (Finite 1.0)); cbn [andb].
    + destruct (fgt (Master.enrol_share row) (Finite 5.0)).
      * split; [intros _; repeat split|reflexivity].
      * split; [|intros (_ & _ & H); discriminate H].
        repeat match goal with
               | |- context [if ?c then _ else _] => destruct c
               end; discriminate.
    + split; [|intros (_ & H & _); discriminate H].
      repeat match goal with
             | |- context [if ?c then _ else _] => destruct c
             end; discriminate.
  - intros -> -> -> ->. reflexivity.
Qed.

Lemma fadd_NaN_r (a : float64) : fadd a NaN = NaN.
Proof. destruct a; reflexivity. Qed.

Lemma fmul_NaN_r (a : float64) : fmul a NaN = NaN.
Proof. destruct a; reflexivity. Qed.

Lemma fdiv_NaN_r (a : float64) : fdiv a NaN = NaN.
Proof. destruct a; reflexivity. Qed.

Lemma legacy_health_NaN_idi (u y : float64) : legacy_health NaN u y = NaN.
Proof. reflexivity. Qed.

Lemma legacy_health_NaN_ubi (i y : float64) : legacy_health i NaN y = NaN.
Proof using Type.
  unfold legacy_health. cbn [fmul]. rewrite fadd_NaN_r. reflexivity.
Qed.

(** The standalone [main] on update datasets in which every count is 0:
    every state it keeps has NaN for its update share, IDI, UBI, YIR and
    health score (each a division of 0 by 0, or built on one), and is
    labelled 'Sleepwalker (Low Activity)', every comparison with NaN
    being false. *)
Theorem legacy_without_updates (e : list Enrolment.record)
  (b : list Biometric.record) (d : list Demographic.record)
  (t : list (Master.row * string)) :
  Forall (fun r => Biometric.bio_age_5_17 r = 0%Z
                   /\ Biometric.bio_age_17_ r = 0%Z) b ->
  Forall (fun r => Demographic.demo_age_5_17 r = 0%Z
                   /\ Demographic.demo_age_17_ r = 0%Z) d ->
  legacy_main e b d = Some t ->
  Forall (fun p =>
            Master.update_share (fst p) = NaN
            /\ Master.IDI (fst p) = NaN /\ Master.UBI (fst p) = NaN
            /\ Master.YIR (fst p) = NaN
            /\ Master.Health_Score (fst p) = NaN
            /\ snd p = "Sleepwalker (Low Activity)"%string) t.
Proof using Type.
  clear strptime_dmY str_strip str_title.
  intros Hb Hd Hrun. rewrite (legacy_main_Some e b d t Hrun).
  assert (Hm : Forall no_updates (legacy_master_df e b d)).
  { unfold legacy_master_df. apply Forall_forall. intros r Hr.
    apply filter_In in Hr. destruct Hr as [Hr _]. revert r Hr.
    apply Forall_forall. apply merge_state_data_no_updates.
    - unfold legacy_bio_state. rewrite Forall_map. apply Forall_forall.
      intros k _. cbn [snd]. cbv zeta. unfold zero_bio.
      cbn [StateBio.bio_age_5_17 StateBio.bio_age_17_ StateBio.total_bio].
      rewrite !group_sum_zero; [repeat split; exact wrap64_0| |];
        apply (dropna_keys_snd_Forall (fun z => z = 0%Z));
        rewrite Forall_map;
        (eapply Forall_impl; [|exact Hb]); cbv beta; tauto.
    - unfold legacy_demo_state. rewrite Forall_map. apply Forall_forall.
      intros k _. cbn [snd]. cbv zeta. unfold zero_demo.
      cbn [StateDemo.demo_age_5_17 StateDemo.demo_age_17_
           StateDemo.total_demo].
      rewrite !group_sum_zero; [repeat split; exact wrap64_0| |];
        apply (dropna_keys_snd_Forall (fun z => z = 0%Z));
        rewrite Forall_map;
        (eapply Forall_impl; [|exact Hd]); cbv beta; tauto. }
  set (m := legacy_master_df e b d) in *.
  assert (Nb : int64_sum (map StateData.total_bio m) = 0%Z).
  { apply int64_sum_zero, sumZ_map_zero. intros r Hr.
    apply (proj1 (Forall_forall _ _) Hm r Hr). }
  assert (Nd : int64_sum (map StateData.total_demo m) = 0%Z).
  { apply int64_sum_zero, sumZ_map_zero. intros r Hr.
    apply (proj1 (Forall_forall _ _) Hm r Hr). }
  assert (Ny : int64_sum (map legacy_row_youth_updates m) = 0%Z).
  { apply int64_sum_zero, sumZ_map_zero. intros r Hr.
    destruct (proj1 (Forall_forall _ _) Hm r Hr) as (A & _ & _ & B & _).
    unfold legacy_row_youth_updates. rewrite A, B. exact wrap64_0. }
  assert (Na : int64_sum (map legacy_row_adult_updates m) = 0%Z).
  { apply int64_sum_zero, sumZ_map_zero. intros r Hr.
    destruct (proj1 (Forall_forall _ _) Hm r Hr)
      as (_ & A & _ & _ & B & _).
    unfold legacy_row_adult_updates. rewrite A, B. exact wrap64_0. }
  rewrite Forall_map. apply Forall_forall. intros r Hr.
  destruct (proj1 (Forall_forall _ _) Hm r Hr)
    as (R1 & R2 & R3 & R4 & R5 & R6).
  assert (U : legacy_update_share (int64_sum (map StateData.total_bio m))
                (int64_sum (map StateData.total_demo m)) r = NaN).
  { unfold legacy_update_share.
    rewrite Nb, Nd, R3, R6, int64_add_0_0. reflexivity. }
  assert (I0 : legacy_IDI (int64_sum (map StateData.total_enrolment m))
                 (int64_sum (map StateData.total_bio m))
                 (int64_sum (map StateData.total_demo m)) r = NaN).
  { unfold legacy_IDI, fsub. rewrite U. cbn [fneg]. apply fadd_NaN_r. }
  assert (B0 : legacy_UBI r = NaN).
  { unfold legacy_UBI. rewrite R3, R6, int64_add_0_0. reflexivity. }
  assert (Y0 : legacy_YIR
                 (fdiv (fZ (int64_sum (map legacy_row_youth_updates m)))
                       (fZ (int64_sum (map legacy_row_adult_updates m))))
                 r
               = NaN).
  { unfold legacy_YIR. rewrite Ny, Na.
    change (fdiv (fZ 0) (fZ 0)) with NaN. apply fdiv_NaN_r. }
  assert (H0 : Master.Health_Score (legacy_row m r) = NaN).
  { cbn [legacy_row Master.Health_Score]. rewrite B0.
    change (legacy_s_ubi NaN) with NaN. apply legacy_health_NaN_ubi. }
  cbn [fst snd]. unfold get_archetype. cbv zeta. rewrite H0.
  cbn [legacy_row Master.update_share Master.IDI Master.UBI Master.YIR
       Master.enrol_share].
  rewrite U, I0, B0, Y0. repeat split; reflexivity.
Qed.

(** The standalone [main] when a single state is kept: [normalize]
    divides 0 by 0, so the health score is NaN, and as the state
    carries all enrolments and all updates its IDI is 0 (or NaN without
    updates); the state is labelled by one of the last three rules,
    never 'Digital Leader', 'Sprinter' or 'Struggling'. *)
Theorem legacy_single_state (e : list Enrolment.record)
  (b : list Biometric.record) (d : list Demographic.record)
  (row : Master.row) (label : string) :
  legacy_main e b d = Some [(row, label)] ->
  Master.Health_Score row = NaN
  /\ (Master.IDI row = NaN
      \/ exists q, Master.IDI row = Finite q /\ q == 0)
  /\ In label [ "Exclusion Zone (Youth Left Behind)"%string;
                "Biometric Laggard"%string;
                "Sleepwalker (Low Activity)"%string ].
Proof using Type.
  clear strptime_dmY str_strip str_title.
  intro Hrun. pose proof (legacy_main_Some e b d _ Hrun) as E.
  assert (Hbig : Forall (fun r => (100 < StateData.total_enrolment r)%Z)
                        (legacy_master_df e b d)).
  { unfold legacy_master_df. apply Forall_forall. intros r Hr.
    apply filter_In in Hr. destruct Hr as [_ Hr].
    apply Z.gtb_lt in Hr. lia. }
  pose proof (legacy_master_df_int64 e b d) as Hint.
  destruct (legacy_master_df e b d) as [|r [|r' m']]; try discriminate E.
  cbn [map] in E. inversion E as [[Erow Elabel]]. clear E.
  apply Forall_inv in Hbig. apply Forall_inv in Hint.
  destruct Hint as (Ie & Ib & Id).
  assert (H0 : Master.Health_Score (legacy_row [r] r) = NaN).
  { cbn [legacy_row Master.Health_Score map].
    rewrite normalize_cell_single. reflexivity. }
  assert (T : 0 < inject_Z (StateData.total_enrolment r)).
  { change 0 with (inject_Z 0). rewrite <- Zlt_Qlt. lia. }
  assert (I0 : Master.IDI (legacy_row [r] r) = NaN
               \/ exists q, Master.IDI (legacy_row [r] r) = Finite q
                            /\ q == 0).
  { cbn [legacy_row Master.IDI map].
    rewrite !int64_sum_single by assumption.
    unfold legacy_IDI, legacy_enrol_share, legacy_update_share, fZ.
    cbn [fdiv].
    replace (Qeq_bool (inject_Z (StateData.total_enrolment r)) 0)
      with false by (symmetry; apply Qeq_bool_false; lra).
    destruct (Qeq_bool
                (inject_Z (int64_add (StateData.total_bio r)
                                     (StateData.total_demo r)))
                0) eqn:U.
    - left. reflexivity.
    - right. apply Qeq_bool_false in U. cbn [fmul fsub fneg fadd].
      eexists. split; [reflexivity|]. field. split; [exact U|lra]. }
  split; [exact H0|]. split; [exact I0|].
  unfold get_archetype. cbv zeta. rewrite H0. cbn [fgt].
  destruct I0 as [-> |(q & -> & Eq)]; cbn [fgt andb].
  - repeat match goal with
           | |- context [if ?c then _ else _] => destruct c
           end; cbn; tauto.
  - replace (Qltb 1.0 q) with false
      by (symmetry; apply not_true_is_false; intro L;
          apply Qltb_lt in L; lra).
    replace (Qltb 0.5 q) with false
      by (symmetry; apply not_true_is_false; intro L;
          apply Qltb_lt in L; lra).
    cbn [andb].
    repeat match goal with
           | |- context [if ?c then _ else _] => destruct c
           end; cbn; tauto.
Qed.


End Engine.

(** ** The properties on the sample inputs *)

Lemma Qsqrt_lower_nonneg (x : Q) : 0 <= Qsqrt_lower x.
Proof.
  unfold Qsqrt_lower, Qle. cbn [Qnum Qden].
  rewrite Z.mul_0_l, Z.mul_1_r. apply Z.sqrt_nonneg.
Qed.

Lemma sample_nonneg :
  Forall nonneg_enrolment Sample.enrolment
  /\ Forall nonneg_biometric Sample.biometric
  /\ Forall nonneg_demographic Sample.demographic.
Proof.
  unfold nonneg_enrolment, nonneg_biometric, nonneg_demographic.
  repeat split; repeat constructor; cbn; lia.
Qed.

(** C1 on a row with YIR = 0.5, health score 90, TCS 0.9 and GCI 0.1. *)
Lemma classify_archetype_cascade_witness :
  Scored.YIR Sample.low_yir_row < 0.6
  /\ classify_archetype Sample.low_yir_row = "Excluded (Youth)"%string.
Proof.
  assert (H : Scored.YIR Sample.low_yir_row < 0.6) by reflexivity.
  split; [exact H|].
  exact (proj1 (proj2 classify_archetype_cascade) Sample.low_yir_row H).
Defined.

(** C2 as stated fails: with 5 youth updates and no adult update the
    ratio that [calculate_metrics] uses is 0, not 5. *)
Lemma youth_ratio_is_not_youth_updates :
  (StateData.bio_age_17_ Sample.state_without_adults
   + StateData.demo_age_17_ Sample.state_without_adults = 0)%Z
  /\ state_youth_ratio Sample.state_without_adults == 0
  /\ ~ state_youth_ratio Sample.state_without_adults
       == inject_Z (StateData.bio_age_5_17 Sample.state_without_adults
                    + StateData.demo_age_5_17 Sample.state_without_adults).
Proof.
  split; [reflexivity|]. split; [reflexivity|].
  vm_compute. discriminate.
Qed.

Lemma youth_ratio_without_adults_witness :
  (StateData.bio_age_17_ Sample.state_without_adults
   + StateData.demo_age_17_ Sample.state_without_adults = 0)%Z
  /\ state_youth_ratio Sample.state_without_adults == 0
  /\ legacy_adult_updates Sample.master_without_adults = 0%Z
  /\ legacy_state_youth_update_ratio Sample.master_without_adults == 5.
Proof.
  assert (H : (StateData.bio_age_17_ Sample.state_without_adults
               + StateData.demo_age_17_ Sample.state_without_adults = 0)%Z)
    by reflexivity.
  assert (L : legacy_adult_updates Sample.master_without_adults = 0%Z)
    by reflexivity.
  split; [exact H|]. split.
  - exact (proj1 (youth_ratio_without_adults Qsqrt_lower)
                 Sample.state_without_adults H).
  - split; [exact L|].
    exact (proj2 (proj2 (youth_ratio_without_adults Qsqrt_lower))
                 Sample.master_without_adults L).
Defined.

Lemma sample_dates_parse :
  Forall (fun c => ~ unparseable parse_dmY c)
         (all_dates Sample.enrolment Sample.biometric Sample.demographic).
Proof.
  apply Forall_forall. intros c Hc. cbn in Hc.
  repeat (destruct Hc as [<-|Hc];
          [intro H; vm_compute in H; discriminate H|]).
  destruct Hc.
Qed.

Lemma sample_exact_counts :
  exact_counts Sample.enrolment Sample.biometric Sample.demographic.
Proof. unfold exact_counts. vm_compute. reflexivity. Qed.

(** C3 on the sample datasets. *)
Lemma health_score_in_percent_witness :
  (Forall nonneg_enrolment Sample.enrolment
   /\ Forall nonneg_biometric Sample.biometric
   /\ Forall nonneg_demographic Sample.demographic)
  /\ exact_counts Sample.enrolment Sample.biometric Sample.demographic
  /\ (Forall (fun c => ~ unparseable parse_dmY c)
             (all_dates Sample.enrolment Sample.biometric Sample.demographic)
      /\ existsb read_as_float
                 (name_columns Sample.enrolment Sample.biometric
                               Sample.demographic) = false
      /\ all_states ascii_strip ascii_title Sample.enrolment Sample.biometric
                    Sample.demographic <> [])
  /\ exists t,
      run_main Qsqrt_lower parse_dmY ascii_strip ascii_title
               Sample.enrolment Sample.biometric Sample.demographic = inr t
      /\ Forall (fun r =>
                   scores_in_percent
                     (Classified.scored (Risk.classified r))) t.
Proof.
  split; [exact sample_nonneg|]. split; [exact sample_exact_counts|].
  destruct sample_nonneg as [He [Hb Hd]].
  assert (Hn : existsb read_as_float
                 (name_columns Sample.enrolment Sample.biometric
                               Sample.demographic) = false) by reflexivity.
  assert (Hs : all_states ascii_strip ascii_title Sample.enrolment
                 Sample.biometric Sample.demographic <> [])
    by (vm_compute; discriminate).
  split; [split; [exact sample_dates_parse|split; [exact Hn|exact Hs]]|].
  destruct (health_score_in_percent Qsqrt_lower Qsqrt_lower_nonneg parse_dmY
              ascii_strip ascii_title Sample.enrolment Sample.biometric
              Sample.demographic He Hb Hd sample_exact_counts) as [R F].
  destruct (R sample_dates_parse Hn Hs) as [t Ht].
  exists t. split; [exact Ht|exact (F t Ht)].
Defined.

(** C6 on the sample datasets. *)
Lemma pillar_metrics_in_unit_witness :
  (Forall nonneg_enrolment Sample.enrolment
   /\ Forall nonneg_biometric Sample.biometric
   /\ Forall nonneg_demographic Sample.demographic)
  /\ exact_counts Sample.enrolment Sample.biometric Sample.demographic
  /\ (Forall (fun c => ~ unparseable parse_dmY c)
             (all_dates Sample.enrolment Sample.biometric Sample.demographic)
      /\ existsb read_as_float
                 (name_columns Sample.enrolment Sample.biometric
                               Sample.demographic) = false
      /\ all_states ascii_strip ascii_title Sample.enrolment Sample.biometric
                    Sample.demographic <> [])
  /\ exists t,
      run_main Qsqrt_lower parse_dmY ascii_strip ascii_title
               Sample.enrolment Sample.biometric Sample.demographic = inr t
      /\ Forall (fun r =>
                   pillars_in_unit
                     (Scored.metrics (Classified.scored (Risk.classified r)))) t.
Proof.
  split; [exact sample_nonneg|]. split; [exact sample_exact_counts|].
  destruct sample_nonneg as [He [Hb Hd]].
  assert (Hn : existsb read_as_float
                 (name_columns Sample.enrolment Sample.biometric
                               Sample.demographic) = false) by reflexivity.
  assert (Hs : all_states ascii_strip ascii_title Sample.enrolment
                 Sample.biometric Sample.demographic <> [])
    by (vm_compute; discriminate).
  split; [split; [exact sample_dates_parse|split; [exact Hn|exact Hs]]|].
  destruct (pillar_metrics_in_unit Qsqrt_lower Qsqrt_lower_nonneg parse_dmY
              ascii_strip ascii_title Sample.enrolment Sample.biometric
              Sample.demographic He Hb Hd sample_exact_counts) as [R F].
  destruct (R sample_dates_parse Hn Hs) as [t Ht].
  exists t. split; [exact Ht|exact (F t Ht)].
Defined.

(** The table of the sample datasets has its three states. *)
Lemma sample_run_states :
  match run_main Qsqrt_lower parse_dmY ascii_strip ascii_title
                 Sample.enrolment Sample.biometric Sample.demographic with
  | inr t =>
      map (fun r => (Metrics.state
                       (Scored.metrics (Classified.scored (Risk.classified r))),
                     Classified.Archetype (Risk.classified r))) t
      = [ ("Goa", "Excluded (Youth)"); ("Karnataka", "Moderate");
          ("Kerala", "Excluded (Youth)") ]%string
  | inl _ => False
  end.
Proof. vm_compute. reflexivity. Qed.

(** C4 fails in the code: on enrolments in two states and update datasets
    in which every count is 0, [main] returns its table, and the IDI values
    of the table sum to 1, the value that [calculate_metrics] prints after
    "IDI Sum (should be ~0)"; in binary64 the sum is still above the
    tolerance of 0.000001. *)
Lemma idi_sum_is_one_without_updates :
  (exists t,
      run_main Qsqrt_lower parse_dmY ascii_strip ascii_title
               Sample.enrolment Sample.biometric_zero Sample.demographic_zero
      = inr t
      /\ let total :=
           idi_sum (map (fun r => Scored.metrics
                                    (Classified.scored (Risk.classified r))) t)
         in total == 1 /\ ~ Qabs total <= 0.000001)
  /\ (exists sd dd md,
         run_aggregates parse_dmY ascii_strip ascii_title
           Sample.enrolment Sample.biometric_zero Sample.demographic_zero
         = inr (sd, dd, md)
         /\ SFltb (b64_div (b64_of_Z 1) (b64_of_Z 1000000))
                  (idi_sum_binary64 sd) = true).
Proof.
  split.
  - eexists. split; [vm_compute; reflexivity|].
    split; [reflexivity|]. vm_compute. intro H. apply H. reflexivity.
  - do 3 eexists. split; [vm_compute; reflexivity|].
    vm_compute. reflexivity.
Qed.


(** C5 as stated fails: [calculate_gini] on two entries 0.1, in binary64
    and with the sum of two cells taken in order, returns 2^-52, not 0.0;
    on two entries 1e308 the two sums overflow, the quotient is NaN and the
    clamp returns 1. *)
Lemma calculate_gini_rounds_equal_values :
  b64_positive (b64_div (b64_of_Z 1) (b64_of_Z 10)) = true
  /\ calculate_gini_binary64 b64_sum_in_order
       [ b64_div (b64_of_Z 1) (b64_of_Z 10);
         b64_div (b64_of_Z 1) (b64_of_Z 10) ]
     = S754_finite false 4503599627370496 (-104)
  /\ calculate_gini_binary64 b64_sum_in_order
       [ b64_div (b64_of_Z 1) (b64_of_Z 10);
         b64_div (b64_of_Z 1) (b64_of_Z 10) ]
     <> b64_of_Z 0
  /\ calculate_gini_binary64 b64_sum_in_order
       [ b64_of_Z (10 ^ 308); b64_of_Z (10 ^ 308) ]
     = b64_of_Z 1.
Proof.
  split; [vm_compute; reflexivity|].
  split; [vm_compute; reflexivity|].
  split; [vm_compute; discriminate|].
  vm_compute. reflexivity.
Qed.

(** C5 on three equal values and on one positive value among zeros, the
    latter in binary64 too. *)
Lemma calculate_gini_degenerate_witness :
  (0 < 7 /\ (2 <= length [7; 7; 7])%nat
   /\ Forall (fun v => v == 7) [7; 7; 7]
   /\ calculate_gini [7; 7; 7] == 0)
  /\ ((length (filter positive [0; 4; 0]%Q) < 2)%nat
      /\ calculate_gini [0; 4; 0] = 0)
  /\ ((length (filter b64_positive
                      [b64_of_Z 0; b64_of_Z 4; b64_of_Z 0]) < 2)%nat
      /\ calculate_gini_binary64 b64_sum_in_order
           [b64_of_Z 0; b64_of_Z 4; b64_of_Z 0]
         = b64_of_Z 0).
Proof.
  assert (Hc : 0 < 7) by reflexivity.
  assert (Hn : (2 <= length [7; 7; 7])%nat) by (cbn; lia).
  assert (Ha : Forall (fun v => v == 7) [7; 7; 7])
    by (repeat constructor; reflexivity).
  assert (Hf : (length (filter positive [0; 4; 0]%Q) < 2)%nat)
    by (cbn; lia).
  assert (Hb : (length (filter b64_positive
                               [b64_of_Z 0; b64_of_Z 4; b64_of_Z 0]) < 2)%nat)
    by (vm_compute; lia).
  split; [|split].
  - split; [exact Hc|]. split; [exact Hn|]. split; [exact Ha|].
    exact (proj1 (proj2 (proj2 (proj2 calculate_gini_degenerate)))
                 [7; 7; 7] 7 Hc Hn Ha).
  - split; [exact Hf|].
    exact (proj1 (proj2 calculate_gini_degenerate) [0; 4; 0] Hf).
  - split; [exact Hb|].
    exact (proj1 (proj2 (proj2 calculate_gini_degenerate))
                 b64_sum_in_order _ Hb).
Defined.

(** C7 on the sample state table: Karnataka has 700 adults enrolled, 140
    adult biometric and 100 adult demographic updates; Kerala has no adult
    enrolled; the state table has no row for Goa. *)
Lemma pds_dbt_risk_clamped_witness :
  let t := calculate_problem_risks Sample.state_data Sample.classified_three
  in
  (exists r,
      In r t /\ Risk.classified r = Sample.classified_karnataka
      /\ Risk.PDS_Risk r == 80 /\ Risk.DBT_Risk r == 600 # 7)
  /\ (exists r,
         In r t /\ Risk.classified r = Sample.classified_kerala
         /\ option_map Ages.age_18_greater (Risk.ages r) = Some 0%Z
         /\ Risk.PDS_Risk r == 0 /\ Risk.DBT_Risk r == 0)
  /\ (exists r,
         In r t /\ Risk.classified r = Sample.classified_goa
         /\ Risk.ages r = None
         /\ Risk.PDS_Risk r == 0 /\ Risk.DBT_Risk r == 0).
Proof.
  cbv zeta.
  pose proof (pds_dbt_risk_clamped Sample.state_data Sample.classified_three)
    as T.
  cbv zeta in T. destruct T as (_ & Tsome & Tnone).
  split; [|split].
  - destruct (Tsome Sample.classified_karnataka
                (StateData.mk "Karnataka" 100 200 700 1000 200 140 340 150
                              100 250 590))
      as (r & Hr & Ec & _ & Hp & _).
    + left. reflexivity.
    + left. reflexivity.
    + reflexivity.
    + exists r. split; [exact Hr|]. split; [exact Ec|].
      destruct (Hp ltac:(reflexivity)) as [P D].
      cbn [StateData.bio_age_17_ StateData.demo_age_17_
           StateData.age_18_greater] in P, D.
      unfold clamped_0_100 in P, D. split.
      * destruct P as [[P _]|[[_ P]|[P _]]];
          [exfalso; revert P; vm_compute; discriminate
          |rewrite P; reflexivity
          |exfalso; revert P; vm_compute; discriminate].
      * destruct D as [[D _]|[[_ D]|[D _]]];
          [exfalso; revert D; vm_compute; discriminate
          |rewrite D; reflexivity
          |exfalso; revert D; vm_compute; discriminate].
  - destruct (Tsome Sample.classified_kerala
                (StateData.mk "Kerala" 10 20 0 30 0 0 0 1 2 3 3))
      as (r & Hr & Ec & Ea & _ & Hz).
    + right. left. reflexivity.
    + right. left. reflexivity.
    + reflexivity.
    + exists r. split; [exact Hr|]. split; [exact Ec|].
      split; [rewrite Ea; reflexivity|].
      apply Hz. cbn. lia.
  - destruct (Tnone Sample.classified_goa) as (r & Hr & Ec & Ea & P & D).
    + right. right. left. reflexivity.
    + intros s [<-|[<-|[]]]; discriminate.
    + exists r. repeat split; assumption.
Defined.

(** C8 as stated fails: one enrolment record with a date that does not
    parse, and the run that returns a table without it ends with the
    error of the parser. *)
Lemma unparseable_date_is_fatal :
  (exists t,
      run_main Qsqrt_lower parse_dmY ascii_strip ascii_title
               Sample.enrolment Sample.biometric Sample.demographic = inr t)
  /\ Exists (unparseable parse_dmY)
            (map Enrolment.date Sample.enrolment_bad_date)
  /\ run_main Qsqrt_lower parse_dmY ascii_strip ascii_title
              Sample.enrolment_bad_date Sample.biometric Sample.demographic
     = inl ValueError.
Proof.
  split; [eexists; vm_compute; reflexivity|].
  split; [|vm_compute; reflexivity].
  apply Exists_exists. exists (Some "unknown"%string).
  split; [|reflexivity]. cbn. auto.
Qed.

(** ... and in the standalone script the entry stays in its file, its
    date NaT, as the date of the entry whose date cell is empty. *)
Lemma unparseable_date_is_kept :
  legacy_load_file parse_dmY ascii_lower Sample.legacy_file
  = inr [ ("date"%string,
           ColDate [Some (mkTimestamp 2025 3 1); None; None]);
          ("state"%string,
           ColStr [Some "Goa"%string; Some "Goa"%string; Some "Goa"%string]);
          ("age_0_5"%string, ColInt [1%Z; 2%Z; 3%Z]) ].
Proof. vm_compute. reflexivity. Qed.

Lemma blank_cells_exact_counts :
  exact_counts Sample.enrolment Sample.biometric_blank_date
               Sample.demographic_blank_cells.
Proof. unfold exact_counts. vm_compute. reflexivity. Qed.

(** C8 on the sample datasets: with a date that does not parse; with
    dates that parse; with a biometric record of Kerala whose date cell is
    empty, 7 updates that the state table counts and the monthly table
    does not; and on a file of the standalone script. *)
Lemma unparseable_date_handling_witness :
  (Exists (unparseable parse_dmY)
          (all_dates Sample.enrolment_bad_date Sample.biometric
                     Sample.demographic)
   /\ run_main Qsqrt_lower parse_dmY ascii_strip ascii_title
               Sample.enrolment_bad_date Sample.biometric Sample.demographic
      = inl ValueError)
  /\ (Forall (fun c => ~ unparseable parse_dmY c)
             (all_dates Sample.enrolment Sample.biometric Sample.demographic)
      /\ run_main Qsqrt_lower parse_dmY ascii_strip ascii_title
                  Sample.enrolment Sample.biometric Sample.demographic
         <> inl ValueError)
  /\ (exact_counts Sample.enrolment Sample.biometric_blank_date
                   Sample.demographic_blank_cells
      /\ exists sd dd md,
          run_aggregates parse_dmY ascii_strip ascii_title Sample.enrolment
            Sample.biometric_blank_date Sample.demographic_blank_cells
          = inr (sd, dd, md)
          /\ map (fun row =>
                    (StateData.state row, StateData.total_updates row,
                     sumZ (map MonthlyData.total_updates
                               (state_monthly md (StateData.state row)))))
                 sd
             = [ ("Goa"%string, 5%Z, 5%Z); ("Karnataka"%string, 590%Z, 590%Z);
                 ("Kerala"%string, 21%Z, 14%Z) ]
          /\ Forall (fun row =>
                       let k := StateData.state row in
                       sumZ (map MonthlyData.total_updates
                                 (state_monthly md k))
                       = (StateData.total_updates row
                          - (records_sum
                               (undated_biometric ascii_strip ascii_title)
                               biometric_total Sample.biometric_blank_date k
                             + records_sum
                                 (undated_demographic ascii_strip ascii_title)
                                 demographic_total
                                 Sample.demographic_blank_cells k))%Z) sd)
  /\ (get_col (lower_columns ascii_lower Sample.legacy_file) "date"
      = Some (ColStr [Some "01-03-2025"; Some "unknown"; None]%string)
      /\ exists df',
          legacy_load_file parse_dmY ascii_lower Sample.legacy_file = inr df'
          /\ get_col df' "date"
             = Some (ColDate [Some (mkTimestamp 2025 3 1); None; None]))
.
Proof.
  assert (H : Exists (unparseable parse_dmY)
                (all_dates Sample.enrolment_bad_date Sample.biometric
                           Sample.demographic)).
  { apply Exists_exists. exists (Some "unknown"%string).
    split; [|reflexivity]. cbn. auto. }
  assert (G : get_col (lower_columns ascii_lower Sample.legacy_file) "date"
              = Some (ColStr [Some "01-03-2025"; Some "unknown"; None]%string))
    by reflexivity.
  pose (T := unparseable_date_handling Qsqrt_lower parse_dmY ascii_strip
               ascii_title).
  split; [|split; [|split]].
  - split; [exact H|].
    exact (proj1 T Sample.enrolment_bad_date Sample.biometric
                 Sample.demographic H).
  - split; [exact sample_dates_parse|].
    exact (proj1 (proj1 (proj2 (proj2 T)) Sample.enrolment Sample.biometric
                        Sample.demographic sample_dates_parse)).
  - split; [exact blank_cells_exact_counts|].
    pose (a := match run_aggregates parse_dmY ascii_strip ascii_title
                       Sample.enrolment Sample.biometric_blank_date
                       Sample.demographic_blank_cells with
               | inr a => a
               | inl _ => ([], [], [])
               end).
    assert (E : run_aggregates parse_dmY ascii_strip ascii_title
                  Sample.enrolment Sample.biometric_blank_date
                  Sample.demographic_blank_cells
                = inr (fst (fst a), snd (fst a), snd a))
      by (vm_compute; reflexivity).
    exists (fst (fst a)), (snd (fst a)), (snd a).
    split; [exact E|]. split; [vm_compute; reflexivity|].
    pose proof (proj1 (proj2 (proj2 (proj2 T))) Sample.enrolment
                      Sample.biometric_blank_date
                      Sample.demographic_blank_cells _ _ _
                      blank_cells_exact_counts E) as F.
    eapply Forall_impl; [|exact F]. cbv zeta. intros row [_ M]. exact M.
  - split; [exact G|].
    destruct (proj2 (proj2 (proj2 (proj2 T))) parse_dmY ascii_lower
                    Sample.legacy_file _ G) as (df' & L & D & _).
    exists df'. split; [exact L|]. rewrite D. reflexivity.
Defined.

(** C9 as stated fails: after [preprocess_data] the enrolment table that
    was passed in is another table. *)
Lemma preprocess_data_rewrites_its_input :
  let s := [ Records (read_enrolment Sample.enrolment);
             Records (read_biometric Sample.biometric);
             Records (read_demographic Sample.demographic) ] in
  exists s',
    preprocess_data parse_dmY ascii_strip ascii_title 0%nat 1%nat 2%nat s
    = (inr (0, 1, 2)%nat, s')
    /\ nth_error s' 0%nat <> nth_error s 0%nat
    /\ option_map (fun f => match f with
                            | Records df => get_col df "state"
                            | _ => None
                            end) (nth_error s' 0%nat)
       = Some (Some (ColStr [Some "Karnataka"%string; Some "Kerala"%string])).
Proof.
  cbv zeta. eexists. split; [vm_compute; reflexivity|].
  split; [|reflexivity]. cbn. discriminate.
Qed.

(** C9 on the sample: health scoring returns a new table and leaves the
    metrics table as it is; preprocessing returns, and the three frames it
    was given hold the columns it assigned. *)
Lemma stages_and_their_inputs_witness :
  (let s := [ MetricsTable (metrics_rows Qsqrt_lower Sample.state_data
                                         [] []) ] in
   run_calculate_health_score 0%nat s
   = (inr 1%nat,
      s ++ [ScoredTable
              (calculate_health_score
                 (metrics_rows Qsqrt_lower Sample.state_data [] []))])
   /\ forall i f, nth_error s i = Some f ->
                  nth_error
                    (s ++ [ScoredTable
                             (calculate_health_score
                                (metrics_rows Qsqrt_lower
                                   Sample.state_data [] []))]) i
                  = Some f)
  /\ (let s := [ Records (read_enrolment Sample.enrolment);
                 Records (read_biometric Sample.biometric);
                 Records (read_demographic Sample.demographic) ] in
      exists s' de' db' dd',
        preprocess_data parse_dmY ascii_strip ascii_title 0%nat 1%nat 2%nat s
        = (inr (0, 1, 2)%nat, s')
        /\ record_frames s' 0%nat 1%nat 2%nat de' db' dd'
        /\ preprocessed parse_dmY ascii_strip ascii_title "total_enrolment"
             ["age_0_5"; "age_5_17"; "age_18_greater"]%string
             (read_enrolment Sample.enrolment) de'
        /\ preprocessed parse_dmY ascii_strip ascii_title "total_bio"
             ["bio_age_5_17"; "bio_age_17_"]%string
             (read_biometric Sample.biometric) db'
        /\ preprocessed parse_dmY ascii_strip ascii_title "total_demo"
             ["demo_age_5_17"; "demo_age_17_"]%string
             (read_demographic Sample.demographic) dd').
Proof.
  cbv zeta.
  pose (T := stages_and_their_inputs Qsqrt_lower parse_dmY ascii_strip
               ascii_title).
  split.
  - assert (E : run_calculate_health_score 0%nat
                  [ MetricsTable (metrics_rows Qsqrt_lower
                                    Sample.state_data [] []) ]
                = (inr 1%nat,
                   [ MetricsTable (metrics_rows Qsqrt_lower
                                     Sample.state_data [] []) ]
                   ++ [ScoredTable
                         (calculate_health_score
                            (metrics_rows Qsqrt_lower Sample.state_data
                               [] []))])) by reflexivity.
    split; [exact E|].
    exact (proj1 (proj1 (proj2 (proj2 (proj2 (proj2 T)))) 0%nat _ _ _ E)).
  - pose (s := [ Records (read_enrolment Sample.enrolment);
                 Records (read_biometric Sample.biometric);
                 Records (read_demographic Sample.demographic) ]).
    pose (s' := snd (preprocess_data parse_dmY ascii_strip ascii_title
                       0%nat 1%nat 2%nat s)).
    assert (E : preprocess_data parse_dmY ascii_strip ascii_title
                  0%nat 1%nat 2%nat s = (inr (0, 1, 2)%nat, s'))
      by (vm_compute; reflexivity).
    assert (N : NoDup [0; 1; 2]%nat).
    { repeat constructor; cbn; intuition discriminate. }
    assert (F : record_frames s 0%nat 1%nat 2%nat
                  (read_enrolment Sample.enrolment)
                  (read_biometric Sample.biometric)
                  (read_demographic Sample.demographic))
      by (repeat split).
    destruct (proj1 (proj2 (proj2 (proj2 (proj2 (proj2 (proj2 (proj2
                (proj2 T))))))))
                s 0%nat 1%nat 2%nat _ _ _ _ s' N F E)
      as (de' & db' & dd' & R & P1 & P2 & P3).
    exists s', de', db', dd'. split; [exact E|]. split; [exact R|].
    split; [exact P1|]. split; [exact P2|exact P3].
Defined.

(** C10 on a rearrangement with two zeros added. *)
Lemma calculate_gini_invariant_witness :
  Forall (fun z => z == 0) [0; 0]
  /\ Permutation ([1; 2; 9] ++ [0; 0]) [0; 9; 1; 0; 2]
  /\ calculate_gini [0; 9; 1; 0; 2] == calculate_gini [1; 2; 9].
Proof.
  assert (Hz : Forall (fun z => z == 0) [0; 0])
    by (repeat constructor; reflexivity).
  assert (Hp : Permutation ([1; 2; 9] ++ [0; 0]) [0; 9; 1; 0; 2]).
  { cbn [app].
    apply (Permutation_cons_app [0; 9] [0; 2]). cbn [app].
    apply (Permutation_cons_app [0; 9; 0] []). cbn [app].
    apply (Permutation_cons_app [0] [0]). cbn [app].
    apply Permutation_refl. }
  split; [exact Hz|]. split; [exact Hp|].
  exact (calculate_gini_invariant [1; 2; 9] [0; 0] [0; 9; 1; 0; 2] Hz Hp).
Defined.
(** ** The aggregate tables of the sample datasets

    The update datasets have a biometric record without a date, a
    demographic record without a district and one without a state. *)

Lemma aggregate_by_state_rows_witness :
  exact_counts Sample.enrolment Sample.biometric_blank_date
               Sample.demographic_blank_cells
  /\ exists sd dd md,
      run_aggregates parse_dmY ascii_strip ascii_title
        Sample.enrolment Sample.biometric_blank_date
        Sample.demographic_blank_cells
      = inr (sd, dd, md)
      /\ (ascending_keys (map StateData.state sd)
          /\ (forall k, In k (map StateData.state sd)
                        <-> In k (all_states ascii_strip ascii_title
                                    Sample.enrolment
                                    Sample.biometric_blank_date
                                    Sample.demographic_blank_cells))
          /\ Forall (fun row =>
                       row = state_row ascii_strip ascii_title
                               Sample.enrolment Sample.biometric_blank_date
                               Sample.demographic_blank_cells
                               (StateData.state row)) sd).
Proof.
  split; [exact blank_cells_exact_counts|].
  pose (a := match run_aggregates parse_dmY ascii_strip ascii_title
                     Sample.enrolment Sample.biometric_blank_date
                     Sample.demographic_blank_cells with
             | inr a => a
             | inl _ => ([], [], [])
             end).
  assert (E : run_aggregates parse_dmY ascii_strip ascii_title
                Sample.enrolment Sample.biometric_blank_date
                Sample.demographic_blank_cells
              = inr (fst (fst a), snd (fst a), snd a))
    by (vm_compute; reflexivity).
  exists (fst (fst a)), (snd (fst a)), (snd a).
  split; [exact E|].
  exact (aggregate_by_state_rows parse_dmY ascii_strip ascii_title _ _ _
           _ _ _ blank_cells_exact_counts E).
Defined.

Lemma aggregate_by_state_totals_witness :
  exact_counts Sample.enrolment Sample.biometric_blank_date
               Sample.demographic_blank_cells
  /\ exists sd dd md,
      run_aggregates parse_dmY ascii_strip ascii_title
        Sample.enrolment Sample.biometric_blank_date
        Sample.demographic_blank_cells
      = inr (sd, dd, md)
      /\ sumZ (map demographic_total Sample.demographic_blank_cells) = 281%Z
      /\ sumZ (map StateData.total_demo sd) = 264%Z
      /\ (sumZ (map StateData.total_enrolment sd)
          = sumZ (map enrolment_total
                      (with_key (enrolment_state ascii_strip ascii_title)
                                Sample.enrolment))
          /\ sumZ (map StateData.total_bio sd)
             = sumZ (map biometric_total
                         (with_key (biometric_state ascii_strip ascii_title)
                                   Sample.biometric_blank_date))
          /\ sumZ (map StateData.total_demo sd)
             = sumZ (map demographic_total
                         (with_key
                            (demographic_state ascii_strip ascii_title)
                            Sample.demographic_blank_cells))
          /\ sumZ (map StateData.total_updates sd)
             = (sumZ (map biometric_total
                          (with_key (biometric_state ascii_strip ascii_title)
                                    Sample.biometric_blank_date))
                + sumZ (map demographic_total
                            (with_key
                               (demographic_state ascii_strip ascii_title)
                               Sample.demographic_blank_cells)))%Z).
Proof.
  split; [exact blank_cells_exact_counts|].
  pose (a := match run_aggregates parse_dmY ascii_strip ascii_title
                     Sample.enrolment Sample.biometric_blank_date
                     Sample.demographic_blank_cells with
             | inr a => a
             | inl _ => ([], [], [])
             end).
  assert (E : run_aggregates parse_dmY ascii_strip ascii_title
                Sample.enrolment Sample.biometric_blank_date
                Sample.demographic_blank_cells
              = inr (fst (fst a), snd (fst a), snd a))
    by (vm_compute; reflexivity).
  exists (fst (fst a)), (snd (fst a)), (snd a).
  split; [exact E|].
  split; [vm_compute; reflexivity|]. split; [vm_compute; reflexivity|].
  exact (aggregate_by_state_totals parse_dmY ascii_strip ascii_title _ _ _
           _ _ _ blank_cells_exact_counts E).
Defined.

Lemma district_totals_add_up_witness :
  exact_counts Sample.enrolment Sample.biometric_blank_date
               Sample.demographic_blank_cells
  /\ exists sd dd md,
      run_aggregates parse_dmY ascii_strip ascii_title
        Sample.enrolment Sample.biometric_blank_date
        Sample.demographic_blank_cells
      = inr (sd, dd, md)
      /\ map (fun row =>
                (StateData.state row, StateData.total_updates row,
                 sumZ (map DistrictData.total_updates
                           (state_districts dd (StateData.state row)))))
             sd
         = [ ("Goa"%string, 5%Z, 5%Z); ("Karnataka"%string, 590%Z, 590%Z);
             ("Kerala"%string, 21%Z, 10%Z) ]
      /\ Forall (fun row =>
                   let k := StateData.state row in
                   sumZ (map DistrictData.total_updates
                             (state_districts dd k))
                   = (StateData.total_updates row
                      - (records_sum
                           (unlocated_biometric ascii_strip ascii_title)
                           biometric_total Sample.biometric_blank_date k
                         + records_sum
                             (unlocated_demographic ascii_strip ascii_title)
                             demographic_total
                             Sample.demographic_blank_cells k))%Z) sd.
Proof.
  split; [exact blank_cells_exact_counts|].
  pose (a := match run_aggregates parse_dmY ascii_strip ascii_title
                     Sample.enrolment Sample.biometric_blank_date
                     Sample.demographic_blank_cells with
             | inr a => a
             | inl _ => ([], [], [])
             end).
  assert (E : run_aggregates parse_dmY ascii_strip ascii_title
                Sample.enrolment Sample.biometric_blank_date
                Sample.demographic_blank_cells
              = inr (fst (fst a), snd (fst a), snd a))
    by (vm_compute; reflexivity).
  exists (fst (fst a)), (snd (fst a)), (snd a).
  split; [exact E|].
  split; [vm_compute; reflexivity|].
  pose proof (district_totals_add_up parse_dmY ascii_strip ascii_title
                _ _ _ _ _ _ blank_cells_exact_counts E) as F.
  eapply Forall_impl; [|exact F]. cbv zeta. intros row [M _]. exact M.
Defined.

Lemma monthly_totals_add_up_witness :
  exact_counts Sample.enrolment Sample.biometric_blank_date
               Sample.demographic_blank_cells
  /\ exists sd dd md,
      run_aggregates parse_dmY ascii_strip ascii_title
        Sample.enrolment Sample.biometric_blank_date
        Sample.demographic_blank_cells
      = inr (sd, dd, md)
      /\ map (fun row =>
                (StateData.state row, StateData.total_updates row,
                 sumZ (map MonthlyData.total_updates
                           (state_monthly md (StateData.state row)))))
             sd
         = [ ("Goa"%string, 5%Z, 5%Z); ("Karnataka"%string, 590%Z, 590%Z);
             ("Kerala"%string, 21%Z, 14%Z) ]
      /\ Forall (fun row =>
                   let k := StateData.state row in
                   sumZ (map MonthlyData.total_updates (state_monthly md k))
                   = (StateData.total_updates row
                      - (records_sum
                           (undated_biometric ascii_strip ascii_title)
                           biometric_total Sample.biometric_blank_date k
                         + records_sum
                             (undated_demographic ascii_strip ascii_title)
                             demographic_total
                             Sample.demographic_blank_cells k))%Z) sd.
Proof.
  split; [exact blank_cells_exact_counts|].
  pose (a := match run_aggregates parse_dmY ascii_strip ascii_title
                     Sample.enrolment Sample.biometric_blank_date
                     Sample.demographic_blank_cells with
             | inr a => a
             | inl _ => ([], [], [])
             end).
  assert (E : run_aggregates parse_dmY ascii_strip ascii_title
                Sample.enrolment Sample.biometric_blank_date
                Sample.demographic_blank_cells
              = inr (fst (fst a), snd (fst a), snd a))
    by (vm_compute; reflexivity).
  exists (fst (fst a)), (snd (fst a)), (snd a).
  split; [exact E|].
  split; [vm_compute; reflexivity|].
  pose proof (monthly_totals_add_up parse_dmY ascii_strip ascii_title
                _ _ _ _ _ _ blank_cells_exact_counts E) as F.
  eapply Forall_impl; [|exact F]. cbv zeta. intros row [M _]. exact M.
Defined.

Lemma one_risk_row_per_state_witness :
  exact_counts Sample.enrolment Sample.biometric Sample.demographic
  /\ exists t,
      run_main Qsqrt_lower parse_dmY ascii_strip ascii_title
        Sample.enrolment Sample.biometric Sample.demographic = inr t
      /\ (map risk_state t
          = unique_sorted (all_states ascii_strip ascii_title
                             Sample.enrolment Sample.biometric
                             Sample.demographic)
          /\ Forall (fun r =>
                       Risk.ages r
                       = Some (ages_of
                                 (state_row ascii_strip ascii_title
                                    Sample.enrolment Sample.biometric
                                    Sample.demographic (risk_state r)))) t).
Proof.
  split; [exact sample_exact_counts|].
  pose (t := match run_main Qsqrt_lower parse_dmY ascii_strip ascii_title
                     Sample.enrolment Sample.biometric Sample.demographic with
             | inr t => t
             | inl _ => []
             end).
  assert (Ht : run_main Qsqrt_lower parse_dmY ascii_strip ascii_title
                 Sample.enrolment Sample.biometric Sample.demographic = inr t)
    by (vm_compute; reflexivity).
  exists t. split; [exact Ht|].
  exact (one_risk_row_per_state Qsqrt_lower parse_dmY ascii_strip
           ascii_title _ _ _ t sample_exact_counts Ht).
Defined.

(** ** The further properties on sample inputs *)

Lemma calculate_gini_at_most_witness :
  ((1 <= length (filter positive [1%Q; 3%Q]))%nat
   /\ calculate_gini [1%Q; 3%Q]
      <= 1 - 1 / inject_Z (Z.of_nat (length (filter positive [1%Q; 3%Q]))))
  /\ ((length (filter positive [1%Q; 3%Q]) <= 2)%nat
      /\ calculate_gini [1%Q; 3%Q] <= 0.5).
Proof.
  assert (H1 : (1 <= length (filter positive [1%Q; 3%Q]))%nat)
    by (vm_compute; repeat constructor).
  assert (H2 : (length (filter positive [1%Q; 3%Q]) <= 2)%nat)
    by (vm_compute; repeat constructor).
  split.
  - split; [exact H1|]. exact (proj1 (calculate_gini_at_most [1%Q; 3%Q]) H1).
  - split; [exact H2|]. exact (proj2 (calculate_gini_at_most [1%Q; 3%Q]) H2).
Defined.

Lemma banking_risk_mirrors_health_witness :
  (Forall nonneg_enrolment Sample.enrolment
   /\ Forall nonneg_biometric Sample.biometric
   /\ Forall nonneg_demographic Sample.demographic)
  /\ exact_counts Sample.enrolment Sample.biometric Sample.demographic
  /\ exists t,
      run_main Qsqrt_lower parse_dmY ascii_strip ascii_title
        Sample.enrolment Sample.biometric Sample.demographic = inr t
      /\ Forall (fun r =>
                   Risk.Banking_Risk r
                   == 100 - Scored.Health_Score
                              (Classified.scored (Risk.classified r))) t.
Proof.
  split; [exact sample_nonneg|]. split; [exact sample_exact_counts|].
  destruct sample_nonneg as [He [Hb Hd]].
  pose (t := match run_main Qsqrt_lower parse_dmY ascii_strip ascii_title
                     Sample.enrolment Sample.biometric Sample.demographic with
             | inr t => t
             | inl _ => []
             end).
  assert (Ht : run_main Qsqrt_lower parse_dmY ascii_strip ascii_title
                 Sample.enrolment Sample.biometric Sample.demographic = inr t)
    by (vm_compute; reflexivity).
  exists t. split; [exact Ht|].
  exact (banking_risk_mirrors_health Qsqrt_lower Qsqrt_lower_nonneg
           parse_dmY ascii_strip ascii_title _ _ _ t He Hb Hd
           sample_exact_counts Ht).
Defined.

Lemma sprinter_recommendation_witness :
  with_archetype "Sprinter" Cases.risk_table <> []
  /\ exists rec,
      In rec (generate_recommendations_by_archetype Cases.risk_table)
      /\ Recommendation.Archetype rec = "Sprinter"%string
      /\ Recommendation.State_Count rec = 2%nat
      /\ Recommendation.Primary_Issue rec
         = "Infrastructure lag (PDS)"%string.
Proof.
  assert (H : with_archetype "Sprinter" Cases.risk_table <> [])
    by (vm_compute; discriminate).
  split; [exact H|].
  destruct (sprinter_recommendation Cases.risk_table H)
    as (rec & primary & Hin & Ha & Hc & Hp & _ & Hprimary).
  exists rec. split; [exact Hin|]. split; [exact Ha|].
  split; [exact Hc|].
  rewrite Hp.
  rewrite (proj1 Hprimary); [reflexivity|].
  split; vm_compute; discriminate.
Defined.

Lemma preprocess_data_missing_date_witness :
  nth_error Cases.no_date_store 0
  = Some (Records [ ("state"%string, ColStr [Some "Goa"%string]);
                    ("age_0_5"%string, ColInt [1%Z]) ])
  /\ preprocess_data parse_dmY ascii_strip ascii_title 0%nat 1%nat 2%nat
       Cases.no_date_store
     = (inl (KeyError "date"), Cases.no_date_store).
Proof.
  split; [reflexivity|].
  exact (preprocess_data_missing_date parse_dmY ascii_strip ascii_title
           Cases.no_date_store 0%nat 1%nat 2%nat _ eq_refl eq_refl).
Defined.

Lemma preprocess_data_failure_state_witness :
  Exists (unparseable parse_dmY)
         (map Biometric.date Cases.biometric_bad_date)
  /\ exists te,
      parse_all parse_dmY (map Enrolment.date Sample.enrolment) = inr te
      /\ preprocess_data parse_dmY ascii_strip ascii_title 0%nat 1%nat 2%nat
           [ Records (read_enrolment Sample.enrolment);
             Records (read_biometric Cases.biometric_bad_date);
             Records (read_demographic Sample.demographic) ]
         = (inl ValueError,
            [ Records (set_col (read_enrolment Sample.enrolment) "date"
                               (ColDate te));
              Records (read_biometric Cases.biometric_bad_date);
              Records (read_demographic Sample.demographic) ]).
Proof.
  assert (H : Exists (unparseable parse_dmY)
                (map Biometric.date Cases.biometric_bad_date)).
  { apply Exists_exists. exists (Some "31-02-20x5"%string).
    split; [|reflexivity]. cbn. auto. }
  split; [exact H|].
  pose (te := match parse_all parse_dmY
                      (map Enrolment.date Sample.enrolment) with
              | inr te => te
              | inl _ => []
              end).
  assert (P : parse_all parse_dmY (map Enrolment.date Sample.enrolment)
              = inr te) by (vm_compute; reflexivity).
  exists te. split; [exact P|].
  exact (proj2 (preprocess_data_failure_state parse_dmY ascii_strip
                  ascii_title Sample.enrolment Cases.biometric_bad_date
                  Sample.demographic) te P H).
Defined.

Lemma Qsqrt_lower_zero (x : Q) : x == 0 -> Qsqrt_lower x == 0.
Proof.
  unfold Qeq, Qsqrt_lower. cbn [Qnum Qden]. intro H.
  rewrite Z.mul_0_l, Z.mul_1_r in *. rewrite H. reflexivity.
Qed.

Lemma tcs_of_short_and_steady_series_witness :
  (2 <= length (state_monthly Cases.steady_months "Goa"))%nat
  /\ Forall (fun m => MonthlyData.total_updates m = 5%Z)
            (state_monthly Cases.steady_months "Goa")
  /\ Metrics.TCS (metrics_of_row Qsqrt_lower 90 8 0.5 []
                    Cases.steady_months Sample.state_without_adults)
     == 1
  /\ (length (state_monthly Cases.steady_months "Kerala") < 2)%nat.
Proof.
  assert (H2 : (2 <= length (state_monthly Cases.steady_months "Goa"))%nat)
    by (vm_compute; repeat constructor).
  assert (H5 : Forall (fun m => MonthlyData.total_updates m = 5%Z)
                 (state_monthly Cases.steady_months "Goa"))
    by (vm_compute; repeat constructor).
  split; [exact H2|]. split; [exact H5|]. split.
  - exact (proj2 (tcs_of_short_and_steady_series Qsqrt_lower 90 8 0.5 []
                    Cases.steady_months Sample.state_without_adults)
             Qsqrt_lower_zero 5%Z eq_refl H2 H5).
  - vm_compute. repeat constructor.
Defined.

Lemma calculate_gini_scale_invariant_witness :
  0 < 1000
  /\ calculate_gini (map (Qmult 1000) [1%Q; 3%Q; 0%Q; 8%Q])
     == calculate_gini [1%Q; 3%Q; 0%Q; 8%Q].
Proof.
  assert (H : 0 < 1000) by reflexivity.
  split; [exact H|].
  exact (calculate_gini_scale_invariant 1000 [1%Q; 3%Q; 0%Q; 8%Q] H).
Defined.

Lemma risks_from_records_witness :
  exact_counts Sample.enrolment Sample.biometric Sample.demographic
  /\ exists t,
      run_main Qsqrt_lower parse_dmY ascii_strip ascii_title
        Sample.enrolment Sample.biometric Sample.demographic = inr t
      /\ map (fun r => (risk_state r, Qred (Risk.PDS_Risk r),
                        Qred (Risk.DBT_Risk r), Qred (Risk.OTP_Risk r))) t
         = [ ("Goa"%string, 0, 0, 0);
             ("Karnataka"%string, 80, 600 # 7, 25);
             ("Kerala"%string, 100, 280 # 3, 95) ]
      /\ Forall
           (fun r =>
              let k := risk_state r in
              let adults :=
                records_sum (enrolment_state ascii_strip ascii_title)
                            Enrolment.age_18_greater Sample.enrolment k in
              let bio :=
                records_sum (biometric_state ascii_strip ascii_title)
                            Biometric.bio_age_17_ Sample.biometric k in
              Risk.PDS_Risk r
              = clip 0 100 (if (adults >? 0)%Z
                            then (1 - inject_Z bio / inject_Z adults) * 100
                            else 0)) t.
Proof.
  split; [exact sample_exact_counts|].
  pose (t := match run_main Qsqrt_lower parse_dmY ascii_strip ascii_title
                     Sample.enrolment Sample.biometric Sample.demographic with
             | inr t => t
             | inl _ => []
             end).
  assert (Ht : run_main Qsqrt_lower parse_dmY ascii_strip ascii_title
                 Sample.enrolment Sample.biometric Sample.demographic = inr t)
    by (vm_compute; reflexivity).
  exists t. split; [exact Ht|].
  split; [vm_compute; reflexivity|].
  pose proof (risks_from_records Qsqrt_lower parse_dmY ascii_strip
                ascii_title _ _ _ t sample_exact_counts Ht) as H.
  eapply Forall_impl; [|exact H]. cbv zeta. intros r Hr. apply Hr.
Defined.

Lemma shares_in_unit_idi_bounded_witness :
  (Forall nonneg_enrolment Sample.enrolment
   /\ Forall nonneg_biometric Sample.biometric
   /\ Forall nonneg_demographic Sample.demographic)
  /\ exact_counts Sample.enrolment Sample.biometric Sample.demographic
  /\ exists t,
      run_main Qsqrt_lower parse_dmY ascii_strip ascii_title
        Sample.enrolment Sample.biometric Sample.demographic = inr t
      /\ Forall (fun r =>
                   -1 <= Metrics.IDI
                           (Scored.metrics
                              (Classified.scored (Risk.classified r))) <= 1)
                t.
Proof.
  split; [exact sample_nonneg|]. split; [exact sample_exact_counts|].
  destruct sample_nonneg as [He [Hb Hd]].
  pose (t := match run_main Qsqrt_lower parse_dmY ascii_strip ascii_title
                     Sample.enrolment Sample.biometric Sample.demographic with
             | inr t => t
             | inl _ => []
             end).
  assert (Ht : run_main Qsqrt_lower parse_dmY ascii_strip ascii_title
                 Sample.enrolment Sample.biometric Sample.demographic = inr t)
    by (vm_compute; reflexivity).
  exists t. split; [exact Ht|].
  pose proof (shares_in_unit_idi_bounded Qsqrt_lower parse_dmY ascii_strip
                ascii_title _ _ _ t He Hb Hd sample_exact_counts Ht) as B.
  eapply Forall_impl; [|exact B]. cbv beta zeta. intros r Hr. apply Hr.
Defined.

Lemma geographic_exclusion_needs_three_districts_witness :
  exists m c,
    calculate_metrics Qsqrt_lower Cases.concentrated_state
                      Cases.concentrated_districts [] = inr m
    /\ In c (assign_archetypes (calculate_health_score m))
    /\ Classified.Archetype c = "Excluded (Geographic)"%string
    /\ (3 <= active_districts Cases.concentrated_districts "Goa")%nat.
Proof.
  pose (m := metrics_rows Qsqrt_lower Cases.concentrated_state
               Cases.concentrated_districts []).
  assert (Em : calculate_metrics Qsqrt_lower Cases.concentrated_state
                 Cases.concentrated_districts [] = inr m) by reflexivity.
  pose proof (geographic_exclusion_needs_three_districts Qsqrt_lower
                Cases.concentrated_state Cases.concentrated_districts [] m Em)
    as H.
  set (t := assign_archetypes _) in *.
  assert (Ht : exists c, t = [c]
                         /\ Classified.Archetype c
                            = "Excluded (Geographic)"%string
                         /\ Metrics.state
                              (Scored.metrics (Classified.scored c))
                            = "Goa"%string).
  { eexists. split; [reflexivity|]. split; vm_compute; reflexivity. }
  destruct Ht as (c & Et & Ea & Es).
  exists m, c. split; [exact Em|].
  fold t. rewrite Et in *. split; [left; reflexivity|].
  split; [exact Ea|].
  apply Forall_inv in H. rewrite Es in H. exact (H Ea).
Defined.

Lemma youth_exclusion_at_the_edges_witness :
  exists m,
    calculate_metrics Qsqrt_lower
      (Sample.state_data ++ [Sample.state_without_adults]) [] [] = inr m
    /\ 0 < national_youth_ratio
             (Sample.state_data ++ [Sample.state_without_adults])
    /\ map (fun c => (Metrics.state (Scored.metrics (Classified.scored c)),
                      Classified.Archetype c))
           (assign_archetypes (calculate_health_score m))
       = [ ("Karnataka", "Moderate"); ("Kerala", "Excluded (Youth)");
           ("Goa", "Excluded (Youth)") ]%string
    /\ Forall2
         (fun row c =>
            Metrics.state (Scored.metrics (Classified.scored c))
            = StateData.state row
            /\ ((StateData.bio_age_17_ row + StateData.demo_age_17_ row <= 0
                 \/ StateData.bio_age_5_17 row + StateData.demo_age_5_17 row
                    = 0)%Z ->
                Scored.YIR (Classified.scored c) == 0
                /\ Classified.Archetype c = "Excluded (Youth)"%string))
         (Sample.state_data ++ [Sample.state_without_adults])
         (assign_archetypes (calculate_health_score m)).
Proof.
  pose (sd := Sample.state_data ++ [Sample.state_without_adults]).
  pose (m := metrics_rows Qsqrt_lower sd [] []).
  assert (Em : calculate_metrics Qsqrt_lower sd [] [] = inr m)
    by reflexivity.
  assert (P : 0 < national_youth_ratio sd) by reflexivity.
  exists m. split; [exact Em|]. split; [exact P|].
  split; [vm_compute; reflexivity|].
  pose proof (youth_exclusion_at_the_edges Qsqrt_lower sd [] [] m Em) as H.
  eapply Forall2_impl; [|exact H]. cbv beta.
  intros row c (Hs & Hy & _). split; [exact Hs|]. exact (Hy P).
Defined.

(** ** The standalone script on sample inputs *)

Lemma legacy_sample_nonneg :
  Forall nonneg_enrolment Cases.legacy_enrolment
  /\ Forall nonneg_biometric Cases.legacy_biometric
  /\ Forall nonneg_demographic Cases.legacy_demographic.
Proof.
  unfold nonneg_enrolment, nonneg_biometric, nonneg_demographic.
  repeat split; repeat constructor; cbn; lia.
Qed.

Lemma legacy_sample_exact_counts :
  exact_counts Cases.legacy_enrolment Cases.legacy_biometric
               Cases.legacy_demographic.
Proof. unfold exact_counts. vm_compute. reflexivity. Qed.

Lemma legacy_scores_nan_or_bounded_witness :
  (Forall nonneg_enrolment Cases.legacy_enrolment
   /\ Forall nonneg_biometric Cases.legacy_biometric
   /\ Forall nonneg_demographic Cases.legacy_demographic)
  /\ exact_counts Cases.legacy_enrolment Cases.legacy_biometric
                  Cases.legacy_demographic
  /\ exists t,
      legacy_main Cases.legacy_enrolment Cases.legacy_biometric
                  Cases.legacy_demographic = Some t
      /\ map (fun p => StateData.state (Master.base (fst p))) t
         = ["Goa"; "Karnataka"; "Kerala"]%string
      /\ Forall (fun p =>
                   nan_or_between 0 100 (Master.Health_Score (fst p))
                   /\ nan_or_between 0 1 (Master.UBI (fst p))) t.
Proof.
  split; [exact legacy_sample_nonneg|].
  split; [exact legacy_sample_exact_counts|].
  destruct legacy_sample_nonneg as [He [Hb Hd]].
  pose (t := match legacy_main Cases.legacy_enrolment Cases.legacy_biometric
                     Cases.legacy_demographic with
             | Some t => t
             | None => []
             end).
  assert (H : legacy_main Cases.legacy_enrolment Cases.legacy_biometric
                Cases.legacy_demographic = Some t)
    by (vm_compute; reflexivity).
  exists t. split; [exact H|]. split; [vm_compute; reflexivity|].
  pose proof (legacy_scores_nan_or_bounded parse_dmY ascii_strip ascii_title
                _ _ _ _ He Hb Hd legacy_sample_exact_counts H) as B.
  eapply Forall_impl; [|exact B]. cbv beta zeta. intros p Hp.
  split; apply Hp.
Defined.

Lemma legacy_without_updates_witness :
  exists t,
    legacy_main Cases.legacy_enrolment Sample.biometric_zero
                Sample.demographic_zero = Some t
    /\ length t = 3%nat
    /\ Forall (fun p =>
                 Master.Health_Score (fst p) = NaN
                 /\ snd p = "Sleepwalker (Low Activity)"%string) t.
Proof.
  assert (Hb : Forall (fun r => Biometric.bio_age_5_17 r = 0%Z
                                /\ Biometric.bio_age_17_ r = 0%Z)
                 Sample.biometric_zero)
    by (repeat constructor).
  assert (Hd : Forall (fun r => Demographic.demo_age_5_17 r = 0%Z
                                /\ Demographic.demo_age_17_ r = 0%Z)
                 Sample.demographic_zero)
    by (repeat constructor).
  pose (t := match legacy_main Cases.legacy_enrolment Sample.biometric_zero
                     Sample.demographic_zero with
             | Some t => t
             | None => []
             end).
  assert (H : legacy_main Cases.legacy_enrolment Sample.biometric_zero
                Sample.demographic_zero = Some t)
    by (vm_compute; reflexivity).
  exists t. split; [exact H|]. split; [vm_compute; reflexivity|].
  pose proof (legacy_without_updates _ _ _ _ Hb Hd H) as B.
  eapply Forall_impl; [|exact B]. cbv beta. intros p Hp.
  split; apply Hp.
Defined.

Lemma legacy_single_state_witness :
  exists row label,
    legacy_main Sample.enrolment Sample.biometric Sample.demographic
    = Some [(row, label)]
    /\ StateData.state (Master.base row) = " karnataka"%string
    /\ Master.Health_Score row = NaN
    /\ label = "Sleepwalker (Low Activity)"%string.
Proof.
  pose (p := match legacy_main Sample.enrolment Sample.biometric
                     Sample.demographic with
             | Some (p :: _) => p
             | _ => (Master.mk Sample.state_without_adults NaN NaN NaN NaN
                               0 0 NaN NaN NaN, EmptyString)
             end).
  assert (H : legacy_main Sample.enrolment Sample.biometric
                Sample.demographic = Some [(fst p, snd p)])
    by (vm_compute; reflexivity).
  exists (fst p), (snd p). split; [exact H|].
  split; [vm_compute; reflexivity|].
  split; [exact (proj1 (legacy_single_state _ _ _ _ _ H))|].
  vm_compute. reflexivity.
Defined.
